(* ===== verification/_CoqProject ===== *)
-Q . S2P
Prelude.v
JsRuntime.v
Types.v
TsTypes.v
StableSort.v
DateTime.v
JsNumber.v
Binary64.v
ExpenseList.v
Reports.v
ReportsPage.v
Api.v
ExpenseForm.v
Conformance.v
Dashboard.v
ExpenseListPage.v
DashboardPage.v
Server.v
App.v
Scenarios.v
EndToEnd.v
