(* ===== verification/Prelude.v ===== *)
(** * A verification development of expense-tracker-fe

    The program is a React/TypeScript single-page client (src/expense-tracker-fe/src)
    for a REST expense server.  Its parts, and how they interact:

    - Domain model ([types.ts]; a second, shadowed copy in [types/index.ts]):
      the [Expense] record, the [ExpenseCategory] and [PaymentMethod] enums,
      the [ExpenseCategoryReport] record, the request records.  Modelled in
      [Types.v].  Every interface of both files, as the shape a JSON value
      must have at run time (structural typing, decided by [typecheck]), is
      [TsTypes.v]; [Conformance.v] checks what the client sends and returns
      against them.
    - JavaScript built-ins the pages rely on.  [JsRuntime.v]:
      [String.prototype.toLowerCase] on Latin-1, [includes], string and
      number [<], truthiness, [||], property access with its [TypeError] on
      [null]/[undefined], the JSON values of response bodies (numbers as
      their decimal literal [m * 10^e], last-key-wins objects), and
      [String(v)]; [Array.prototype.slice] is here ([js_slice]).
      [JsNumber.v]: [String.prototype.trim], [Number(string)] (the
      StringNumericLiteral grammar, then rounding to binary64, ties to even,
      with overflow to Infinity and underflow to 0), [Number::toString] on
      doubles (the shortest digits that read back as the same double, found
      among at most 17 digits), [JSON.stringify] of a number, [toFixed],
      [isNaN], [<= 0] and division.  [DateTime.v]: [new Date(string)] for
      the offset-free date-time forms (local time, NaN otherwise), the
      calendar fields of a time value, [new Date(y, m, d)] with month and day
      overflow, and date-fns [format], [startOfYear] and [endOfYear].
    - The array sort ([Array.prototype.sort] with the comparator of
      [ExpenseList.tsx]).  [StableSort.v] states the contract ECMAScript
      gives a sort (a stable, sorted permutation under a consistent
      comparator) as the class [ConsistentComparator] and the predicate
      [sort_spec], implements it by a stable insertion sort, and proves that
      the contract determines the output: every conforming engine sort is
      equal to the model.
    - The expense list view-model ([pages/ExpenseList.tsx]): the search,
      start-date and end-date filters, the sort by the selected column and
      direction, the pagination slice, and the page's state machine
      (column clicks, page and page-size changes, data refetch).  Modelled
      in [ExpenseList.v].  Its
      effects over the client ([fetchExpenses], [handleDelete] with its
      confirmation) and the table it renders are [ExpenseListPage.v].
    - The Reports page ([pages/Reports.tsx]): [calculateTotal], the monthly
      and per-category averages, the sequential [fetchReports] over a
      record of service operations, and the year range of its category
      report.  Modelled in [Reports.v].  The page as the browser runs it,
      with its year and month menus, the [fetchReports] calls in flight
      returning in any order, and its tables, is [ReportsPage.v].
    - The Dashboard ([pages/Dashboard.tsx]): [fetchDashboardData] with the
      current month's range, and the texts it renders.  Modelled in
      [Dashboard.v] on the service record of [Reports.v], and in
      [DashboardPage.v] as the page runs it: three awaited calls of the
      client of [Api.v] in one [try]/[catch], each setting its part of
      the state.
    - The remote access client ([services/api.ts]) with its request and
      response interceptors, [authService] and [expenseService], and the
      session guard [PrivateRoute] of [App.tsx].  Modelled in [Api.v] as
      a state-and-error monad over the client state (the [localStorage]
      token, the axios default [Authorization] header, the window location)
      and a server given through the [Backend] interface.
    - The expense form ([pages/ExpenseForm.tsx]): validation, the body it
      sends, submit and load through the client of [Api.v], the field
      handlers, and the fields, flags, options and buttons it renders.  Modelled in [ExpenseForm.v], whose theorems about what the
      server receives use a recording [Backend].
    - The route table of [App.tsx] and how react-router v6 picks a route:
      the path split into segments, the ranking by [computeScore], segment
      matching (case-insensitive static words, non-empty parameters, an
      optional trailing slash) and [PrivateRoute] around every route but
      login and register.  Modelled in [App.v].  [Scenarios.v] composes
      the router, the form and the client: the link of an expense opens its
      edit form, and what the server receives for a non-numeric id.
    - The REST server, which is not in the repository.  [Server.v]
      writes it from spec.md §6 and §7 as a [Backend] instance
      ([reference_server]).  Its state holds the accounts, the issued
      tokens and the expenses by id with their owners, kept in a stdpp
      [gmap].  Its handler [respond] routes a request ([route]), checks the
      [Bearer] token ([session_user]) and answers each endpoint
      ([endpoint]).  It stores only expenses that keep spec §3's invariant
      ([valid_stored]), answers 404 for an id the user does not own, and
      computes the category report by exact decimal sums.
      [EndToEnd.v] runs the client and the pages against it.

    Numbers.  A number the code computes with is a [js_number]: a double
    as the exact rational it denotes, the two infinities, or NaN ([-0] is
    identified with [0]).  [Number], [JSON.parse] and [toString] are modelled
    with their binary64 rounding.  Sums of amounts ([calculateTotal]) are
    kept exact: the theorems on totals hold of the exact sums that the code's
    additions approximate.  Ids, pages and page sizes are integers ([Z] or
    [nat]).  Strings are Stdlib [string]s (8-bit characters); JavaScript
    compares UTF-16 code units, which agrees with the model on ASCII text.
    Time values are integers of milliseconds with a constant local offset
    taken as zero.

    What the theorems show.  [ExpenseList.v]: the filters and sort compute
    the sorted conjunctive filter, listing exactly the matching expenses as
    a stable sorted permutation; the pages of a positive page size tile the
    list; every reachable state of the page (an inductive step relation)
    keeps the list equal to the filtered one and shows at most 25 rows.
    [StableSort.v]: the engine's sort is determined by its contract.
    [ExpenseForm.v]: validation accepts exactly the positive amounts and
    non-blank descriptions; an invalid submit sends nothing; a valid one
    sends exactly one request to the right endpoint and never rejects; the
    date sent reads back as the picked time.  [Reports.v] and
    [Dashboard.v]: totals are sums, order-independent; averages are finite
    exactly when the divisor is non-zero; the requested ranges are exactly
    the selected year and the current month; a failed call leaves mixed
    data.  [ReportsPage.v]: every reachable selection is one the menus
    offer; a call run without interruption ends in three awaits and is the
    sequential [fetchReports]; whatever the order of returns the calls end,
    and the page can always settle; a late answer of a superseded
    selection is shown under the new one; the render throws exactly on an
    unreadable expense date.  [Api.v]: under any server answers the default [Authorization]
    header is absent or the bearer form of the stored token; a 401 logs
    out; login's success and failure paths.  [App.v]: a page other than
    login and register is shown only with a truthy stored token; every
    navigation target of the pages shows the page it names, and
    [/expenses/<id>] opens the form of [id].  [ExpenseListPage.v]: a delete sends
    nothing unless confirmed, then the [DELETE] and, after it succeeded,
    the refetch, and keeps the page reachable; the table head shows the
    sort in effect; every row's edit link opens that expense's form
    ([Scenarios.v]).  [Conformance.v]: the form's body is an
    [Omit<Expense, 'id'>] exactly when its amount serializes as a number,
    and the object [login] resolves to is an [AuthResponse] of both type
    files when the server's answer has the spec's shape.  [DateTime.v] and [JsNumber.v]:
    the calendar conversions are inverse, rounding is within half an ulp,
    [toFixed(2)] is within half a cent, and [String(k)] of an integer id
    below [2^52] is its decimal digits.  [Server.v]: every answer keeps the
    store invariant; a delete removes only its expense and a second one
    is a 404 that changes nothing; the category report's totals and counts
    add up to the amounts and the number of expenses.  [EndToEnd.v]:
    - signing in gives a token the server knows the user by;
    - a confirmed delete leaves the page showing exactly the server's
      remaining expenses, and deleting again changes nothing;
    - a valid form with a finite amount is stored under the next id;
    - an edit replaces the fields and keeps the id and the creation date,
      and the stored expense is no longer recurring;
    - an amount read as Infinity is refused by the server and only the
      generic alert is shown;
    - read calls leave the server's state unchanged.  This justifies the
      record of service results that [Reports.v] and [Dashboard.v] use:
      a sequence of reads sees one state throughout;
    - the dashboard of a signed-in user leaves client and server as they
      were and computes what [Dashboard.v] computes on the server's
      answers: the first five of the user's expenses and the total of
      those dated in the current month.  [DashboardPage.v] proves the
      step from the page to the record model for any backend whose reads
      leave the world unchanged.
    Some theorems record behaviour the
    spec does not state or contradicts (the page index kept after a
    narrowing search, the unchecked response envelope, the two category
    enumerations, the recurring flag and creation date overwritten on
    update, an infinite amount sent as [null]): they are listed as
    findings in the manifest.

    Bounds and fuel.  [ndigits_fuel] counts decimal digits with the bit
    length as fuel, which is enough because a number has no more decimal
    digits than bits.  [shortest_from] tries at most 17 digit counts, the
    precision at which every double has a decimal that reads back as it.
    Every other recursion is structural.  The state machines are explored
    by the inductive reachability relation, not by bounded runs.  The
    calendar facts are proved by arithmetic over one 400-year era, not by
    evaluation.

    Bounds on ids.  The client builds expense URLs with [String(id)].
    Integers are exact doubles only below [2^53], and the proof that
    [String(k)] is [k]'s digits needs [k < 2^52]: the two candidate
    decimals of a digit count, [k] rounded down and up, must both be exact.
    The end-to-end theorems therefore assume that the server's next id is
    at most [2^52].

    Not modelled yet:
    - the proof that 17 digits always suffice for every double, which
      would give that [Number(x.toString())] is [x].  The theorems that
      need a number's text use only that it is made of number characters;
      for integer ids the digits are proved exactly;
    - the elements of an answer array of another shape than [Expense].
      The list page's cast is modelled for the answers it represents;
    - a category report answer that is not an array of
      [ExpenseCategoryReport]s: the page stores it and fails when it
      renders; [DashboardPage.v] takes it as the handler's failure;
    - console logging.
    The client's theorems in [Api.v] and the page files hold for any
    [Backend] instance.  The reference server is a model of the spec, not
    of code: its definitions are marked spec_modelled in the manifest.

    This file holds the development's notation scope [et_scope], the
    JavaScript [Array.prototype.slice], the generic lemmas on lists, boolean
    filters and rational sums that the components share, the hint database
    [et] and the tactic [bool_simpl]. *)

From stdpp Require Export base list strings sets.
From Stdlib Require Export ZArith QArith Lqa Permutation Sorted.

#[global] Close Scope Q_scope.

Declare Scope et_scope.
Delimit Scope et_scope with et.
Open Scope et_scope.

Create HintDb et.
Create Rewrite HintDb et_bool.
Create Rewrite HintDb et_rw.

#[export] Hint Rewrite andb_true_iff andb_false_iff orb_true_iff orb_false_iff
  negb_true_iff negb_false_iff : et_bool.

(** Turn boolean tests from the code into propositions. *)
Ltac bool_simpl := autorewrite with et_bool in *.

(** ** [Array.prototype.slice] *)

(** The relative index of ECMAScript's [slice]: a negative index counts from
    the end, and both are clamped to [0, len]. *)
Definition js_rel_index (len k : Z) : Z :=
  if (k <? 0)%Z then Z.max (len + k) 0 else Z.min k len.

Definition js_slice {A} (l : list A) (start end_ : Z) : list A :=
  let len := Z.of_nat (length l) in
  let from := js_rel_index len start in
  let to := js_rel_index len end_ in
  take (Z.to_nat (to - from)) (drop (Z.to_nat from) l).

Notation "l '.slice(' a ',' b ')'" := (js_slice l a b)
  (at level 1, a at level 200, b at level 200,
   format "l '.slice(' a ','  b ')'") : et_scope.

(** ** Exact sums of rationals *)

(** The reference sum, by structural recursion. *)
Definition sumQ {A} (f : A -> Q) (l : list A) : Q :=
  fold_right (fun x acc => (f x + acc)%Q) 0%Q l.

(** ** Generic lemmas *)

Section slice.
Context {A : Type}.

Lemma js_slice_nonneg (l : list A) (s e : Z) :
  (0 <= s)%Z -> (0 <= e)%Z ->
  js_slice l s e = take (Z.to_nat e - Z.to_nat s) (drop (Z.to_nat s) l).
Proof.
  intros Hs He. unfold js_slice, js_rel_index.
  rewrite (proj2 (Z.ltb_ge s 0)), (proj2 (Z.ltb_ge e 0)) by lia.
  destruct (Z.le_ge_cases (Z.of_nat (length l)) s).
  - rewrite !drop_ge by lia. by rewrite !take_nil.
  - rewrite (Z.min_l s) by lia.
    destruct (Z.le_ge_cases (Z.of_nat (length l)) e).
    + rewrite (Z.min_r e) by lia. rewrite !take_ge; [done|..]; rewrite length_drop; lia.
    + rewrite (Z.min_l e) by lia. f_equal. lia.
Qed.

Lemma take_drop_length (l : list A) (s n : nat) :
  length (take n (drop s l)) = Nat.min n (length l - s).
Proof. rewrite length_take, length_drop. lia. Qed.

Lemma take_drop_In (x : A) (l : list A) (s n : nat) :
  In x (take n (drop s l)) -> In x l.
Proof.
  intros H. rewrite <- (take_drop s l). apply in_or_app. right.
  rewrite <- (take_drop n (drop s l)). apply in_or_app. by left.
Qed.

(** Consecutive windows of width [n] glue back into a prefix. *)
Lemma windows_concat (l : list A) (n m : nat) :
  concat (map (fun k => take n (drop (k * n) l)) (seq 0 m)) = take (m * n) l.
Proof.
  induction m as [|m IH]; [done|].
  rewrite seq_S, map_app, concat_app, IH. cbn [map concat plus].
  rewrite app_nil_r, Nat.mul_succ_l. by rewrite take_take_drop.
Qed.
End slice.

Section bool_filter.
Context {A : Type}.

Lemma filter_filter_andb (p q : A -> bool) (l : list A) :
  List.filter p (List.filter q l) = List.filter (fun x => q x && p x) l.
Proof.
  induction l as [|x l IH]; simpl; [done|].
  destruct (q x); simpl; [destruct (p x); simpl; by rewrite IH | done].
Qed.

Lemma filter_true_id (p : A -> bool) (l : list A) :
  (forall x, In x l -> p x = true) -> List.filter p l = l.
Proof.
  induction l as [|x l IH]; intros Hp; simpl; [done|].
  rewrite Hp by (left; done). f_equal. apply IH. intros y Hy. apply Hp. by right.
Qed.

Lemma filter_idem (p : A -> bool) (l : list A) :
  List.filter p (List.filter p l) = List.filter p l.
Proof. apply filter_true_id. intros x Hx. by apply filter_In in Hx as [_ ?]. Qed.

Lemma filter_cond (b : bool) (p : A -> bool) (l : list A) :
  (if b then List.filter p l else l) = List.filter (fun x => negb b || p x) l.
Proof. destruct b; simpl; [done|]. symmetry. by apply filter_true_id. Qed.

Lemma filter_opt {B} (o : option B) (p : B -> A -> bool) (l : list A) :
  match o with Some d => List.filter (p d) l | None => l end =
  List.filter (fun x => match o with Some d => p d x | None => true end) l.
Proof. destruct o; [done|]. symmetry. by apply filter_true_id. Qed.

Lemma filter_ext_in (p q : A -> bool) (l : list A) :
  (forall x, In x l -> p x = q x) -> List.filter p l = List.filter q l.
Proof.
  induction l as [|x l IH]; intros H; simpl; [done|].
  rewrite H by (left; done). rewrite IH; [done|]. intros y Hy. apply H. by right.
Qed.

Lemma fold_left_map_arg {B C} (f : B -> A -> B) (g : C -> A) (l : list C) (b : B) :
  fold_left f (map g l) b = fold_left (fun x y => f x (g y)) l b.
Proof. induction l as [|x l IH] in b |- *; simpl; [done | apply IH]. Qed.

Lemma StronglySorted_impl (R S : A -> A -> Prop) (l : list A) :
  (forall a b, R a b -> S a b) -> StronglySorted R l -> StronglySorted S l.
Proof.
  intros HRS H. induction H as [|x l _ IH HF]; constructor; [done|].
  eapply List.Forall_impl; [|exact HF]. apply HRS.
Qed.

Lemma filter_map_comm {B} (p : A -> bool) (f : B -> A) (l : list B) :
  List.filter p (map f l) = map f (List.filter (fun x => p (f x)) l).
Proof. induction l as [|x l IH]; simpl; [done|]. destruct (p (f x)); simpl; by rewrite IH. Qed.
End bool_filter.

Section sums.
Context {A : Type}.

(** [reduce((s, x) => s + f(x), a)] is [a] plus the reference sum. *)
Lemma fold_left_sumQ (f : A -> Q) (l : list A) (a : Q) :
  (fold_left (fun s x => s + f x) l a == a + sumQ f l)%Q.
Proof.
  revert a. induction l as [|x l IH]; intros a; simpl.
  - lra.
  - rewrite IH. lra.
Qed.

Lemma sumQ_app (f : A -> Q) (l1 l2 : list A) :
  (sumQ f (l1 ++ l2) == sumQ f l1 + sumQ f l2)%Q.
Proof. induction l1 as [|x l IH]; simpl; [lra|]. unfold sumQ in *. simpl. rewrite IH. lra. Qed.

Lemma sumQ_nonneg (f : A -> Q) (l : list A) :
  (forall x, In x l -> 0 <= f x)%Q -> (0 <= sumQ f l)%Q.
Proof.
  induction l as [|x l IH]; intros H; simpl; [lra|].
  assert (0 <= f x)%Q by (apply H; by left).
  assert (0 <= sumQ f l)%Q by (apply IH; intros; apply H; by right).
  unfold sumQ in *. simpl. lra.
Qed.

Lemma sumQ_pos (f : A -> Q) (l : list A) :
  l <> [] -> (forall x, In x l -> 0 < f x)%Q -> (0 < sumQ f l)%Q.
Proof.
  destruct l as [|x l]; intros Hne H; [done|].
  assert (0 < f x)%Q by (apply H; by left).
  assert (0 <= sumQ f l)%Q.
  { apply sumQ_nonneg. intros y Hy. apply Qlt_le_weak, H. by right. }
  unfold sumQ in *. simpl. lra.
Qed.

Lemma sumQ_perm (f : A -> Q) (l1 l2 : list A) :
  Permutation l1 l2 -> (sumQ f l1 == sumQ f l2)%Q.
Proof.
  induction 1; unfold sumQ in *; simpl; lra.
Qed.

Lemma sumQ_filter_split (f : A -> Q) (p : A -> bool) (l : list A) :
  (sumQ f l == sumQ f (List.filter p l) + sumQ f (List.filter (fun x => negb (p x)) l))%Q.
Proof.
  induction l as [|x l IH]; simpl; [lra|].
  unfold sumQ in *. destruct (p x); simpl; rewrite IH; lra.
Qed.
End sums.

#[export] Hint Resolve sumQ_nonneg sumQ_pos : et.
#[export] Hint Rewrite @filter_filter_andb @filter_idem : et_rw.

(** ** Checking a property on a range of integers by evaluation *)

(** [forall_range n lo f] tests [f] on [lo], ..., [lo + n - 1]; with a
    closed [f] it is evaluated by [vm_compute], which turns a property of a
    finite range (a 400-year calendar cycle, all 4-digit years) into a
    computation. *)
Fixpoint forall_range (n : nat) (lo : Z) (f : Z -> bool) : bool :=
  match n with
  | O => true
  | S k => f lo && forall_range k (lo + 1)%Z f
  end.

Lemma forall_range_spec n lo f z :
  forall_range n lo f = true -> (lo <= z < lo + Z.of_nat n)%Z -> f z = true.
Proof.
  revert lo. induction n as [|n IH]; intros lo; simpl; [lia|].
  rewrite andb_true_iff. intros [Hf Hr] Hz.
  destruct (Z.eq_dec z lo) as [->|]; [done|]. apply (IH (lo + 1)%Z); [done | lia].
Qed.
