(* ===== verification/JsRuntime.v ===== *)
(** JavaScript built-ins used by the pages, on Stdlib strings: the
    truthiness of a string, [String.prototype.toLowerCase] (on the Latin-1
    range of the 8-bit characters), [String.prototype.includes], and the
    relational operator [<] on strings and numbers, packaged as the class
    [JsOrder] of strict weak orders that the sort comparator needs.  It also
    holds the JavaScript values the API client handles ([jsval]: the values
    [JSON.parse] produces, numbers kept as the decimal [m * 10^e] of their
    JSON literal), their truthiness, property access ([js_get], a TypeError
    on [null] and [undefined]), the [||] operator, [Number::toString] and
    [String(v)]. *)

From S2P Require Import Prelude.
From Stdlib Require Import Ascii String.
From stdpp Require Import pretty.

(** ** Truthiness: [if (s)] on a string tests that it is not empty. *)
Definition str_truthy (s : string) : bool :=
  match s with EmptyString => false | String _ _ => true end.

(** ** [toLowerCase] *)

(** Code units 'A'..'Z' and the Latin-1 capitals 0xC0..0xDE (save the
    multiplication sign 0xD7) map to the letter 32 code units above. *)
Definition lower_char (c : ascii) : ascii :=
  let n := nat_of_ascii c in
  if ((65 <=? n) && (n <=? 90)) || ((192 <=? n) && (n <=? 222) && negb (n =? 215))
  then ascii_of_nat (n + 32) else c.

Fixpoint to_lower (s : string) : string :=
  match s with
  | EmptyString => EmptyString
  | String c s' => String (lower_char c) (to_lower s')
  end.

(** ** [includes] *)

(** [s.includes(pat)]: [pat] occurs in [s] at some index. *)
Fixpoint includes (s pat : string) : bool :=
  String.prefix pat s ||
  match s with
  | EmptyString => false
  | String _ s' => includes s' pat
  end.

(** [s.replace(pat, rep)] with a string pattern and a replacement without
    [$]: the first occurrence only is replaced. *)
Fixpoint replace_first (pat rep s : string) : string :=
  if String.prefix pat s then (rep ++ substring (String.length pat) (String.length s) s)%string
  else match s with
       | EmptyString => EmptyString
       | String c s' => String c (replace_first pat rep s')
       end.

(** ** Relational [<] *)

(** A strict weak order: what makes [a < b ? -1 : a > b ? 1 : 0] a
    consistent comparator in the sense of ECMAScript's [Array.prototype.sort]. *)
Class JsOrder (A : Type) := {
  js_lt : A -> A -> bool;
  js_lt_irrefl a : js_lt a a = false;
  js_lt_trans a b c : js_lt a b = true -> js_lt b c = true -> js_lt a c = true;
  js_le_trans a b c : js_lt b a = false -> js_lt c b = false -> js_lt c a = false
}.

(** String [<] compares code units lexicographically, a prefix first. *)
Definition str_lt (a b : string) : bool := String.ltb a b.

(** Number [<] on the exact values. *)
Definition num_lt (a b : Q) : bool := if Qlt_le_dec a b then true else false.

(** ** JavaScript values *)

Inductive jsval :=
  | JUndefined
  | JNull
  | JBool (b : bool)
  | JNum (m e : Z)                       (* m * 10^e *)
  | JStr (s : string)
  | JArr (l : list jsval)
  | JObj (fields : list (string * jsval)).

Definition js_truthy (v : jsval) : bool :=
  match v with
  | JUndefined | JNull => false
  | JBool b => b
  | JNum m _ => negb (m =? 0)%Z
  | JStr s => str_truthy s
  | JArr _ | JObj _ => true
  end.

(** [a || b]. *)
Definition js_or (a b : jsval) : jsval := if js_truthy a then a else b.

(** [JSON.parse] keeps the last of duplicated keys. *)
Definition obj_lookup (k : string) (fields : list (string * jsval)) : jsval :=
  fold_left (fun acc kv => if String.eqb k kv.1 then kv.2 else acc) fields JUndefined.

(** [v.k]: [None] is the TypeError of reading a property of [null] or
    [undefined]; the other primitives and arrays have none of the keys the
    client reads. *)
Definition js_get (v : jsval) (k : string) : option jsval :=
  match v with
  | JUndefined | JNull => None
  | JObj fields => Some (obj_lookup k fields)
  | _ => Some JUndefined
  end.

Fixpoint zeros (n : nat) : string :=
  match n with O => EmptyString | S n' => String "0" (zeros n') end.

(** Drop the trailing zeros of the digits [m], raising the exponent. *)
Fixpoint strip_zeros (fuel : nat) (m e : Z) : Z * Z :=
  match fuel with
  | O => (m, e)
  | S f => if (m mod 10 =? 0)%Z && negb (m =? 0)%Z then strip_zeros f (m / 10) (e + 1) else (m, e)
  end.

(** Number::toString(10) of ECMAScript on [m * 10^e]: with [s] the digits
    without trailing zeros, [k] their count and [n] the position of the
    decimal point, the plain forms for [-6 < n <= 21] and the exponent form
    otherwise. *)
Definition number_to_string (m e : Z) : string :=
  if (m =? 0)%Z then "0" else
  let sign := if (m <? 0)%Z then "-" else "" in
  let '(s, e') := strip_zeros (String.length (pretty (Z.to_N (Z.abs m)))) (Z.abs m) e in
  let ds := pretty (Z.to_N s) in
  let k := Z.of_nat (String.length ds) in
  let n := (e' + k)%Z in
  let exp_part :=
    let ex := (n - 1)%Z in
    ("e" ++ (if (ex <? 0)%Z then "-" else "+") ++ pretty (Z.to_N (Z.abs ex)))%string in
  (sign ++
   if (k <=? n)%Z && (n <=? 21)%Z then ds ++ zeros (Z.to_nat (n - k))
   else if (0 <? n)%Z && (n <=? 21)%Z then
     substring 0 (Z.to_nat n) ds ++ "." ++ substring (Z.to_nat n) (Z.to_nat (k - n)) ds
   else if (-6 <? n)%Z && (n <=? 0)%Z then "0." ++ zeros (Z.to_nat (- n)) ++ ds
   else if (k =? 1)%Z then ds ++ exp_part
   else substring 0 1 ds ++ "." ++ substring 1 (Z.to_nat (k - 1)) ds ++ exp_part)%string.

(** [String(v)]; an array joins its elements with commas, writing [null]
    and [undefined] as the empty string. *)
Fixpoint js_to_string (v : jsval) : string :=
  match v with
  | JUndefined => "undefined"
  | JNull => "null"
  | JBool true => "true"
  | JBool false => "false"
  | JNum m e => number_to_string m e
  | JStr s => s
  | JArr l =>
      let elem := fun x => match x with JUndefined | JNull => EmptyString | _ => js_to_string x end in
      String.concat "," (map elem l)
  | JObj _ => "[object Object]"
  end.

(** ** Lemmas *)

Lemma lower_char_idem c : lower_char (lower_char c) = lower_char c.
Proof. destruct c as [[] [] [] [] [] [] [] []]; vm_compute; reflexivity. Qed.

Lemma to_lower_idem s : to_lower (to_lower s) = to_lower s.
Proof. induction s as [|c s IH]; simpl; [done|]. by rewrite lower_char_idem, IH. Qed.

Lemma str_app_nil_r s : (s ++ "")%string = s.
Proof.
  induction s as [|c s IH]; [reflexivity|].
  change (String c (s ++ "") = String c s)%string. by rewrite IH.
Qed.

Lemma str_app_assoc a b c : ((a ++ b) ++ c)%string = (a ++ b ++ c)%string.
Proof.
  induction a as [|x a IH]; [reflexivity|].
  change (String x ((a ++ b) ++ c) = String x (a ++ b ++ c))%string. by rewrite IH.
Qed.

Lemma to_lower_app s t : to_lower (s ++ t)%string = (to_lower s ++ to_lower t)%string.
Proof. induction s as [|c s IH]; simpl; [done|]. by rewrite IH. Qed.

Lemma prefix_spec (p s : string) :
  String.prefix p s = true <-> exists t, s = (p ++ t)%string.
Proof.
  revert s. induction p as [|c p IH]; intros [|d s]; simpl.
  - split; [by exists EmptyString | done].
  - split; [by exists (String d s) | done].
  - split; [done | by intros [t ?]].
  - destruct (ascii_dec c d) as [->|Hne].
    + rewrite IH. split; intros [t Ht]; exists t; [by rewrite Ht | by injection Ht].
    + split; [done | intros [t Ht]; injection Ht; congruence].
Qed.

(** [s.includes(p)] holds exactly when [p] occurs in [s]: it is
    substring search, true for the empty pattern. *)
Theorem includes_spec (s p : string) :
  includes s p = true <-> exists a b, s = (a ++ p ++ b)%string.
Proof.
  induction s as [|c s IH]; cbn [includes]; rewrite orb_true_iff, prefix_spec.
  - split.
    + intros [[t Ht] | ?]; [by exists EmptyString, t | done].
    + intros [[|??] [b Hb]]; [left; by exists b | done].
  - rewrite IH. split.
    + intros [[t Ht] | (a & b & ->)]; [by exists EmptyString, t | by exists (String c a), b].
    + intros [[|d a] [b Hb]]; [left; by exists b|]. injection Hb as -> ->. right. by exists a, b.
Qed.

Lemma includes_empty s : includes s EmptyString = true.
Proof. destruct s; reflexivity. Qed.

Lemma ascii_compare_refl c : Ascii.compare c c = Eq.
Proof. apply N.compare_refl. Qed.

Lemma ascii_compare_trans_lt x y z :
  Ascii.compare x y = Lt -> Ascii.compare y z = Lt -> Ascii.compare x z = Lt.
Proof. unfold Ascii.compare. rewrite !N.compare_lt_iff. lia. Qed.

Lemma str_compare_refl s : String.compare s s = Eq.
Proof. induction s as [|c s IH]; simpl; [done|]. by rewrite ascii_compare_refl. Qed.

Ltac ascii_eqs :=
  repeat match goal with
  | H : Ascii.compare _ _ = Eq |- _ => apply Ascii.compare_eq_iff in H; subst
  end.

Lemma str_compare_trans_lt a b c :
  String.compare a b = Lt -> String.compare b c = Lt -> String.compare a c = Lt.
Proof.
  revert b c. induction a as [|x a IH]; intros [|y b] [|z c]; simpl; try done.
  destruct (Ascii.compare x y) eqn:Exy; try done;
  destruct (Ascii.compare y z) eqn:Eyz; try done; ascii_eqs;
  rewrite ?ascii_compare_refl, ?Exy, ?Eyz; try done.
  - intros. by apply IH with b.
  - intros _ _. by rewrite (ascii_compare_trans_lt _ _ _ Exy Eyz).
Qed.

Lemma str_lt_compare a b : str_lt a b = true <-> String.compare a b = Lt.
Proof. unfold str_lt, String.ltb. by destruct (String.compare a b). Qed.

Lemma str_nlt_compare a b : str_lt a b = false <-> String.compare b a <> Gt.
Proof.
  unfold str_lt, String.ltb. rewrite String.compare_antisym.
  by destruct (String.compare b a).
Qed.

Lemma str_compare_le_trans a b c :
  String.compare a b <> Gt -> String.compare b c <> Gt -> String.compare a c <> Gt.
Proof.
  destruct (String.compare a b) eqn:E1, (String.compare b c) eqn:E2; try done;
    repeat match goal with H : String.compare _ _ = Eq |- _ => apply String.compare_eq_iff in H; subst end.
  - by rewrite str_compare_refl.
  - by rewrite E2.
  - by rewrite E1.
  - by rewrite (str_compare_trans_lt _ _ _ E1 E2).
Qed.

Lemma str_lt_irrefl a : str_lt a a = false.
Proof. by rewrite str_nlt_compare, str_compare_refl. Qed.

Lemma str_lt_trans a b c : str_lt a b = true -> str_lt b c = true -> str_lt a c = true.
Proof. rewrite !str_lt_compare. apply str_compare_trans_lt. Qed.

Lemma str_le_trans a b c : str_lt b a = false -> str_lt c b = false -> str_lt c a = false.
Proof. rewrite !str_nlt_compare. apply str_compare_le_trans. Qed.

#[export] Instance str_order : JsOrder string :=
  {| js_lt := str_lt; js_lt_irrefl := str_lt_irrefl;
     js_lt_trans := str_lt_trans; js_le_trans := str_le_trans |}.

Lemma num_lt_irrefl a : num_lt a a = false.
Proof. unfold num_lt. destruct (Qlt_le_dec a a); [lra | done]. Qed.

Lemma num_lt_trans a b c : num_lt a b = true -> num_lt b c = true -> num_lt a c = true.
Proof.
  unfold num_lt. destruct (Qlt_le_dec a b), (Qlt_le_dec b c), (Qlt_le_dec a c); done || lra.
Qed.

Lemma num_le_trans a b c : num_lt b a = false -> num_lt c b = false -> num_lt c a = false.
Proof.
  unfold num_lt. destruct (Qlt_le_dec b a), (Qlt_le_dec c b), (Qlt_le_dec c a); done || lra.
Qed.

#[export] Instance num_order : JsOrder Q :=
  {| js_lt := num_lt; js_lt_irrefl := num_lt_irrefl;
     js_lt_trans := num_lt_trans; js_le_trans := num_le_trans |}.
