(* ===== verification/Types.v ===== *)
(** The domain model of [src/expense-tracker-fe/src/types.ts]: the
    [ExpenseCategory] and [PaymentMethod] string enums with their values in
    declaration order (what [Object.values] returns), and the [Expense] and
    [ExpenseCategoryReport] records, the [LoginRequest] and [SignupRequest]
    arguments of the client and the keys of [AuthResponse].  The pages import ['../types'], which
    resolves to [types.ts]; the directory module [types/index.ts] declares
    a different [ExpenseCategory] and is shadowed: it is kept as
    [IndexTypes] to state how the two enumerations differ.

    TypeScript types are erased at run time, so an [Expense] received from
    the server carries its category and payment method as plain strings;
    the record keeps them as [string], and the enums give the values the
    form writes. *)

From S2P Require Import Prelude JsRuntime.

Inductive ExpenseCategory :=
  | FOOD | TRANSPORTATION | ENTERTAINMENT | SHOPPING | UTILITIES | HEALTH | OTHER.

Definition ExpenseCategory_value (c : ExpenseCategory) : string :=
  match c with
  | FOOD => "FOOD" | TRANSPORTATION => "TRANSPORTATION"
  | ENTERTAINMENT => "ENTERTAINMENT" | SHOPPING => "SHOPPING"
  | UTILITIES => "UTILITIES" | HEALTH => "HEALTH" | OTHER => "OTHER"
  end.

(** [Object.values(ExpenseCategory)]. *)
Definition ExpenseCategory_values : list ExpenseCategory :=
  [FOOD; TRANSPORTATION; ENTERTAINMENT; SHOPPING; UTILITIES; HEALTH; OTHER].

Inductive PaymentMethod := IBAN | CASH | CREDIT_CARD.

Definition PaymentMethod_value (p : PaymentMethod) : string :=
  match p with IBAN => "IBAN" | CASH => "CASH" | CREDIT_CARD => "CREDIT_CARD" end.

(** [Object.values(PaymentMethod)]. *)
Definition PaymentMethod_values : list PaymentMethod := [IBAN; CASH; CREDIT_CARD].

#[export] Instance ExpenseCategory_eq_dec : EqDecision ExpenseCategory.
Proof. solve_decision. Defined.

#[export] Instance PaymentMethod_eq_dec : EqDecision PaymentMethod.
Proof. solve_decision. Defined.

(** The shadowed enumeration of [types/index.ts]. *)
Module IndexTypes.
Inductive ExpenseCategory :=
  | MAINTENANCE | CREDIT_CARD | BILL | ENTERTAINMENT | RENT | GROCERIES
  | TECHNOLOGY | FOOD | INVESTMENT | EDUCATION | CHILD | DEBT.

Definition ExpenseCategory_value (c : ExpenseCategory) : string :=
  match c with
  | MAINTENANCE => "MAINTENANCE" | CREDIT_CARD => "CREDIT_CARD" | BILL => "BILL"
  | ENTERTAINMENT => "ENTERTAINMENT" | RENT => "RENT" | GROCERIES => "GROCERIES"
  | TECHNOLOGY => "TECHNOLOGY" | FOOD => "FOOD" | INVESTMENT => "INVESTMENT"
  | EDUCATION => "EDUCATION" | CHILD => "CHILD" | DEBT => "DEBT"
  end.

Definition ExpenseCategory_values : list ExpenseCategory :=
  [MAINTENANCE; CREDIT_CARD; BILL; ENTERTAINMENT; RENT; GROCERIES;
   TECHNOLOGY; FOOD; INVESTMENT; EDUCATION; CHILD; DEBT].
End IndexTypes.

Module Expense.
Record t := mk {
  id : Z;
  description : string;
  amount : Q;
  date : string;
  category : string;
  paymentMethod : string;
  isRecurring : bool;
  createDate : string;
  updateDate : string
}.
End Expense.

Module ExpenseCategoryReport.
Record t := mk {
  category : string;
  count : Z;
  totalAmount : Q
}.
End ExpenseCategoryReport.

(** Lines 35-44 of [types.ts]: the arguments of [authService.login] and
    [authService.signup]. *)
Module LoginRequest.
Record t := mk { username : string; password : string }.
End LoginRequest.

Module SignupRequest.
Record t := mk { username : string; email : string; password : string }.
End SignupRequest.

(** Lines 46-53: the keys of the [AuthResponse] object [login] resolves
    to, in the order the object literal writes them. *)
Module AuthResponse.
Definition keys : list string := ["token"; "type"; "id"; "username"; "email"; "roles"].
End AuthResponse.

(** The category strings the form can write (from [types.ts]) that the
    other enumeration also knows. *)
Definition shared_category_values : list string :=
  List.filter (fun v => existsb (String.eqb v)
                          (map IndexTypes.ExpenseCategory_value IndexTypes.ExpenseCategory_values))
              (map ExpenseCategory_value ExpenseCategory_values).

Lemma ExpenseCategory_value_inj : Inj eq eq ExpenseCategory_value.
Proof. intros [] []; simpl; congruence. Qed.

Lemma ExpenseCategory_values_complete c : In c ExpenseCategory_values.
Proof. destruct c; simpl; tauto. Qed.

Lemma PaymentMethod_values_complete p : In p PaymentMethod_values.
Proof. destruct p; simpl; tauto. Qed.

Lemma ExpenseCategory_value_truthy c : str_truthy (ExpenseCategory_value c) = true.
Proof. by destruct c. Qed.

Lemma PaymentMethod_value_truthy p : str_truthy (PaymentMethod_value p) = true.
Proof. by destruct p. Qed.

(** of the category values the form offers, only FOOD and
    ENTERTAINMENT belong to the enumeration of [types/index.ts]; the other
    five are unknown to it. *)
Theorem shared_category_values_eq : shared_category_values = ["FOOD"; "ENTERTAINMENT"].
Proof. vm_compute. reflexivity. Qed.
