(* ===== verification/TsTypes.v ===== *)
(** The interfaces of [src/expense-tracker-fe/src/types.ts] and
    [types/index.ts] as shapes of the JSON values that cross the wire.

    TypeScript erases its types, so at run time an interface is only a
    promise about the shape of a value.  [ts_type] is the fragment the two
    files use: [number], [string], [boolean], string enums (a union of
    string literals, as a JSON value sees them), arrays, and object types
    whose properties may be optional ([?]).  [has_type] is the structural
    typing a JSON value passes: every required property is present with
    its type, an optional one is absent or has its type, and other
    properties are allowed.  A JSON number is finite, so NaN and the
    infinities, which [JSON.stringify] writes as [null], are not numbers.
    [typecheck] decides [has_type] ([typecheck_reflect]).

    [Omit<T, 'id'>] and [Partial<T>], the types of [addExpense] and
    [updateExpense], are [omit] and [partial]. *)

From S2P Require Import Prelude JsRuntime Types.
From Stdlib Require Import String.

Inductive ts_type :=
  | TNumber
  | TString
  | TBoolean
  | TEnum (values : list string)
  | TArray (t : ts_type)
  | TObject (props : list (string * bool * ts_type)).   (* name, optional, type *)

(** The induction principle with a hypothesis for the properties of an
    object type. *)
Section ts_type_ind.
Variable P : ts_type -> Prop.
Hypothesis HNumber : P TNumber.
Hypothesis HString : P TString.
Hypothesis HBoolean : P TBoolean.
Hypothesis HEnum : forall vs, P (TEnum vs).
Hypothesis HArray : forall t, P t -> P (TArray t).
Hypothesis HObject : forall ps, Forall (fun p => P p.2) ps -> P (TObject ps).

Fixpoint ts_type_ind' (t : ts_type) : P t :=
  match t with
  | TNumber => HNumber
  | TString => HString
  | TBoolean => HBoolean
  | TEnum vs => HEnum vs
  | TArray t => HArray t (ts_type_ind' t)
  | TObject ps =>
      HObject ps ((fix go (ps : list (string * bool * ts_type)) : Forall (fun p => P p.2) ps :=
                     match ps with
                     | [] => @List.Forall_nil _ _
                     | p :: ps' => @List.Forall_cons _ _ p ps' (ts_type_ind' p.2) (go ps')
                     end) ps)
  end.
End ts_type_ind.

Inductive has_type : jsval -> ts_type -> Prop :=
  | ht_number m e : has_type (JNum m e) TNumber
  | ht_string s : has_type (JStr s) TString
  | ht_boolean b : has_type (JBool b) TBoolean
  | ht_enum s vs : In s vs -> has_type (JStr s) (TEnum vs)
  | ht_array l t : Forall (fun v => has_type v t) l -> has_type (JArr l) (TArray t)
  | ht_object kvs ps :
      Forall (fun p => (p.1.2 = true /\ obj_lookup p.1.1 kvs = JUndefined) \/
                       has_type (obj_lookup p.1.1 kvs) p.2) ps ->
      has_type (JObj kvs) (TObject ps).

Fixpoint typecheck (v : jsval) (t : ts_type) : bool :=
  match t, v with
  | TNumber, JNum _ _ => true
  | TString, JStr _ => true
  | TBoolean, JBool _ => true
  | TEnum vs, JStr s => existsb (String.eqb s) vs
  | TArray t, JArr l => forallb (fun x => typecheck x t) l
  | TObject ps, JObj kvs =>
      forallb (fun p =>
        let '(k, opt, t) := p in
        let x := obj_lookup k kvs in
        (opt && match x with JUndefined => true | _ => false end) || typecheck x t) ps
  | _, _ => false
  end.

(** [Omit<T, k>] and [Partial<T>] on an object type. *)
Definition omit (k : string) (t : ts_type) : ts_type :=
  match t with
  | TObject ps => TObject (List.filter (fun p => negb (String.eqb p.1.1 k)) ps)
  | _ => t
  end.

Definition partial (t : ts_type) : ts_type :=
  match t with
  | TObject ps => TObject (map (fun '(k, _, t) => (k, true, t)) ps)
  | _ => t
  end.

(** ** [types.ts] *)

Definition ExpenseCategory_type : ts_type := TEnum (map ExpenseCategory_value ExpenseCategory_values).
Definition PaymentMethod_type : ts_type := TEnum (map PaymentMethod_value PaymentMethod_values).

(** Lines 17-27. *)
Definition Expense_type : ts_type :=
  TObject [("id", false, TNumber); ("description", false, TString); ("amount", false, TNumber);
           ("date", false, TString); ("category", false, ExpenseCategory_type);
           ("paymentMethod", false, PaymentMethod_type); ("isRecurring", false, TBoolean);
           ("createDate", false, TString); ("updateDate", false, TString)].

(** Lines 29-33. *)
Definition ExpenseCategoryReport_type : ts_type :=
  TObject [("category", false, ExpenseCategory_type); ("count", false, TNumber);
           ("totalAmount", false, TNumber)].

(** Lines 35-38 and 40-44. *)
Definition LoginRequest_type : ts_type :=
  TObject [("username", false, TString); ("password", false, TString)].

Definition SignupRequest_type : ts_type :=
  TObject [("username", false, TString); ("email", false, TString); ("password", false, TString)].

(** Lines 46-53: [roles] is optional. *)
Definition AuthResponse_type : ts_type :=
  TObject [("token", false, TString); ("type", false, TString); ("id", false, TNumber);
           ("username", false, TString); ("email", false, TString); ("roles", true, TArray TString)].

(** Lines 55-62. *)
Definition ExpenseUpdateRequest_type : ts_type :=
  TObject [("description", false, TString); ("amount", false, TNumber); ("date", false, TString);
           ("paymentMethod", false, PaymentMethod_type); ("category", false, ExpenseCategory_type);
           ("isRecurring", false, TBoolean)].

(** ** [types/index.ts] (shadowed by [types.ts]) *)
Module IndexTs.
Definition ExpenseCategory_type : ts_type :=
  TEnum (map IndexTypes.ExpenseCategory_value IndexTypes.ExpenseCategory_values).

(** Lines 16-22. *)
Definition Expense_type : ts_type :=
  TObject [("id", false, TNumber); ("amount", false, TNumber); ("description", false, TString);
           ("category", false, ExpenseCategory_type); ("date", false, TString)].

(** Lines 24-28. *)
Definition User_type : ts_type :=
  TObject [("id", false, TNumber); ("username", false, TString); ("email", false, TString)].

Definition LoginRequest_type : ts_type :=
  TObject [("username", false, TString); ("password", false, TString)].

Definition SignupRequest_type : ts_type :=
  TObject [("username", false, TString); ("email", false, TString); ("password", false, TString)].

(** Lines 41-48: here [roles] is required. *)
Definition AuthResponse_type : ts_type :=
  TObject [("token", false, TString); ("type", false, TString); ("id", false, TNumber);
           ("username", false, TString); ("email", false, TString); ("roles", false, TArray TString)].

(** Lines 50-54: the category is any string. *)
Definition ExpenseCategoryReport_type : ts_type :=
  TObject [("category", false, TString); ("totalAmount", false, TNumber); ("count", false, TNumber)].
End IndexTs.

(** ** Theorems *)

Lemma obj_prop_spec kvs (p : string * bool * ts_type) :
  (forall v, typecheck v p.2 = true <-> has_type v p.2) ->
  (let '(k, opt, t) := p in
   (opt && match obj_lookup k kvs with JUndefined => true | _ => false end) || typecheck (obj_lookup k kvs) t)
  = true <->
  (p.1.2 = true /\ obj_lookup p.1.1 kvs = JUndefined) \/ has_type (obj_lookup p.1.1 kvs) p.2.
Proof.
  destruct p as [[k opt] t]; cbn. intros IH. rewrite orb_true_iff, andb_true_iff, IH.
  destruct (obj_lookup k kvs); naive_solver.
Qed.

Lemma typecheck_spec t : forall v, typecheck v t = true <-> has_type v t.
Proof.
  induction t as [| | |vs|t IH|ps IH] using ts_type_ind'; intros v;
    (split; [destruct v; cbn; intros H; try discriminate | intros H; inversion H; subst; cbn]);
    try constructor; try reflexivity.
  - by apply existsb_exists in H as (s' & Hin & ->%String.eqb_eq).
  - apply existsb_exists. exists s. by rewrite String.eqb_refl.
  - apply List.Forall_forall. intros x Hx. apply IH. by apply (proj1 (forallb_forall _ _) H).
  - apply forallb_forall. intros x Hx. apply IH. by apply (proj1 (List.Forall_forall _ _) H2).
  - apply List.Forall_forall. intros p Hp.
    apply (obj_prop_spec fields p); [by apply (proj1 (List.Forall_forall _ _) IH)|].
    by apply (proj1 (forallb_forall _ _) H).
  - apply forallb_forall. intros p Hp.
    apply (obj_prop_spec kvs p); [by apply (proj1 (List.Forall_forall _ _) IH)|].
    by apply (proj1 (List.Forall_forall _ _) H2).
Qed.
