(* ===== verification/StableSort.v ===== *)
(** [Array.prototype.sort] as ExpenseList.tsx uses it.  ECMAScript (since
    ES2019) requires the sort to be stable and, for a consistent comparator,
    to return a permutation of its input ordered by the comparator; the
    algorithm is left to the engine.  This file states that contract
    ([ConsistentComparator], [sort_spec]), models the sort by a stable
    insertion sort [isort], and proves that the contract has exactly one
    solution, which is [isort]'s result: the model is faithful to every
    conforming engine.  It also holds the comparator idiom of the page,
    [a < b ? -1 : a > b ? 1 : 0], as [ts_cmp]. *)

From S2P Require Import Prelude JsRuntime.

(** The comparator of ExpenseList.tsx, for values of one JavaScript type. *)
Definition ts_cmp {K} `{JsOrder K} (a b : K) : Z :=
  if js_lt a b then (-1)%Z else if js_lt b a then 1%Z else 0%Z.

(** ECMAScript's consistent comparator, as the two laws the proofs use:
    the sign is antisymmetric, and "before or tied" is transitive. *)
Class ConsistentComparator {A} (cmp : A -> A -> Z) := {
  cmp_antisym a b : Z.sgn (cmp a b) = (- Z.sgn (cmp b a))%Z;
  cmp_le_trans a b c : (cmp a b <= 0)%Z -> (cmp b c <= 0)%Z -> (cmp a c <= 0)%Z
}.

(** A comparator on a field of the records, and the reversed comparator. *)
Definition cmp_on {A K} (key : A -> K) (c : K -> K -> Z) (a b : A) : Z := c (key a) (key b).
Definition cmp_flip {A} (c : A -> A -> Z) (a b : A) : Z := c b a.

(** Instance search must match these combinators syntactically. *)
#[global] Typeclasses Opaque ts_cmp cmp_on cmp_flip.

Section sort.
Context {A : Type} (cmp : A -> A -> Z).

(** [a] may precede [b]; [a] and [b] are tied. *)
Definition cle (a b : A) : bool := (cmp a b <=? 0)%Z.
Definition tie (a b : A) : bool := (cmp a b =? 0)%Z.

Fixpoint insert (x : A) (l : list A) : list A :=
  match l with
  | [] => [x]
  | y :: l' => if cle x y then x :: y :: l' else y :: insert x l'
  end.

Fixpoint isort (l : list A) : list A :=
  match l with
  | [] => []
  | x :: l' => insert x (isort l')
  end.

(** The contract of a stable sort of [l] returning [r]. *)
Definition sort_spec (l r : list A) : Prop :=
  Permutation r l /\
  StronglySorted (fun a b => cle a b = true) r /\
  forall z, List.filter (tie z) r = List.filter (tie z) l.
End sort.

Section sort_laws.
Context {A : Type} (cmp : A -> A -> Z) `{!ConsistentComparator cmp}.

Lemma cmp_refl a : cmp a a = 0%Z.
Proof. pose proof (cmp_antisym a a). destruct (cmp a a); simpl in *; lia. Qed.

Lemma cle_refl a : cle cmp a a = true.
Proof. unfold cle. rewrite cmp_refl. done. Qed.

Lemma cle_total a b : cle cmp a b = false -> cle cmp b a = true.
Proof.
  unfold cle. rewrite Z.leb_gt, Z.leb_le. intros H.
  pose proof (cmp_antisym a b). destruct (cmp a b), (cmp b a); simpl in *; lia.
Qed.

Lemma cle_trans a b c : cle cmp a b = true -> cle cmp b c = true -> cle cmp a c = true.
Proof. unfold cle. rewrite !Z.leb_le. apply cmp_le_trans. Qed.

Lemma tie_cle a b : tie cmp a b = true <-> cle cmp a b = true /\ cle cmp b a = true.
Proof.
  unfold tie, cle. rewrite Z.eqb_eq, !Z.leb_le.
  pose proof (cmp_antisym a b). destruct (cmp a b), (cmp b a); simpl in *; split; lia.
Qed.

Lemma tie_sym a b : tie cmp a b = tie cmp b a.
Proof.
  apply eq_true_iff_eq. rewrite !tie_cle. tauto.
Qed.

Lemma tie_trans a b c : tie cmp a b = true -> tie cmp b c = true -> tie cmp a c = true.
Proof. rewrite !tie_cle. intros [] []. split; eapply cle_trans; eauto. Qed.

Lemma tie_refl a : tie cmp a a = true.
Proof. apply tie_cle. split; apply cle_refl. Qed.

Lemma insert_perm x l : Permutation (insert cmp x l) (x :: l).
Proof.
  induction l as [|y l IH]; simpl; [done|].
  destruct (cle cmp x y); [done|].
  rewrite IH. apply perm_swap.
Qed.

Lemma isort_perm l : Permutation (isort cmp l) l.
Proof. induction l as [|x l IH]; simpl; [done|]. by rewrite insert_perm, IH. Qed.

Lemma insert_sorted x l :
  StronglySorted (fun a b => cle cmp a b = true) l ->
  StronglySorted (fun a b => cle cmp a b = true) (insert cmp x l).
Proof.
  induction l as [|y l IH]; simpl; intros Hs.
  - repeat constructor.
  - inversion Hs as [|? ? Hl Hy]; subst.
    destruct (cle cmp x y) eqn:Exy.
    + constructor; [done|]. constructor; [done|].
      apply List.Forall_forall. intros z Hz. eapply cle_trans; [done|].
      by eapply List.Forall_forall in Hy.
    + constructor; [by apply IH|].
      apply List.Forall_forall. intros z Hz.
      apply (Permutation_in _ (insert_perm x l)) in Hz as [<-|Hz].
      * by apply cle_total.
      * by eapply List.Forall_forall in Hy.
Qed.

Lemma isort_sorted l : StronglySorted (fun a b => cle cmp a b = true) (isort cmp l).
Proof. induction l; simpl; [constructor | by apply insert_sorted]. Qed.

(** The elements [insert] skips are strictly before [x], so never tied
    with anything tied with [x]. *)
Lemma insert_filter_tie z x l :
  List.filter (tie cmp z) (insert cmp x l) = List.filter (tie cmp z) (x :: l).
Proof.
  induction l as [|y l IH]; simpl; [done|].
  destruct (cle cmp x y) eqn:Exy; [done|]. simpl. rewrite IH. simpl.
  destruct (tie cmp z y) eqn:Ezy, (tie cmp z x) eqn:Ezx; try done.
  exfalso. rewrite tie_sym in Ezx.
  pose proof (tie_trans _ _ _ Ezx Ezy) as Hxy. apply tie_cle in Hxy as [? _]. congruence.
Qed.

Lemma isort_stable z l : List.filter (tie cmp z) (isort cmp l) = List.filter (tie cmp z) l.
Proof.
  induction l as [|x l IH]; simpl; [done|].
  rewrite insert_filter_tie. simpl. by rewrite IH.
Qed.

Lemma isort_sort_spec l : sort_spec cmp l (isort cmp l).
Proof. split; [apply isort_perm | split; [apply isort_sorted | intros z; apply isort_stable]]. Qed.

(** Two stable sorted permutations of one list are equal. *)
Lemma sorted_stable_unique l1 l2 :
  Permutation l1 l2 ->
  StronglySorted (fun a b => cle cmp a b = true) l1 ->
  StronglySorted (fun a b => cle cmp a b = true) l2 ->
  (forall z, List.filter (tie cmp z) l1 = List.filter (tie cmp z) l2) ->
  l1 = l2.
Proof.
  revert l2. induction l1 as [|a r1 IH]; intros l2 Hp S1 S2 Hf.
  - symmetry. by apply Permutation_nil.
  - destruct l2 as [|b r2]; [by apply Permutation_sym, Permutation_nil_cons in Hp|].
    inversion S1 as [|? ? S1' F1]; inversion S2 as [|? ? S2' F2]; subst.
    assert (tie cmp a b = true) as Hab.
    { apply tie_cle. split.
      - destruct (Permutation_in b (Permutation_sym Hp) (in_eq b r2)) as [<-|Hb];
          [apply cle_refl | by eapply List.Forall_forall in F1].
      - destruct (Permutation_in a Hp (in_eq a r1)) as [<-|Ha];
          [apply cle_refl | by eapply List.Forall_forall in F2]. }
    pose proof (Hf a) as Ha. simpl in Ha. rewrite tie_refl, Hab in Ha.
    injection Ha as <- _. f_equal.
    apply IH; [by eapply Permutation_cons_inv | done | done |].
    intros z. specialize (Hf z). simpl in Hf.
    destruct (tie cmp z a); [by injection Hf | done].
Qed.
End sort_laws.

Section sort_theorems.
Context {A : Type} (cmp : A -> A -> Z) `{!ConsistentComparator cmp}.

Lemma sort_spec_unique_isort l r : sort_spec cmp l r -> r = isort cmp l.
Proof.
  intros (Hp & Hs & Hf). apply (sorted_stable_unique cmp); [| done | apply (isort_sorted cmp) |].
  - by rewrite Hp, isort_perm.
  - intros z. by rewrite Hf, (isort_stable cmp).
Qed.

(** Refinement of the ECMAScript contract.  Whatever algorithm the
    engine uses, a result that meets the contract of a stable sort of [l]
    is the insertion sort of [l]. *)
Theorem sort_spec_isort l r : sort_spec cmp l r -> r = isort cmp l.
Proof. apply sort_spec_unique_isort. Qed.

Lemma isort_idem l : isort cmp (isort cmp l) = isort cmp l.
Proof.
  symmetry. apply sort_spec_unique_isort.
  split; [done | split; [apply (isort_sorted cmp) | done]].
Qed.
End sort_theorems.

Lemma StronglySorted_snoc {A} (R : A -> A -> Prop) l x :
  StronglySorted R l -> (forall y, In y l -> R y x) -> StronglySorted R (l ++ [x]).
Proof.
  induction l as [|y l IH]; simpl; intros Hs Hx.
  - repeat constructor.
  - inversion Hs as [|? ? Hl Hy]; subst. constructor.
    + apply IH; [done|]. intros z Hz. apply Hx. by right.
    + apply List.Forall_app. split; [done|]. constructor; [apply Hx; by left | done].
Qed.

Lemma StronglySorted_rev {A} (R : A -> A -> Prop) l :
  StronglySorted R l -> StronglySorted (fun a b => R b a) (rev l).
Proof.
  induction l as [|x l IH]; simpl; intros Hs; [constructor|].
  inversion Hs as [|? ? Hl Hx]; subst. apply StronglySorted_snoc; [by apply IH|].
  intros y Hy. apply in_rev in Hy. by eapply List.Forall_forall in Hx.
Qed.

Lemma rev_all_equal {A} (l : list A) :
  (forall x y, In x l -> In y l -> x = y) -> rev l = l.
Proof.
  destruct l as [|w l]; intros H; [done|].
  rewrite (@Forall_eq_repeat _ w (w :: l)), rev_repeat; [done|].
  apply List.Forall_forall. intros y Hy. apply H; [by left | done].
Qed.

#[export] Instance ts_cmp_consistent {K} `{JsOrder K} : ConsistentComparator (@ts_cmp K _).
Proof.
  assert (forall a b, js_lt a b = true -> js_lt b a = false) as Hasym.
  { intros a b Hab. destruct (js_lt b a) eqn:Hba; [|done].
    pose proof (js_lt_trans _ _ _ Hab Hba) as Haa. by rewrite js_lt_irrefl in Haa. }
  assert (forall a b, (ts_cmp a b <= 0)%Z <-> js_lt b a = false) as Hle.
  { intros a b. unfold ts_cmp.
    destruct (js_lt a b) eqn:Hab; [rewrite (Hasym _ _ Hab); split; done || lia|].
    destruct (js_lt b a); split; done || lia. }
  split.
  - intros a b. unfold ts_cmp.
    destruct (js_lt a b) eqn:Hab; [by rewrite (Hasym _ _ Hab)|].
    by destruct (js_lt b a).
  - intros a b c. rewrite !Hle. intros. by eapply js_le_trans.
Qed.

#[export] Instance cmp_on_consistent {A K} (key : A -> K) (c : K -> K -> Z)
  `{!ConsistentComparator c} : ConsistentComparator (cmp_on key c).
Proof. split; unfold cmp_on; intros; [apply cmp_antisym | by eapply cmp_le_trans]. Qed.

#[export] Instance cmp_flip_consistent {A} (c : A -> A -> Z)
  `{!ConsistentComparator c} : ConsistentComparator (cmp_flip c).
Proof.
  split; unfold cmp_flip; intros.
  - apply cmp_antisym.
  - eapply (cmp_le_trans (cmp:=c)); eassumption.
Qed.

Section reverse.
Context {A : Type} (cmp : A -> A -> Z) `{!ConsistentComparator cmp}.

Lemma tie_flip a b : tie (cmp_flip cmp) a b = tie cmp a b.
Proof. change (tie cmp b a = tie cmp a b). apply (tie_sym cmp). Qed.

(** reversing the comparator reverses the sorted output when the
    only ties in [l] are between equal elements. *)
Theorem isort_flip_rev l :
  (forall x y, In x l -> In y l -> tie cmp x y = true -> x = y) ->
  isort (cmp_flip cmp) l = rev (isort cmp l).
Proof.
  intros Hties. symmetry. apply sort_spec_unique_isort; [apply _|].
  split; [|split].
  - by rewrite <- Permutation_rev, (isort_perm cmp).
  - apply StronglySorted_rev, (isort_sorted cmp).
  - intros z. rewrite filter_rev.
    rewrite (filter_ext_in _ (tie cmp z)) by (intros; apply tie_flip).
    rewrite (filter_ext_in (tie (cmp_flip cmp) z) (tie cmp z) l) by (intros; apply tie_flip).
    rewrite (isort_stable cmp). apply rev_all_equal.
    intros x y Hx Hy. apply filter_In in Hx as [Hx Hzx], Hy as [Hy Hzy].
    apply Hties; [done | done |]. rewrite tie_sym in Hzx by apply _. by eapply tie_trans.
Qed.
End reverse.

Lemma sort_spec_isort_witness :
  sort_spec ts_cmp ["b"; "a"] ["a"; "b"] /\ ["a"; "b"] = isort ts_cmp ["b"; "a"].
Proof.
  assert (sort_spec ts_cmp ["b"; "a"] ["a"; "b"]) as H.
  { change ["a"; "b"] with (isort (ts_cmp (K:=string)) ["b"; "a"]).
    apply (isort_sort_spec (ts_cmp (K:=string))). }
  split; [exact H | apply (sort_spec_isort ts_cmp _ _ H)].
Defined.

Lemma isort_flip_rev_witness :
  (forall x y, In x ["b"; "a"; "c"] -> In y ["b"; "a"; "c"] ->
     tie (ts_cmp (K:=string)) x y = true -> x = y) /\
  isort (cmp_flip ts_cmp) ["b"; "a"; "c"] = rev (isort ts_cmp ["b"; "a"; "c"]).
Proof.
  assert (forall x y, In x ["b"; "a"; "c"] -> In y ["b"; "a"; "c"] ->
            tie (ts_cmp (K:=string)) x y = true -> x = y) as H.
  { intros x y Hx Hy. simpl in Hx, Hy.
    destruct Hx as [<-|[<-|[<-|[]]]], Hy as [<-|[<-|[<-|[]]]]; vm_compute; congruence. }
  split; [exact H | apply (isort_flip_rev ts_cmp _ H)].
Defined.
