(* ===== verification/DateTime.v ===== *)
(** [new Date(string)] and [new Date(y, m, d)], the calendar fields of a
    time value, and date-fns' [format].  A Date's time value is an integer
    number of milliseconds, or NaN for an Invalid Date; [js_date] is
    [option Z], [None] for NaN.  The local time zone is taken to be UTC
    (offset zero, no daylight saving), so local and UTC fields agree.

    [Date_parse] reads ECMAScript's Date Time String Format as V8 reads
    it: a year of four digits or a sign and six digits, optional [-MM] and
    [-DD]; a date-only form is UTC; a [T] then [HH:mm], [HH:mm:ss] or
    [HH:mm:ss.f...] (any number of fraction digits, the first three giving
    the milliseconds), then nothing (local time), [Z] or [+HH:mm]/[-HH:mm].
    The day may be 01..31 whatever the month, and overflows into the next
    month as MakeDay does; hour 24 is accepted with zero minutes, seconds
    and milliseconds; the result is TimeClipped.  Strings outside this
    format, which V8 hands to its legacy parser (["2024/01/15"],
    ["Jan 15 2024"], a space for the [T]), are outside the model and parse
    to NaN. *)

From S2P Require Import Prelude.
From Stdlib Require Import Ascii String.
From stdpp Require Import pretty.

Definition js_date := option Z.

Definition digit (c : ascii) : option Z :=
  let n := nat_of_ascii c in
  if (48 <=? n) && (n <=? 57) then Some (Z.of_nat n - 48)%Z else None.

Fixpoint digits (l : list ascii) (acc : Z) : option Z :=
  match l with
  | [] => Some acc
  | c :: l' => match digit c with Some d => digits l' (10 * acc + d)%Z | None => None end
  end.

(** Days since 1970-01-01 of a proleptic Gregorian date (month 1..12). *)
Definition days_from_civil (y m d : Z) : Z :=
  let y' := if (m <=? 2)%Z then (y - 1)%Z else y in
  let era := (y' / 400)%Z in
  let yoe := (y' - era * 400)%Z in
  let mp := ((m + 9) mod 12)%Z in
  let doy := ((153 * mp + 2) / 5 + d - 1)%Z in
  let doe := (yoe * 365 + yoe / 4 - yoe / 100 + doy)%Z in
  (era * 146097 + doe - 719468)%Z.

Definition ms_per_day : Z := 86400000.

(** MakeDate(MakeDay(y, m - 1, d), MakeTime(h, mi, s, ms)). *)
Definition make_date (y m d h mi s ms : Z) : Z :=
  (days_from_civil y m d * ms_per_day + ((h * 60 + mi) * 60 + s) * 1000 + ms)%Z.

Definition fields_ok (m d h mi s ms : Z) : bool :=
  (1 <=? m)%Z && (m <=? 12)%Z && (1 <=? d)%Z && (d <=? 31)%Z &&
  (mi <=? 59)%Z && (s <=? 59)%Z &&
  ((h <=? 23)%Z || ((h =? 24)%Z && (mi =? 0)%Z && (s =? 0)%Z && (ms =? 0)%Z)).

Definition mk_date (y m d h mi s ms : option Z) : js_date :=
  match y, m, d, h, mi, s, ms with
  | Some y, Some m, Some d, Some h, Some mi, Some s, Some ms =>
      if fields_ok m d h mi s ms then Some (make_date y m d h mi s ms) else None
  | _, _, _, _, _, _, _ => None
  end.

(** TimeClip: time values beyond 8.64e15 ms are NaN. *)
Definition time_clip (t : Z) : js_date :=
  if (Z.abs t <=? 8640000000000000)%Z then Some t else None.

(** [n] digits, read as a decimal number after [acc]. *)
Fixpoint take_digits (n : nat) (l : list ascii) (acc : Z) : option (Z * list ascii) :=
  match n, l with
  | O, _ => Some (acc, l)
  | S n', c :: l' => d ← digit c; take_digits n' l' (10 * acc + d)%Z
  | S _, [] => None
  end.

(** The longest run of digits at the head of [l]. *)
Fixpoint span_digit (l : list ascii) : list ascii * list ascii :=
  match l with
  | c :: l' =>
      match digit c with
      | Some _ => let '(ds, r) := span_digit l' in (c :: ds, r)
      | None => ([], l)
      end
  | [] => ([], [])
  end.

(** The year: four digits, or a sign and six digits ([-000000] is not a
    year). *)
Definition parse_year (l : list ascii) : option (Z * list ascii) :=
  match l with
  | c :: r =>
      if Ascii.eqb c "+" then take_digits 6 r 0
      else if Ascii.eqb c "-" then
        '(y, r') ← take_digits 6 r 0;
        if (y =? 0)%Z then None else Some (- y, r')%Z
      else take_digits 4 l 0
  | [] => None
  end.

(** [-MM] and [-DD], each optional, 1 when absent. *)
Definition parse_month_day (l : list ascii) : option (Z * Z * list ascii) :=
  match l with
  | "-"%char :: r =>
      '(m, r) ← take_digits 2 r 0;
      match r with
      | "-"%char :: r => '(d, r) ← take_digits 2 r 0; Some (m, d, r)
      | _ => Some (m, 1%Z, r)
      end
  | _ => Some (1%Z, 1%Z, l)
  end.

(** The milliseconds of a fraction: its first three digits, padded with
    zeros (V8 accepts any number of fraction digits). *)
Definition fraction_ms (ds : list ascii) : option Z :=
  match ds with
  | [] => None
  | _ => digits (firstn 3 (ds ++ ["0"; "0"; "0"]%char)) 0
  end.

(** [HH:mm], [HH:mm:ss] or [HH:mm:ss.f...] after the [T]. *)
Definition parse_time (l : list ascii) : option (Z * Z * Z * Z * list ascii) :=
  '(h, r) ← take_digits 2 l 0;
  match r with
  | ":"%char :: r =>
      '(mi, r) ← take_digits 2 r 0;
      match r with
      | ":"%char :: r =>
          '(sec, r) ← take_digits 2 r 0;
          match r with
          | "."%char :: r =>
              let '(ds, r) := span_digit r in
              ms ← fraction_ms ds; Some (h, mi, sec, ms, r)
          | _ => Some (h, mi, sec, 0%Z, r)
          end
      | _ => Some (h, mi, 0%Z, 0%Z, r)
      end
  | _ => None
  end.

(** The offset after a time: none (local time), [Z], or [+HH:mm] and
    [-HH:mm]; the result is the offset in milliseconds. *)
Definition parse_offset (l : list ascii) : option Z :=
  match l with
  | [] => Some 0%Z
  | ["Z"%char] => Some 0%Z
  | sg :: r =>
      '(oh, r) ← take_digits 2 r 0;
      match r with
      | ":"%char :: r =>
          '(om, r) ← take_digits 2 r 0;
          match r with
          | [] =>
              if (oh <=? 23)%Z && (om <=? 59)%Z then
                if Ascii.eqb sg "+" then Some ((oh * 60 + om) * 60000)%Z
                else if Ascii.eqb sg "-" then Some (- ((oh * 60 + om) * 60000))%Z
                else None
              else None
          | _ => None
          end
      | _ => None
      end
  end.

(** The fields checked, the offset subtracted, and TimeClip. *)
Definition mk_time (y m d h mi sec ms off : Z) : js_date :=
  if fields_ok m d h mi sec ms then time_clip (make_date y m d h mi sec ms - off)%Z else None.

(** [new Date(s)] on the Date Time String Format: a date-only form is
    UTC, a date-time form without an offset is local time. *)
Definition Date_parse (s : string) : js_date :=
  match parse_year (list_ascii_of_string s) with
  | None => None
  | Some (y, r) =>
      match parse_month_day r with
      | None => None
      | Some (m, d, r) =>
          match r with
          | [] => mk_time y m d 0 0 0 0 0
          | "T"%char :: r =>
              match parse_time r with
              | None => None
              | Some (h, mi, sec, ms, r) =>
                  match parse_offset r with
                  | None => None
                  | Some off => mk_time y m d h mi sec ms off
                  end
              end
          | _ => None
          end
      end
  end.

(** Relational operators on Dates compare time values; NaN compares false. *)
Definition date_ge (a b : js_date) : bool :=
  match a, b with Some x, Some y => (y <=? x)%Z | _, _ => false end.

Definition date_le (a b : js_date) : bool :=
  match a, b with Some x, Some y => (x <=? y)%Z | _, _ => false end.

(** ** Calendar fields of a time value *)

(** Day [z] since 1970-01-01 as its proleptic Gregorian year, month
    (1..12) and day: ECMAScript's YearFromTime, MonthFromTime and
    DateFromTime, computed by 400-year eras as [days_from_civil] is. *)
Definition civil_of_doe (doe : Z) : Z * Z * Z :=
  let yoe := ((doe - doe / 1460 + doe / 36524 - doe / 146096) / 365)%Z in
  let doy := (doe - (365 * yoe + yoe / 4 - yoe / 100))%Z in
  let mp := ((5 * doy + 2) / 153)%Z in
  let d := (doy - (153 * mp + 2) / 5 + 1)%Z in
  let m := if (mp <? 10)%Z then (mp + 3)%Z else (mp - 9)%Z in
  ((if (m <=? 2)%Z then yoe + 1 else yoe)%Z, m, d).

Definition civil_from_days (z : Z) : Z * Z * Z :=
  let z := (z + 719468)%Z in
  let '(y, m, d) := civil_of_doe (z mod 146097) in
  ((y + z / 146097 * 400)%Z, m, d).

Definition leap_year (y : Z) : bool :=
  ((y mod 4 =? 0) && negb (y mod 100 =? 0) || (y mod 400 =? 0))%Z.

Definition days_in_month (y m : Z) : Z :=
  if (m =? 2)%Z then (if leap_year y then 29 else 28)%Z
  else if (m =? 4)%Z || (m =? 6)%Z || (m =? 9)%Z || (m =? 11)%Z then 30%Z else 31%Z.

Definition valid_ymd (y m d : Z) : bool :=
  (1 <=? m)%Z && (m <=? 12)%Z && (1 <=? d)%Z && (d <=? days_in_month y m)%Z.

(** The local calendar date and time of a time value: [getFullYear()],
    [getMonth() + 1], [getDate()], [getHours()], [getMinutes()],
    [getSeconds()]. *)
Record fields := mkFields {
  f_year : Z; f_month : Z; f_day : Z; f_hours : Z; f_minutes : Z; f_seconds : Z
}.

Definition local_fields (t : Z) : fields :=
  let '(y, m, d) := civil_from_days (t / ms_per_day)%Z in
  let msd := (t mod ms_per_day)%Z in
  mkFields y m d (msd / 3600000)%Z ((msd / 60000) mod 60)%Z ((msd / 1000) mod 60)%Z.

(** MakeFullYear: a year of 0..99 means [1900 + y]. *)
Definition full_year (y : Z) : Z := if (0 <=? y)%Z && (y <=? 99)%Z then (1900 + y)%Z else y.

(** Local midnight of day [d] of month [mi] (counted from 0) of year [y],
    as [setFullYear(y, mi, d)] gives it: [mi] may overflow into the next
    years and [d] may be 0 or overflow the month (MakeDay's
    [ym = y + floor(mi / 12)], [mn = mi mod 12]). *)
Definition local_date (y mi d : Z) : js_date :=
  let ym := (y + mi / 12)%Z in
  let mn := (mi mod 12)%Z in
  time_clip ((days_from_civil ym (mn + 1) 1 + d - 1) * ms_per_day)%Z.

(** [new Date(y, mi, d)]: the same after MakeFullYear. *)
Definition new_Date_ymd (y mi d : Z) : js_date := local_date (full_year y) mi d.

(** ** date-fns [format] *)

(** [addLeadingZeros(n, width)] on a non-negative number: its decimal
    digits padded on the left with zeros to [width]. *)
Definition pad_zeros (width : nat) (n : N) : string :=
  let s := pretty n in String.append (String.concat "" (repeat "0" (width - String.length s))) s.

Definition pad2 (z : Z) : string := pad_zeros 2 (Z.to_N z).

(** Token [yyyy]: date-fns writes the era year ([1 - y] before year 1). *)
Definition format_year (y : Z) : string :=
  pad_zeros 4 (Z.to_N (if (0 <? y)%Z then y else 1 - y)%Z).

Definition format_ymd_fields (f : fields) : string :=
  (format_year (f_year f) ++ "-" ++ pad2 (f_month f) ++ "-" ++ pad2 (f_day f))%string.

(** [format(d, 'yyyy-MM-dd')]; an Invalid Date throws a RangeError
    ([None]). *)
Definition format_date (d : js_date) : option string :=
  match d with
  | None => None
  | Some t => Some (format_ymd_fields (local_fields t))
  end.

(** [format(d, "yyyy-MM-dd'T'HH:mm:ss")]. *)
Definition format_datetime (d : js_date) : option string :=
  match d with
  | None => None
  | Some t =>
      let f := local_fields t in
      Some (format_ymd_fields f ++ "T" ++ pad2 (f_hours f) ++ ":" ++ pad2 (f_minutes f)
            ++ ":" ++ pad2 (f_seconds f))%string
  end.

(** date-fns [MMM] in the en-US locale. *)
Definition month_short (m : Z) : string :=
  nth (Z.to_nat (m - 1)) ["Jan"; "Feb"; "Mar"; "Apr"; "May"; "Jun";
                          "Jul"; "Aug"; "Sep"; "Oct"; "Nov"; "Dec"] "".

(** date-fns [MMMM] in the en-US locale. *)
Definition month_long (m : Z) : string :=
  nth (Z.to_nat (m - 1)) ["January"; "February"; "March"; "April"; "May"; "June"; "July";
                          "August"; "September"; "October"; "November"; "December"] "".

(** [format(d, 'MMM dd')]. *)
Definition format_MMM_dd (d : js_date) : option string :=
  match d with
  | None => None
  | Some t => let f := local_fields t in Some (month_short (f_month f) ++ " " ++ pad2 (f_day f))%string
  end.

(** date-fns [startOfYear]: January 1st, 00:00 of the date's year. *)
Definition startOfYear (d : js_date) : js_date :=
  match d with None => None | Some t => local_date (f_year (local_fields t)) 0 1 end.

(** date-fns [endOfYear]: [setFullYear(year + 1, 0, 0)] (December 31st)
    then [setHours(23, 59, 59, 999)]. *)
Definition endOfYear (d : js_date) : js_date :=
  match d with
  | None => None
  | Some t =>
      match local_date (f_year (local_fields t) + 1) 0 0 with
      | Some u => time_clip (u + 86399999)%Z
      | None => None
      end
  end.

Lemma date_ge_le a b : date_ge a b = date_le b a.
Proof. by destruct a, b. Qed.

Lemma date_ge_nan_l b : date_ge None b = false.
Proof. done. Qed.

Lemma date_ge_nan_r a : date_ge a None = false.
Proof. by destruct a. Qed.

Lemma date_le_nan_l b : date_le None b = false.
Proof. done. Qed.

Lemma date_le_nan_r a : date_le a None = false.
Proof. by destruct a. Qed.

#[export] Hint Rewrite date_ge_nan_l date_ge_nan_r date_le_nan_l date_le_nan_r : et_rw.

(** ** The calendar conversions *)

Lemma days_from_civil_shift y m d k :
  days_from_civil (y + 400 * k) m d = (days_from_civil y m d + 146097 * k)%Z.
Proof.
  unfold days_from_civil.
  replace (if (m <=? 2)%Z then (y + 400 * k - 1)%Z else (y + 400 * k)%Z)
    with ((if (m <=? 2)%Z then (y - 1)%Z else y) + k * 400)%Z by (case_match; lia).
  rewrite Z.div_add by lia.
  set (y' := if (m <=? 2)%Z then (y - 1)%Z else y).
  replace (y' + k * 400 - (y' `div` 400 + k) * 400)%Z with (y' - y' `div` 400 * 400)%Z by lia.
  lia.
Qed.

Lemma civil_from_days_shift z k :
  civil_from_days (z + 146097 * k) =
  let '(y, m, d) := civil_from_days z in ((y + 400 * k)%Z, m, d).
Proof.
  unfold civil_from_days.
  replace (z + 146097 * k + 719468)%Z with (z + 719468 + k * 146097)%Z by lia.
  rewrite Z.div_add, Z.mod_add by lia.
  destruct (civil_of_doe _) as [[y m] d]. f_equal. f_equal. lia.
Qed.

Lemma days_in_month_shift y m k : days_in_month (y + 400 * k) m = days_in_month y m.
Proof.
  unfold days_in_month, leap_year.
  replace (y + 400 * k)%Z with (y + (100 * k) * 4)%Z by lia. rewrite Z.mod_add by lia.
  replace (y + 100 * k * 4)%Z with (y + (4 * k) * 100)%Z by lia. rewrite Z.mod_add by lia.
  replace (y + 4 * k * 100)%Z with (y + k * 400)%Z by lia. by rewrite Z.mod_add by lia.
Qed.

(** The day of the year counted from March 1st, and the day of a 400-year
    era, that [days_from_civil] computes. *)
Definition march_year (y m : Z) : Z := if (m <=? 2)%Z then (y - 1)%Z else y.
Definition doy_of (m d : Z) : Z := ((153 * ((m + 9) mod 12) + 2) / 5 + d - 1)%Z.
Definition doe_of (yoe m d : Z) : Z := (yoe * 365 + yoe / 4 - yoe / 100 + doy_of m d)%Z.

Lemma days_from_civil_doe y m d :
  days_from_civil y m d =
  (march_year y m / 400 * 146097 + doe_of (march_year y m mod 400) m d - 719468)%Z.
Proof.
  unfold days_from_civil, doe_of, doy_of, march_year. cbv zeta.
  set (Y := if (m <=? 2)%Z then (y - 1)%Z else y).
  replace (Y - Y / 400 * 400)%Z with (Y mod 400)%Z by (rewrite Z.mod_eq; lia). lia.
Qed.

Lemma doe_roundtrip doe : (0 <= doe < 146097)%Z ->
  let '(y, m, d) := civil_of_doe doe in days_from_civil y m d = (doe - 719468)%Z.
Proof.
  intros H. unfold civil_of_doe, days_from_civil. cbv zeta.
  repeat case_match; Z.div_mod_to_equations; lia.
Qed.

Lemma yoe_of_doe yoe doy : (0 <= yoe < 400)%Z -> (0 <= doy)%Z ->
  (doy < 365 + (if leap_year (yoe + 1) then 1 else 0))%Z ->
  let doe := (yoe * 365 + yoe / 4 - yoe / 100 + doy)%Z in
  ((doe - doe / 1460 + doe / 36524 - doe / 146096) / 365 = yoe /\ 0 <= doe < 146097)%Z.
Proof.
  intros H1 H2 H3 doe. subst doe. unfold leap_year in H3.
  destruct ((yoe + 1) mod 4 =? 0)%Z eqn:E1, ((yoe + 1) mod 100 =? 0)%Z eqn:E2,
    ((yoe + 1) mod 400 =? 0)%Z eqn:E3;
  simpl in H3; rewrite ?Z.eqb_eq, ?Z.eqb_neq in *; Z.div_mod_to_equations; lia.
Qed.

Lemma month_cases m : (1 <= m <= 12)%Z ->
  m = 1%Z \/ m = 2%Z \/ m = 3%Z \/ m = 4%Z \/ m = 5%Z \/ m = 6%Z \/ m = 7%Z \/
  m = 8%Z \/ m = 9%Z \/ m = 10%Z \/ m = 11%Z \/ m = 12%Z.
Proof. lia. Qed.

Lemma doy_of_bounds y m d : valid_ymd y m d = true ->
  (0 <= doy_of m d < 365 + (if leap_year y then 1 else 0))%Z /\
  ((5 * doy_of m d + 2) / 153 = (m + 9) mod 12)%Z /\
  (doy_of m d = 365 -> m = 2)%Z.
Proof.
  unfold valid_ymd, days_in_month, doy_of. rewrite !andb_true_iff, !Z.leb_le.
  intros [[[H1 H2] H3] H4]. destruct (month_cases m ltac:(lia)) as [Hm|Hm];
  repeat destruct Hm as [->|Hm]; subst; simpl in H4;
  destruct (leap_year y); Z.div_mod_to_equations; lia.
Qed.

Lemma leap_year_march y m :
  (m <=? 2)%Z = true -> leap_year (march_year y m mod 400 + 1) = leap_year y.
Proof.
  intros Hm. unfold march_year. rewrite Hm. unfold leap_year.
  set (q := ((y - 1) / 400)%Z).
  assert ((y - 1) mod 400 + 1 = y + (- q) * 400)%Z as ->
    by (subst q; rewrite Z.mod_eq by lia; lia).
  rewrite Z.mod_add by lia.
  replace (y + - q * 400)%Z with (y + (- q * 100) * 4)%Z by lia. rewrite Z.mod_add by lia.
  replace (y + - q * 100 * 4)%Z with (y + (- q * 4) * 100)%Z by lia. rewrite Z.mod_add by lia.
  done.
Qed.

Lemma civil_of_doe_doe_of yoe m d : (1 <= m <= 12)%Z ->
  ((5 * doy_of m d + 2) / 153 = (m + 9) mod 12)%Z ->
  (let doe := doe_of yoe m d in (doe - doe / 1460 + doe / 36524 - doe / 146096) / 365 = yoe)%Z ->
  civil_of_doe (doe_of yoe m d) = ((if (m <=? 2)%Z then yoe + 1 else yoe)%Z, m, d).
Proof.
  intros Hm Hmp Hyoe. unfold civil_of_doe. cbv zeta in *. rewrite Hyoe.
  replace (doe_of yoe m d - (365 * yoe + yoe / 4 - yoe / 100))%Z with (doy_of m d)
    by (unfold doe_of; lia).
  rewrite Hmp. replace (doy_of m d - (153 * ((m + 9) mod 12) + 2) / 5 + 1)%Z with d
    by (unfold doy_of; lia).
  destruct (month_cases m Hm) as [Hc|Hc]; repeat destruct Hc as [->|Hc]; subst; reflexivity.
Qed.

(** Round trip, days to calendar date and back: [days_from_civil] undoes
    [civil_from_days] on every day. *)
Lemma days_from_civil_civil_from_days z :
  let '(y, m, d) := civil_from_days z in days_from_civil y m d = z.
Proof.
  unfold civil_from_days. cbv zeta.
  pose proof (Z.mod_pos_bound (z + 719468) 146097 ltac:(lia)) as Hb.
  pose proof (doe_roundtrip _ Hb) as H.
  destruct (civil_of_doe _) as [[y m] d].
  rewrite (Z.mul_comm _ 400), days_from_civil_shift, H.
  pose proof (Z.div_mod (z + 719468) 146097 ltac:(lia)). lia.
Qed.

(** Round trip, calendar date to days and back, on valid dates. *)
Lemma civil_from_days_days_from_civil y m d :
  valid_ymd y m d = true -> civil_from_days (days_from_civil y m d) = (y, m, d).
Proof.
  intros Hv. destruct (doy_of_bounds _ _ _ Hv) as [Hb [Hmp H365]].
  assert (1 <= m <= 12)%Z as Hm
    by (unfold valid_ymd in Hv; rewrite !andb_true_iff, !Z.leb_le in Hv; lia).
  rewrite days_from_civil_doe. set (Y := march_year y m).
  pose proof (Z.mod_pos_bound Y 400 ltac:(lia)) as HY.
  destruct (yoe_of_doe (Y mod 400) (doy_of m d)) as [Hyoe Hdoe]; [lia | lia | |].
  { destruct (m <=? 2)%Z eqn:E.
    - subst Y. rewrite leap_year_march by done. lia.
    - assert (doy_of m d <> 365)%Z.
      { intros ?. rewrite Z.leb_gt in E. specialize (H365 ltac:(done)). lia. }
      destruct (leap_year y), (leap_year (Y mod 400 + 1)); lia. }
  fold (doe_of (Y mod 400) m d) in Hyoe, Hdoe.
  unfold civil_from_days. cbv zeta.
  replace (Y / 400 * 146097 + doe_of (Y mod 400) m d - 719468 + 719468)%Z
    with (doe_of (Y mod 400) m d + Y / 400 * 146097)%Z by lia.
  rewrite Z.mod_add, Z.div_add, (Z.mod_small _ 146097), (Z.div_small _ 146097) by lia.
  rewrite civil_of_doe_doe_of by done.
  pose proof (Z.div_mod Y 400 ltac:(lia)).
  subst Y; unfold march_year in *; destruct (m <=? 2)%Z; f_equal; f_equal; lia.
Qed.

Lemma digits_app l1 l2 acc :
  digits (l1 ++ l2) acc = match digits l1 acc with Some a => digits l2 a | None => None end.
Proof.
  revert acc. induction l1 as [|c l1 IH]; intros acc; simpl; [done|].
  destruct (digit c); [apply IH | done].
Qed.

Lemma digit_pretty_N_char n : (n < 10)%N -> digit (pretty_N_char n) = Some (Z.of_N n).
Proof.
  rewrite <- (N2Nat.id n). generalize (N.to_nat n) as k. intros k Hk.
  do 10 (destruct k as [|k]; [reflexivity|]). lia.
Qed.

Lemma digits_pretty_N_go n s :
  digits (list_ascii_of_string (pretty_N_go n s)) 0 = digits (list_ascii_of_string s) (Z.of_N n).
Proof.
  revert s. induction (N.lt_wf_0 n) as [n _ IH]; intros s.
  destruct (decide (n = 0%N)) as [->|Hn]; [by rewrite pretty_N_go_0|].
  rewrite pretty_N_go_step by lia. rewrite IH by (apply N.div_lt; lia).
  cbn [list_ascii_of_string digits]. rewrite digit_pretty_N_char by (apply N.mod_lt; lia).
  f_equal. pose proof (N.div_mod n 10 ltac:(lia)). lia.
Qed.

Lemma length_pretty_N_go n s k :
  (Z.of_N n < 10 ^ Z.of_nat k)%Z -> String.length (pretty_N_go n s) <= String.length s + k.
Proof.
  revert s k. induction (N.lt_wf_0 n) as [n _ IH]; intros s k Hk.
  destruct (decide (n = 0%N)) as [->|Hn]; [rewrite pretty_N_go_0; lia|].
  destruct k as [|k]; [simpl in Hk; lia|].
  rewrite pretty_N_go_step by lia.
  etrans; [apply (IH (n `div` 10)%N ltac:(apply N.div_lt; lia) _ k) |]; simpl; [|lia].
  rewrite N2Z.inj_div. apply Z.div_lt_upper_bound; [lia|].
  rewrite Nat2Z.inj_succ, Z.pow_succ_r in Hk by lia. simpl. lia.
Qed.

Lemma digits_pretty n : digits (list_ascii_of_string (pretty n)) 0 = Some (Z.of_N n).
Proof.
  unfold pretty, pretty_N. case_decide; [by subst|]. by rewrite digits_pretty_N_go.
Qed.

Lemma length_pretty n k : (0 < k)%nat -> (Z.of_N n < 10 ^ Z.of_nat k)%Z -> String.length (pretty n) <= k.
Proof.
  unfold pretty, pretty_N. case_decide; [simpl; lia|].
  intros _ Hk. pose proof (length_pretty_N_go n "" k Hk). simpl in *. lia.
Qed.

Lemma list_ascii_of_string_app' s t :
  list_ascii_of_string (s ++ t) = list_ascii_of_string s ++ list_ascii_of_string t.
Proof. induction s as [|c s IH]; simpl; [done|]. by rewrite IH. Qed.

Lemma length_list_ascii_of_string s : length (list_ascii_of_string s) = String.length s.
Proof. induction s; simpl; auto. Qed.

Lemma concat_zeros_S k :
  String.concat "" (repeat "0" (S k)) = String "0" (String.concat "" (repeat "0" k)).
Proof. by destruct k. Qed.

Lemma zeros_concat k : list_ascii_of_string (String.concat "" (repeat "0" k)) = repeat "0"%char k.
Proof. induction k as [|k IH]; [done|]. by rewrite concat_zeros_S; simpl; rewrite IH. Qed.

Lemma digits_zeros k : digits (repeat "0"%char k) 0 = Some 0%Z.
Proof. induction k as [|k IH]; [done|]. exact IH. Qed.

Lemma pad_zeros_spec w n : (0 < w)%nat -> (Z.of_N n < 10 ^ Z.of_nat w)%Z ->
  length (list_ascii_of_string (pad_zeros w n)) = w /\
  digits (list_ascii_of_string (pad_zeros w n)) 0 = Some (Z.of_N n).
Proof.
  intros Hw Hn. unfold pad_zeros. rewrite list_ascii_of_string_app', zeros_concat.
  split.
  - rewrite length_app, repeat_length, length_list_ascii_of_string.
    pose proof (length_pretty n w Hw Hn). lia.
  - by rewrite digits_app, digits_zeros, digits_pretty.
Qed.

Lemma civil_of_doe_bounds doe : (0 <= doe < 146097)%Z ->
  let '(y, m, d) := civil_of_doe doe in (1 <= m <= 12 /\ 1 <= d <= 31)%Z.
Proof.
  intros H. unfold civil_of_doe. cbv zeta. repeat case_match; Z.div_mod_to_equations; lia.
Qed.

Lemma civil_from_days_bounds z :
  let '(y, m, d) := civil_from_days z in (1 <= m <= 12 /\ 1 <= d <= 31)%Z.
Proof.
  unfold civil_from_days. cbv zeta.
  pose proof (civil_of_doe_bounds ((z + 719468) mod 146097)
    (Z.mod_pos_bound (z + 719468) 146097 ltac:(lia))) as H.
  by destruct (civil_of_doe _) as [[y m] d].
Qed.

Lemma list_length4 {A} (l : list A) : length l = 4%nat -> exists a b c d, l = [a; b; c; d].
Proof. destruct l as [|a [|b [|c [|d [|]]]]]; simpl; intros; try lia. by exists a, b, c, d. Qed.

Lemma list_length2 {A} (l : list A) : length l = 2%nat -> exists a b, l = [a; b].
Proof. destruct l as [|a [|b [|]]]; simpl; intros; try lia. by exists a, b. Qed.

Lemma pad2_spec z : (0 <= z < 100)%Z ->
  exists a b, list_ascii_of_string (pad2 z) = [a; b] /\ digits [a; b] 0 = Some z.
Proof.
  intros Hz. destruct (pad_zeros_spec 2 (Z.to_N z)) as [Hl Hd]; [lia | simpl; lia |].
  destruct (list_length2 _ Hl) as (a & b & Hab). exists a, b.
  unfold pad2. rewrite Hab in Hd |- *. split; [done|]. rewrite Hd. f_equal. lia.
Qed.

Lemma format_year_spec y : (1 <= y <= 9999)%Z ->
  exists a b c d, list_ascii_of_string (format_year y) = [a; b; c; d] /\ digits [a; b; c; d] 0 = Some y.
Proof.
  intros Hy. unfold format_year. replace (0 <? y)%Z with true by lia.
  destruct (pad_zeros_spec 4 (Z.to_N y)) as [Hl Hd]; [lia | simpl; lia |].
  destruct (list_length4 _ Hl) as (a & b & c & d & Habcd). exists a, b, c, d.
  rewrite Habcd in Hd |- *. split; [done|]. rewrite Hd. f_equal. lia.
Qed.

Lemma days_from_civil_day y m d : days_from_civil y m d = (days_from_civil y m 1 + d - 1)%Z.
Proof. unfold days_from_civil. lia. Qed.

Lemma days_from_civil_next_month y m : (1 <= m <= 11)%Z ->
  days_from_civil y (m + 1) 1 = (days_from_civil y m 1 + days_in_month y m)%Z.
Proof.
  intros Hm. unfold days_from_civil, days_in_month, leap_year.
  destruct (month_cases m ltac:(lia)) as [Hc|Hc]; repeat destruct Hc as [->|Hc]; subst; try lia;
  cbn [Z.leb Z.eqb Z.add Z.compare Pos.compare Pos.compare_cont orb andb negb];
  try (Z.div_mod_to_equations; lia).
  all: destruct (y mod 4 =? 0)%Z eqn:E1, (y mod 100 =? 0)%Z eqn:E2, (y mod 400 =? 0)%Z eqn:E3; simpl;
  rewrite ?Z.eqb_eq, ?Z.eqb_neq in *; Z.div_mod_to_equations; lia.
Qed.

Lemma days_from_civil_next_year y :
  days_from_civil (y + 1) 1 1 = (days_from_civil y 12 1 + 31)%Z.
Proof. unfold days_from_civil. simpl. Z.div_mod_to_equations. lia. Qed.

Lemma full_year_id y : (y < 0 \/ 100 <= y)%Z -> full_year y = y.
Proof. intros Hy. unfold full_year. destruct (0 <=? y)%Z eqn:E1, (y <=? 99)%Z eqn:E2; simpl; lia. Qed.

Lemma local_date_first y m : (1 <= m <= 12)%Z ->
  local_date y (m - 1) 1 = time_clip (days_from_civil y m 1 * ms_per_day).
Proof.
  intros Hm. unfold local_date.
  rewrite (Z.div_small (m - 1) 12), (Z.mod_small (m - 1) 12) by lia.
  replace (y + 0)%Z with y by lia. replace (m - 1 + 1)%Z with m by lia. f_equal. lia.
Qed.

Lemma local_date_last y m : (1 <= m <= 12)%Z ->
  local_date y m 0 = time_clip (days_from_civil y m (days_in_month y m) * ms_per_day).
Proof.
  intros Hm. unfold local_date. rewrite (days_from_civil_day y m).
  destruct (Z.eq_dec m 12%Z) as [->|Hne].
  - change (12 / 12)%Z with 1%Z. change (12 mod 12)%Z with 0%Z.
    rewrite days_from_civil_next_year. do 2 f_equal. unfold days_in_month. simpl. lia.
  - rewrite (Z.div_small m 12) by lia. rewrite (Z.mod_small m 12) by lia.
    rewrite !Z.add_0_r, (days_from_civil_next_month y m) by lia. f_equal; lia.
Qed.

Lemma local_fields_day_date days r : (0 <= r < ms_per_day)%Z ->
  let '(y, m, d) := civil_from_days days in
  format_ymd_fields (local_fields (days * ms_per_day + r)) = format_ymd_fields (mkFields y m d 0 0 0).
Proof.
  intros Hr. unfold local_fields.
  replace ((days * ms_per_day + r) / ms_per_day)%Z with days
    by (rewrite Z.add_comm, Z.div_add, Z.div_small by (unfold ms_per_day in *; lia); lia).
  by destruct (civil_from_days days) as [[y m] d].
Qed.

(** [format(d, 'yyyy-MM-dd')] of any time on a valid calendar date gives
    back the date's fields. *)
Lemma format_date_days_from_civil y m d r : valid_ymd y m d = true -> (0 <= r < ms_per_day)%Z ->
  format_date (Some (days_from_civil y m d * ms_per_day + r)%Z) =
  Some (format_year y ++ "-" ++ pad2 m ++ "-" ++ pad2 d)%string.
Proof.
  intros Hv Hr. unfold format_date.
  pose proof (local_fields_day_date (days_from_civil y m d) r Hr) as H.
  rewrite civil_from_days_days_from_civil in H by done. by rewrite H.
Qed.

Lemma local_fields_year y m d r : valid_ymd y m d = true -> (0 <= r < ms_per_day)%Z ->
  f_year (local_fields (days_from_civil y m d * ms_per_day + r)) = y.
Proof.
  intros Hv Hr. unfold local_fields.
  replace ((days_from_civil y m d * ms_per_day + r) / ms_per_day)%Z with (days_from_civil y m d)
    by (rewrite Z.add_comm, Z.div_add, Z.div_small by (unfold ms_per_day in *; lia); lia).
  by rewrite civil_from_days_days_from_civil.
Qed.

(** Years 1..9999 are far inside the range of time values. *)
Lemma time_clip_days_from_civil y m d r :
  (1 <= y <= 9999)%Z -> (1 <= m <= 12)%Z -> (1 <= d <= 31)%Z -> (0 <= r < ms_per_day)%Z ->
  time_clip (days_from_civil y m d * ms_per_day + r) = Some (days_from_civil y m d * ms_per_day + r)%Z.
Proof.
  intros Hy Hm Hd Hr. unfold time_clip, days_from_civil, ms_per_day in *.
  replace (Z.abs _ <=? _)%Z with true; [done|]. symmetry. apply Z.leb_le.
  apply Z.abs_le. case_match; Z.div_mod_to_equations; lia.
Qed.

Lemma take_digits_app l r acc :
  take_digits (length l) (l ++ r) acc = (v ← digits l acc; Some (v, r)).
Proof.
  induction l as [|c l IH] in acc |- *; [done|]. cbn [length app take_digits digits].
  destruct (digit c); [apply IH | done].
Qed.

Lemma take_digits_two a b r v : digits [a; b] 0 = Some v -> take_digits 2 (a :: b :: r) 0 = Some (v, r).
Proof. intros H. pose proof (take_digits_app [a; b] r 0) as E. rewrite H in E. exact E. Qed.

Lemma parse_year_four a b c d r y :
  digits [a; b; c; d] 0 = Some y -> parse_year (a :: b :: c :: d :: r) = Some (y, r).
Proof.
  intros H. assert (digit a <> None) as Ha by (cbn in H; by destruct (digit a)).
  unfold parse_year.
  destruct (Ascii.eqb_spec a "+") as [->|_]; [done|]. destruct (Ascii.eqb_spec a "-") as [->|_]; [done|].
  change (a :: b :: c :: d :: r) with ([a; b; c; d] ++ r). change 4%nat with (length [a; b; c; d]).
  rewrite take_digits_app, H. done.
Qed.

Lemma Date_parse_format_datetime t :
  (1 <= f_year (local_fields t) <= 9999)%Z ->
  exists s, format_datetime (Some t) = Some s /\ Date_parse s = Some (t - t mod 1000)%Z.
Proof.
  unfold format_datetime, local_fields, ms_per_day.
  pose proof (civil_from_days_bounds (t / 86400000)) as Hb.
  pose proof (days_from_civil_civil_from_days (t / 86400000)) as Hr.
  destruct (civil_from_days _) as [[y m] d]. cbn [f_year f_month f_day f_hours f_minutes f_seconds].
  intros Hy. eexists; split; [reflexivity|].
  destruct (format_year_spec y Hy) as (y1 & y2 & y3 & y4 & Ey & Dy).
  destruct (pad2_spec m ltac:(lia)) as (m1 & m2 & Em & Dm).
  destruct (pad2_spec d ltac:(lia)) as (d1 & d2 & Ed & Dd).
  destruct (pad2_spec ((t mod 86400000) / 3600000) ltac:(Z.div_mod_to_equations; lia))
    as (h1 & h2 & Eh & Dh).
  destruct (pad2_spec (((t mod 86400000) / 60000) mod 60) ltac:(Z.div_mod_to_equations; lia))
    as (i1 & i2 & Ei & Di).
  destruct (pad2_spec (((t mod 86400000) / 1000) mod 60) ltac:(Z.div_mod_to_equations; lia))
    as (s1 & s2 & Es & Ds).
  unfold Date_parse, format_ymd_fields. cbn [f_year f_month f_day].
  rewrite !list_ascii_of_string_app', Ey, Em, Ed, Eh, Ei, Es. cbn [app list_ascii_of_string].
  rewrite (parse_year_four _ _ _ _ _ _ Dy). cbn [parse_month_day].
  rewrite (take_digits_two _ _ _ _ Dm). cbn -[take_digits digits mk_time].
  rewrite (take_digits_two _ _ _ _ Dd). cbn -[take_digits digits mk_time].
  unfold parse_time. rewrite (take_digits_two _ _ _ _ Dh). cbn -[take_digits digits mk_time].
  rewrite (take_digits_two _ _ _ _ Di). cbn -[take_digits digits mk_time].
  rewrite (take_digits_two _ _ _ _ Ds). cbn -[digits mk_time].
  unfold mk_time.
  replace (fields_ok _ _ _ _ _ _) with true
    by (symmetry; unfold fields_ok; bool_simpl; rewrite ?Z.leb_le; Z.div_mod_to_equations; lia).
  replace (make_date _ _ _ _ _ _ _ - 0)%Z
    with (days_from_civil y m d * ms_per_day + t mod 86400000 / 1000 * 1000)%Z
    by (unfold make_date, ms_per_day; Z.div_mod_to_equations; lia).
  rewrite time_clip_days_from_civil by (unfold ms_per_day; Z.div_mod_to_equations; lia).
  f_equal. unfold ms_per_day. rewrite Hr. Z.div_mod_to_equations; lia.
Qed.


Lemma local_date_jan1 y : (1 <= y <= 9999)%Z ->
  local_date y 0 1 = Some (days_from_civil y 1 1 * ms_per_day + 0)%Z.
Proof.
  intros Hy. change 0%Z with (1 - 1)%Z at 1. rewrite local_date_first by lia.
  rewrite <- time_clip_days_from_civil by (unfold ms_per_day; lia). by rewrite Z.add_0_r.
Qed.

Lemma new_Date_ymd_jan1 y : (100 <= y <= 9999)%Z ->
  new_Date_ymd y 0 1 = Some (days_from_civil y 1 1 * ms_per_day + 0)%Z.
Proof. intros Hy. unfold new_Date_ymd. rewrite full_year_id by lia. apply local_date_jan1. lia. Qed.

Lemma startOfYear_jan1 y : (100 <= y <= 9999)%Z ->
  startOfYear (new_Date_ymd y 0 1) = Some (days_from_civil y 1 1 * ms_per_day + 0)%Z.
Proof.
  intros Hy. rewrite new_Date_ymd_jan1 by done. unfold startOfYear.
  rewrite local_fields_year by (done || unfold ms_per_day; lia). apply local_date_jan1. lia.
Qed.

Lemma endOfYear_jan1 y : (100 <= y <= 9999)%Z ->
  endOfYear (new_Date_ymd y 0 1) = Some (days_from_civil y 12 31 * ms_per_day + 86399999)%Z.
Proof.
  intros Hy. rewrite new_Date_ymd_jan1 by done. unfold endOfYear.
  rewrite local_fields_year by (done || unfold ms_per_day; lia).
  unfold local_date. change (0 / 12)%Z with 0%Z. change (0 mod 12 + 1)%Z with 1%Z.
  rewrite (Z.add_0_r (y + 1)), days_from_civil_next_year.
  replace ((days_from_civil y 12 1 + 31 + 0 - 1) * ms_per_day)%Z
    with (days_from_civil y 12 31 * ms_per_day + 0)%Z by (rewrite (days_from_civil_day y 12 31); lia).
  rewrite time_clip_days_from_civil by (unfold ms_per_day; lia).
  rewrite Z.add_0_r. apply time_clip_days_from_civil; unfold ms_per_day; lia.
Qed.

Lemma local_fields_month_day t :
  (1 <= f_month (local_fields t) <= 12 /\ 1 <= f_day (local_fields t) <= 31)%Z.
Proof.
  unfold local_fields. pose proof (civil_from_days_bounds (t / ms_per_day)) as H.
  by destruct (civil_from_days _) as [[y m] d].
Qed.

Lemma days_in_month_bounds y m : (28 <= days_in_month y m <= 31)%Z.
Proof. unfold days_in_month. repeat case_match; lia. Qed.

Lemma valid_ymd_intro y m d :
  (1 <= m <= 12)%Z -> (1 <= d <= days_in_month y m)%Z -> valid_ymd y m d = true.
Proof. intros. unfold valid_ymd. bool_simpl. rewrite !Z.leb_le. lia. Qed.

(** [new Date(y, m - 1, 1)] and [new Date(y, m, 0)]: the first and the last
    day of month [m], for the years of four digits from 100 on. *)
Lemma new_Date_ymd_month_first y m : (100 <= y <= 9999)%Z -> (1 <= m <= 12)%Z ->
  new_Date_ymd y (m - 1) 1 = Some (days_from_civil y m 1 * ms_per_day + 0)%Z.
Proof.
  intros Hy Hm. unfold new_Date_ymd. rewrite full_year_id, local_date_first by lia.
  rewrite <- time_clip_days_from_civil by (unfold ms_per_day; lia). by rewrite Z.add_0_r.
Qed.

Lemma new_Date_ymd_month_last y m : (100 <= y <= 9999)%Z -> (1 <= m <= 12)%Z ->
  new_Date_ymd y m 0 = Some (days_from_civil y m (days_in_month y m) * ms_per_day + 0)%Z.
Proof.
  intros Hy Hm. pose proof (days_in_month_bounds y m). unfold new_Date_ymd.
  rewrite full_year_id, local_date_last by lia.
  rewrite <- time_clip_days_from_civil by (unfold ms_per_day; lia). by rewrite Z.add_0_r.
Qed.

(** The calendar conversions are inverse: every day number is the day of
    its calendar date, and every valid calendar date is the date of its day
    number. *)
Theorem calendar_roundtrip :
  (forall z, let '(y, m, d) := civil_from_days z in days_from_civil y m d = z) /\
  (forall y m d, valid_ymd y m d = true -> civil_from_days (days_from_civil y m d) = (y, m, d)).
Proof. split; [apply days_from_civil_civil_from_days | apply civil_from_days_days_from_civil]. Qed.
