(* ===== verification/JsNumber.v ===== *)
(** JavaScript numbers as the form and the report pages use them:
    [String.prototype.trim], [Number(string)] (ECMAScript's StringToNumber:
    the StringNumericLiteral grammar, then rounding of its mathematical
    value to the nearest binary64 double, ties to even, with overflow to
    Infinity and underflow to zero), [isNaN], the relational operators on
    numbers, division, and the double precision the results are kept in.

    A number is [js_number]: a finite value as an exact rational, the two
    infinities, and NaN.  Negative zero is identified with zero: the code
    only compares amounts with [<=] and serialises them, where the two
    agree.

    [Number::toString] and [JSON.stringify] of a number are modelled by the
    search for the shortest decimal that reads back as the same double.
    The file proves that this search gives the plain decimal digits of an
    integer below [2^52], and that a positive number [JSON.stringify]
    writes reads back as itself. *)

From S2P Require Import Prelude JsRuntime DateTime.
From Stdlib Require Import Ascii String Qabs Qround.
From stdpp Require Import pretty.

Inductive js_number := Finite (q : Q) | PosInfinity | NegInfinity | NaN.

Definition isNaN (x : js_number) : bool := match x with NaN => true | _ => false end.

(** [x <= 0]: false on NaN. *)
Definition js_le_zero (x : js_number) : bool :=
  match x with
  | Finite q => if Qle_bool q 0 then true else false
  | NegInfinity => true
  | PosInfinity | NaN => false
  end.

(** [x > 0]. *)
Definition js_positive (x : js_number) : bool :=
  match x with
  | Finite q => if Qlt_le_dec 0 q then true else false
  | PosInfinity => true
  | NegInfinity | NaN => false
  end.

Definition js_neg (x : js_number) : js_number :=
  match x with
  | Finite q => Finite (- q)
  | PosInfinity => NegInfinity
  | NegInfinity => PosInfinity
  | NaN => NaN
  end.

(** ** [String.prototype.trim] *)

(** WhiteSpace and LineTerminator code points of the 8-bit range: TAB, LF,
    VT, FF, CR, SPACE and NO-BREAK SPACE. *)
Definition js_space (c : ascii) : bool :=
  let n := nat_of_ascii c in
  (n =? 9) || (n =? 10) || (n =? 11) || (n =? 12) || (n =? 13) || (n =? 32) || (n =? 160).

Fixpoint trim_start (l : list ascii) : list ascii :=
  match l with
  | c :: l' => if js_space c then trim_start l' else l
  | [] => []
  end.

Definition js_trim (s : string) : string :=
  string_of_list_ascii (rev (trim_start (rev (trim_start (list_ascii_of_string s))))).

(** ** Rounding to binary64 *)

(** [2^e] as a rational, for an exponent of either sign. *)
Definition Qpow2 (e : Z) : Q :=
  if (0 <=? e)%Z then inject_Z (2 ^ e) else 1 # Z.to_pos (2 ^ (- e)).

(** The floor of [n / d / 2^e] and the remainder, over the common
    denominator [den]: [n / d / 2^e = (f + r / den)]. *)
Definition scaled (n d e : Z) : Z * Z * Z :=
  let num := if (0 <=? e)%Z then n else (n * 2 ^ (- e))%Z in
  let den := if (0 <=? e)%Z then (d * 2 ^ e)%Z else d in
  ((num / den)%Z, (num mod den)%Z, den).

(** Round half to even of [f + r / den]. *)
Definition round_half_even (f r den : Z) : Z :=
  match Z.compare (2 * r) den with
  | Lt => f
  | Gt => f + 1
  | Eq => if Z.even f then f else f + 1
  end.

(** The double nearest to the positive rational [n / d]: the exponent [e]
    puts [n / d / 2^e] in [2^52, 2^53) (at least -1074, the subnormal
    range), the significand is rounded half to even, and a result of
    [2^1024] or more overflows to Infinity. *)
Definition round_pos (n d : Z) : js_number :=
  let e0 := (Z.log2 n - Z.log2 d - 53)%Z in
  let '(f0, _, _) := scaled n d e0 in
  let e1 := if (2 ^ 53 <=? f0)%Z then (e0 + 1)%Z else e0 in
  let e := Z.max e1 (-1074) in
  let '(f, r, den) := scaled n d e in
  let m := round_half_even f r den in
  if (2 ^ 2098 <=? m * 2 ^ (e + 1074))%Z then PosInfinity else Finite (inject_Z m * Qpow2 e).

(** The double nearest to a rational, by its sign. *)
Definition round_binary64 (q : Q) : js_number :=
  match Qnum q with
  | Z0 => Finite 0
  | Zpos n => round_pos (Zpos n) (Zpos (Qden q))
  | Zneg n => js_neg (round_pos (Zpos n) (Zpos (Qden q)))
  end.

(** [a + b] (Number::add): NaN absorbs, opposite infinities give NaN, an
    infinity absorbs a finite number, and two finite numbers give their
    exact sum rounded to a double. *)
Definition js_add (x y : js_number) : js_number :=
  match x, y with
  | NaN, _ | _, NaN => NaN
  | PosInfinity, NegInfinity | NegInfinity, PosInfinity => NaN
  | PosInfinity, _ | _, PosInfinity => PosInfinity
  | NegInfinity, _ | _, NegInfinity => NegInfinity
  | Finite a, Finite b => round_binary64 (a + b)
  end.

(** [a / b] on finite operands (Number::divide): [0 / 0] is NaN, another
    value over 0 an infinity of its sign, and otherwise the exact quotient
    rounded to a double. *)
Definition js_div (a b : Q) : js_number :=
  if Qeq_dec b 0 then
    if Qeq_dec a 0 then NaN else if Qlt_le_dec 0 a then PosInfinity else NegInfinity
  else round_binary64 (a / b).

(** [x / y] on numbers: NaN absorbs, an infinity over an infinity is NaN,
    over a finite number an infinity of the product's sign, and a finite
    number over an infinity is 0. *)
Definition js_divide (x y : js_number) : js_number :=
  match x, y with
  | NaN, _ | _, NaN => NaN
  | (PosInfinity | NegInfinity), (PosInfinity | NegInfinity) => NaN
  | PosInfinity, Finite b => if Qle_bool 0 b then PosInfinity else NegInfinity
  | NegInfinity, Finite b => if Qle_bool 0 b then NegInfinity else PosInfinity
  | Finite _, (PosInfinity | NegInfinity) => Finite 0
  | Finite a, Finite b => js_div a b
  end.

(** ** [Number(string)] *)

(** [m * 10^x] as a rational. *)
Definition dec_value (m x : Z) : Q :=
  if (0 <=? x)%Z then inject_Z (m * 10 ^ x) else m # Z.to_pos (10 ^ (- x)).

Definition is_digit (c : ascii) : bool := match digit c with Some _ => true | None => false end.

(** The longest prefix of decimal digits and the rest. *)
Fixpoint span_digits (l : list ascii) : list ascii * list ascii :=
  match l with
  | c :: l' => if is_digit c then let '(d, r) := span_digits l' in (c :: d, r) else ([], l)
  | [] => ([], [])
  end.

(** DecimalDigits: at least one digit. *)
Definition digits_ne (l : list ascii) : option Z :=
  match l with [] => None | _ => digits l 0 end.

(** An optional ExponentPart: [e] or [E], an optional sign, digits. *)
Definition parse_exponent (l : list ascii) : option Z :=
  match l with
  | [] => Some 0%Z
  | c :: r =>
      if Ascii.eqb c "e" || Ascii.eqb c "E" then
        match r with
        | "+"%char :: r' => digits_ne r'
        | "-"%char :: r' => option_map Z.opp (digits_ne r')
        | _ => digits_ne r
        end
      else None
  end.

(** StrUnsignedDecimalLiteral other than [Infinity]: digits with an
    optional fraction, or a fraction alone, then an optional exponent; its
    value as [(mantissa, exponent)]. *)
Definition parse_unsigned_decimal (l : list ascii) : option (Z * Z) :=
  let '(i, r) := span_digits l in
  match r with
  | "."%char :: r' =>
      let '(f, r'') := span_digits r' in
      match i ++ f with
      | [] => None
      | _ =>
          match parse_exponent r'', digits (i ++ f) 0 with
          | Some x, Some v => Some (v, x - Z.of_nat (List.length f))%Z
          | _, _ => None
          end
      end
  | _ =>
      match i with
      | [] => None
      | _ => match parse_exponent r, digits i 0 with
             | Some x, Some v => Some (v, x)
             | _, _ => None
             end
      end
  end.

Definition hex_digit (c : ascii) : option Z :=
  let n := nat_of_ascii c in
  if (48 <=? n) && (n <=? 57) then Some (Z.of_nat n - 48)%Z
  else if (97 <=? n) && (n <=? 102) then Some (Z.of_nat n - 87)%Z
  else if (65 <=? n) && (n <=? 70) then Some (Z.of_nat n - 55)%Z
  else None.

Fixpoint radix_digits (radix : Z) (l : list ascii) (acc : Z) : option Z :=
  match l with
  | [] => Some acc
  | c :: l' =>
      match hex_digit c with
      | Some d => if (d <? radix)%Z then radix_digits radix l' (radix * acc + d)%Z else None
      | None => None
      end
  end.

(** NonDecimalIntegerLiteral: [0x], [0o] or [0b] and at least one digit. *)
Definition parse_nondecimal (l : list ascii) : option Z :=
  match l with
  | "0"%char :: x :: (_ :: _) as r =>
      if Ascii.eqb x "x" || Ascii.eqb x "X" then radix_digits 16 r 0
      else if Ascii.eqb x "o" || Ascii.eqb x "O" then radix_digits 8 r 0
      else if Ascii.eqb x "b" || Ascii.eqb x "B" then radix_digits 2 r 0
      else None
  | _ => None
  end.

(** The mathematical value of a StringNumericLiteral: [None] when the
    string is not one. *)
Inductive literal_value := LInfinity (neg : bool) | LValue (q : Q).

Definition string_numeric_value (l : list ascii) : option literal_value :=
  match l with
  | [] => Some (LValue 0)
  | _ =>
    match parse_nondecimal l with
    | Some n => Some (LValue (inject_Z n))
    | None =>
      let '(neg, body) :=
        match l with
        | "+"%char :: r => (false, r)
        | "-"%char :: r => (true, r)
        | _ => (false, l)
        end in
      if bool_decide (body = list_ascii_of_string "Infinity") then Some (LInfinity neg)
      else match parse_unsigned_decimal body with
           | Some (m, x) => Some (LValue (dec_value (if neg then - m else m)%Z x))
           | None => None
           end
    end
  end.

(** [Number(s)]: the trimmed string's value rounded to a double, NaN when
    it is not a numeric literal. *)
Definition Number (s : string) : js_number :=
  match string_numeric_value (list_ascii_of_string (js_trim s)) with
  | None => NaN
  | Some (LInfinity false) => PosInfinity
  | Some (LInfinity true) => NegInfinity
  | Some (LValue q) => round_binary64 q
  end.

(** The number a JSON literal [m * 10^e] denotes ([JSON.parse] rounds it
    as [Number] does). *)
Definition json_number (m e : Z) : js_number := round_binary64 (dec_value m e).

(** ** [Number::toString] on doubles *)

(** Number of decimal digits of a positive integer. *)
Fixpoint ndigits_fuel (fuel : nat) (z : Z) : Z :=
  match fuel with
  | O => 1
  | S f => if (z <? 10)%Z then 1 else (1 + ndigits_fuel f (z / 10))%Z
  end.

Definition ndigits (z : Z) : Z := ndigits_fuel (Z.to_nat (Z.log2 z + 1)) z.

(** [n] with [10^(n-1) <= q < 10^n], for [q > 0]. *)
Definition decimal_exponent (q : Q) : Z :=
  let g := (ndigits (Qnum q) - ndigits (Zpos (Qden q)))%Z in
  if Qle_bool (dec_value 1 g) q then (g + 1)%Z else g.

(** [floor(q / 10^e)] and whether the division is exact. *)
Definition floor_div10 (q : Q) (e : Z) : Z * bool :=
  let n := if (0 <=? e)%Z then Qnum q else (Qnum q * 10 ^ (- e))%Z in
  let d := if (0 <=? e)%Z then (Zpos (Qden q) * 10 ^ e)%Z else Zpos (Qden q) in
  ((n / d)%Z, (n mod d =? 0)%Z).

(** Two numbers are the same double. *)
Definition same_number (x y : js_number) : bool :=
  match x, y with
  | Finite a, Finite b => Qeq_bool a b
  | PosInfinity, PosInfinity | NegInfinity, NegInfinity | NaN, NaN => true
  | _, _ => false
  end.

(** The [k]-digit candidates of Number::toString for [q > 0]: the
    decimals [s * 10^(n-k)] just below and above [q] that read back as
    [q], the nearer one, and the even one on a tie. *)
Definition candidate (q : Q) (n : Z) (k : Z) : option (Z * Z) :=
  let e := (n - k)%Z in
  let '(f, exact) := floor_div10 q e in
  let c := if exact then f else (f + 1)%Z in
  let ok s := (0 <? s)%Z && same_number (round_binary64 (dec_value s e)) (Finite q) in
  let df := (q - dec_value f e)%Q in
  let dc := (dec_value c e - q)%Q in
  match ok f, ok c with
  | true, true =>
      if Qlt_le_dec df dc then Some (f, e)
      else if Qlt_le_dec dc df then Some (c, e)
      else if Z.even f then Some (f, e) else Some (c, e)
  | true, false => Some (f, e)
  | false, true => Some (c, e)
  | false, false => None
  end.

(** The smallest number of digits [k] (at most 17) with a candidate. *)
Fixpoint shortest_from (q : Q) (n : Z) (k : Z) (fuel : nat) : option (Z * Z) :=
  match fuel with
  | O => None
  | S f => match candidate q n k with
           | Some r => Some r
           | None => shortest_from q n (k + 1) f
           end
  end.

(** The decimal [s * 10^e] that Number::toString writes for a positive
    double [q]. *)
Definition shortest_decimal (q : Q) : option (Z * Z) :=
  shortest_from q (decimal_exponent q) 1 17.

(** [Number::toString(x)] ([String(x)], [`${x}`], [x.toString()]). *)
Definition number_toString (x : js_number) : string :=
  match x with
  | NaN => "NaN"
  | PosInfinity => "Infinity"
  | NegInfinity => "-Infinity"
  | Finite q =>
      match Qnum q with
      | Z0 => "0"
      | Zpos p =>
          match shortest_decimal q with
          | Some (s, e) => number_to_string s e
          | None => "NaN"
          end
      | Zneg p =>
          match shortest_decimal (- q)%Q with
          | Some (s, e) => number_to_string (- s) e
          | None => "NaN"
          end
      end
  end.

(** [JSON.stringify] of a number inside a body: the literal
    Number::toString writes, and [null] for NaN and the infinities. *)
Definition number_to_json (x : js_number) : jsval :=
  match x with
  | Finite q =>
      match Qnum q with
      | Z0 => JNum 0 0
      | Zpos _ => match shortest_decimal q with Some (s, e) => JNum s e | None => JNull end
      | Zneg _ => match shortest_decimal (- q)%Q with Some (s, e) => JNum (- s) e | None => JNull end
      end
  | _ => JNull
  end.

(** ** [Number.prototype.toFixed] *)

(** The decimal digits of a non-negative integer, ["0"] for zero. *)
Definition digits_string (n : Z) : string := pretty (Z.to_N n).

(** [n / 10^f] written with [f] digits after the point (at least one
    before it). *)
Definition fixed_string (f : nat) (n : Z) : string :=
  let m := digits_string n in
  let k := String.length m in
  let m := if (k <=? f)%nat then (zeros (S f - k) ++ m)%string else m in
  let k := String.length m in
  match f with
  | O => m
  | _ => (substring 0 (k - f) m ++ "." ++ substring (k - f) f m)%string
  end.

(** The integer [n] closest to [q * 10^f], the larger one on a tie. *)
Definition fixed_round (f : nat) (q : Q) : Z :=
  Qfloor (q * inject_Z (10 ^ Z.of_nat f) + (1 # 2)).

(** [x.toFixed(f)]: NaN and the infinities as Number::toString, values of
    [10^21] or more as Number::toString, the others rounded to [f]
    digits after the point, with a minus sign when [x < 0]. *)
Definition toFixed (f : nat) (x : js_number) : string :=
  match x with
  | Finite q =>
      if Qle_bool (inject_Z (10 ^ 21)) (Qabs q) then number_toString x
      else if Qlt_le_dec q 0 then ("-" ++ fixed_string f (fixed_round f (- q)))%string
      else fixed_string f (fixed_round f q)
  | _ => number_toString x
  end.

(** ** Lemmas *)

Definition nullb {A} (l : list A) : bool := match l with [] => true | _ => false end.

Lemma nullb_trim_start l : nullb (trim_start l) = forallb js_space l.
Proof. induction l as [|c l IH]; simpl; [done|]. by destruct (js_space c). Qed.

Lemma forallb_rev {A} (p : A -> bool) l : forallb p (rev l) = forallb p l.
Proof.
  induction l as [|x l IH]; simpl; [done|].
  rewrite forallb_app, IH. simpl. by rewrite andb_true_r, andb_comm.
Qed.

Lemma forallb_trim_start l : forallb js_space (trim_start l) = forallb js_space l.
Proof. induction l as [|c l IH]; simpl; [done|]. destruct (js_space c) eqn:E; simpl; rewrite ?E; done. Qed.

Lemma str_truthy_string_of_list l : str_truthy (string_of_list_ascii l) = negb (nullb l).
Proof. by destruct l. Qed.

Lemma nullb_rev {A} (l : list A) : nullb (rev l) = nullb l.
Proof. destruct l as [|x l]; simpl; [done|]. by destruct (rev l). Qed.

(** [s.trim()] is empty exactly when every character of [s] is white
    space. *)
Lemma js_trim_truthy s :
  str_truthy (js_trim s) = negb (forallb js_space (list_ascii_of_string s)).
Proof.
  unfold js_trim. rewrite str_truthy_string_of_list, nullb_rev, nullb_trim_start,
    forallb_rev, forallb_trim_start. done.
Qed.

Lemma Qpow2_pos e : (0 < Qpow2 e)%Q.
Proof.
  unfold Qpow2. case_match.
  - apply (Qlt_le_trans _ (inject_Z 1)); [done|]. rewrite <- Zle_Qle.
    assert (0 < 2 ^ e)%Z by (apply Z.pow_pos_nonneg; lia). lia.
  - done.
Qed.

Lemma Qpow2_neg e : (e < 0)%Z -> (Qpow2 e == 1 / inject_Z (2 ^ (- e)))%Q.
Proof.
  intros He. unfold Qpow2. replace (0 <=? e)%Z with false by lia.
  assert (0 < 2 ^ (- e))%Z by (apply Z.pow_pos_nonneg; lia).
  unfold Qeq, Qdiv, Qinv, inject_Z. simpl. destruct (2 ^ (- e))%Z eqn:E; try lia. simpl. lia.
Qed.

Lemma inject_Z_nz z : z <> 0%Z -> ~ (inject_Z z == 0)%Q.
Proof. intros H Hq. unfold Qeq in Hq. simpl in Hq. lia. Qed.

Lemma inject_Z_pos z : (0 < z)%Z -> (0 < inject_Z z)%Q.
Proof. intros H. change 0%Q with (inject_Z 0). by rewrite <- Zlt_Qlt. Qed.

Lemma inject_Z_nonneg z : (0 <= z)%Z -> (0 <= inject_Z z)%Q.
Proof. intros H. change 0%Q with (inject_Z 0). by rewrite <- Zle_Qle. Qed.

Lemma scaled_spec n d e : (0 < n)%Z -> (0 < d)%Z ->
  let '(f, r, den) := scaled n d e in
  (0 < den /\ 0 <= r < den /\ 0 <= f)%Z /\
  (inject_Z n / inject_Z d == (inject_Z f + inject_Z r / inject_Z den) * Qpow2 e)%Q.
Proof.
  intros Hn Hd. unfold scaled. destruct (0 <=? e)%Z eqn:He.
  - assert (0 < 2 ^ e)%Z by (apply Z.pow_pos_nonneg; lia).
    assert (0 < d * 2 ^ e)%Z by lia.
    pose proof (Z.div_mod n (d * 2 ^ e) ltac:(lia)) as Hdm.
    pose proof (Z.mod_pos_bound n (d * 2 ^ e) ltac:(lia)).
    split; [split; [lia | split; [lia | apply Z.div_pos; lia]]|].
    unfold Qpow2. rewrite He.
    set (f := (n / (d * 2 ^ e))%Z) in *. set (r := (n mod (d * 2 ^ e))%Z) in *.
    rewrite Hdm at 1. rewrite inject_Z_plus, !inject_Z_mult.
    field. repeat split; apply inject_Z_nz; lia.
  - assert (0 < 2 ^ (- e))%Z by (apply Z.pow_pos_nonneg; lia).
    pose proof (Z.div_mod (n * 2 ^ (- e)) d ltac:(lia)) as Hdm.
    pose proof (Z.mod_pos_bound (n * 2 ^ (- e)) d ltac:(lia)).
    split; [split; [lia | split; [lia | apply Z.div_pos; lia]]|].
    rewrite Qpow2_neg by lia.
    set (f := (n * 2 ^ (- e) / d)%Z) in *. set (r := (n * 2 ^ (- e) mod d)%Z) in *.
    assert (inject_Z n == (inject_Z d * inject_Z f + inject_Z r) / inject_Z (2 ^ (- e)))%Q as ->.
    { rewrite <- inject_Z_mult, <- inject_Z_plus, <- Hdm, inject_Z_mult.
      field. apply inject_Z_nz; lia. }
    field. repeat split; apply inject_Z_nz; lia.
Qed.

Lemma round_half_even_spec f r den : (0 < den)%Z -> (0 <= r < den)%Z ->
  (f <= round_half_even f r den <= f + 1)%Z /\
  (Qabs (inject_Z (round_half_even f r den) - (inject_Z f + inject_Z r / inject_Z den)) <= 1 # 2)%Q.
Proof.
  intros Hden Hr. assert (0 < inject_Z den)%Q by (apply inject_Z_pos; lia).
  assert (0 <= inject_Z r / inject_Z den < 1)%Q.
  { split; [apply Qle_shift_div_l; [done|]; rewrite Qmult_0_l; apply inject_Z_nonneg; lia|].
    apply Qlt_shift_div_r; [done|]. rewrite Qmult_1_l, <- Zlt_Qlt. lia. }
  unfold round_half_even. destruct (Z.compare_spec (2 * r) den) as [Hc|Hc|Hc].
  - assert (inject_Z r / inject_Z den == 1 # 2)%Q.
    { rewrite <- Hc, inject_Z_mult. field. apply inject_Z_nz; lia. }
    destruct (Z.even f); (split; [lia|]); rewrite ?inject_Z_plus, H1; try change (inject_Z 1) with 1%Q; apply Qabs_Qle_condition; lra.
  - assert (inject_Z r / inject_Z den < 1 # 2)%Q.
    { apply Qlt_shift_div_r; [done|].
      assert (2 * inject_Z r < inject_Z den)%Q; [|lra].
      change 2%Q with (inject_Z 2). rewrite <- inject_Z_mult, <- Zlt_Qlt. lia. }
    split; [lia|]. apply Qabs_Qle_condition. lra.
  - assert (1 # 2 < inject_Z r / inject_Z den)%Q.
    { apply Qlt_shift_div_l; [done|].
      assert (inject_Z den < 2 * inject_Z r)%Q; [|lra].
      change 2%Q with (inject_Z 2). rewrite <- inject_Z_mult, <- Zlt_Qlt. lia. }
    split; [lia|]. rewrite inject_Z_plus. change (inject_Z 1) with 1%Q. apply Qabs_Qle_condition. lra.
Qed.

(** Rounding a positive rational: the result is Infinity, or a double
    [m * 2^e] with a significand of at most 54 bits ([m <= 2^53]), an
    exponent of at least -1074, within half a unit [2^e] of the value. *)
Lemma round_pos_spec n d : (0 < n)%Z -> (0 < d)%Z ->
  round_pos n d = PosInfinity \/
  exists m e, round_pos n d = Finite (inject_Z m * Qpow2 e) /\ (0 <= m)%Z /\ (-1074 <= e)%Z /\
    (Qabs (inject_Z m * Qpow2 e - inject_Z n / inject_Z d) <= (1 # 2) * Qpow2 e)%Q.
Proof.
  intros Hn Hd. unfold round_pos.
  destruct (scaled n d _) as [[f0 r0] den0].
  set (e := Z.max _ (-1074)).
  pose proof (scaled_spec n d e Hn Hd) as Hs.
  destruct (scaled n d e) as [[f r] den].
  destruct Hs as [(Hden & Hr & Hf) Hq].
  destruct (round_half_even_spec f r den Hden Hr) as [Hm Herr].
  case_match; [by left|]. right.
  eexists _, e. split; [reflexivity|]. split; [lia|]. split; [lia|].
  rewrite Hq.
  setoid_replace (inject_Z (round_half_even f r den) * Qpow2 e -
                  (inject_Z f + inject_Z r / inject_Z den) * Qpow2 e)%Q
    with ((inject_Z (round_half_even f r den) - (inject_Z f + inject_Z r / inject_Z den)) * Qpow2 e)%Q
    using relation Qeq by ring.
  rewrite Qabs_Qmult, (Qabs_pos (Qpow2 e)) by (apply Qlt_le_weak, Qpow2_pos).
  apply Qmult_le_compat_r; [done | apply Qlt_le_weak, Qpow2_pos].
Qed.

Lemma round_pos_nonneg n d : (0 < n)%Z -> (0 < d)%Z ->
  round_pos n d = PosInfinity \/ exists v, round_pos n d = Finite v /\ (0 <= v)%Q.
Proof.
  intros Hn Hd. destruct (round_pos_spec n d Hn Hd) as [H|(m & e & H & Hm & _)]; [by left|].
  right. eexists; split; [exact H|]. apply Qmult_le_0_compat; [by apply inject_Z_nonneg|].
  apply Qlt_le_weak, Qpow2_pos.
Qed.

Lemma Number_empty : Number "" = Finite 0.
Proof. reflexivity. Qed.

(** [isNaN(x) || x <= 0] is the negation of [x > 0]. *)
Lemma isNaN_le_zero_positive x : isNaN x || js_le_zero x = negb (js_positive x).
Proof.
  destruct x as [q| | |]; simpl; try done.
  destruct (Qle_bool q 0) eqn:E; destruct (Qlt_le_dec 0 q); simpl; try done.
  - apply Qle_bool_iff in E. lra.
  - exfalso. apply (proj2 (Qle_bool_iff q 0)) in q0. congruence.
Qed.

Lemma fixed_round_spec f q :
  (inject_Z (fixed_round f q) <= q * inject_Z (10 ^ Z.of_nat f) + (1 # 2) <
   inject_Z (fixed_round f q) + 1)%Q.
Proof.
  unfold fixed_round. split; [apply Qfloor_le|].
  pose proof (Qlt_floor (q * inject_Z (10 ^ Z.of_nat f) + (1 # 2))) as H.
  rewrite inject_Z_plus in H. exact H.
Qed.

(** [x.toFixed(2)] of an amount in [0, 10^21) writes the integer [n]
    nearest to [100 x] (the larger on a tie) with two decimals: what the
    pages show is within half a cent of the amount, and strictly so below
    it. *)
Theorem toFixed2_bound q :
  (0 <= q)%Q -> (q < inject_Z (10 ^ 21))%Q ->
  toFixed 2 (Finite q) = fixed_string 2 (fixed_round 2 q) /\
  (Qabs (inject_Z (fixed_round 2 q) / 100 - q) <= 1 # 200)%Q /\
  (q - inject_Z (fixed_round 2 q) / 100 < 1 # 200)%Q.
Proof.
  intros H0 H21. unfold toFixed.
  replace (Qle_bool (inject_Z (10 ^ 21)) (Qabs q)) with false.
  2: { symmetry. apply not_true_iff_false. rewrite Qle_bool_iff, Qabs_pos by done. lra. }
  destruct (Qlt_le_dec q 0) as [Hq|_]; [lra|].
  pose proof (fixed_round_spec 2 q) as [Hl Hu]. change (inject_Z (10 ^ Z.of_nat 2)) with 100%Q in Hl, Hu.
  split; [done|]. split.
  - apply Qabs_Qle_condition. split.
    + apply (Qmult_le_r _ _ 100); [done|].
      setoid_replace ((inject_Z (fixed_round 2 q) / 100 - q) * 100)%Q
        with (inject_Z (fixed_round 2 q) - q * 100)%Q using relation Qeq by field. lra.
    + apply (Qmult_le_r _ _ 100); [done|].
      setoid_replace ((inject_Z (fixed_round 2 q) / 100 - q) * 100)%Q
        with (inject_Z (fixed_round 2 q) - q * 100)%Q using relation Qeq by field. lra.
  - apply (Qmult_lt_r _ _ 100); [done|].
    setoid_replace ((q - inject_Z (fixed_round 2 q) / 100) * 100)%Q
      with (q * 100 - inject_Z (fixed_round 2 q))%Q using relation Qeq by field. lra.
Qed.

Lemma Q_as_fraction q : (inject_Z (Qnum q) / inject_Z (Zpos (Qden q)) == q)%Q.
Proof. destruct q as [n d]. unfold Qeq, Qdiv, Qinv, inject_Z. simpl. lia. Qed.

(** [round_binary64], which [Number] and [JSON.parse] apply to a literal's
    value, gives for a positive value either Infinity or a double [m * 2^e]
    (exponent at least -1074) within half a unit in the last place of it. *)
Theorem round_binary64_error q : (0 < q)%Q ->
  round_binary64 q = PosInfinity \/
  exists m e, round_binary64 q = Finite (inject_Z m * Qpow2 e) /\ (0 <= m)%Z /\ (-1074 <= e)%Z /\
    (Qabs (inject_Z m * Qpow2 e - q) <= (1 # 2) * Qpow2 e)%Q.
Proof.
  intros Hq. unfold round_binary64. pose proof (Q_as_fraction q) as Hf.
  destruct q as [[|n|n] d]; cbn [Qnum Qden] in *; try (unfold Qlt in Hq; simpl in Hq; lia).
  destruct (round_pos_spec (Zpos n) (Zpos d)) as [H|(m & e & H & H1 & H2 & H3)]; [lia | lia | by left |].
  right. exists m, e. split; [done|]. split; [done|]. split; [done|]. by rewrite <- Hf.
Qed.

Lemma round_binary64_error_witness :
  (0 < 1 # 10)%Q /\
  (round_binary64 (1 # 10) = PosInfinity \/
   exists m e, round_binary64 (1 # 10) = Finite (inject_Z m * Qpow2 e) /\ (0 <= m)%Z /\ (-1074 <= e)%Z /\
     (Qabs (inject_Z m * Qpow2 e - (1 # 10)) <= (1 # 2) * Qpow2 e)%Q).
Proof.
  assert (0 < 1 # 10)%Q as H by reflexivity. split; [exact H | apply (round_binary64_error _ H)].
Defined.

Lemma toFixed2_bound_witness :
  (0 <= 1005 # 1000)%Q /\ (1005 # 1000 < inject_Z (10 ^ 21))%Q /\
  toFixed 2 (Finite (1005 # 1000)) = fixed_string 2 (fixed_round 2 (1005 # 1000)) /\
  (Qabs (inject_Z (fixed_round 2 (1005 # 1000)) / 100 - (1005 # 1000)) <= 1 # 200)%Q /\
  ((1005 # 1000) - inject_Z (fixed_round 2 (1005 # 1000)) / 100 < 1 # 200)%Q.
Proof.
  assert (0 <= 1005 # 1000)%Q as H0 by (vm_compute; discriminate).
  assert (1005 # 1000 < inject_Z (10 ^ 21))%Q as H1 by reflexivity.
  split; [exact H0|]. split; [exact H1 | apply (toFixed2_bound _ H0 H1)].
Defined.

(** ** The characters Number::toString writes *)

(** Digits, the point, the exponent's [e] and signs, and the letters of
    [NaN] and [Infinity]. *)
Definition num_char (c : ascii) : bool :=
  is_digit c || existsb (Ascii.eqb c) (list_ascii_of_string ".e+-NaIfinty").

Definition num_text (s : string) : bool := forallb num_char (list_ascii_of_string s).

Lemma num_text_app s t : num_text (s ++ t) = num_text s && num_text t.
Proof. unfold num_text. by rewrite list_ascii_of_string_app', forallb_app. Qed.

Lemma num_text_substring n m s : num_text s = true -> num_text (substring n m s) = true.
Proof.
  revert n m. induction s as [|c s IH]; intros n m H; [by destruct n, m|].
  unfold num_text in H. cbn in H. apply andb_true_iff in H as [Hc Hs].
  destruct n as [|n]; [destruct m as [|m]; [done|]|]; cbn.
  - unfold num_text. cbn. rewrite Hc. by apply IH.
  - by apply IH.
Qed.

Lemma num_text_zeros k : num_text (zeros k) = true.
Proof. induction k as [|k IH]; [done|]. exact IH. Qed.

Lemma digits_is_digit l acc z : digits l acc = Some z -> forallb is_digit l = true.
Proof.
  revert acc. induction l as [|c l IH]; intros acc; cbn; [done|].
  unfold is_digit. destruct (digit c); [apply IH|done].
Qed.

Lemma num_text_pretty (n : N) : num_text (pretty n) = true.
Proof.
  pose proof (digits_is_digit _ _ _ (digits_pretty n)) as H. unfold num_text.
  apply forallb_forall. intros c Hin. unfold num_char.
  by rewrite (proj1 (forallb_forall _ _) H c Hin).
Qed.

#[local] Hint Rewrite num_text_app num_text_zeros num_text_pretty : num_text.

Lemma num_text_number_to_string m e : num_text (number_to_string m e) = true.
Proof.
  unfold number_to_string. case_match; [done|].
  destruct (strip_zeros _ _ _) as [s e'].
  assert (num_text (pretty (Z.to_N s)) = true) as Hd by apply num_text_pretty.
  repeat case_match; autorewrite with num_text; rewrite ?andb_true_r;
    rewrite ?num_text_substring by done; done.
Qed.

(** Whatever the number, [String(x)] is made of digits, [.], [e], [+],
    [-] and the letters of [NaN] and [Infinity]. *)
Lemma num_text_number_toString x : num_text (number_toString x) = true.
Proof.
  unfold number_toString. repeat case_match; try done; apply num_text_number_to_string.
Qed.

Lemma str_truthy_app a b : str_truthy (a ++ b) = str_truthy a || str_truthy b.
Proof. by destruct a. Qed.

Lemma pretty_truthy (n : N) : str_truthy (pretty n) = true.
Proof.
  destruct (str_truthy (pretty n)) eqn:E; [done|].
  destruct (decide (n = 0%N)) as [->|Hn]; [done|].
  pose proof (digits_pretty n) as H. destruct (pretty n); [|done].
  cbn in H. injection H as H. lia.
Qed.

#[local] Hint Rewrite str_truthy_app pretty_truthy orb_true_r : str_truthy.

(** [String(x)] is never empty. *)
Lemma number_toString_truthy x : str_truthy (number_toString x) = true.
Proof.
  assert (forall m e, str_truthy (number_to_string m e) = true) as Hs.
  { intros m e. unfold number_to_string. case_match; [done|].
    destruct (strip_zeros _ _ _) as [s e'].
    repeat case_match; autorewrite with str_truthy; rewrite ?orb_true_r; done. }
  unfold number_toString. repeat case_match; try done; apply Hs.
Qed.

(** ** [Number::toString] on integers

    An integer below [2^53] is a double ([round_pos_int]), so the
    candidates of [shortest_from] are exact integers and the first one
    that reads back as [k] is [k] without its trailing zeros; written back
    by [number_to_string] it gives the decimal digits of [k]. *)

Lemma scaled_int n e : (e <= 0)%Z -> scaled n 1 e = ((n * 2 ^ (- e))%Z, 0%Z, 1%Z).
Proof.
  intros He. unfold scaled. destruct (0 <=? e)%Z eqn:E.
  - assert (e = 0%Z) as -> by lia. by rewrite Z.pow_0_r, Z.mul_1_l, Z.div_1_r, Z.mod_1_r, Z.opp_0, Z.pow_0_r, Z.mul_1_r.
  - by rewrite Z.div_1_r, Z.mod_1_r.
Qed.

Lemma Qpow2_cancel n e : (e <= 0)%Z -> (inject_Z (n * 2 ^ (- e)) * Qpow2 e == inject_Z n)%Q.
Proof.
  intros He. destruct (Z.eq_dec e 0%Z) as [->|Hne].
  { rewrite Z.opp_0, Z.pow_0_r, Z.mul_1_r. assert (Qpow2 0 == 1)%Q as -> by reflexivity. ring. }
  rewrite Qpow2_neg by lia. rewrite inject_Z_mult. field. apply inject_Z_nz.
  pose proof (Z.pow_pos_nonneg 2 (- e)). lia.
Qed.

(** An integer below [2^53] is a double. *)
Lemma round_pos_int n : (0 < n < 2 ^ 53)%Z ->
  exists v, round_pos n 1 = Finite v /\ (v == inject_Z n)%Q.
Proof.
  intros Hn. pose proof (Z.log2_spec n ltac:(lia)) as [HL1 HL2].
  assert (Z.log2 n < 53)%Z by (apply Z.log2_lt_pow2; lia).
  pose proof (Z.log2_nonneg n).
  unfold round_pos. change (Z.log2 1) with 0%Z. set (L := Z.log2 n) in *.
  rewrite scaled_int by lia.
  assert (2 ^ 53 <= n * 2 ^ (- (L - 0 - 53)))%Z.
  { replace (2 ^ 53)%Z with (2 ^ L * 2 ^ (- (L - 0 - 53)))%Z by (rewrite <- Z.pow_add_r; [f_equal|..]; lia).
    apply Z.mul_le_mono_nonneg_r; [apply Z.pow_nonneg|]; lia. }
  rewrite (proj2 (Z.leb_le _ _) H1), Z.max_l by lia.
  rewrite scaled_int by lia.
  assert (forall f, round_half_even f 0 1 = f) as -> by reflexivity.
  assert (n * 2 ^ (- (L - 0 - 53 + 1)) * 2 ^ (L - 0 - 53 + 1 + 1074) = n * 2 ^ 1074)%Z as ->.
  { rewrite <- Z.mul_assoc, <- Z.pow_add_r by lia. do 2 f_equal. lia. }
  assert (n * 2 ^ 1074 < 2 ^ 2098)%Z as Hov.
  { apply (Z.lt_le_trans _ (2 ^ 53 * 2 ^ 1074)); [apply Z.mul_lt_mono_pos_r; [apply Z.pow_pos_nonneg|]; lia|].
    rewrite <- Z.pow_add_r by lia. apply Z.pow_le_mono_r; lia. }
  rewrite (proj2 (Z.leb_gt _ _) Hov). eexists; split; [reflexivity|]. apply Qpow2_cancel. lia.
Qed.

Lemma same_number_int a b : (0 < a < 2 ^ 53)%Z ->
  same_number (round_binary64 (inject_Z a)) (Finite (inject_Z b)) = (a =? b)%Z.
Proof.
  intros Ha. destruct (round_pos_int a Ha) as (v & Hr & Hv).
  destruct a as [|p|p]; try lia. unfold round_binary64. cbn [Qnum Qden inject_Z].
  rewrite Hr. cbn [same_number]. apply Bool.eq_iff_eq_true.
  rewrite Qeq_bool_iff, Z.eqb_eq, Hv. apply inject_Z_injective.
Qed.

Lemma round_binary64_int a : (0 < a < 2 ^ 53)%Z ->
  exists v, round_binary64 (inject_Z a) = Finite v /\ (v == inject_Z a)%Q.
Proof.
  intros Ha. destruct (round_pos_int a Ha) as (v & Hr & Hv).
  destruct a as [|p|p]; try lia. exists v. by unfold round_binary64; cbn [Qnum Qden inject_Z]; rewrite Hr.
Qed.

(** Whether [s * 10^e] is an integer [k] below [2^53], as [candidate]
    tests it. *)
Lemma candidate_ok_int s e k : (0 <= e)%Z -> (0 <= s)%Z -> (s * 10 ^ e < 2 ^ 53)%Z ->
  (0 <? s)%Z && same_number (round_binary64 (dec_value s e)) (Finite (inject_Z k)) =
  (0 <? s)%Z && (s * 10 ^ e =? k)%Z.
Proof.
  intros He Hs Hlt. destruct (Z.eq_dec s 0%Z) as [->|Hs0]; [done|].
  rewrite (proj2 (Z.ltb_lt 0 s)) by lia. cbn [andb].
  unfold dec_value. rewrite (proj2 (Z.leb_le 0 e) He). apply same_number_int.
  pose proof (Z.pow_pos_nonneg 10 e). nia.
Qed.

Lemma candidate_int k d j : (0 < k < 2 ^ 52)%Z -> (10 ^ (d - 1) <= k)%Z -> (1 <= j <= d)%Z ->
  candidate (inject_Z k) d j =
  if (k mod 10 ^ (d - j) =? 0)%Z then Some (k / 10 ^ (d - j), d - j)%Z else None.
Proof.
  intros Hk Hd Hj. unfold candidate, floor_div10. set (e := (d - j)%Z).
  assert (0 <= e)%Z by lia.
  assert (10 ^ e <= 10 ^ (d - 1))%Z by (apply Z.pow_le_mono_r; lia).
  pose proof (Z.pow_pos_nonneg 10 e ltac:(lia)).
  rewrite (proj2 (Z.leb_le 0 e)) by lia. cbn [Qnum Qden inject_Z]. rewrite Z.mul_1_l.
  pose proof (Z.div_mod k (10 ^ e) ltac:(lia)) as Hdm. pose proof (Z.mod_pos_bound k (10 ^ e) ltac:(lia)).
  assert (1 <= k / 10 ^ e)%Z by (apply Z.div_le_lower_bound; lia).
  destruct (k mod 10 ^ e =? 0)%Z eqn:Ex.
  - apply Z.eqb_eq in Ex.
    rewrite !candidate_ok_int by nia. rewrite (proj2 (Z.ltb_lt 0 _)) by lia.
    rewrite (proj2 (Z.eqb_eq _ _)) by lia. cbn [andb]. by repeat case_match.
  - apply Z.eqb_neq in Ex.
    rewrite !candidate_ok_int by nia. rewrite !(proj2 (Z.eqb_neq _ _)) by nia.
    by rewrite !andb_false_r.
Qed.

(** A quotient with no last zero digit. *)
Lemma div_pow10_last k e : (0 <= e)%Z -> (k mod 10 ^ e = 0)%Z -> (k mod 10 ^ (e + 1) <> 0)%Z ->
  ((k / 10 ^ e) mod 10 <> 0)%Z.
Proof.
  intros He H0 H1 H. apply H1. pose proof (Z.pow_pos_nonneg 10 e ltac:(lia)).
  rewrite Z.pow_add_r, Z.pow_1_r by lia.
  rewrite (Z.div_mod k (10 ^ e)) by lia. rewrite H0, Z.add_0_r.
  rewrite Z.mul_mod_distr_l by lia. rewrite H. lia.
Qed.

Lemma shortest_from_int k d fuel : forall j, (0 < k < 2 ^ 52)%Z -> (10 ^ (d - 1) <= k < 10 ^ d)%Z ->
  (1 <= j <= d)%Z -> (d < j + Z.of_nat fuel)%Z -> (j = 1 \/ k mod 10 ^ (d - j + 1) <> 0)%Z ->
  exists e, shortest_from (inject_Z k) d j fuel = Some (k / 10 ^ e, e)%Z /\
    (0 <= e <= d - 1)%Z /\ (k mod 10 ^ e = 0)%Z /\ ((k / 10 ^ e) mod 10 <> 0)%Z.
Proof.
  induction fuel as [|fuel IH]; intros j Hk Hd Hj Hf Hprev; [lia|].
  cbn [shortest_from]. rewrite candidate_int by lia.
  destruct (k mod 10 ^ (d - j) =? 0)%Z eqn:Ex.
  - apply Z.eqb_eq in Ex. exists (d - j)%Z. split; [done|]. split; [lia|]. split; [done|].
    destruct Hprev as [->|Hprev].
    + assert (1 <= k / 10 ^ (d - 1) < 10)%Z as Hq; [|rewrite Z.mod_small; lia].
      split; [apply Z.div_le_lower_bound|apply Z.div_lt_upper_bound];
        try (apply Z.pow_pos_nonneg; lia); try lia.
      replace (10 ^ (d - 1) * 10)%Z with (10 ^ d)%Z; [lia|].
      rewrite Z.mul_comm, <- Z.pow_succ_r by lia. f_equal. lia.
    + apply div_pow10_last; [lia|done|]. by replace (d - j + 1)%Z with (d - j + 1)%Z.
  - apply Z.eqb_neq in Ex.
    assert (j < d)%Z by (destruct (Z.eq_dec j d) as [->|]; [rewrite Z.sub_diag, Z.pow_0_r, Z.mod_1_r in Ex|]; lia).
    apply IH; try lia. right. by replace (d - (j + 1) + 1)%Z with (d - j)%Z by lia.
Qed.

Lemma ndigits_fuel_spec fuel z : (0 < z)%Z -> (z < 2 ^ Z.of_nat fuel)%Z ->
  (10 ^ (ndigits_fuel fuel z - 1) <= z < 10 ^ ndigits_fuel fuel z)%Z /\ (1 <= ndigits_fuel fuel z)%Z.
Proof.
  revert z. induction fuel as [|fuel IH]; intros z Hz Hf; [simpl in Hf; lia|].
  cbn [ndigits_fuel]. destruct (z <? 10)%Z eqn:E; [apply Z.ltb_lt in E; cbn; lia|].
  apply Z.ltb_ge in E.
  assert (z / 10 < 2 ^ Z.of_nat fuel)%Z.
  { apply Z.div_lt_upper_bound; [lia|]. rewrite Nat2Z.inj_succ, Z.pow_succ_r in Hf by lia.
    pose proof (Z.pow_pos_nonneg 2 (Z.of_nat fuel)). lia. }
  destruct (IH (z / 10)%Z ltac:(apply Z.div_str_pos; lia) H) as [[H1 H2] H3].
  set (n := ndigits_fuel fuel (z / 10)) in *.
  replace (1 + n - 1)%Z with n by lia.
  assert (10 ^ n = 10 * 10 ^ (n - 1))%Z as E1 by (rewrite <- Z.pow_succ_r by lia; f_equal; lia).
  assert (10 ^ (1 + n) = 10 * 10 ^ n)%Z as E2 by (rewrite <- Z.pow_succ_r by lia; f_equal; lia).
  pose proof (Z.div_mod z 10 ltac:(lia)). pose proof (Z.mod_pos_bound z 10 ltac:(lia)). lia.
Qed.

Lemma ndigits_spec z : (0 < z)%Z -> (10 ^ (ndigits z - 1) <= z < 10 ^ ndigits z)%Z /\ (1 <= ndigits z)%Z.
Proof.
  intros Hz. apply ndigits_fuel_spec; [done|]. pose proof (Z.log2_spec z Hz) as [_ H].
  pose proof (Z.log2_nonneg z). by rewrite Z2Nat.id by lia.
Qed.

Lemma decimal_exponent_int k : (0 < k)%Z -> decimal_exponent (inject_Z k) = ndigits k.
Proof.
  intros Hk. destruct (ndigits_spec k Hk) as [[H1 _] H2]. unfold decimal_exponent.
  cbn [Qnum Qden inject_Z]. change (ndigits 1) with 1%Z. unfold dec_value.
  rewrite (proj2 (Z.leb_le 0 _)) by lia. rewrite Z.mul_1_l.
  replace (Qle_bool _ _) with true; [lia|]. symmetry. apply Qle_bool_iff. by rewrite <- Zle_Qle.
Qed.

Lemma pretty_N_go_app x a b : pretty_N_go x (a ++ b) = (pretty_N_go x a ++ b)%string.
Proof.
  revert a. induction (N.lt_wf_0 x) as [x _ IH]; intros a.
  destruct (decide (x = 0%N)) as [->|Hx]; [by rewrite !pretty_N_go_0|].
  rewrite !(pretty_N_go_step x) by lia. rewrite <- IH by (apply N.div_lt; lia). done.
Qed.

Lemma pretty_N_go_mul10 x a : (0 < x)%N -> pretty_N_go (x * 10) a = pretty_N_go x (String "0" a).
Proof.
  intros Hx. rewrite pretty_N_go_step by lia.
  by rewrite N.div_mul, N.Div0.mod_mul by lia.
Qed.

Lemma zeros_snoc n : (zeros n ++ "0")%string = zeros (S n).
Proof.
  induction n as [|n IH]; [done|].
  change (String "0" (zeros n ++ "0") = String "0" (zeros (S n))). by rewrite IH.
Qed.

Lemma pretty_mul_pow10 s (e : nat) : (0 < s)%Z ->
  pretty (Z.to_N (s * 10 ^ Z.of_nat e)) = (pretty (Z.to_N s) ++ zeros e)%string.
Proof.
  intros Hs. induction e as [|e IH].
  - by rewrite Z.mul_1_r, str_app_nil_r.
  - pose proof (Z.pow_pos_nonneg 10 (Z.of_nat e) ltac:(lia)).
    replace (s * 10 ^ Z.of_nat (S e))%Z with (s * 10 ^ Z.of_nat e * 10)%Z
      by (rewrite Nat2Z.inj_succ, Z.pow_succ_r by lia; ring).
    rewrite Z2N.inj_mul by lia. change (Z.to_N 10) with 10%N.
    unfold pretty, pretty_N in *. rewrite !decide_False in * by lia.
    rewrite pretty_N_go_mul10 by lia. change (String "0" "") with ("" ++ "0")%string.
    rewrite pretty_N_go_app, IH, str_app_assoc. by rewrite zeros_snoc.
Qed.

Lemma length_pretty_N_go_eq (k : nat) x a : (0 < k)%nat ->
  (10 ^ (Z.of_nat k - 1) <= Z.of_N x < 10 ^ Z.of_nat k)%Z ->
  String.length (pretty_N_go x a) = (k + String.length a)%nat.
Proof.
  revert x a. induction k as [|k IH]; intros x a Hk Hx; [lia|].
  rewrite pretty_N_go_step by lia.
  destruct (decide (k = 0%nat)) as [->|Hk0].
  - assert (x `div` 10 = 0)%N as -> by (apply N.div_small; cbn in Hx; lia).
    by rewrite pretty_N_go_0.
  - rewrite Nat2Z.inj_succ in Hx. set (K := Z.of_nat k) in *.
    replace (Z.succ K - 1)%Z with K in Hx by lia.
    assert (10 ^ Z.succ K = 10 * 10 ^ K)%Z as E1 by (apply Z.pow_succ_r; lia).
    assert (10 ^ K = 10 * 10 ^ (K - 1))%Z as E2 by (rewrite <- Z.pow_succ_r by lia; f_equal; lia).
    rewrite IH; [cbn; lia | lia |]. rewrite N2Z.inj_div. split.
    + apply Z.div_le_lower_bound; lia.
    + apply Z.div_lt_upper_bound; lia.
Qed.

Lemma length_pretty_eq (k : nat) (x : Z) : (0 < k)%nat ->
  (10 ^ (Z.of_nat k - 1) <= x < 10 ^ Z.of_nat k)%Z -> String.length (pretty (Z.to_N x)) = k.
Proof.
  intros Hk Hx. pose proof (Z.pow_pos_nonneg 10 (Z.of_nat k - 1)).
  unfold pretty, pretty_N. rewrite decide_False by lia.
  rewrite (length_pretty_N_go_eq k) by (rewrite ?Z2N.id; lia). cbn. lia.
Qed.

Lemma number_to_string_int s e d : (0 < s)%Z -> (s mod 10 <> 0)%Z -> (0 <= e)%Z ->
  (10 ^ (d - 1) <= s * 10 ^ e < 10 ^ d)%Z -> (d <= 21)%Z ->
  number_to_string s e = pretty (Z.to_N (s * 10 ^ e)).
Proof.
  intros Hs Hs10 He Hd Hd21.
  pose proof (Z.pow_pos_nonneg 10 e ltac:(lia) He) as Hpe.
  assert (e < d)%Z as Hed.
  { assert (10 ^ e <= s * 10 ^ e)%Z by nia.
    assert (0 <= d)%Z by (destruct (Z.lt_ge_cases d 0) as [Hn|]; [pose proof (Z.pow_neg_r 10 d Hn)|]; lia).
    apply (Z.pow_lt_mono_r_iff 10); [lia|lia|]. nia. }
  assert (10 ^ (d - 1) = 10 ^ (d - e - 1) * 10 ^ e /\ 10 ^ d = 10 ^ (d - e) * 10 ^ e)%Z as [E1 E2].
  { rewrite <- !Z.pow_add_r by lia. split; f_equal; lia. }
  assert (10 ^ (Z.of_nat (Z.to_nat (d - e)) - 1) <= s < 10 ^ Z.of_nat (Z.to_nat (d - e)))%Z as Hsd.
  { rewrite Z2Nat.id by lia. rewrite E1, E2 in Hd.
    split; [apply (Z.mul_le_mono_pos_r _ _ (10 ^ e))|apply (Z.mul_lt_mono_pos_r (10 ^ e))]; lia. }
  pose proof (length_pretty_eq (Z.to_nat (d - e)) s ltac:(lia) Hsd) as Hlen.
  unfold number_to_string. rewrite (proj2 (Z.eqb_neq s 0)), (proj2 (Z.ltb_ge s 0)), Z.abs_eq by lia.
  assert (forall f, strip_zeros f s e = (s, e)) as ->.
  { intros [|f]; [done|]. cbn [strip_zeros]. by rewrite (proj2 (Z.eqb_neq _ 0) Hs10). }
  cbv beta iota zeta. rewrite Hlen, Z2Nat.id by lia.
  rewrite (proj2 (Z.leb_le (d - e) (e + (d - e)))), (proj2 (Z.leb_le (e + (d - e)) 21)) by lia.
  cbn [andb]. replace (e + (d - e) - (d - e))%Z with e by lia.
  rewrite <- (Z2Nat.id e) at 2 by lia. rewrite pretty_mul_pow10 by lia. done.
Qed.

(** [String(k)] of an integer below [2^52] is its decimal digits. *)
Lemma number_toString_int_digits k : (0 <= k < 2 ^ 52)%Z ->
  number_toString (Finite (inject_Z k)) = pretty (Z.to_N k).
Proof.
  intros Hk. destruct (Z.eq_dec k 0%Z) as [->|Hk0]; [done|].
  destruct (ndigits_spec k ltac:(lia)) as [Hd Hd1].
  assert (ndigits k <= 16)%Z.
  { assert (ndigits k - 1 < 16)%Z; [|lia].
    apply (Z.pow_lt_mono_r_iff 10); [lia|lia|].
    apply (Z.le_lt_trans _ k); [lia|]. apply (Z.lt_trans _ (2 ^ 52)); [lia|]. reflexivity. }
  destruct (shortest_from_int k (ndigits k) 17 1 ltac:(lia) Hd ltac:(lia) ltac:(lia) ltac:(lia))
    as (e & Hsh & He & Hmod & Hlast).
  unfold number_toString. destruct k as [|p|p]; try lia. cbn [inject_Z Qnum].
  unfold shortest_decimal. rewrite decimal_exponent_int, Hsh by lia.
  pose proof (Z.pow_pos_nonneg 10 e ltac:(lia) ltac:(lia)).
  assert (Zpos p / 10 ^ e * 10 ^ e = Zpos p)%Z as Hq.
  { rewrite (Z.div_mod (Zpos p) (10 ^ e)) at 2 by lia. rewrite Hmod. ring. }
  rewrite (number_to_string_int _ _ (ndigits (Zpos p))); rewrite ?Hq; try lia; try reflexivity.
Qed.

(** ** What [JSON.stringify] writes reads back *)

Lemma candidate_ok q n k s e :
  candidate q n k = Some (s, e) ->
  (0 < s)%Z /\ same_number (round_binary64 (dec_value s e)) (Finite q) = true.
Proof.
  unfold candidate. destruct (floor_div10 q (n - k)) as [f exact].
  set (ok := fun s => (0 <? s)%Z && same_number (round_binary64 (dec_value s (n - k))) (Finite q)).
  destruct (ok f) eqn:Ef, (ok (if exact then f else (f + 1)%Z)) eqn:Ec; unfold ok in *;
    repeat case_match; intros [= <- <-];
    repeat match goal with H : _ && _ = true |- _ => apply andb_true_iff in H as [?%Z.ltb_lt ?] end;
    auto.
Qed.

Lemma shortest_from_ok q n k fuel s e :
  shortest_from q n k fuel = Some (s, e) ->
  (0 < s)%Z /\ same_number (round_binary64 (dec_value s e)) (Finite q) = true.
Proof.
  revert k. induction fuel as [|fuel IH]; intros k; cbn [shortest_from]; [done|].
  destruct (candidate q n k) as [[s' e']|] eqn:E; [intros [= -> ->]; by apply (candidate_ok q n k)|].
  apply IH.
Qed.

(** A number [JSON.stringify] writes for a positive amount is read back by
    [JSON.parse] as the same double. *)
Lemma number_to_json_reads_back q m e : (0 < q)%Q -> number_to_json (Finite q) = JNum m e ->
  exists q', json_number m e = Finite q' /\ (q' == q)%Q.
Proof.
  intros Hq. unfold number_to_json.
  destruct q as [[|p|p] d]; try (unfold Qlt in Hq; cbn in Hq; lia).
  destruct (shortest_decimal _) as [[s e']|] eqn:E; [|done]. intros [= <- <-].
  destruct (shortest_from_ok _ _ _ _ _ _ E) as [_ Hs]. unfold json_number.
  destruct (round_binary64 (dec_value s e')) as [q'| | |]; try discriminate.
  exists q'. split; [done|]. by apply Qeq_bool_iff.
Qed.

Lemma forallb_js_trim s :
  forallb js_space (list_ascii_of_string (js_trim s)) = forallb js_space (list_ascii_of_string s).
Proof.
  unfold js_trim. rewrite list_ascii_of_string_of_list_ascii. by rewrite forallb_rev, forallb_trim_start, forallb_rev, forallb_trim_start.
Qed.

(** Trimming twice keeps what the first trim leaves. *)
Lemma js_trim_truthy_idem s : str_truthy (js_trim (js_trim s)) = str_truthy (js_trim s).
Proof. by rewrite !js_trim_truthy, forallb_js_trim. Qed.

