(* ===== verification/Binary64.v ===== *)
(** The doubles of [JsNumber.v]: which rationals [round_binary64] yields,
    that rounding a value close enough to a double gives that double, and
    from it that the shortest-digit search of [Number::toString] and
    [JSON.stringify] always succeeds within its 17 digit counts.

    [is_double q] says that [q] is [M * 2^E] with [|M| < 2^53] and
    [-1074 <= E <= 971], a finite binary64 value.  [round_pos_full]
    opens [round_pos]: the exponent it picks puts the value in
    [[2^52, 2^53) * 2^e] (or is the subnormal exponent -1074), and the
    significand is within half a unit.  [round_binary64_near]: a value
    within [q / (2 * 10^16)] of a double [q] rounds to [q], because
    [2^53 < 10^16].  [shortest_decimal_some]: at 17 digits one of the two
    candidate decimals is within half a unit of the 17th digit, which is
    that close, so the search never runs out.  [js_add] is the addition of
    two numbers, the rounded exact sum. *)

From S2P Require Import Prelude JsRuntime JsNumber.
From Stdlib Require Import Ascii String Qabs Qround Qpower.

(** ** Doubles *)

(** A finite binary64 value: [M * 2^E] with a significand of at most 53
    bits and an exponent from the subnormal -1074 to 971, the largest
    double being [(2^53 - 1) * 2^971]. *)
Definition is_double (q : Q) : Prop :=
  exists M E, (Z.abs M < 2 ^ 53)%Z /\ (-1074 <= E <= 971)%Z /\ (q == inject_Z M * Qpow2 E)%Q.

(** ** Powers of two and of ten *)

Lemma Qpow2_Qpower e : (Qpow2 e == inject_Z 2 ^ e)%Q.
Proof.
  unfold Qpow2. destruct (0 <=? e)%Z eqn:E.
  - apply Z.leb_le in E. by rewrite Zpower_Qpower.
  - apply Z.leb_gt in E. replace e with (- (- e))%Z at 2 by lia.
    rewrite Qpower_opp, <- Zpower_Qpower by lia.
    assert (0 < 2 ^ (- e))%Z by (apply Z.pow_pos_nonneg; lia).
    rewrite Qmake_Qdiv, Z2Pos.id by lia. field. apply inject_Z_nz. lia.
Qed.

Lemma Qpow2_add a b : (Qpow2 (a + b) == Qpow2 a * Qpow2 b)%Q.
Proof. rewrite !Qpow2_Qpower. apply Qpower_plus. intros H. discriminate H. Qed.

Lemma Qpow2_Z e : (0 <= e)%Z -> (Qpow2 e == inject_Z (2 ^ e))%Q.
Proof. intros He. rewrite Qpow2_Qpower, Zpower_Qpower by done. reflexivity. Qed.

Lemma Qpow2_le a b : (a <= b)%Z -> (Qpow2 a <= Qpow2 b)%Q.
Proof. intros H. rewrite !Qpow2_Qpower. apply Qpower_le_compat_l; [done | discriminate]. Qed.

Lemma Qpow2_lt a b : (a < b)%Z -> (Qpow2 a < Qpow2 b)%Q.
Proof. intros H. rewrite !Qpow2_Qpower. apply Qpower_lt_compat_l; [done | reflexivity]. Qed.

(** [2^k * 2^e] for a constant [k]. *)
Lemma Qpow2_shift e k : (0 <= k)%Z -> (Qpow2 (e + k) == inject_Z (2 ^ k) * Qpow2 e)%Q.
Proof. intros Hk. rewrite Qpow2_add, (Qpow2_Z k Hk). ring. Qed.

Lemma dec_value_pow m x : (dec_value m x == inject_Z m * (inject_Z 10 ^ x))%Q.
Proof.
  unfold dec_value. destruct (0 <=? x)%Z eqn:E.
  - apply Z.leb_le in E. by rewrite inject_Z_mult, Zpower_Qpower.
  - apply Z.leb_gt in E. replace x with (- (- x))%Z at 2 by lia.
    rewrite Qpower_opp, <- Zpower_Qpower by lia.
    assert (0 < 10 ^ (- x))%Z by (apply Z.pow_pos_nonneg; lia).
    rewrite Qmake_Qdiv, Z2Pos.id by lia. field. apply inject_Z_nz. lia.
Qed.

Lemma pow10_pos x : (0 < inject_Z 10 ^ x)%Q.
Proof. apply Qpower_0_lt. reflexivity. Qed.

(** An integer strictly between -1 and 1 is 0. *)
Lemma Qabs_int_lt_1 z : (Qabs (inject_Z z) < 1)%Q -> z = 0%Z.
Proof.
  intros H. apply Qabs_Qlt_condition in H as [H1 H2].
  unfold Qlt in H1, H2. simpl in H1, H2. lia.
Qed.

(** Both sides of a bound on [|x - q|]. *)
Lemma Qabs_sub_le x q b : (Qabs (x - q) <= b)%Q -> (x - q <= b)%Q /\ (q - x <= b)%Q.
Proof.
  intros H. split; [apply (Qle_trans _ _ _ (Qle_Qabs _) H)|].
  pose proof (Qle_Qabs (- (x - q))) as H'. rewrite Qabs_opp in H'. lra.
Qed.

Lemma pow2_lt_exp a b : (0 <= a)%Z -> (0 <= b)%Z -> (2 ^ a < 2 ^ b)%Z -> (a < b)%Z.
Proof. intros Ha Hb H. by apply (Z.pow_lt_mono_r_iff 2). Qed.

(** ** The exponent [round_pos] picks *)

Section round_pos.
Variables n d : Z.
Hypothesis Hn : (0 < n)%Z.
Hypothesis Hd : (0 < d)%Z.

Let X := (inject_Z n / inject_Z d)%Q.

Lemma log2_bounds_Q :
  (inject_Z (2 ^ 52) * Qpow2 (Z.log2 n - Z.log2 d - 53) < X)%Q /\
  (X < inject_Z (2 ^ 54) * Qpow2 (Z.log2 n - Z.log2 d - 53))%Q.
Proof.
  destruct (Z.log2_spec n Hn) as [Hn1 Hn2]. destruct (Z.log2_spec d Hd) as [Hd1 Hd2].
  pose proof (Z.log2_nonneg n). pose proof (Z.log2_nonneg d).
  set (a := Z.log2 n) in *. set (b := Z.log2 d) in *.
  rewrite <- !Qpow2_shift by lia.
  replace (a - b - 53 + 52)%Z with (a - (b + 1))%Z by lia.
  replace (a - b - 53 + 54)%Z with (a + 1 - b)%Z by lia.
  assert (0 < inject_Z d)%Q as Hd' by (apply inject_Z_pos; lia).
  pose proof (Qpow2_pos (a - (b + 1))). pose proof (Qpow2_pos (a + 1 - b)).
  unfold X. split.
  - apply Qlt_shift_div_l; [done|].
    apply (Qlt_le_trans _ (Qpow2 (a - (b + 1)) * Qpow2 (b + 1))).
    + apply Qmult_lt_l; [done|]. rewrite (Qpow2_Z (b + 1)), <- Zlt_Qlt by lia. lia.
    + rewrite <- Qpow2_add. replace (a - (b + 1) + (b + 1))%Z with a by lia.
      rewrite (Qpow2_Z a), <- Zle_Qle by lia. lia.
  - apply Qlt_shift_div_r; [done|].
    apply (Qlt_le_trans _ (Qpow2 (a + 1))).
    + rewrite (Qpow2_Z (a + 1)), <- Zlt_Qlt by lia. lia.
    + replace (a + 1)%Z with (a + 1 - b + b)%Z at 1 by lia. rewrite Qpow2_add.
      apply Qmult_le_l; [done|]. rewrite (Qpow2_Z b), <- Zle_Qle by lia. lia.
Qed.

Lemma scaled_bounds e f r den :
  scaled n d e = (f, r, den) ->
  (0 <= f)%Z /\ (inject_Z f * Qpow2 e <= X)%Q /\ (X < (inject_Z f + 1) * Qpow2 e)%Q.
Proof.
  intros S. pose proof (scaled_spec n d e Hn Hd) as Hs. rewrite S in Hs.
  destruct Hs as [(Hden & Hr & Hf) Hq]. pose proof (Qpow2_pos e) as HP.
  assert (0 <= inject_Z r / inject_Z den < 1)%Q as [H0 H1].
  { split.
    - apply Qle_shift_div_l; [apply inject_Z_pos; lia|]. rewrite Qmult_0_l. apply inject_Z_nonneg. lia.
    - apply Qlt_shift_div_r; [apply inject_Z_pos; lia|]. rewrite Qmult_1_l, <- Zlt_Qlt. lia. }
  unfold X. rewrite Hq.
  assert (0 <= inject_Z r / inject_Z den * Qpow2 e)%Q by (apply Qmult_le_0_compat; lra).
  assert (inject_Z r / inject_Z den * Qpow2 e < 1 * Qpow2 e)%Q by (apply Qmult_lt_compat_r; lra).
  split; [done|]. split; ring_simplify; lra.
Qed.

Lemma binade_e1 f0 r0 den0 :
  scaled n d (Z.log2 n - Z.log2 d - 53) = (f0, r0, den0) ->
  let e1 := if (2 ^ 53 <=? f0)%Z then (Z.log2 n - Z.log2 d - 53 + 1)%Z else (Z.log2 n - Z.log2 d - 53)%Z in
  (Qpow2 (e1 + 52) <= X)%Q /\ (X < Qpow2 (e1 + 53))%Q.
Proof.
  intros S0 e1. destruct log2_bounds_Q as [Hlo Hhi].
  destruct (scaled_bounds _ _ _ _ S0) as (_ & Hf1 & Hf2).
  set (e0 := (Z.log2 n - Z.log2 d - 53)%Z) in *. pose proof (Qpow2_pos e0) as HP.
  unfold e1. destruct (2 ^ 53 <=? f0)%Z eqn:E.
  - apply Z.leb_le in E.
    replace (e0 + 1 + 52)%Z with (e0 + 53)%Z by lia. replace (e0 + 1 + 53)%Z with (e0 + 54)%Z by lia.
    rewrite !Qpow2_shift by lia. split; [|done].
    apply (Qle_trans _ (inject_Z f0 * Qpow2 e0)); [|done].
    apply Qmult_le_compat_r; [rewrite <- Zle_Qle; lia | lra].
  - apply Z.leb_gt in E. rewrite !Qpow2_shift by lia. split; [lra|].
    apply (Qlt_le_trans _ _ _ Hf2). apply Qmult_le_compat_r; [|lra].
    change 1%Q with (inject_Z 1). rewrite <- inject_Z_plus, <- Zle_Qle. lia.
Qed.

Lemma round_pos_full :
  exists m e, (0 <= m <= 2 ^ 53)%Z /\ (-1074 <= e)%Z /\
    round_pos n d =
      (if (2 ^ 2098 <=? m * 2 ^ (e + 1074))%Z then PosInfinity else Finite (inject_Z m * Qpow2 e)) /\
    (Qabs (inject_Z m * Qpow2 e - X) <= (1 # 2) * Qpow2 e)%Q /\
    (X < Qpow2 (e + 53))%Q /\
    (e = (-1074)%Z \/ (Qpow2 (e + 52) <= X)%Q /\ (2 ^ 52 <= m)%Z).
Proof.
  unfold round_pos.
  destruct (scaled n d (Z.log2 n - Z.log2 d - 53)) as [[f0 r0] den0] eqn:S0.
  pose proof (binade_e1 _ _ _ S0) as [Hlo Hhi]. cbv zeta in Hlo, Hhi.
  set (e1 := if (2 ^ 53 <=? f0)%Z then _ else _) in *.
  set (e := Z.max e1 (-1074)).
  destruct (scaled n d e) as [[f r] den] eqn:S.
  pose proof (scaled_spec n d e Hn Hd) as Hs. rewrite S in Hs. destruct Hs as [(Hden & Hr & Hf) Hq].
  destruct (scaled_bounds e f r den S) as (_ & Hf1 & Hf2).
  destruct (round_half_even_spec f r den Hden Hr) as [Hm Herr].
  set (m := round_half_even f r den) in *. pose proof (Qpow2_pos e) as HP.
  assert (X < Qpow2 (e + 53))%Q as Htop.
  { apply (Qlt_le_trans _ _ _ Hhi). apply Qpow2_le. lia. }
  assert (f < 2 ^ 53)%Z as Hf53.
  { rewrite Qpow2_shift in Htop by lia.
    rewrite Zlt_Qlt. apply (proj1 (Qmult_lt_r _ _ _ HP)). lra. }
  exists m, e. split; [lia|]. split; [lia|]. split; [done|]. split; [|split; [done|]].
  - setoid_replace (inject_Z m * Qpow2 e - X)%Q
      with ((inject_Z m - (inject_Z f + inject_Z r / inject_Z den)) * Qpow2 e)%Q
      using relation Qeq by (unfold X; rewrite Hq; ring).
    rewrite Qabs_Qmult, (Qabs_pos (Qpow2 e)) by lra. apply Qmult_le_compat_r; lra.
  - destruct (Z.eq_dec e (-1074)) as [He|He]; [by left|right].
    assert (e = e1) as He1 by lia. rewrite <- He1 in Hlo. split; [done|].
    rewrite Qpow2_shift in Hlo by lia.
    assert (2 ^ 52 < f + 1)%Z; [|lia].
    rewrite Zlt_Qlt. apply (proj1 (Qmult_lt_r _ _ _ HP)). rewrite inject_Z_plus. change (inject_Z 1) with 1%Q. lra.
Qed.

(** A rounded value is a double. *)
Lemma round_pos_double v : round_pos n d = Finite v -> is_double v /\ (0 <= v)%Q.
Proof.
  destruct round_pos_full as (m & e & Hm & He & -> & _ & _ & Hnorm).
  destruct (2 ^ 2098 <=? m * 2 ^ (e + 1074))%Z eqn:Eo; [discriminate|]. intros [= <-].
  apply Z.leb_gt in Eo. pose proof (Qpow2_pos e).
  split; [|apply Qmult_le_0_compat; [apply inject_Z_nonneg; lia | lra]].
  destruct (Z.eq_dec m (2 ^ 53)) as [->|Hne].
  - exists (2 ^ 52)%Z, (e + 1)%Z. split; [lia|]. split.
    + split; [lia|]. rewrite <- Z.pow_add_r in Eo by lia. apply pow2_lt_exp in Eo; lia.
    + rewrite Qpow2_shift by lia. rewrite Qmult_assoc, <- inject_Z_mult. reflexivity.
  - exists m, e. split; [lia|]. split; [|reflexivity]. split; [done|].
    destruct Hnorm as [->|[_ Hm52]]; [lia|].
    assert (2 ^ 52 * 2 ^ (e + 1074) < 2 ^ 2098)%Z as Hb.
    { eapply Z.le_lt_trans; [|exact Eo]. apply Z.mul_le_mono_nonneg_r; [|lia]. apply Z.pow_nonneg. lia. }
    rewrite <- Z.pow_add_r in Hb by lia. apply pow2_lt_exp in Hb; lia.
Qed.

(** A value within [q / (2 * 10^16)] of a positive double [q] rounds to
    [q]. *)
Lemma round_pos_near q :
  is_double q -> (0 < q)%Q -> (inject_Z (2 * 10 ^ 16) * Qabs (X - q) <= q)%Q ->
  exists v, round_pos n d = Finite v /\ (v == q)%Q.
Proof.
  intros (M & E & HM & HE & Hq) Hpos Hnear.
  destruct round_pos_full as (m & e & Hm & He & -> & Herr & Htop & Hnorm).
  change (inject_Z (2 * 10 ^ 16)) with (20000000000000000 # 1) in Hnear.
  pose proof (Qpow2_pos e) as HP. apply Qabs_sub_le in Herr as [Herr1 Herr2].
  pose proof (Qle_Qabs (X - q)) as Hb1. pose proof (Qle_Qabs (- (X - q))) as Hb2.
  rewrite Qabs_opp in Hb2. pose proof (Qabs_nonneg (X - q)) as Hb3.
  rewrite Qpow2_shift in Htop by lia. change (inject_Z (2 ^ 53)) with (9007199254740992 # 1) in Htop.
  assert (0 < M)%Z as HM0.
  { destruct (Z.lt_ge_cases 0 M) as [|HM0]; [done|]. exfalso. pose proof (Qpow2_pos E) as HPE.
    assert (0 <= inject_Z (- M) * Qpow2 E)%Q as Hneg
      by (apply Qmult_le_0_compat; [apply inject_Z_nonneg; lia | lra]).
    rewrite inject_Z_opp in Hneg. rewrite Hq in Hpos. lra. }
  assert (e <= E)%Z as HeE.
  { destruct (Z.le_gt_cases e E) as [|HEe]; [done|exfalso].
    destruct Hnorm as [He'|[Hlo _]]; [lia|].
    pose proof (Qpow2_pos (e - 1)). pose proof (Qpow2_pos E).
    assert (q <= inject_Z (2 ^ 53 - 1) * Qpow2 (e - 1))%Q as Hqle.
    { rewrite Hq. apply Qmult_le_compat_nonneg; split; try lra.
      - apply inject_Z_nonneg. lia.
      - rewrite <- Zle_Qle. lia.
      - apply Qpow2_le. lia. }
    replace (e + 52)%Z with (e - 1 + 53)%Z in Hlo by lia. rewrite Qpow2_shift in Hlo by lia.
    change (inject_Z (2 ^ 53)) with (9007199254740992 # 1) in Hlo.
    change (inject_Z (2 ^ 53 - 1)) with (9007199254740991 # 1) in Hqle. lra. }
  set (K := (M * 2 ^ (E - e))%Z).
  assert (q == inject_Z K * Qpow2 e)%Q as HqK.
  { rewrite Hq. replace E with (e + (E - e))%Z at 1 by lia. rewrite Qpow2_shift by lia.
    unfold K. rewrite inject_Z_mult. ring. }
  assert (m = K) as ->.
  { assert (inject_Z (m - K) * Qpow2 e < 1 * Qpow2 e /\ -1 * Qpow2 e < inject_Z (m - K) * Qpow2 e)%Q
      as [H1 H2] by (rewrite <- Z.add_opp_r, inject_Z_plus, inject_Z_opp; split; lra).
    apply (proj1 (Qmult_lt_r _ _ _ HP)) in H1, H2. unfold Qlt in H1, H2. simpl in H1, H2. lia. }
  assert (M * 2 ^ (E + 1074) < 2 ^ 2098)%Z as Hov.
  { apply (Z.lt_le_trans _ (2 ^ 53 * 2 ^ (E + 1074))).
    - apply Z.mul_lt_mono_pos_r; [apply Z.pow_pos_nonneg|]; lia.
    - rewrite <- Z.pow_add_r by lia. apply Z.pow_le_mono_r; lia. }
  replace (K * 2 ^ (e + 1074))%Z with (M * 2 ^ (E + 1074))%Z
    by (unfold K; rewrite <- Z.mul_assoc, <- Z.pow_add_r by lia; do 2 f_equal; lia).
  replace (2 ^ 2098 <=? M * 2 ^ (E + 1074))%Z with false by lia.
  eexists. split; [reflexivity|]. by rewrite HqK.
Qed.
End round_pos.

Lemma is_double_opp q : is_double q -> is_double (- q).
Proof.
  intros (M & E & HM & HE & Hq). exists (- M)%Z, E. split; [lia|]. split; [done|].
  rewrite Hq, inject_Z_opp. ring.
Qed.

(** What [round_binary64] returns is a double. *)
Lemma round_binary64_double x v : round_binary64 x = Finite v -> is_double v.
Proof.
  unfold round_binary64. destruct x as [[|p|p] den]; cbn [Qnum Qden].
  - intros [= <-]. exists 0%Z, 0%Z. split; [lia|]. split; [lia|]. reflexivity.
  - intros H. by apply (round_pos_double (Zpos p) (Zpos den)).
  - destruct (round_pos (Zpos p) (Zpos den)) as [w| | |] eqn:E; try discriminate. intros [= <-].
    apply is_double_opp. by apply (round_pos_double (Zpos p) (Zpos den)).
Qed.

(** A positive rational within [q / (2 * 10^16)] of a double [q > 0]
    rounds to [q]. *)
Lemma round_binary64_near x q :
  is_double q -> (0 < q)%Q -> (inject_Z (2 * 10 ^ 16) * Qabs (x - q) <= q)%Q ->
  exists v, round_binary64 x = Finite v /\ (v == q)%Q.
Proof.
  intros Hdq Hq Hnear.
  assert (0 < x)%Q as Hx.
  { pose proof (Qle_Qabs (- (x - q))) as H. rewrite Qabs_opp in H.
    change (inject_Z (2 * 10 ^ 16)) with (20000000000000000 # 1) in Hnear. lra. }
  unfold round_binary64. pose proof (Q_as_fraction x) as Hf.
  destruct x as [[|p|p] den]; cbn [Qnum Qden] in *; try (unfold Qlt in Hx; simpl in Hx; lia).
  apply (round_pos_near (Zpos p) (Zpos den)); [lia | lia | done | done |]. by rewrite Hf.
Qed.

Lemma round_binary64_neg x : (0 < x)%Q -> round_binary64 (- x) = js_neg (round_binary64 x).
Proof. destruct x as [[|p|p] den]; [unfold Qlt; simpl; lia | reflexivity | unfold Qlt; simpl; lia]. Qed.

(** Rounding a double gives it back. *)
Lemma round_binary64_exact q : is_double q -> exists v, round_binary64 q = Finite v /\ (v == q)%Q.
Proof.
  intros Hdq. destruct (Q_dec 0 q) as [[Hq|Hq]|Hq].
  - apply round_binary64_near; [done | done |].
    setoid_replace (q - q)%Q with 0%Q using relation Qeq by ring.
    change (inject_Z (2 * 10 ^ 16) * Qabs 0 <= q)%Q. rewrite Qmult_0_r. lra.
  - destruct q as [[|p|p] den]; try (unfold Qlt in Hq; simpl in Hq; lia).
    change (Qmake (Zneg p) den) with (- (Qmake (Zpos p) den))%Q in *.
    rewrite round_binary64_neg by (unfold Qlt; simpl; lia).
    apply is_double_opp in Hdq.
    destruct (round_binary64_near (Qmake (Zpos p) den) (Qmake (Zpos p) den)) as (v & -> & Heq);
      [exact Hdq | unfold Qlt; simpl; lia | |].
    + setoid_replace (Qmake (Zpos p) den - Qmake (Zpos p) den)%Q with 0%Q using relation Qeq by ring.
      change (inject_Z (2 * 10 ^ 16) * Qabs 0 <= Qmake (Zpos p) den)%Q. rewrite Qmult_0_r.
      unfold Qle; simpl; lia.
    + exists (- v)%Q. split; [done|]. by rewrite Heq.
  - unfold round_binary64. destruct q as [[|p|p] den]; try (unfold Qeq in Hq; simpl in Hq; lia).
    exists 0%Q. split; [done|]. done.
Qed.

(** ** The 17-digit candidate *)

(** [f * P <= q < (f + 1) * P] when [q = (f + r / D) * P]. *)
Lemma frac_bounds q f r D P :
  (0 < D)%Z -> (0 <= r < D)%Z -> (0 < P)%Q -> (q == (inject_Z f + inject_Z r / inject_Z D) * P)%Q ->
  (inject_Z f * P <= q)%Q /\ (q < (inject_Z f + 1) * P)%Q.
Proof.
  intros HD Hr HP Hq.
  assert (0 <= inject_Z r / inject_Z D < 1)%Q as [H0 H1].
  { split.
    - apply Qle_shift_div_l; [apply inject_Z_pos; lia|]. rewrite Qmult_0_l. apply inject_Z_nonneg. lia.
    - apply Qlt_shift_div_r; [apply inject_Z_pos; lia|]. rewrite Qmult_1_l, <- Zlt_Qlt. lia. }
  assert (0 <= inject_Z r / inject_Z D * P)%Q by (apply Qmult_le_0_compat; lra).
  assert (inject_Z r / inject_Z D * P < 1 * P)%Q by (apply Qmult_lt_compat_r; lra).
  rewrite Hq. split; ring_simplify; lra.
Qed.

Lemma floor_div10_spec q e : (0 < q)%Q ->
  let '(f, exact) := floor_div10 q e in
  (0 <= f)%Z /\ (inject_Z f * inject_Z 10 ^ e <= q)%Q /\ (q < (inject_Z f + 1) * inject_Z 10 ^ e)%Q /\
  (exact = true -> q == inject_Z f * inject_Z 10 ^ e)%Q.
Proof.
  intros Hq. pose proof (Q_as_fraction q) as Hf. unfold floor_div10.
  destruct q as [a b]. cbn [Qnum Qden] in *.
  assert (0 < a)%Z as Ha by (unfold Qlt in Hq; simpl in Hq; lia).
  pose proof (pow10_pos e) as HP.
  set (N := if (0 <=? e)%Z then a else (a * 10 ^ (- e))%Z).
  set (D := if (0 <=? e)%Z then (Z.pos b * 10 ^ e)%Z else Z.pos b).
  assert (0 < D /\ 0 < N)%Z as [HD HN].
  { unfold D, N. destruct (0 <=? e)%Z eqn:E; [apply Z.leb_le in E | apply Z.leb_gt in E].
    - pose proof (Z.pow_pos_nonneg 10 e). lia.
    - pose proof (Z.pow_pos_nonneg 10 (- e)). lia. }
  assert (Qmake a b == (inject_Z (N / D) + inject_Z (N mod D) / inject_Z D) * inject_Z 10 ^ e)%Q as Hq'.
  { rewrite <- Hf. pose proof (Z.div_mod N D ltac:(lia)) as Hdm.
    assert (inject_Z N / inject_Z D == inject_Z (N / D) + inject_Z (N mod D) / inject_Z D)%Q as HNd.
    { rewrite Hdm at 1. rewrite inject_Z_plus, inject_Z_mult. field. apply inject_Z_nz. lia. }
    rewrite <- HNd.
    unfold N, D. destruct (0 <=? e)%Z eqn:E; [apply Z.leb_le in E | apply Z.leb_gt in E].
    - rewrite inject_Z_mult, Zpower_Qpower by lia.
      field; repeat split; try (apply inject_Z_nz; lia). intros H. rewrite H in HP. lra.
    - rewrite inject_Z_mult, Zpower_Qpower by lia.
      assert (inject_Z 10 ^ (- e) * inject_Z 10 ^ e == 1)%Q as H10.
      { rewrite <- Qpower_plus by discriminate. by replace (- e + e)%Z with 0%Z by lia. }
      setoid_replace (inject_Z a * inject_Z 10 ^ (- e) / inject_Z (Z.pos b) * inject_Z 10 ^ e)%Q
        with (inject_Z a / inject_Z (Z.pos b) * (inject_Z 10 ^ (- e) * inject_Z 10 ^ e))%Q
        using relation Qeq by (field; apply inject_Z_nz; lia).
      rewrite H10. ring. }
  destruct (frac_bounds _ (N / D) (N mod D) D _ HD (Z.mod_pos_bound N D HD) HP Hq') as [Hlo Hhi].
  split; [apply Z.div_pos; lia|]. split; [done|]. split; [done|].
  intros Hex%Z.eqb_eq. rewrite Hq', Hex. setoid_replace (inject_Z 0 / inject_Z D)%Q with 0%Q
    using relation Qeq by (field; apply inject_Z_nz; lia). ring.
Qed.

(** [10^(n-1) <= q < 10^n] for the [n] of [decimal_exponent]. *)
Lemma decimal_exponent_spec q : (0 < q)%Q ->
  (inject_Z 10 ^ (decimal_exponent q - 1) <= q < inject_Z 10 ^ decimal_exponent q)%Q.
Proof.
  intros Hq. pose proof (Q_as_fraction q) as Hf. unfold decimal_exponent.
  destruct q as [a b]. cbn [Qnum Qden] in *.
  assert (0 < a)%Z as Ha by (unfold Qlt in Hq; simpl in Hq; lia).
  destruct (ndigits_spec a Ha) as [[Ha1 Ha2] Ha3].
  destruct (ndigits_spec (Z.pos b) ltac:(lia)) as [[Hb1 Hb2] Hb3].
  set (g := (ndigits a - ndigits (Z.pos b))%Z).
  assert (0 < inject_Z (Z.pos b))%Q as HB by (apply inject_Z_pos; lia).
  assert (inject_Z 10 ^ (g - 1) < Qmake a b)%Q as HL.
  { rewrite <- Hf. apply Qlt_shift_div_l; [done|].
    apply (Qlt_le_trans _ (inject_Z 10 ^ (g - 1) * inject_Z 10 ^ ndigits (Z.pos b))).
    - apply Qmult_lt_l; [apply pow10_pos|]. rewrite <- Zpower_Qpower, <- Zlt_Qlt by lia. lia.
    - rewrite <- Qpower_plus by discriminate. replace (g - 1 + ndigits (Z.pos b))%Z with (ndigits a - 1)%Z by lia.
      rewrite <- Zpower_Qpower, <- Zle_Qle by lia. lia. }
  assert (Qmake a b < inject_Z 10 ^ (g + 1))%Q as HU.
  { rewrite <- Hf. apply Qlt_shift_div_r; [done|].
    apply (Qlt_le_trans _ (inject_Z 10 ^ (g + 1) * inject_Z 10 ^ (ndigits (Z.pos b) - 1))).
    - rewrite <- Qpower_plus by discriminate. replace (g + 1 + (ndigits (Z.pos b) - 1))%Z with (ndigits a) by lia.
      rewrite <- Zpower_Qpower, <- Zlt_Qlt by lia. lia.
    - apply Qmult_le_l; [apply pow10_pos|]. rewrite <- Zpower_Qpower, <- Zle_Qle by lia. lia. }
  destruct (Qle_bool (dec_value 1 g) (Qmake a b)) eqn:E.
  - apply Qle_bool_iff in E. rewrite dec_value_pow, Qmult_1_l in E.
    by replace (g + 1 - 1)%Z with g by lia.
  - split; [apply Qlt_le_weak; done|]. apply Qnot_le_lt. intros H.
    assert (dec_value 1 g <= Qmake a b)%Q as H' by (rewrite dec_value_pow, Qmult_1_l; done).
    apply Qle_bool_iff in H'. congruence.
Qed.

(** At 17 digits one of the two candidates reads back as the double. *)
Lemma candidate_17 q : is_double q -> (0 < q)%Q -> candidate q (decimal_exponent q) 17 <> None.
Proof.
  intros Hd Hq. destruct (decimal_exponent_spec q Hq) as [Hn1 Hn2].
  set (n := decimal_exponent q) in *. unfold candidate. set (e := (n - 17)%Z).
  pose proof (floor_div10_spec q e Hq) as Hfl. destruct (floor_div10 q e) as [f exact].
  destruct Hfl as (Hf0 & Hflo & Hfhi & Hex).
  pose proof (pow10_pos e) as Hu. set (u := inject_Z 10 ^ e) in *.
  assert ((10000000000000000 # 1) * u <= q)%Q as Hbig.
  { replace (n - 1)%Z with (16 + e)%Z in Hn1 by lia.
    rewrite Qpower_plus, <- Zpower_Qpower in Hn1 by (lia || discriminate). exact Hn1. }
  assert (forall s, (0 < s)%Z -> (Qabs (inject_Z s * u - q) <= (1 # 2) * u)%Q ->
            ((0 <? s)%Z && same_number (round_binary64 (dec_value s e)) (Finite q)) = true) as Hok.
  { intros s Hs Hnear. apply andb_true_iff. split; [by apply Z.ltb_lt|].
    destruct (round_binary64_near (dec_value s e) q Hd Hq) as (v & -> & Hv).
    - rewrite dec_value_pow. fold u. change (inject_Z (2 * 10 ^ 16)) with (20000000000000000 # 1). lra.
    - by apply Qeq_bool_iff. }
  assert (10000000000000000 < f + 1)%Z as Hf16.
  { rewrite Zlt_Qlt, inject_Z_plus. apply (proj1 (Qmult_lt_r _ _ _ Hu)). change (inject_Z 1) with 1%Q.
    change (inject_Z 10000000000000000) with (10000000000000000 # 1). lra. }
  destruct (Qlt_le_dec ((1 # 2) * u) (q - inject_Z f * u)) as [Hfar|Hclose].
  - destruct exact.
    { rewrite (Hex eq_refl) in Hfar. lra. }
    cbv beta iota zeta. rewrite (Hok (f + 1)%Z); [by repeat case_match | lia |].
    apply Qabs_Qle_condition. rewrite inject_Z_plus. change (inject_Z 1) with 1%Q. split; lra.
  - cbv beta zeta. rewrite (Hok f); [by destruct exact; repeat case_match | lia |].
    apply Qabs_Qle_condition. split; lra.
Qed.

Lemma shortest_from_reaches q n k fuel :
  (0 < fuel)%nat -> candidate q n (k + Z.of_nat fuel - 1) <> None -> shortest_from q n k fuel <> None.
Proof.
  induction fuel as [|fuel IH] in k |- *; intros Hf Hc; [lia|]. cbn [shortest_from].
  destruct (candidate q n k) as [r|] eqn:E; [done|].
  destruct fuel as [|fuel]; [replace (k + Z.of_nat 1 - 1)%Z with k in Hc by lia; congruence|].
  apply IH; [lia|]. by replace (k + 1 + Z.of_nat (S fuel) - 1)%Z with (k + Z.of_nat (S (S fuel)) - 1)%Z by lia.
Qed.

(** The search of [Number::toString] finds a decimal for every positive
    double. *)
Lemma shortest_decimal_some q : is_double q -> (0 < q)%Q -> exists s e, shortest_decimal q = Some (s, e).
Proof.
  intros Hd Hq. unfold shortest_decimal.
  pose proof (shortest_from_reaches q (decimal_exponent q) 1 17 ltac:(lia) (candidate_17 q Hd Hq)) as H.
  destruct (shortest_from _ _ _ _) as [[s e]|]; [by exists s, e | done].
Qed.

(** [JSON.stringify] writes every finite double as a number literal,
    never [null]. *)
Lemma number_to_json_double q : is_double q -> exists m e, number_to_json (Finite q) = JNum m e.
Proof.
  intros Hd. unfold number_to_json. destruct q as [[|p|p] den]; [by exists 0%Z, 0%Z | |].
  - destruct (shortest_decimal_some (Qmake (Zpos p) den)) as (s & e & ->); [done | unfold Qlt; simpl; lia |].
    by exists s, e.
  - apply is_double_opp in Hd.
    destruct (shortest_decimal_some (- Qmake (Zneg p) den)) as (s & e & ->); [done | unfold Qlt; simpl; lia |].
    by exists (- s)%Z, e.
Qed.

(** [Number(s)] is NaN, an infinity or a double. *)
Lemma Number_double s q : Number s = Finite q -> is_double q.
Proof.
  unfold Number. destruct (string_numeric_value _) as [[[]|q']|]; try discriminate.
  apply round_binary64_double.
Qed.

Lemma dec_value_opp m x : dec_value (- m) x = (- dec_value m x)%Q.
Proof.
  unfold dec_value. destruct (0 <=? x)%Z; [|reflexivity].
  unfold inject_Z, Qopp. cbn [Qnum Qden]. f_equal. lia.
Qed.

Lemma dec_value_pos m x : (0 < m)%Z -> (0 < dec_value m x)%Q.
Proof.
  intros Hm. rewrite dec_value_pow. apply Qmult_lt_0_compat; [|apply pow10_pos].
  change 0%Q with (inject_Z 0). rewrite <- Zlt_Qlt. done.
Qed.


