(* ===== verification/ExpenseList.v ===== *)
(** The expense list page, [src/expense-tracker-fe/src/pages/ExpenseList.tsx].

    [filterExpenses] is the page's [useCallback] of lines 63-98: the search
    filter (lines 66-72), the start and end date filters (74-84) and the
    sort (86-95) by [compare_by], the comparator of lines 86-95 built from
    [ts_cmp].  [visible] is the slice of lines 192-193.  The page's state is
    the record [ListState] of its [useState] hooks (lines 49-57); its
    handlers ([handleSort], [setPage], the page-size change, the search and
    date pickers, the fetch) are the constructors of [ListEvent], and
    [list_step] runs a handler and then the effect of lines 100-102, which
    stores [filterExpenses] in [filteredExpenses].  [reachable] is the set
    of states the page can reach from its initial state. *)

From S2P Require Import Prelude JsRuntime Types StableSort DateTime.

Inductive Order := asc | desc.

(** The sortable head cells of lines 39-44. *)
Inductive SortKey := KDate | KDescription | KCategory | KAmount.

#[export] Instance Order_eq_dec : EqDecision Order.
Proof. solve_decision. Defined.

#[export] Instance SortKey_eq_dec : EqDecision SortKey.
Proof. solve_decision. Defined.

(** The comparator on [a[orderBy]], lines 87-94. *)
Definition compare_by (order : Order) (orderBy : SortKey) : Expense.t -> Expense.t -> Z :=
  let c :=
    match orderBy with
    | KDate => cmp_on Expense.date ts_cmp
    | KDescription => cmp_on Expense.description ts_cmp
    | KCategory => cmp_on Expense.category ts_cmp
    | KAmount => cmp_on Expense.amount ts_cmp
    end in
  match order with asc => c | desc => cmp_flip c end.

(** The search predicate of lines 68-70. *)
Definition matches_search (searchTerm : string) (e : Expense.t) : bool :=
  includes (to_lower (Expense.description e)) (to_lower searchTerm) ||
  includes (to_lower (Expense.category e)) (to_lower searchTerm).

Definition after_start (startDate : js_date) (e : Expense.t) : bool :=
  date_ge (Date_parse (Expense.date e)) startDate.

Definition before_end (endDate : js_date) (e : Expense.t) : bool :=
  date_le (Date_parse (Expense.date e)) endDate.

(** Lines 63-98: a copy of [expenses], narrowed by each active filter in
    turn, then sorted.  A date picker holds [null] ([None]) or a Date, and a
    Date object is truthy even when it is an Invalid Date. *)
Definition filterExpenses (expenses : list Expense.t) (searchTerm : string)
    (startDate endDate : option js_date) (orderBy : SortKey) (order : Order)
    : list Expense.t :=
  let filtered := expenses in
  let filtered :=
    if str_truthy searchTerm then List.filter (matches_search searchTerm) filtered
    else filtered in
  let filtered :=
    match startDate with
    | Some sd => List.filter (after_start sd) filtered
    | None => filtered
    end in
  let filtered :=
    match endDate with
    | Some ed => List.filter (before_end ed) filtered
    | None => filtered
    end in
  isort (compare_by order orderBy) filtered.

(** The rows shown, lines 192-193. *)
Definition page_rows (filtered : list Expense.t) (page rowsPerPage : nat) : list Expense.t :=
  js_slice filtered (Z.of_nat (page * rowsPerPage)) (Z.of_nat (page * rowsPerPage + rowsPerPage)).

(** ** The page's state machine *)

Record ListState := mkListState {
  expenses : list Expense.t;
  filteredExpenses : list Expense.t;
  page : nat;
  rowsPerPage : nat;
  orderBy : SortKey;
  order : Order;
  searchTerm : string;
  startDate : option js_date;
  endDate : option js_date
}.

Definition init_list_state : ListState :=
  {| expenses := []; filteredExpenses := []; page := 0; rowsPerPage := 10;
     orderBy := KDate; order := desc; searchTerm := EmptyString;
     startDate := None; endDate := None |}.

Definition visible (s : ListState) : list Expense.t :=
  page_rows (filteredExpenses s) (page s) (rowsPerPage s).

(** The [rowsPerPageOptions] of the pagination control, line 223. *)
Definition rowsPerPageOptions : list nat := [5; 10; 25].

Inductive ListEvent :=
  | Fetched (data : list Expense.t)          (* fetchExpenses succeeds, line 107 *)
  | SearchChanged (v : string)               (* line 142 *)
  | StartChanged (d : option js_date)        (* line 147 *)
  | EndChanged (d : option js_date)          (* line 153 *)
  | SortClicked (property : SortKey)         (* handleSort, lines 124-128 *)
  | PageChanged (newPage : nat)              (* line 228 *)
  | RowsPerPageChanged (n : nat).            (* lines 229-232 *)

(** Lines 124-128. *)
Definition handleSort (property : SortKey) (s : ListState) : ListState :=
  let isAsc := bool_decide (orderBy s = property) && bool_decide (order s = asc) in
  {| expenses := expenses s; filteredExpenses := filteredExpenses s; page := page s;
     rowsPerPage := rowsPerPage s; orderBy := property;
     order := if isAsc then desc else asc;
     searchTerm := searchTerm s; startDate := startDate s; endDate := endDate s |}.

Definition handle (ev : ListEvent) (s : ListState) : ListState :=
  match ev with
  | Fetched data =>
      {| expenses := data; filteredExpenses := filteredExpenses s; page := page s;
         rowsPerPage := rowsPerPage s; orderBy := orderBy s; order := order s;
         searchTerm := searchTerm s; startDate := startDate s; endDate := endDate s |}
  | SearchChanged v =>
      {| expenses := expenses s; filteredExpenses := filteredExpenses s; page := page s;
         rowsPerPage := rowsPerPage s; orderBy := orderBy s; order := order s;
         searchTerm := v; startDate := startDate s; endDate := endDate s |}
  | StartChanged d =>
      {| expenses := expenses s; filteredExpenses := filteredExpenses s; page := page s;
         rowsPerPage := rowsPerPage s; orderBy := orderBy s; order := order s;
         searchTerm := searchTerm s; startDate := d; endDate := endDate s |}
  | EndChanged d =>
      {| expenses := expenses s; filteredExpenses := filteredExpenses s; page := page s;
         rowsPerPage := rowsPerPage s; orderBy := orderBy s; order := order s;
         searchTerm := searchTerm s; startDate := startDate s; endDate := d |}
  | SortClicked k => handleSort k s
  | PageChanged p =>
      {| expenses := expenses s; filteredExpenses := filteredExpenses s; page := p;
         rowsPerPage := rowsPerPage s; orderBy := orderBy s; order := order s;
         searchTerm := searchTerm s; startDate := startDate s; endDate := endDate s |}
  | RowsPerPageChanged n =>
      {| expenses := expenses s; filteredExpenses := filteredExpenses s; page := 0;
         rowsPerPage := n; orderBy := orderBy s; order := order s;
         searchTerm := searchTerm s; startDate := startDate s; endDate := endDate s |}
  end.

(** The effect of lines 100-102: [setFilteredExpenses(filterExpenses(...))]. *)
Definition run_filter_effect (s : ListState) : ListState :=
  {| expenses := expenses s;
     filteredExpenses := filterExpenses (expenses s) (searchTerm s) (startDate s)
                           (endDate s) (orderBy s) (order s);
     page := page s; rowsPerPage := rowsPerPage s; orderBy := orderBy s; order := order s;
     searchTerm := searchTerm s; startDate := startDate s; endDate := endDate s |}.

Definition list_step (ev : ListEvent) (s : ListState) : ListState :=
  run_filter_effect (handle ev s).

(** The events the page's controls can emit: the page-size select offers
    only [rowsPerPageOptions]. *)
Definition event_ok (ev : ListEvent) : Prop :=
  match ev with RowsPerPageChanged n => n ∈ rowsPerPageOptions | _ => True end.

Inductive reachable : ListState -> Prop :=
  | reach_init : reachable init_list_state
  | reach_step s ev : reachable s -> event_ok ev -> reachable (list_step ev s).

Definition run_events (evs : list ListEvent) (s : ListState) : ListState :=
  fold_left (fun s ev => list_step ev s) evs s.

(** ** Specification of the view *)

(** The three filters of lines 66-84 as one predicate. *)
Definition view_filter (searchTerm : string) (startDate endDate : option js_date)
    (e : Expense.t) : bool :=
  (negb (str_truthy searchTerm) || matches_search searchTerm e) &&
  match startDate with Some sd => after_start sd e | None => true end &&
  match endDate with Some ed => before_end ed e | None => true end.

#[export] Instance compare_by_consistent o k : ConsistentComparator (compare_by o k).
Proof. destruct o, k; simpl; apply _. Qed.

(** The order the spec asks of a sorted column: amounts by value, the
    texts (the ISO date strings included) by code units. *)
Definition column_le (k : SortKey) (a b : Expense.t) : bool :=
  match k with
  | KAmount => Qle_bool (Expense.amount a) (Expense.amount b)
  | KDate => String.leb (Expense.date a) (Expense.date b)
  | KDescription => String.leb (Expense.description a) (Expense.description b)
  | KCategory => String.leb (Expense.category a) (Expense.category b)
  end.

(** [a] may be listed before [b] in the direction [o]. *)
Definition shown_before (o : Order) (k : SortKey) (a b : Expense.t) : bool :=
  match o with asc => column_le k a b | desc => column_le k b a end.

(** Sample data for the scenarios below. *)
Definition sample_expense (id : Z) (desc cat : string) (amount : Q) (date : string) : Expense.t :=
  Expense.mk id desc amount date cat "CASH" false date date.

Definition coffee_expenses : list Expense.t :=
  [sample_expense 1 "Morning Coffee" "FOOD" 3 "2024-01-05T08:00:00";
   sample_expense 2 "Gas" "TRANSPORTATION" 40 "2024-01-06T09:30:00"].

Definition six_expenses : list Expense.t :=
  map (fun i => sample_expense (Z.of_nat i) (if decide (i = 6) then "zz" else "a")
                  "OTHER" 1 "2024-01-05T08:00:00") (seq 1 6).

(** Fetch six expenses, show five per page, go to the second page, then
    type a search term that leaves five matches. *)
Definition narrowing_events : list ListEvent :=
  [Fetched six_expenses; RowsPerPageChanged 5; PageChanged 1; SearchChanged "a"].

(** ** Theorems *)

Lemma filterExpenses_single_filter xs term sd ed k o :
  filterExpenses xs term sd ed k o =
  isort (compare_by o k) (List.filter (view_filter term sd ed) xs).
Proof.
  unfold filterExpenses.
  rewrite filter_cond, !filter_opt, !filter_filter_andb.
  f_equal. apply filter_ext. intros e. unfold view_filter. by rewrite andb_assoc.
Qed.

Lemma filterExpenses_perm xs term sd ed k o :
  Permutation (filterExpenses xs term sd ed k o) (List.filter (view_filter term sd ed) xs).
Proof. rewrite filterExpenses_single_filter. apply (isort_perm (compare_by o k)). Qed.

Lemma filterExpenses_In xs term sd ed k o e :
  In e (filterExpenses xs term sd ed k o) <-> In e xs /\ view_filter term sd ed e = true.
Proof.
  split; intros H.
  - apply filter_In. eapply Permutation_in; [apply filterExpenses_perm | done].
  - eapply Permutation_in; [symmetry; apply filterExpenses_perm | by apply filter_In].
Qed.

Lemma str_truthy_false s : str_truthy s = false <-> s = EmptyString.
Proof. by destruct s. Qed.

Lemma after_start_opt sd e :
  match sd with Some d => after_start d e | None => true end = true <->
  forall d, sd = Some d ->
    exists t td, Date_parse (Expense.date e) = Some t /\ d = Some td /\ (td <= t)%Z.
Proof.
  destruct sd as [d|]; [|naive_solver]. unfold after_start, date_ge.
  destruct (Date_parse _), d; split; naive_solver lia.
Qed.

Lemma before_end_opt ed e :
  match ed with Some d => before_end d e | None => true end = true <->
  forall d, ed = Some d ->
    exists t td, Date_parse (Expense.date e) = Some t /\ d = Some td /\ (t <= td)%Z.
Proof.
  destruct ed as [d|]; [|naive_solver]. unfold before_end, date_le.
  destruct (Date_parse _), d; split; naive_solver lia.
Qed.

(** C1: an expense is listed exactly when it was fetched and passes every
    active filter: the search term is empty or occurs, ignoring case, in
    its description or its category; with a start date, its date parses
    to a time not before the start; with an end date, to a time not after
    the end. *)
Theorem filterExpenses_mem xs term sd ed k o e :
  In e (filterExpenses xs term sd ed k o) <->
  In e xs /\
  (term = EmptyString \/
   (exists a b, to_lower (Expense.description e) = (a ++ to_lower term ++ b)%string) \/
   (exists a b, to_lower (Expense.category e) = (a ++ to_lower term ++ b)%string)) /\
  (forall d, sd = Some d ->
     exists t td, Date_parse (Expense.date e) = Some t /\ d = Some td /\ (td <= t)%Z) /\
  (forall d, ed = Some d ->
     exists t td, Date_parse (Expense.date e) = Some t /\ d = Some td /\ (t <= td)%Z).
Proof.
  rewrite filterExpenses_In. unfold view_filter, matches_search.
  rewrite !andb_true_iff, !orb_true_iff, negb_true_iff, str_truthy_false,
    !includes_spec, after_start_opt, before_end_opt.
  tauto.
Qed.

Lemma ts_cmp_le0 {K} `{JsOrder K} (a b : K) : (ts_cmp a b <=? 0)%Z = negb (js_lt b a).
Proof.
  unfold ts_cmp. destruct (js_lt a b) eqn:E1, (js_lt b a) eqn:E2; try done.
  pose proof (js_lt_trans _ _ _ E1 E2) as E. by rewrite js_lt_irrefl in E.
Qed.

Lemma str_nlt_leb a b : negb (str_lt b a) = String.leb a b.
Proof.
  unfold str_lt, String.ltb, String.leb. rewrite (String.compare_antisym b a).
  by destruct (String.compare a b).
Qed.

Lemma num_nlt_le a b : negb (num_lt b a) = Qle_bool a b.
Proof.
  unfold num_lt. destruct (Qlt_le_dec b a) as [H|H]; symmetry.
  - apply not_true_iff_false. rewrite Qle_bool_iff. lra.
  - by apply Qle_bool_iff.
Qed.

Lemma cle_compare_by o k a b : cle (compare_by o k) a b = shown_before o k a b.
Proof.
  destruct o, k; unfold compare_by, cle, cmp_flip, cmp_on, shown_before, column_le;
    rewrite ts_cmp_le0; cbn [js_lt str_order num_order];
    auto using str_nlt_leb, num_nlt_le.
Qed.

Lemma tie_compare_by o k a b :
  tie (compare_by o k) a b = column_le k a b && column_le k b a.
Proof.
  apply Bool.eq_iff_eq_true. rewrite andb_true_iff, tie_cle by apply _.
  rewrite !cle_compare_by. destruct o; cbn; tauto.
Qed.

(** C2: the listed expenses are the filtered ones in the selected
    direction of the selected column (amounts by value, texts by code
    units), and the sort is stable: expenses equal on the column keep
    their fetched order. *)
Theorem filterExpenses_sorted xs term sd ed k o :
  let sel := List.filter (view_filter term sd ed) xs in
  let r := filterExpenses xs term sd ed k o in
  Permutation r sel /\
  StronglySorted (fun a b => shown_before o k a b = true) r /\
  forall z, List.filter (fun y => column_le k z y && column_le k y z) r =
            List.filter (fun y => column_le k z y && column_le k y z) sel.
Proof.
  cbn zeta. rewrite filterExpenses_single_filter.
  destruct (isort_sort_spec (compare_by o k) (List.filter (view_filter term sd ed) xs))
    as (Hp & Hs & Ht).
  split; [done | split].
  - eapply StronglySorted_impl; [|exact Hs]. intros a b H. by rewrite <- cle_compare_by.
  - intros z.
    assert (E : forall l, List.filter (fun y => column_le k z y && column_le k y z) l =
                          List.filter (tie (compare_by o k) z) l).
    { intros l. apply filter_ext. intros y. symmetry. apply tie_compare_by. }
    rewrite !E. apply Ht.
Qed.

(** with no search term and no date bounds, nothing is filtered out:
    the page lists the fetched expenses in sorted order. *)
Theorem filterExpenses_no_filter xs k o :
  filterExpenses xs EmptyString None None k o = isort (compare_by o k) xs.
Proof. done. Qed.

(** the search ignores case: a term and its lower-case form select the
    same expenses. *)
Theorem matches_search_lower term e :
  matches_search (to_lower term) e = matches_search term e.
Proof. unfold matches_search. by rewrite to_lower_idem. Qed.

Example coffee_search :
  filterExpenses coffee_expenses "coffee" None None KDate desc = [hd (sample_expense 0 "" "" 0 "") coffee_expenses].
Proof. vm_compute. reflexivity. Qed.

Lemma page_rows_window l p n : page_rows l p n = take n (drop (p * n) l).
Proof.
  unfold page_rows. rewrite js_slice_nonneg by lia. rewrite !Nat2Z.id. f_equal. lia.
Qed.

(** C3: for a positive page size, the pages [0 .. ceil(len/n) - 1] list
    every filtered expense once, in order, with no gap and no overlap. *)
Theorem pages_cover l n :
  0 < n -> concat (map (fun p => page_rows l p n) (seq 0 ((length l + n - 1) / n))) = l.
Proof.
  intros Hn. erewrite map_ext; [| intros p; apply page_rows_window].
  rewrite windows_concat. apply take_ge.
  pose proof (Nat.div_mod (length l + n - 1) n ltac:(lia)).
  pose proof (Nat.mod_upper_bound (length l + n - 1) n ltac:(lia)). lia.
Qed.

(** a page past the end of the list shows no rows, and never fails. *)
Theorem page_rows_beyond l p n : length l <= p * n -> page_rows l p n = [].
Proof. intros H. rewrite page_rows_window, drop_ge by done. apply take_nil. Qed.

Lemma page_rows_length l p n : length (page_rows l p n) = Nat.min n (length l - p * n).
Proof. rewrite page_rows_window. apply take_drop_length. Qed.

Definition list_inv (s : ListState) : Prop :=
  filteredExpenses s = filterExpenses (expenses s) (searchTerm s) (startDate s)
                         (endDate s) (orderBy s) (order s) /\
  rowsPerPage s ∈ rowsPerPageOptions.

Lemma reachable_list_inv s : reachable s -> list_inv s.
Proof.
  induction 1 as [|s ev Hr [_ Hrows] Hok].
  - split; [done|]. unfold rowsPerPageOptions. set_solver.
  - split; [done|]. destruct ev; simpl in *; done.
Qed.

(** In every state the page reaches, the stored list is the view of the
    fetched expenses under the current search, dates and sort, and the page
    size is one of the offered options. *)
Theorem reachable_inv s : reachable s -> list_inv s.
Proof. apply reachable_list_inv. Qed.

(** in every reachable state at most 25 rows are shown, and each shown
    row is a fetched expense that passes the active filters. *)
Theorem visible_bounded s :
  reachable s ->
  length (visible s) <= 25 /\
  forall e, In e (visible s) -> In e (expenses s) /\
    view_filter (searchTerm s) (startDate s) (endDate s) e = true.
Proof.
  intros Hr. destruct (reachable_list_inv s Hr) as [Hf Hrows]. unfold visible. split.
  - rewrite page_rows_length. unfold rowsPerPageOptions in Hrows.
    repeat (apply elem_of_cons in Hrows as [->|Hrows]; [lia|]). set_solver.
  - intros e He. rewrite page_rows_window in He.
    apply take_drop_In in He. rewrite Hf in He. by apply filterExpenses_In in He.
Qed.

(** clicking the sorted column twice restores its direction. *)
Theorem handleSort_twice k s :
  orderBy s = k -> order (handleSort k (handleSort k s)) = order s /\
                   orderBy (handleSort k (handleSort k s)) = k.
Proof.
  intros <-. unfold handleSort; simpl.
  destruct (order s); simpl; rewrite ?bool_decide_eq_true_2 by done; done.
Qed.

Lemma reachable_run_events evs s :
  reachable s -> Forall event_ok evs -> reachable (run_events evs s).
Proof.
  revert s. induction evs as [|ev evs IH]; intros s Hr Hok; simpl; [done|].
  apply Forall_cons in Hok as [? ?]. apply IH; [by constructor | done].
Qed.

(** C28: the page index is not reset when the filters change: after a
    search narrows the list, the page can lie past its end, so the table is
    empty although expenses match. *)
Theorem page_not_reset :
  let s := run_events narrowing_events init_list_state in
  reachable s /\ filteredExpenses s <> [] /\ visible s = [].
Proof.
  cbv zeta. split; [|split].
  - apply reachable_run_events; [constructor|].
    repeat constructor.
  - intros H. vm_compute in H. discriminate H.
  - vm_compute. reflexivity.
Qed.

Lemma pages_cover_witness :
  0 < 5 /\ concat (map (fun p => page_rows six_expenses p 5)
                     (seq 0 ((length six_expenses + 5 - 1) / 5))) = six_expenses.
Proof. split; [lia | apply pages_cover; lia]. Defined.

Lemma page_rows_beyond_witness :
  length six_expenses <= 2 * 5 /\ page_rows six_expenses 2 5 = [].
Proof. split; [simpl; lia | apply page_rows_beyond; simpl; lia]. Defined.

Lemma reachable_inv_witness : reachable init_list_state /\ list_inv init_list_state.
Proof. split; [constructor | apply reachable_inv; constructor]. Defined.

Lemma visible_bounded_witness :
  reachable init_list_state /\
  length (visible init_list_state) <= 25 /\
  forall e, In e (visible init_list_state) -> In e (expenses init_list_state) /\
    view_filter (searchTerm init_list_state) (startDate init_list_state)
      (endDate init_list_state) e = true.
Proof. split; [constructor | apply visible_bounded; constructor]. Defined.

Lemma handleSort_twice_witness :
  orderBy init_list_state = KDate /\
  order (handleSort KDate (handleSort KDate init_list_state)) = order init_list_state /\
  orderBy (handleSort KDate (handleSort KDate init_list_state)) = KDate.
Proof. split; [reflexivity | apply handleSort_twice; reflexivity]. Defined.
