(* ===== verification/Reports.v ===== *)
(** The report computations of [src/expense-tracker-fe/src/pages/Reports.tsx]
    and [pages/Dashboard.tsx].

    [calculateTotal] is the reduce of Reports.tsx lines 75-76 (and of
    Dashboard.tsx line 36), a left fold of double additions ([js_add],
    each exact sum rounded to a double); [monthlyAverage] is line 210 and
    [categoryAverage] line 189, both JavaScript divisions, rounded, which
    give [Infinity] or [NaN] for a zero divisor ([js_div], [js_divide]).  [fetchReports]
    (lines 48-69) awaits the three report calls in turn and stores each
    result as it arrives; the calls are taken from a record of service
    operations [ReportServices], each of which may fail ([None]).  The
    dashboard keeps the first five expenses ([recentExpenses], line 41)
    and the first three category rows ([topCategories], line 81).
    [year_bounds] is the category report range of lines 62-63, built from
    the [Date] and date-fns model of [DateTime.v]. *)

From S2P Require Import Prelude JsRuntime Types DateTime JsNumber Binary64.
From stdpp Require Import pretty.

(** Lines 75-76: [expenses.reduce((sum, exp) => sum + exp.amount, 0)],
    a left fold of double additions from [0], each rounded. *)
Definition calculateTotal (expenses : list Expense.t) : js_number :=
  fold_left (fun sum e => js_add sum (Finite (Expense.amount e))) expenses (Finite 0).

(** Line 210: [calculateTotal(yearlyExpenses) / 12]. *)
Definition monthlyAverage (yearlyExpenses : list Expense.t) : js_number :=
  js_divide (calculateTotal yearlyExpenses) (Finite 12).

(** Line 189. *)
Definition categoryAverage (r : ExpenseCategoryReport.t) : js_number :=
  js_div (ExpenseCategoryReport.totalAmount r) (inject_Z (ExpenseCategoryReport.count r)).

(** Dashboard.tsx lines 41 and 81. *)
Definition recentExpenses (allExpenses : list Expense.t) : list Expense.t :=
  js_slice allExpenses 0 5.

Definition topCategories (categories : list ExpenseCategoryReport.t)
  : list ExpenseCategoryReport.t :=
  js_slice categories 0 3.

(** [`$${x.toFixed(2)}`], the way the pages write an amount. *)
Definition money (x : js_number) : string := ("$" ++ toFixed 2 x)%string.

(** Lines 62-63: [format(startOfYear(new Date(selectedYear, 0)), 'yyyy-MM-dd')]
    and the same with [endOfYear]; [format] throws a RangeError on an
    Invalid Date ([None]). *)
Definition year_bounds (y : Z) : option string * option string :=
  let d := new_Date_ymd y 0 1 in
  (format_date (startOfYear d), format_date (endOfYear d)).

(** The service calls of [expenseService] that the page uses. *)
Record ReportServices := {
  getMonthlyReport : Z -> Z -> option (list Expense.t);
  getYearlyReport : Z -> option (list Expense.t);
  getCategoryReport : string -> string -> option (list ExpenseCategoryReport.t)
}.

Record ReportsState := mkReportsState {
  monthlyExpenses : list Expense.t;
  yearlyExpenses : list Expense.t;
  categoryReport : list ExpenseCategoryReport.t;
  selectedYear : Z;
  selectedMonth : Z
}.

(** Lines 48-69: each [await] that fails jumps to the [catch], which only
    logs; the results stored before it stay. *)
Definition fetchReports (svc : ReportServices) (s : ReportsState) : ReportsState :=
  match getMonthlyReport svc (selectedYear s) (selectedMonth s) with
  | None => s
  | Some monthly =>
    let s := mkReportsState monthly (yearlyExpenses s) (categoryReport s)
               (selectedYear s) (selectedMonth s) in
    match getYearlyReport svc (selectedYear s) with
    | None => s
    | Some yearly =>
      let s := mkReportsState (monthlyExpenses s) yearly (categoryReport s)
                 (selectedYear s) (selectedMonth s) in
      match year_bounds (selectedYear s) with
      | (Some start, Some end_) =>
          match getCategoryReport svc start end_ with
          | None => s
          | Some categories =>
              mkReportsState (monthlyExpenses s) (yearlyExpenses s) categories
                (selectedYear s) (selectedMonth s)
          end
      | _ => s
      end
    end
  end.

(** Sample data: the category report of the spec's scenario. *)
Definition food_report : ExpenseCategoryReport.t := ExpenseCategoryReport.mk "FOOD" 2 30.

Definition rent_expense : Expense.t :=
  Expense.mk 1 "Rent" 500 "2024-01-01T00:00:00" "RENT" "IBAN" true
    "2024-01-01T00:00:00" "2024-01-01T00:00:00".
Definition food_expense : Expense.t :=
  Expense.mk 2 "Lunch" (25 / 2) "2024-01-02T12:00:00" "FOOD" "CASH" false
    "2024-01-02T12:00:00" "2024-01-02T12:00:00".

(** Expenses whose amounts are the doubles [JSON.parse] reads from the
    literals [0.1], [0.2] and [0.3]. *)
Definition json_amount (m e : Z) : Q := match json_number m e with Finite q => q | _ => 0 end.

Definition amount_expense (id : Z) (a : Q) : Expense.t :=
  Expense.mk id "Coffee" a "2024-01-02T08:00:00" "FOOD" "CASH" false
    "2024-01-02T08:00:00" "2024-01-02T08:00:00".

Definition tenths : list Expense.t :=
  [amount_expense 1 (json_amount 1 (-1)); amount_expense 2 (json_amount 2 (-1));
   amount_expense 3 (json_amount 3 (-1))].

(** Services where the monthly report arrives and the yearly one fails. *)
Definition yearly_fails : ReportServices :=
  {| getMonthlyReport := fun _ _ => Some [food_expense];
     getYearlyReport := fun _ => None;
     getCategoryReport := fun _ _ => None |}.

Definition reports_2023 : ReportsState :=
  mkReportsState [] [rent_expense] [food_report] 2023 12.

(** ** Theorems *)

(** One step of the reduce: the total of [l ++ [e]] is the total of [l]
    plus [e.amount], rounded. *)
Lemma calculateTotal_snoc l e :
  calculateTotal (l ++ [e]) = js_add (calculateTotal l) (Finite (Expense.amount e)).
Proof. unfold calculateTotal. by rewrite fold_left_app. Qed.

(** C14: The page's total is a sum of doubles, rounded at each step, so it
    depends on the order the server returns the expenses in and need not
    be the sum of the amounts: for amounts read from [0.1], [0.2] and
    [0.3] it is [0.6000000000000001], in the reverse order [0.6]; the
    two-decimal text shows [$0.60] for both. *)
Theorem calculateTotal_order_dependent :
  Permutation tenths (rev tenths) /\
  calculateTotal tenths = json_number 6000000000000001 (-16) /\
  calculateTotal (rev tenths) = json_number 6 (-1) /\
  same_number (json_number 6000000000000001 (-16)) (json_number 6 (-1)) = false /\
  money (calculateTotal tenths) = "$0.60" /\ money (calculateTotal (rev tenths)) = "$0.60".
Proof.
  split; [apply Permutation_rev|]. vm_compute. repeat split; reflexivity.
Qed.

(** The spec's scenario: FOOD with two expenses totalling 30 averages 15. *)
Example food_average : same_number (categoryAverage food_report) (Finite 15) = true.
Proof. vm_compute. reflexivity. Qed.

(** the dashboard's "recent" expenses are the first five in the
    server's order, not the five latest by date. *)
Theorem recentExpenses_prefix l :
  recentExpenses l ++ drop 5 l = l /\ length (recentExpenses l) <= 5.
Proof.
  unfold recentExpenses. rewrite js_slice_nonneg by lia. simpl. split.
  - apply take_drop.
  - rewrite length_take. lia.
Qed.

(** C24: when the monthly report arrives and the yearly report fails, the
    page shows the new month next to the yearly total and category rows of
    the previous selection. *)
Theorem fetchReports_partial svc s monthly :
  getMonthlyReport svc (selectedYear s) (selectedMonth s) = Some monthly ->
  getYearlyReport svc (selectedYear s) = None ->
  fetchReports svc s =
  mkReportsState monthly (yearlyExpenses s) (categoryReport s) (selectedYear s) (selectedMonth s).
Proof. intros Hm Hy. unfold fetchReports. by rewrite Hm; simpl; rewrite Hy. Qed.

(** The category report of the Reports page covers the selected year:
    from January 1st to December 31st, written [yyyy-MM-dd], for every
    year of four digits from 100 on ([new Date(y, 0)] reads a year of
    0..99 as [1900 + y]). *)
Theorem year_bounds_spec y : (100 <= y <= 9999)%Z ->
  year_bounds y = (Some (format_year y ++ "-01-01")%string, Some (format_year y ++ "-12-31")%string).
Proof.
  intros Hy. unfold year_bounds.
  rewrite startOfYear_jan1, endOfYear_jan1 by done.
  rewrite !format_date_days_from_civil; [done | | | |];
    unfold valid_ymd, days_in_month, ms_per_day; simpl; (reflexivity || lia).
Qed.

Lemma fetchReports_partial_witness :
  getMonthlyReport yearly_fails 2023 12 = Some [food_expense] /\
  getYearlyReport yearly_fails 2023 = None /\
  fetchReports yearly_fails reports_2023 =
  mkReportsState [food_expense] [rent_expense] [food_report] 2023 12.
Proof.
  split; [reflexivity | split; [reflexivity |]].
  apply (fetchReports_partial yearly_fails reports_2023 [food_expense]); reflexivity.
Defined.

Lemma year_bounds_spec_witness :
  (100 <= 2023 <= 9999)%Z /\
  year_bounds 2023 = (Some (format_year 2023 ++ "-01-01")%string, Some (format_year 2023 ++ "-12-31")%string).
Proof.
  assert (100 <= 2023 <= 9999)%Z as H by lia. split; [exact H | apply (year_bounds_spec 2023 H)].
Defined.
