(* ===== verification/ReportsPage.v ===== *)
(** The Reports page of [src/expense-tracker-fe/src/pages/Reports.tsx] as
    the browser runs it: the selectors, the asynchronous [fetchReports]
    calls in flight, and the tables it renders.

    [fetchReports] (lines 48-69) is recreated by [useCallback] whenever
    the selected year or month changes, and the effect of lines 71-73 runs
    the new one; nothing cancels a call already started.  A started call
    is a [Pending]: the year and month its closure captured and the
    [await] it is suspended at.  [advance] is what happens when that
    [await] returns: the result is stored with the matching [set...] and
    the call moves on to its next [await], or it ends (normally, or in the
    [catch] when the service fails or [format] throws).  [page_step] lets
    the user pick a year or a month from the menus, or lets any call in
    flight return, in any order. *)

From S2P Require Import Prelude JsRuntime Types DateTime JsNumber Reports.
From Stdlib Require Import String.
From stdpp Require Import relations.

(** Lines 28-31: the five years offered, the current one first. *)
Definition years (now : Z) : list Z :=
  map (fun i => f_year (local_fields now) - Z.of_nat i)%Z (seq 0 5).

(** Lines 33-46. *)
Definition months : list (Z * string) :=
  [(1, "January"); (2, "February"); (3, "March"); (4, "April"); (5, "May");
   (6, "June"); (7, "July"); (8, "August"); (9, "September"); (10, "October");
   (11, "November"); (12, "December")]%Z.

(** Line 123: [months.find((m) => m.value === selectedMonth)?.label]. *)
Definition month_label (m : Z) : option string :=
  option_map snd (List.find (fun v => Z.eqb v.1 m) months).

(** Lines 22-26 at time [now]: [getMonth() + 1] is the calendar month. *)
Definition init_reports (now : Z) : ReportsState :=
  let f := local_fields now in mkReportsState [] [] [] (f_year f) (f_month f).

(** The two selectors' [onChange] (lines 91 and 106); the menu items'
    values are numbers, which [Number] leaves as they are. *)
Inductive ReportsEvent := SelectYear (y : Z) | SelectMonth (m : Z).

Definition set_selection (ev : ReportsEvent) (s : ReportsState) : ReportsState :=
  match ev with
  | SelectYear y => mkReportsState (monthlyExpenses s) (yearlyExpenses s) (categoryReport s) y (selectedMonth s)
  | SelectMonth m => mkReportsState (monthlyExpenses s) (yearlyExpenses s) (categoryReport s) (selectedYear s) m
  end.

Definition set_monthly (l : list Expense.t) (s : ReportsState) : ReportsState :=
  mkReportsState l (yearlyExpenses s) (categoryReport s) (selectedYear s) (selectedMonth s).

Definition set_yearly (l : list Expense.t) (s : ReportsState) : ReportsState :=
  mkReportsState (monthlyExpenses s) l (categoryReport s) (selectedYear s) (selectedMonth s).

Definition set_categories (c : list ExpenseCategoryReport.t) (s : ReportsState) : ReportsState :=
  mkReportsState (monthlyExpenses s) (yearlyExpenses s) c (selectedYear s) (selectedMonth s).

(** The [await] a started call is suspended at. *)
Inductive Stage := AwaitMonthly | AwaitYearly | AwaitCategories (start end_ : string).

Record Pending := mkPending { p_year : Z; p_month : Z; p_stage : Stage }.

Definition start_fetch (s : ReportsState) : Pending :=
  mkPending (selectedYear s) (selectedMonth s) AwaitMonthly.

Record ReportsPage := mkReportsPage { view : ReportsState; inflight : list Pending }.

(** The [await] of [p] returns (lines 51-65). *)
Definition advance (svc : ReportServices) (p : Pending) (s : ReportsState)
    : ReportsState * option Pending :=
  match p_stage p with
  | AwaitMonthly =>
      match getMonthlyReport svc (p_year p) (p_month p) with
      | None => (s, None)
      | Some monthly => (set_monthly monthly s, Some (mkPending (p_year p) (p_month p) AwaitYearly))
      end
  | AwaitYearly =>
      match getYearlyReport svc (p_year p) with
      | None => (s, None)
      | Some yearly =>
          let s := set_yearly yearly s in
          match year_bounds (p_year p) with
          | (Some start, Some end_) => (s, Some (mkPending (p_year p) (p_month p) (AwaitCategories start end_)))
          | _ => (s, None)
          end
      end
  | AwaitCategories start end_ =>
      match getCategoryReport svc start end_ with
      | None => (s, None)
      | Some c => (set_categories c s, None)
      end
  end.

(** A call run without interruption, for at most [fuel] awaits. *)
Fixpoint run_pending (svc : ReportServices) (fuel : nat) (p : Pending) (s : ReportsState)
    : ReportsState * option Pending :=
  match fuel with
  | O => (s, Some p)
  | S n =>
      match advance svc p s with
      | (s', None) => (s', None)
      | (s', Some p') => run_pending svc n p' s'
      end
  end.

(** A selection: React skips the render, and so the effect, when the
    value does not change; otherwise the new [fetchReports] starts. *)
Definition select (ev : ReportsEvent) (P : ReportsPage) : ReportsPage :=
  let s := set_selection ev (view P) in
  if bool_decide (selectedYear s = selectedYear (view P) /\ selectedMonth s = selectedMonth (view P))
  then P
  else mkReportsPage s (inflight P ++ [start_fetch s]).

(** The first render and its effect. *)
Definition mount (now : Z) : ReportsPage :=
  let s := init_reports now in mkReportsPage s [start_fetch s].

(** The values the menus offer (lines 93-97 and 108-112). *)
Definition menu_event (now : Z) (ev : ReportsEvent) : bool :=
  match ev with
  | SelectYear y => bool_decide (y ∈ years now)
  | SelectMonth m => bool_decide (m ∈ map fst months)
  end.

Section page.
Context (svc : ReportServices) (now : Z).

Inductive page_step : ReportsPage -> ReportsPage -> Prop :=
  | step_select P ev : menu_event now ev = true -> page_step P (select ev P)
  | step_return P l1 p l2 : inflight P = l1 ++ p :: l2 ->
      page_step P (mkReportsPage (advance svc p (view P)).1 (l1 ++ option_list (advance svc p (view P)).2 ++ l2)).

Definition reachable_page (P : ReportsPage) : Prop := rtc page_step (mount now) P.

End page.

(** An executable schedule: the user's selections and the order in which
    the calls in flight return ([AReturn i] lets the [i]-th one return). *)
Inductive Action := ASelect (ev : ReportsEvent) | AReturn (i : nat).

Definition perform (svc : ReportServices) (now : Z) (a : Action) (P : ReportsPage)
    : option ReportsPage :=
  match a with
  | ASelect ev => if menu_event now ev then Some (select ev P) else None
  | AReturn i =>
      match inflight P !! i with
      | None => None
      | Some p =>
          Some (mkReportsPage (advance svc p (view P)).1
                  (take i (inflight P) ++ option_list (advance svc p (view P)).2 ++ drop (S i) (inflight P)))
      end
  end.

Fixpoint run_actions (svc : ReportServices) (now : Z) (acts : list Action) (P : ReportsPage)
    : option ReportsPage :=
  match acts with
  | [] => Some P
  | a :: acts' =>
      match perform svc now a P with
      | None => None
      | Some P' => run_actions svc now acts' P'
      end
  end.

(** ** Rendering (lines 78-216) *)

(** [{selectedYear}] and [{category.count}]: Number::toString. *)
Definition number_text (z : Z) : string := number_toString (Finite (inject_Z z)).

Record ReportsView := mkReportsView {
  monthly_title : string;
  monthly_rows : list (string * string * string * string);
  monthly_total : string;
  category_title : string;
  category_rows : list (string * string * string * string);
  yearly_title : string;
  yearly_total : string;
  yearly_average : string
}.

(** Lines 137-146: date, description, category and amount;
    [format] throws a RangeError on an Invalid Date. *)
Definition monthly_row (e : Expense.t) : option (string * string * string * string) :=
  match format_MMM_dd (Date_parse (Expense.date e)) with
  | None => None
  | Some d => Some (d, Expense.description e, Expense.category e, money (Finite (Expense.amount e)))
  end.

(** Lines 182-191. *)
Definition category_table_row (c : ExpenseCategoryReport.t) : string * string * string * string :=
  (ExpenseCategoryReport.category c, money (Finite (ExpenseCategoryReport.totalAmount c)),
   number_text (ExpenseCategoryReport.count c), "$" ++ toFixed 2 (categoryAverage c))%string.

(** The page's text; [None] when rendering throws.  [{undefined}] renders
    nothing, hence the [default] of the heading (line 123). *)
Definition render_reports (s : ReportsState) : option ReportsView :=
  match mapM monthly_row (monthlyExpenses s) with
  | None => None
  | Some rows =>
      Some (mkReportsView
        ("Monthly Summary (" ++ default "" (month_label (selectedMonth s)) ++ " "
           ++ number_text (selectedYear s) ++ ")")
        rows (money (calculateTotal (monthlyExpenses s)))
        ("Category Summary (" ++ number_text (selectedYear s) ++ ")")
        (map category_table_row (categoryReport s))
        ("Yearly Summary (" ++ number_text (selectedYear s) ++ ")")
        ("Total: " ++ money (calculateTotal (yearlyExpenses s)))
        ("Monthly Average: $" ++ toFixed 2 (monthlyAverage (yearlyExpenses s))))%string
  end.

(** Sample data: January 15th 2024 at noon, and services whose reports
    depend on the year asked for. *)
Definition jan_2024 : Z := make_date 2024 1 15 12 0 0 0.

Definition by_year : ReportServices :=
  {| getMonthlyReport := fun y _ => Some (if (y =? 2024)%Z then [food_expense] else [rent_expense]);
     getYearlyReport := fun y => Some (if (y =? 2024)%Z then [food_expense] else [rent_expense]);
     getCategoryReport := fun _ _ => Some [food_report] |}.

(** ** Theorems *)

Definition selection_ok (now y m : Z) : Prop := y ∈ years now /\ m ∈ map fst months.

Definition page_inv (now : Z) (P : ReportsPage) : Prop :=
  selection_ok now (selectedYear (view P)) (selectedMonth (view P)) /\
  Forall (fun p => selection_ok now (p_year p) (p_month p)) (inflight P).

Lemma advance_selection svc p s :
  selectedYear (advance svc p s).1 = selectedYear s /\ selectedMonth (advance svc p s).1 = selectedMonth s.
Proof. unfold advance. repeat case_match; simplify_eq/=; auto. Qed.

Lemma advance_next svc p s p' :
  (advance svc p s).2 = Some p' -> p_year p' = p_year p /\ p_month p' = p_month p.
Proof. unfold advance. intros H. repeat case_match; simplify_eq/=; auto. Qed.

Lemma run_pending_selection svc n p s :
  selectedYear (run_pending svc n p s).1 = selectedYear s /\
  selectedMonth (run_pending svc n p s).1 = selectedMonth s.
Proof.
  revert p s. induction n as [|n IH]; intros p s; [done|]. simpl.
  destruct (advance_selection svc p s) as [Hy Hm].
  destruct (advance svc p s) as [s' [p'|]]; simpl in *; [|done].
  rewrite (proj1 (IH p' s')), (proj2 (IH p' s')). done.
Qed.

Lemma months_label m : m ∈ map fst months -> is_Some (month_label m).
Proof. intros H. repeat (apply elem_of_cons in H as [->|H]; [by eexists|]). by apply elem_of_nil in H. Qed.

Lemma current_year_offered now : f_year (local_fields now) ∈ years now.
Proof. apply list_elem_of_In. left. simpl. lia. Qed.

Lemma months_offered now : f_month (local_fields now) ∈ map fst months.
Proof.
  destruct (local_fields_month_day now) as [Hm _].
  assert (In (f_month (local_fields now)) (map Z.of_nat (seq 1 12))) as H.
  { apply in_map_iff. exists (Z.to_nat (f_month (local_fields now))).
    split; [lia|]. apply in_seq. lia. }
  apply list_elem_of_In. exact H.
Qed.

Lemma mount_inv now : page_inv now (mount now).
Proof.
  assert (selection_ok now (f_year (local_fields now)) (f_month (local_fields now))) as H
    by (split; [apply current_year_offered | apply months_offered]).
  split; [exact H|]. constructor; [exact H | constructor].
Qed.

Lemma select_inv now ev P : menu_event now ev = true -> page_inv now P -> page_inv now (select ev P).
Proof.
  intros He [Hs Hl]. unfold select. case_bool_decide; [by split|].
  assert (selection_ok now (selectedYear (set_selection ev (view P))) (selectedMonth (set_selection ev (view P)))) as Hn.
  { destruct Hs as [Hy Hm].
    destruct ev; cbn [set_selection selectedYear selectedMonth menu_event] in *;
      apply bool_decide_eq_true in He; by split. }
  split; [exact Hn|]. apply Forall_app. split; [done|]. constructor; [exact Hn | constructor].
Qed.

Lemma return_inv svc now P l1 p l2 :
  inflight P = l1 ++ p :: l2 -> page_inv now P ->
  page_inv now (mkReportsPage (advance svc p (view P)).1 (l1 ++ option_list (advance svc p (view P)).2 ++ l2)).
Proof.
  intros Hf [Hs Hl]. rewrite Hf in Hl. apply Forall_app in Hl as [H1 H2]. inversion H2 as [|? ? Hp H3]; subst.
  destruct (advance_selection svc p (view P)) as [Hy Hm]. split; simpl; [by rewrite Hy, Hm|].
  apply Forall_app. split; [done|]. apply Forall_app. split; [|done].
  destruct (advance svc p (view P)).2 as [p'|] eqn:E; simpl; [|done].
  constructor; [cbv beta|constructor]. by destruct (advance_next svc p (view P) p' E) as [-> ->].
Qed.

Definition stage_weight (p : Pending) : nat :=
  match p_stage p with AwaitMonthly => 3 | AwaitYearly => 2 | AwaitCategories _ _ => 1 end.

Definition inflight_weight (l : list Pending) : nat := sum_list_with stage_weight l.

Lemma advance_weight svc p s :
  sum_list_with stage_weight (option_list (advance svc p s).2) < stage_weight p.
Proof. unfold advance, stage_weight. repeat case_match; simplify_eq/=; lia. Qed.

Lemma inflight_weight_bound l : inflight_weight l <= 3 * length l.
Proof.
  induction l as [|q l IH]; [done|]. unfold inflight_weight in *. simpl.
  unfold stage_weight at 1. case_match; lia.
Qed.

Lemma run_pending_steps svc now n p s l :
  (run_pending svc n p s).2 = None ->
  rtc (page_step svc now) (mkReportsPage s (p :: l)) (mkReportsPage (run_pending svc n p s).1 l).
Proof.
  revert p s. induction n as [|n IH]; intros p s H; [done|]. cbn [run_pending] in *.
  pose proof (step_return svc now (mkReportsPage s (p :: l)) [] p l eq_refl) as Hst.
  cbn [view inflight] in Hst. destruct (advance svc p s) as [s' [p'|]]; cbn in Hst |- *.
  - eapply rtc_l; [exact Hst|]. by apply IH.
  - by apply rtc_once.
Qed.

Lemma run_actions_rtc svc now acts P P' :
  run_actions svc now acts P = Some P' -> rtc (page_step svc now) P P'.
Proof.
  revert P. induction acts as [|a acts IH]; intros P H; cbn [run_actions] in H; [by injection H as <-|].
  destruct (perform svc now a P) as [P1|] eqn:E; [|done].
  eapply rtc_l; [|by apply IH]. destruct a as [ev|i]; cbn [perform] in E.
  - destruct (menu_event now ev) eqn:Hm; [|done]. injection E as <-. by constructor.
  - destruct (inflight P !! i) as [p|] eqn:Hi; [|done]. injection E as <-.
    apply step_return. symmetry. by apply take_drop_middle.
Qed.

Lemma mapM_None_Exists {A B} (f : A -> option B) l :
  mapM f l = None <-> Exists (fun x => f x = None) l.
Proof.
  induction l as [|x l IH]; simpl; [split; [done|inversion 1]|].
  rewrite Exists_cons. destruct (f x) eqn:E; simpl; [|naive_solver].
  destruct (mapM f l); simpl; naive_solver.
Qed.

(** The selections and returns of the finding below: the user picks 2023
    while the first 2024 call is loading, the 2023 call returns first. *)
Definition stale_schedule : list Action :=
  [ASelect (SelectYear 2023); AReturn 1; AReturn 1; AReturn 1; AReturn 0; AReturn 0; AReturn 0].

(** Every reachable state of the page satisfies [page_inv]. *)
Lemma reachable_page_inv svc now P : reachable_page svc now P -> page_inv now P.
Proof.
  intros H. refine (rtc_ind_r (page_inv now) (mount now) (mount_inv now) _ P H).
  intros P1 P2 _ Hs IH. destruct Hs as [Q ev He|Q l1 p l2 Hf]; [by apply select_inv | by apply return_inv].
Qed.

(** C23: in every reachable state the selected year is one the menu offers
    and the month is one of January to December, and so is the selection
    every call in flight asks the server for; the monthly heading names
    the selected month. *)
Theorem reports_selection_inv svc now P :
  reachable_page svc now P ->
  selection_ok now (selectedYear (view P)) (selectedMonth (view P)) /\
  Forall (fun p => selection_ok now (p_year p) (p_month p)) (inflight P) /\
  exists label, month_label (selectedMonth (view P)) = Some label.
Proof.
  intros H. destruct (reachable_page_inv svc now P H) as [[Hy Hm] Hl].
  split; [done|]. split; [done|]. by apply months_label.
Qed.

(** A [fetchReports] call that runs without interruption returns
    within three awaits, and leaves the page as the sequential
    [fetchReports] of [Reports.v] does. *)
Theorem run_pending_fetchReports svc s :
  (run_pending svc 3 (start_fetch s) s).2 = None /\
  (run_pending svc 3 (start_fetch s) s).1 = fetchReports svc s.
Proof.
  unfold run_pending, advance, fetchReports, start_fetch. cbn [p_stage p_year p_month].
  repeat (case_match; simplify_eq/=); done.
Qed.

(** Whatever the order in which the calls in flight return, each
    return lowers the number of awaits left, at most three per call: the
    calls all end. *)
Theorem return_terminates svc P l1 p l2 :
  inflight P = l1 ++ p :: l2 ->
  inflight_weight (l1 ++ option_list (advance svc p (view P)).2 ++ l2) < inflight_weight (inflight P) /\
  inflight_weight (inflight P) <= 3 * length (inflight P).
Proof.
  intros Hf. split; [|apply inflight_weight_bound]. rewrite Hf. unfold inflight_weight.
  pose proof (advance_weight svc p (view P)) as Hw. rewrite !sum_list_with_app. simpl. lia.
Qed.

Lemma run_pending_ends svc p s : (run_pending svc 3 p s).2 = None.
Proof.
  destruct p as [y m st]. unfold run_pending, advance.
  destruct st; cbn [p_stage p_year p_month]; repeat (case_match; simplify_eq/=); done.
Qed.

Lemma drain svc now l s :
  exists s', rtc (page_step svc now) (mkReportsPage s l) (mkReportsPage s' []) /\
    selectedYear s' = selectedYear s /\ selectedMonth s' = selectedMonth s.
Proof.
  revert s. induction l as [|p l IH]; intros s; [by exists s|].
  destruct (IH (run_pending svc 3 p s).1) as (s' & Hr & Hy & Hm).
  destruct (run_pending_selection svc 3 p s) as [Hy' Hm'].
  exists s'. split; [|split; congruence].
  eapply rtc_trans; [apply run_pending_steps, run_pending_ends | exact Hr].
Qed.

(** From every state of the page, the calls in flight can all return
    without the user doing anything, leaving the selection as it is. *)
Theorem page_settles svc now P :
  exists P', rtc (page_step svc now) P P' /\ inflight P' = [] /\
    selectedYear (view P') = selectedYear (view P) /\ selectedMonth (view P') = selectedMonth (view P).
Proof.
  destruct P as [s l]. destruct (drain svc now l s) as (s' & Hr & Hy & Hm).
  by exists (mkReportsPage s' []).
Qed.

(** C25: the responses of a superseded selection are not discarded: when the
    user picks 2023 while the 2024 reports load and the 2023 calls return
    first, the page settles, nothing in flight, with 2023 selected and the
    2024 monthly and yearly data shown. *)
Theorem stale_reports :
  exists P, reachable_page by_year jan_2024 P /\ inflight P = [] /\ selectedYear (view P) = 2023%Z /\
    Some (monthlyExpenses (view P)) = getMonthlyReport by_year 2024 (selectedMonth (view P)) /\
    Some (yearlyExpenses (view P)) = getYearlyReport by_year 2024 /\
    getYearlyReport by_year 2023 <> getYearlyReport by_year 2024.
Proof.
  destruct (run_actions by_year jan_2024 stale_schedule (mount jan_2024)) as [P|] eqn:E;
    [|vm_compute in E; discriminate].
  exists P. split; [by apply run_actions_rtc in E|].
  vm_compute in E. injection E as <-. vm_compute. repeat split; discriminate.
Qed.

(** Rendering the page throws (date-fns' RangeError, which unmounts
    the page) exactly when an expense of the month has a date that
    [new Date] reads as an Invalid Date. *)
Theorem render_reports_throws s :
  render_reports s = None <-> Exists (fun e => Date_parse (Expense.date e) = None) (monthlyExpenses s).
Proof.
  unfold render_reports. destruct (mapM monthly_row (monthlyExpenses s)) eqn:E.
  - split; [done|]. intros Hx. enough (mapM monthly_row (monthlyExpenses s) = None) by congruence.
    apply mapM_None_Exists. eapply Exists_impl; [exact Hx|]. intros e He. unfold monthly_row. by rewrite He.
  - split; [intros _|done]. apply mapM_None_Exists in E. eapply Exists_impl; [exact E|].
    intros e. unfold monthly_row, format_MMM_dd. by destruct (Date_parse (Expense.date e)).
Qed.

(** The page after the user picks July and every call has returned. *)
Definition july_page : ReportsPage :=
  default (mount jan_2024)
    (run_actions by_year jan_2024 [ASelect (SelectMonth 7); AReturn 0; AReturn 0; AReturn 0;
                                   AReturn 0; AReturn 0; AReturn 0] (mount jan_2024)).

Lemma reports_selection_inv_witness :
  reachable_page by_year jan_2024 july_page /\
  selection_ok jan_2024 (selectedYear (view july_page)) (selectedMonth (view july_page)) /\
  Forall (fun p => selection_ok jan_2024 (p_year p) (p_month p)) (inflight july_page) /\
  exists label, month_label (selectedMonth (view july_page)) = Some label.
Proof.
  assert (reachable_page by_year jan_2024 july_page) as H.
  { apply (run_actions_rtc _ _ [ASelect (SelectMonth 7); AReturn 0; AReturn 0; AReturn 0;
                                AReturn 0; AReturn 0; AReturn 0]). vm_compute. reflexivity. }
  split; [exact H | apply (reports_selection_inv _ _ _ H)].
Defined.

Lemma return_terminates_witness :
  inflight (mount jan_2024) = [] ++ start_fetch (init_reports jan_2024) :: [] /\
  inflight_weight ([] ++ option_list (advance by_year (start_fetch (init_reports jan_2024)) (view (mount jan_2024))).2 ++ [])
    < inflight_weight (inflight (mount jan_2024)) /\
  inflight_weight (inflight (mount jan_2024)) <= 3 * length (inflight (mount jan_2024)).
Proof.
  assert (inflight (mount jan_2024) = [] ++ start_fetch (init_reports jan_2024) :: []) as H by reflexivity.
  split; [exact H | apply (return_terminates by_year _ _ _ _ H)].
Defined.

(** An expense whose date [new Date] cannot read. *)
Definition bad_date_expense : Expense.t :=
  Expense.mk 3 "Taxi" 20 "15/01/2024" "TRANSPORTATION" "CASH" false
    "2024-01-15T00:00:00" "2024-01-15T00:00:00".

Lemma render_reports_throws_witness :
  render_reports (mkReportsState [food_expense; bad_date_expense] [] [] 2024 1) = None.
Proof.
  apply (render_reports_throws (mkReportsState [food_expense; bad_date_expense] [] [] 2024 1)).
  apply Exists_cons. right. apply Exists_cons. left. vm_compute. reflexivity.
Defined.
