(* ===== verification/Api.v ===== *)
(** The remote access client, [src/expense-tracker-fe/src/services/api.ts],
    and the session guard [PrivateRoute] of [App.tsx].

    The client's state [ClientState] is what the module reads and writes
    outside its own frame: the [localStorage] entry ['token'], the axios
    instance's default [Authorization] header ([api.defaults.headers.common])
    and the window location.  The server is any instance of the class
    [Backend]: a state of its own and a function answering a [Request] with
    a status and a body, or a network failure.  An operation is a function
    of the [World] (client and server states) returning a value or an
    [ApiError], in the small state-and-error monad [M].

    [send] is [api.request] with both interceptors: the request interceptor
    (lines 15-33) overrides the default header with the stored token when
    it is truthy; axios rejects every status outside 200-299; the response
    interceptor (lines 36-60) calls [authService.logout] on a 401 and
    rethrows.  [login], [signup], [logout] are [authService] (lines 62-111);
    the [expenseService] calls (lines 113-171) each return [response.data.data],
    which is [undefined] when the body has no [data] field. *)

From S2P Require Import Prelude JsRuntime Types DateTime JsNumber.

Record ClientState := mkClient {
  storage_token : option string;     (* localStorage.getItem('token') *)
  default_auth : option string;      (* api.defaults.headers.common['Authorization'] *)
  location : string                  (* window.location.href *)
}.

Inductive Method := GET | POST | PUT | DELETE.

Record Request := mkRequest {
  req_method : Method;
  req_url : string;
  req_params : list (string * string);
  req_body : option jsval;
  req_auth : option string            (* the Authorization header sent *)
}.

Inductive NetResult :=
  | Response (status : Z) (data : jsval)
  | NetworkError.

(** What the client needs of a server. *)
Class Backend := {
  srv_state : Type;
  serve : srv_state -> Request -> srv_state * NetResult
}.

Inductive ApiError :=
  | AxiosError (status : option Z) (data : jsval)  (* a rejected request *)
  | TypeError                                      (* a property of null/undefined *)
  | NoToken                                        (* Error('No token received from server') *)
  | RangeError.                                    (* date-fns format of an Invalid Date *)

Section client.
Context `{B : Backend}.

Record World := mkWorld { client : ClientState; server : srv_state }.

Definition M (A : Type) : Type := World -> (A + ApiError) * World.

Definition ret {A} (x : A) : M A := fun w => (inl x, w).

Definition bind {A C} (m : M A) (k : A -> M C) : M C :=
  fun w => match m w with
           | (inl x, w') => k x w'
           | (inr err, w') => (inr err, w')
           end.

Definition throw {A} (err : ApiError) : M A := fun w => (inr err, w).

Definition lift_opt {A} (o : option A) : M A :=
  match o with Some x => ret x | None => throw TypeError end.

Definition modify_client (f : ClientState -> ClientState) : M unit :=
  fun w => (inl tt, mkWorld (f (client w)) (server w)).

(** [try { m } catch (e) { handler; throw e }]. *)
Definition rethrow_after {A} (m : M A) (handler : M unit) : M A :=
  fun w => match m w with
           | (inl x, w') => (inl x, w')
           | (inr err, w') => match handler w' with (_, w'') => (inr err, w'') end
           end.
(** [try { m } catch (e) { handler(e) }]. *)
Definition try_catch {A} (m : M A) (handler : ApiError -> M A) : M A :=
  fun w => match m w with
           | (inl x, w') => (inl x, w')
           | (inr err, w') => handler err w'
           end.
End client.

Arguments M {_} A.

Declare Scope api_scope.
Delimit Scope api_scope with api.
Notation "x <- m ;; k" := (bind m (fun x => k))
  (at level 100, m at next level, right associativity) : api_scope.
Notation "m ;; k" := (bind m (fun _ => k))
  (at level 100, right associativity) : api_scope.
Open Scope api_scope.

Definition bearer (t : string) : string := ("Bearer " ++ t)%string.

(** [authService.logout], lines 106-110. *)
Definition logout_client (c : ClientState) : ClientState :=
  mkClient None None "/login".

(** The request interceptor, lines 15-33: [Authorization] is the default
    header unless a truthy token is stored. *)
Definition request_auth (c : ClientState) : option string :=
  match storage_token c with
  | Some t => if str_truthy t then Some (bearer t) else default_auth c
  | None => default_auth c
  end.

Section operations.
Context `{B : Backend}.

(** One request through both interceptors; the value is [response.data]. *)
Definition send (m : Method) (url : string) (params : list (string * string))
    (body : option jsval) : M jsval :=
  fun w =>
    let c := client w in
    let req := mkRequest m url params body (request_auth c) in
    let '(srv', res) := serve (server w) req in
    match res with
    | Response st data =>
        if (200 <=? st)%Z && (st <? 300)%Z then (inl data, mkWorld c srv')
        else
          let c' := if (st =? 401)%Z then logout_client c else c in
          (inr (AxiosError (Some st) data), mkWorld c' srv')
    | NetworkError => (inr (AxiosError None JUndefined), mkWorld c srv')
    end.

Definition logout : M unit := modify_client logout_client.

(** The object [login] resolves to, lines 79-86. *)
Definition auth_response (data token : jsval) : M jsval :=
  ty1 <- lift_opt (js_get data "tokenType") ;;
  ty2 <- lift_opt (js_get data "type") ;;
  id <- lift_opt (js_get data "id") ;;
  username <- lift_opt (js_get data "username") ;;
  email <- lift_opt (js_get data "email") ;;
  roles <- lift_opt (js_get data "roles") ;;
  ret (JObj [("token", token); ("type", js_or ty1 ty2); ("id", id);
             ("username", username); ("email", email); ("roles", js_or roles (JArr []))]).

(** [authService.login], lines 63-96. *)
Definition login (data : LoginRequest.t) : M jsval :=
  rethrow_after
    (data <- send POST "/auth/signin" []
               (Some (JObj [("username", JStr (LoginRequest.username data));
                            ("password", JStr (LoginRequest.password data))])) ;;
     t1 <- lift_opt (js_get data "accessToken") ;;
     t2 <- lift_opt (js_get data "token") ;;
     let token := js_or t1 t2 in
     if js_truthy token then
       modify_client (fun c => mkClient (Some (js_to_string token))
                                        (Some (bearer (js_to_string token))) (location c)) ;;
       auth_response data token
     else throw NoToken)
    (modify_client (fun c => mkClient None None (location c))).

(** [authService.signup], lines 98-104. *)
Definition signup (data : SignupRequest.t) : M unit :=
  send POST "/auth/signup" []
    (Some (JObj [("username", JStr (SignupRequest.username data)); ("email", JStr (SignupRequest.email data));
                 ("password", JStr (SignupRequest.password data))])) ;;
  ret tt.

(** [response.data.data]. *)
Definition unwrap (m : M jsval) : M jsval :=
  data <- m ;; lift_opt (js_get data "data").

(** [`/v1/expenses/${id}`]: the id is a JavaScript number. *)
Definition expense_url (id : js_number) : string :=
  ("/v1/expenses/" ++ number_toString id)%string.

Definition getAllExpenses : M jsval := unwrap (send GET "/v1/expenses" [] None).

Definition getExpenseById (id : js_number) : M jsval := unwrap (send GET (expense_url id) [] None).

Definition addExpense (expense : jsval) : M jsval :=
  unwrap (send POST "/v1/expenses" [] (Some expense)).

Definition updateExpense (id : js_number) (expense : jsval) : M jsval :=
  unwrap (send PUT (expense_url id) [] (Some expense)).

Definition deleteExpense (id : js_number) : M unit :=
  send DELETE (expense_url id) [] None ;; ret tt.

Definition day_range (startDate endDate : string) : list (string * string) :=
  [("startDate", startDate ++ "T00:00:00"); ("endDate", endDate ++ "T23:59:59")]%string.

Definition getExpensesBetweenDates (startDate endDate : string) : M jsval :=
  unwrap (send GET "/v1/expenses/between" (day_range startDate endDate) None).

Definition getMonthlyReport (year month : Z) : M jsval :=
  unwrap (send GET "/v1/expenses/reports/monthly"
            [("year", number_to_string year 0); ("month", number_to_string month 0)] None).

Definition getYearlyReport (year : Z) : M jsval :=
  unwrap (send GET "/v1/expenses/reports/yearly" [("year", number_to_string year 0)] None).

Definition getCategoryReport (startDate endDate : string) : M jsval :=
  unwrap (send GET "/v1/expenses/reports/category" (day_range startDate endDate) None).
End operations.

(** [PrivateRoute], App.tsx lines 28-31: [!!localStorage.getItem('token')]. *)
Inductive RouteDecision := Render | RedirectToLogin.

Definition PrivateRoute (c : ClientState) : RouteDecision :=
  match storage_token c with
  | Some t => if str_truthy t then Render else RedirectToLogin
  | None => RedirectToLogin
  end.

(** Every call the pages make, as data, and a sequence of calls run in
    order: the pages await each call before the next. *)
Inductive ApiCall :=
  | CLogin (username password : string)
  | CSignup (username email password : string)
  | CLogout
  | CGetAll
  | CGetById (id : js_number)
  | CAdd (expense : jsval)
  | CUpdate (id : js_number) (expense : jsval)
  | CDelete (id : js_number)
  | CBetween (startDate endDate : string)
  | CMonthly (year month : Z)
  | CYearly (year : Z)
  | CCategory (startDate endDate : string).

Section calls.
Context `{B : Backend}.

Definition run_call (call : ApiCall) : M jsval :=
  match call with
  | CLogin u p => login (LoginRequest.mk u p)
  | CSignup u e p => signup (SignupRequest.mk u e p) ;; ret JUndefined
  | CLogout => logout ;; ret JUndefined
  | CGetAll => getAllExpenses
  | CGetById id => getExpenseById id
  | CAdd e => addExpense e
  | CUpdate id e => updateExpense id e
  | CDelete id => deleteExpense id ;; ret JUndefined
  | CBetween s e => getExpensesBetweenDates s e
  | CMonthly y m => getMonthlyReport y m
  | CYearly y => getYearlyReport y
  | CCategory s e => getCategoryReport s e
  end.

(** The world after a sequence of calls; a failed call ends its page's
    handler, and the next call starts from the state it left. *)
Fixpoint run_calls (calls : list ApiCall) (w : World) : World :=
  match calls with
  | [] => w
  | call :: rest => run_calls rest (snd (run_call call w))
  end.
End calls.

(** The default header is either absent or the bearer form of the stored
    token. *)
Definition client_inv (c : ClientState) : Prop :=
  default_auth c = None \/ exists t, storage_token c = Some t /\ default_auth c = Some (bearer t).

Definition preserves `{Backend} {A} (m : M A) : Prop :=
  forall w, client_inv (client w) -> client_inv (client (snd (m w))).

Create HintDb api.

(** A server answering every request with the same result. *)
Definition constant_backend (r : NetResult) : Backend :=
  {| srv_state := unit; serve := fun s _ => (s, r) |}.

(** A server that records the requests it receives and answers each by a
    fixed function of the request. *)
Definition recorder (answer : Request -> NetResult) : Backend :=
  {| srv_state := list Request; serve s r := (r :: s, answer r) |}.

Definition signin_body (t : string) : jsval :=
  JObj [("accessToken", JStr t); ("tokenType", JStr "Bearer"); ("id", JNum 1 0);
        ("username", JStr "ana"); ("email", JStr "ana@example.com")].

(** ** Theorems *)

Lemma recorder_send answer m u ps b w :
  server (snd (@send (recorder answer) m u ps b w)) =
  mkRequest m u ps b (request_auth (client w)) :: server w.
Proof. unfold send. cbn. repeat case_match; reflexivity. Qed.


Section preservation.
Context `{B : Backend}.

Lemma preserves_ret {A} (x : A) : preserves (ret x).
Proof. by intros w. Qed.

Lemma preserves_throw {A} err : preserves (@throw _ A err).
Proof. by intros w. Qed.

Lemma preserves_lift_opt {A} (o : option A) : preserves (lift_opt o).
Proof. destruct o; [apply preserves_ret | apply preserves_throw]. Qed.

Lemma preserves_bind {A C} (m : M A) (k : A -> M C) :
  preserves m -> (forall x, preserves (k x)) -> preserves (bind m k).
Proof.
  intros Hm Hk w Hw. unfold bind. specialize (Hm w Hw).
  destruct (m w) as [[x|err] w']; simpl in *; [by apply Hk | done].
Qed.

Lemma preserves_modify f :
  (forall c, client_inv c -> client_inv (f c)) -> preserves (modify_client f).
Proof. intros Hf w Hw. by apply Hf. Qed.

Lemma preserves_rethrow {A} (m : M A) h : preserves m -> preserves h -> preserves (rethrow_after m h).
Proof.
  intros Hm Hh w Hw. unfold rethrow_after. specialize (Hm w Hw).
  destruct (m w) as [[x|err] w']; simpl in *; [done|].
  specialize (Hh w' Hm). destruct (h w'). done.
Qed.

Lemma logout_client_inv c : client_inv (logout_client c).
Proof. by left. Qed.

Lemma preserves_send m url ps b : preserves (send m url ps b).
Proof.
  intros w Hw. unfold send. destruct (serve _ _) as [s' [st data|]]; simpl; [|done].
  destruct (_ && _); simpl; [done|]. destruct (st =? 401)%Z; [apply logout_client_inv | done].
Qed.
End preservation.

#[export] Hint Resolve preserves_ret preserves_throw preserves_lift_opt preserves_bind
  preserves_rethrow preserves_send logout_client_inv : api.

Ltac preserves_auto :=
  repeat (intros || apply preserves_bind || apply preserves_rethrow || apply preserves_send
          || apply preserves_lift_opt || apply preserves_ret || apply preserves_throw
          || (apply preserves_modify; intros ? ?) || case_match).

Section client_theorems.
Context `{B : Backend}.

Lemma run_call_preserves call : preserves (run_call call).
Proof.
  destruct call; simpl;
    unfold login, auth_response, signup, logout, unwrap, getAllExpenses, getExpenseById,
      addExpense, updateExpense, deleteExpense, getExpensesBetweenDates, getMonthlyReport,
      getYearlyReport, getCategoryReport;
    preserves_auto; simpl; auto with api.
  all: try (by left).
  right. by eexists.
Qed.

(** C17: whatever the server answers, after any sequence of calls the
    axios default header is absent or is the bearer form of the stored
    token: login, logout, the failed-login cleanup and the 401 handler
    keep the two in step. *)
Theorem run_calls_inv calls w :
  client_inv (client w) -> client_inv (client (run_calls calls w)).
Proof.
  revert w. induction calls as [|call calls IH]; intros w Hw; simpl; [done|].
  apply IH, run_call_preserves, Hw.
Qed.
End client_theorems.

(** C18: where the invariant holds, a request carries an [Authorization]
    header only when a token is stored, and the header is [Bearer <token>];
    a stale header without a stored token cannot be sent. *)
Theorem request_auth_bearer c h :
  client_inv c -> request_auth c = Some h ->
  exists t, storage_token c = Some t /\ h = bearer t.
Proof.
  intros [Hd | (t & Ht & Hd)]; unfold request_auth.
  - destruct (storage_token c) as [t|]; [|congruence].
    destruct (str_truthy t); [intros [= <-]; by exists t | congruence].
  - rewrite Ht, Hd. destruct (str_truthy t); intros [= <-]; by exists t.
Qed.

Lemma request_auth_stored c t :
  storage_token c = Some t -> str_truthy t = true -> request_auth c = Some (bearer t).
Proof. intros Ht Htr. unfold request_auth. by rewrite Ht, Htr. Qed.

(** C19: a 401 answer to any request clears the stored token and the default
    header and sends the window to /login; the error still reaches the
    caller, the next request carries no [Authorization] header, and the
    session guard redirects. *)
Theorem send_401_logout `{B : Backend} m url ps b w srv' data :
  serve (server w) (mkRequest m url ps b (request_auth (client w))) = (srv', Response 401 data) ->
  send m url ps b w = (inr (AxiosError (Some 401%Z) data), mkWorld (logout_client (client w)) srv') /\
  request_auth (logout_client (client w)) = None /\
  PrivateRoute (logout_client (client w)) = RedirectToLogin.
Proof. intros H. unfold send. by rewrite H. Qed.

Lemma rethrow_after_error `{B : Backend} {A} (m : M A) h w err :
  fst (rethrow_after m h w) = inr err ->
  exists w', snd (m w) = w' /\ fst (m w) = inr err /\ snd (rethrow_after m h w) = snd (h w').
Proof.
  unfold rethrow_after. destruct (m w) as [[x|e] w']; simpl; [done|].
  destruct (h w') as [r w''] eqn:Eh. simpl. intros [= ->]. exists w'. by rewrite Eh.
Qed.

(** a failed login, for any reason (a rejected request, a body that is
    null, a response without a token), leaves no token stored and no default
    header. *)
Theorem login_failure_clears `{B : Backend} u p w err :
  fst (login (LoginRequest.mk u p) w) = inr err ->
  storage_token (client (snd (login (LoginRequest.mk u p) w))) = None /\
  default_auth (client (snd (login (LoginRequest.mk u p) w))) = None.
Proof.
  unfold login. intros H. apply rethrow_after_error in H as (w' & _ & _ & ->). done.
Qed.

Lemma login_ok_eq `{B : Backend} u p w srv' fields t :
  serve (server w)
    (mkRequest POST "/auth/signin" []
       (Some (JObj [("username", JStr u); ("password", JStr p)])) (request_auth (client w)))
    = (srv', Response 200 (JObj fields)) ->
  obj_lookup "accessToken" fields = JStr t -> str_truthy t = true ->
  exists v, login (LoginRequest.mk u p) w = (inl v, mkWorld (mkClient (Some t) (Some (bearer t)) (location (client w))) srv').
Proof.
  intros Hs Ht Htr.
  cbv [login rethrow_after bind send auth_response lift_opt ret modify_client
       LoginRequest.username LoginRequest.password].
  rewrite Hs. simpl. rewrite Ht. cbv [js_or js_truthy]. rewrite !Htr. simpl. by eexists.
Qed.

(** when the server accepts the credentials with a body whose
    [accessToken] is a non-empty string, login stores it, sets the default
    header to its bearer form, resolves, and the session guard lets pages
    render. *)
Theorem login_success `{B : Backend} u p w srv' fields t :
  serve (server w)
    (mkRequest POST "/auth/signin" []
       (Some (JObj [("username", JStr u); ("password", JStr p)])) (request_auth (client w)))
    = (srv', Response 200 (JObj fields)) ->
  obj_lookup "accessToken" fields = JStr t -> str_truthy t = true ->
  storage_token (client (snd (login (LoginRequest.mk u p) w))) = Some t /\
  default_auth (client (snd (login (LoginRequest.mk u p) w))) = Some (bearer t) /\
  PrivateRoute (client (snd (login (LoginRequest.mk u p) w))) = Render /\
  exists v, fst (login (LoginRequest.mk u p) w) = inl v.
Proof.
  intros Hs Ht Htr. destruct (login_ok_eq u p w srv' fields t Hs Ht Htr) as [v ->].
  unfold PrivateRoute. simpl. rewrite Htr. repeat split. by exists v.
Qed.

(** C20: the client unwraps [response.data.data] without checking the
    envelope: a successful answer whose body has no [data] field resolves
    to [undefined] instead of failing. *)
Theorem getAllExpenses_no_envelope `{B : Backend} w srv' fields :
  serve (server w) (mkRequest GET "/v1/expenses" [] None (request_auth (client w)))
    = (srv', Response 200 (JObj fields)) ->
  obj_lookup "data" fields = JUndefined ->
  getAllExpenses w = (inl JUndefined, mkWorld (client w) srv').
Proof.
  intros Hs Hd. unfold getAllExpenses, unwrap, bind, send. rewrite Hs. simpl. by rewrite Hd.
Qed.

Definition fresh_world (B : Backend) (s : @srv_state B) : @World B :=
  mkWorld (mkClient None None "/") s.

Lemma request_auth_bearer_witness :
  client_inv (mkClient (Some "tok") (Some (bearer "tok")) "/") /\
  exists t, storage_token (mkClient (Some "tok") (Some (bearer "tok")) "/") = Some t /\
            bearer "tok" = bearer t.
Proof.
  assert (client_inv (mkClient (Some "tok") (Some (bearer "tok")) "/")) as Hi
    by (right; by eexists).
  split; [exact Hi|]. apply (request_auth_bearer _ _ Hi). reflexivity.
Defined.

Lemma run_calls_inv_witness :
  client_inv (client (@run_calls (constant_backend (Response 200 (signin_body "tok")))
                        [CLogin "ana" "pw"; CGetAll; CLogout]
                        (fresh_world (constant_backend (Response 200 (signin_body "tok"))) tt))).
Proof. apply run_calls_inv. by left. Defined.

Lemma send_401_logout_witness :
  let B := constant_backend (Response 401 JNull) in
  let w := fresh_world B tt in
  @send B GET "/v1/expenses" [] None w =
    (inr (AxiosError (Some 401%Z) JNull), mkWorld (logout_client (client w)) tt) /\
  request_auth (logout_client (client w)) = None /\
  PrivateRoute (logout_client (client w)) = RedirectToLogin.
Proof. intros B w. apply (send_401_logout (B := B)). reflexivity. Defined.

Lemma login_failure_clears_witness :
  let B := constant_backend (Response 200 (JObj [])) in
  let w := mkWorld (mkClient (Some "old") (Some (bearer "old")) "/") tt in
  fst (@login B (LoginRequest.mk "ana" "pw") w) = inr NoToken /\
  storage_token (client (snd (@login B (LoginRequest.mk "ana" "pw") w))) = None /\
  default_auth (client (snd (@login B (LoginRequest.mk "ana" "pw") w))) = None.
Proof.
  intros B w. split; [reflexivity|]. apply (login_failure_clears (B := B) _ _ _ NoToken).
  reflexivity.
Defined.

Lemma login_success_witness :
  let B := constant_backend (Response 200 (signin_body "tok")) in
  let w := fresh_world B tt in
  storage_token (client (snd (@login B (LoginRequest.mk "ana" "pw") w))) = Some "tok" /\
  default_auth (client (snd (@login B (LoginRequest.mk "ana" "pw") w))) = Some (bearer "tok") /\
  PrivateRoute (client (snd (@login B (LoginRequest.mk "ana" "pw") w))) = Render /\
  exists v, fst (@login B (LoginRequest.mk "ana" "pw") w) = inl v.
Proof.
  intros B w. apply (login_success (B := B) _ _ _ tt
    [("accessToken", JStr "tok"); ("tokenType", JStr "Bearer"); ("id", JNum 1 0);
     ("username", JStr "ana"); ("email", JStr "ana@example.com")]); reflexivity.
Defined.

Lemma getAllExpenses_no_envelope_witness :
  let B := constant_backend (Response 200 (JObj [("items", JArr [])])) in
  let w := fresh_world B tt in
  @getAllExpenses B w = (inl JUndefined, mkWorld (client w) tt).
Proof.
  intros B w. apply (getAllExpenses_no_envelope (B := B) _ tt [("items", JArr [])]); reflexivity.
Defined.

(** ** How the combinators thread the world *)
Section world_threading.
Context `{B : Backend}.

Lemma snd_bind_ret {A C} (m : M A) (f : A -> C) w :
  snd (bind m (fun x => ret (f x)) w) = snd (m w).
Proof. unfold bind, ret. by destruct (m w) as [[?|?] ?]. Qed.

Lemma snd_bind_lift_opt {A C} (m : M A) (f : A -> option C) w :
  snd (bind m (fun x => lift_opt (f x)) w) = snd (m w).
Proof. unfold bind, lift_opt, ret, throw. destruct (m w) as [[x|?] ?]; [by destruct (f x)|done]. Qed.

Lemma snd_unwrap (m : M jsval) w : snd (unwrap m w) = snd (m w).
Proof. apply snd_bind_lift_opt. Qed.

Lemma snd_try_catch_ret {A} (m : M A) (h : ApiError -> A) w :
  snd (try_catch m (fun err => ret (h err)) w) = snd (m w).
Proof. unfold try_catch, ret. by destruct (m w) as [[?|?] ?]. Qed.
End world_threading.

(** A login that resolves resolves to an object with the keys of
    [AuthResponse] ([types.ts] lines 46-53), in that order, whatever the
    server's body holds. *)
Theorem login_response_keys `{B : Backend} d w v :
  fst (login d w) = inl v -> exists fields, v = JObj fields /\ map fst fields = AuthResponse.keys.
Proof.
  cbv [login rethrow_after bind send auth_response lift_opt ret modify_client throw].
  repeat case_match; simpl; intros; simplify_eq; eauto.
Qed.

Lemma login_response_keys_witness :
  let B := constant_backend (Response 200 (signin_body "tok")) in
  exists v fields, fst (@login B (LoginRequest.mk "ana" "pw") (fresh_world B tt)) = inl v /\
    v = JObj fields /\ map fst fields = AuthResponse.keys.
Proof.
  intros B. destruct (fst (@login B (LoginRequest.mk "ana" "pw") (fresh_world B tt))) as [v|e] eqn:E;
    [|vm_compute in E; discriminate].
  destruct (login_response_keys _ _ _ E) as (fields & Hv & Hk). by exists v, fields.
Defined.
