(* ===== verification/ExpenseForm.v ===== *)
(** The expense form, [src/expense-tracker-fe/src/pages/ExpenseForm.tsx].

    The page keeps [formData] (the amount as the text of the number input,
    the description, category and payment method as the values the
    handlers and the fetched expense put there, and a [Date]), the
    [errors] shown under the fields, and the effects it has on the world:
    the route it navigates to and the alerts it raises.  The network calls
    go through the client of [Api.v], so an operation of the page is a
    computation of the monad [M] over any [Backend].

    [validateForm] (lines 68-99) checks the amount with [Number], the
    description with [trim] (which throws a TypeError on a value that is
    not a string) and the two selects by truthiness; [expenseData] (lines
    108-117) builds the body, formatting the dates with date-fns (a
    RangeError on an Invalid Date); [handleSubmit] (lines 101-132) validates,
    builds the body, calls [updateExpense] or [addExpense] inside a
    [try]/[catch], and navigates or alerts.  [fetchExpense] (lines 46-60)
    loads the expense being edited, and [handleChange] and [date_change]
    (lines 134-142, 219-224) are the field handlers.

    The two [new Date()] of [createDate] and [updateDate] are taken at the
    same instant [now]. *)

From S2P Require Import Prelude JsRuntime Types DateTime JsNumber Api.
From Stdlib Require Import Ascii String Qround Qabs.

Record FormData := mkFormData {
  amount : string;
  description : jsval;
  category : jsval;
  paymentMethod : jsval;
  date : js_date
}.

Record FormErrors := mkFormErrors {
  err_amount : string;
  err_description : string;
  err_category : string;
  err_paymentMethod : string
}.

Definition no_errors : FormErrors := mkFormErrors "" "" "" "".

(** The page: the route parameter [id], the two pieces of React state,
    and what the page did to the outside: the route [navigate] was called
    with, and the alerts shown. *)
Record FormPage := mkFormPage {
  route_id : option string;
  formData : FormData;
  errors : FormErrors;
  navigated : option string;
  alerts : list string
}.

(** Lines 32-44. *)
Definition initial_form (now : Z) : FormData :=
  mkFormData "" (JStr "") (JStr (ExpenseCategory_value FOOD)) (JStr (PaymentMethod_value CASH))
    (Some now).

Definition init_page (id : option string) (now : Z) : FormPage :=
  mkFormPage id (initial_form now) no_errors None [].

Definition set_formData (f : FormData) (p : FormPage) : FormPage :=
  mkFormPage (route_id p) f (errors p) (navigated p) (alerts p).

Definition set_errors (e : FormErrors) (p : FormPage) : FormPage :=
  mkFormPage (route_id p) (formData p) e (navigated p) (alerts p).

Definition navigate (to : string) (p : FormPage) : FormPage :=
  mkFormPage (route_id p) (formData p) (errors p) (Some to) (alerts p).

Definition alert (msg : string) (p : FormPage) : FormPage :=
  mkFormPage (route_id p) (formData p) (errors p) (navigated p) (alerts p ++ [msg]).

(** [v.trim()]: a TypeError ([None]) on a value other than a string. *)
Definition trim_value (v : jsval) : option string :=
  match v with JStr s => Some (js_trim s) | _ => None end.

(** Line 77: [!amount || isNaN(Number(amount)) || Number(amount) <= 0]. *)
Definition amount_invalid (a : string) : bool :=
  negb (str_truthy a) || isNaN (Number a) || js_le_zero (Number a).

(** Lines 68-99: the errors to show and whether the form is valid; [None]
    is the TypeError of [description.trim()]. *)
Definition validateForm (f : FormData) : option (FormErrors * bool) :=
  match trim_value (description f) with
  | None => None
  | Some d =>
      let a_bad := amount_invalid (amount f) in
      let d_bad := negb (str_truthy d) in
      let c_bad := negb (js_truthy (category f)) in
      let p_bad := negb (js_truthy (paymentMethod f)) in
      Some (mkFormErrors
              (if a_bad then "Please enter a valid amount" else "")
              (if d_bad then "Description is required" else "")
              (if c_bad then "Category is required" else "")
              (if p_bad then "Payment method is required" else ""),
            negb (a_bad || d_bad || c_bad || p_bad))
  end.

(** Lines 108-117: the body sent; [None] is the RangeError [format]
    throws on an Invalid Date ([JSON.stringify] writes the amount as the
    literal of Number::toString, or [null] when it is not finite). *)
Definition expenseData (f : FormData) (now : Z) : option jsval :=
  match trim_value (description f), format_datetime (date f), format_datetime (Some now) with
  | Some d, Some ds, Some ns =>
      Some (JObj [("amount", number_to_json (Number (amount f)));
                  ("description", JStr d);
                  ("category", category f);
                  ("paymentMethod", paymentMethod f);
                  ("date", JStr ds);
                  ("isRecurring", JBool false);
                  ("createDate", JStr ns);
                  ("updateDate", JStr ns)])
  | _, _, _ => None
  end.

(** Line 128: [error.response?.status !== 401]. *)
Definition is_401 (err : ApiError) : bool :=
  match err with AxiosError (Some st) _ => (st =? 401)%Z | _ => false end.

Definition save_failed : string := "Failed to save expense. Please try again.".

Section handlers.
Context `{B : Backend}.

(** Lines 101-132. *)
Definition handleSubmit (now : Z) (p : FormPage) : M FormPage :=
  match validateForm (formData p) with
  | None => throw TypeError
  | Some (errs, ok) =>
      let p := set_errors errs p in
      if negb ok then ret p else
      match expenseData (formData p) now with
      | None => throw RangeError
      | Some body =>
          try_catch
            (_ <- (match route_id p with
                   | Some i => if str_truthy i then updateExpense (Number i) body else addExpense body
                   | None => addExpense body
                   end) ;;
             ret (navigate "/expenses" p))
            (fun err => ret (if is_401 err then p else alert save_failed p))
      end
  end.

(** [x.toString()] on a value of the fetched expense: a TypeError on
    [null] and [undefined]. *)
Definition value_toString (v : jsval) : option string :=
  match v with
  | JUndefined | JNull => None
  | JNum m e => Some (number_toString (json_number m e))
  | _ => Some (js_to_string v)
  end.

(** [new Date(v)] on a value of the fetched expense: a string is parsed, a
    number is a time value, [null] is 0 and [undefined] is NaN. *)
Definition new_Date_value (v : jsval) : js_date :=
  match v with
  | JUndefined => None
  | JNull => Some 0%Z
  | JBool b => Some (if b then 1 else 0)%Z
  | JNum m e =>
      match json_number m e with
      | Finite q => time_clip (Qfloor (Qabs q) * Z.sgn (Qnum q))%Z
      | _ => None
      end
  | _ => Date_parse (js_to_string v)
  end.

(** Lines 46-60: load the expense of the route; any failure navigates
    back to the list. *)
Definition fetchExpense (id : string) (p : FormPage) : M FormPage :=
  try_catch
    (expense <- getExpenseById (Number id) ;;
     a <- lift_opt (js_get expense "amount") ;;
     a_str <- lift_opt (value_toString a) ;;
     d <- lift_opt (js_get expense "description") ;;
     c <- lift_opt (js_get expense "category") ;;
     pm <- lift_opt (js_get expense "paymentMethod") ;;
     dt <- lift_opt (js_get expense "date") ;;
     ret (set_formData (mkFormData a_str d c pm (new_Date_value dt)) p))
    (fun _ => ret (navigate "/expenses" p)).

(** Lines 62-66: the effect runs [fetchExpense] when the route has an id. *)
Definition load (p : FormPage) : M FormPage :=
  match route_id p with
  | Some i => if str_truthy i then fetchExpense i p else ret p
  | None => ret p
  end.
End handlers.

(** Lines 134-142: the text fields and the two selects write the value
    under the input's name. *)
Definition handleChange (name value : string) (f : FormData) : FormData :=
  if String.eqb name "amount" then
    mkFormData value (description f) (category f) (paymentMethod f) (date f)
  else if String.eqb name "description" then
    mkFormData (amount f) (JStr value) (category f) (paymentMethod f) (date f)
  else if String.eqb name "category" then
    mkFormData (amount f) (description f) (JStr value) (paymentMethod f) (date f)
  else if String.eqb name "paymentMethod" then
    mkFormData (amount f) (description f) (category f) (JStr value) (date f)
  else f.

(** Lines 219-224: [newDate || new Date()]; the picker gives [null] or a
    Date, which may be an Invalid Date (a truthy object). *)
Definition date_change (newDate : option js_date) (now : Z) (f : FormData) : FormData :=
  mkFormData (amount f) (description f) (category f) (paymentMethod f)
    (match newDate with Some d => d | None => Some now end).

(** Line 243: the Cancel button. *)
Definition cancel (p : FormPage) : FormPage := navigate "/expenses" p.

(** ** Rendering (lines 144-254) *)

(** A text field: its [value], [error={!!err}] and [helperText={err}]. *)
Record FieldView := mkFieldView { field_value : jsval; field_error : bool; field_helper : string }.

Definition field_view (v : jsval) (err : string) : FieldView := mkFieldView v (str_truthy err) err.

Record FormView := mkFormView {
  form_title : string;
  amount_view : FieldView;
  description_view : FieldView;
  category_view : FieldView;
  category_options : list (string * string);
  payment_view : FieldView;
  payment_options : list (string * string);
  date_view : js_date;
  submit_text : string
}.

(** Line 210: [method.replace('_', ' ')]. *)
Definition payment_label (m : PaymentMethod) : string := replace_first "_" " " (PaymentMethod_value m).

(** [{id ? ... : ...}]: [id] is the route parameter, a string when the
    route has one. *)
Definition edit_mode (p : FormPage) : bool :=
  match route_id p with Some i => str_truthy i | None => false end.

Definition render_form (p : FormPage) : FormView :=
  let f := formData p in
  let e := errors p in
  mkFormView (if edit_mode p then "Edit Expense" else "Add New Expense")
    (field_view (JStr (amount f)) (err_amount e))
    (field_view (description f) (err_description e))
    (field_view (category f) (err_category e))
    (map (fun c => (ExpenseCategory_value c, ExpenseCategory_value c)) ExpenseCategory_values)
    (field_view (paymentMethod f) (err_paymentMethod e))
    (map (fun m => (PaymentMethod_value m, payment_label m)) PaymentMethod_values)
    (date f)
    ((if edit_mode p then "Update" else "Add") ++ " Expense")%string.

Definition flagged (v : FormView) : bool :=
  field_error (amount_view v) || field_error (description_view v) ||
  field_error (category_view v) || field_error (payment_view v).

Definition body_field (k : string) (body : jsval) : jsval :=
  match body with JObj fields => obj_lookup k fields | _ => JUndefined end.

(** Sample data: an expense as the server sends it, recurring, and a
    server that answers every GET with it and accepts every other request. *)
Definition lunch_json : jsval :=
  JObj [("id", JNum 7 0); ("description", JStr "Lunch"); ("amount", JNum 125 (-1));
        ("date", JStr "2024-01-02T12:00:00"); ("category", JStr "FOOD");
        ("paymentMethod", JStr "CASH"); ("isRecurring", JBool true);
        ("createDate", JStr "2024-01-02T12:00:00"); ("updateDate", JStr "2024-01-02T12:00:00")].

Definition lunch_server (r : Request) : NetResult :=
  match req_method r with
  | GET => Response 200 (JObj [("data", lunch_json)])
  | _ => Response 200 (JObj [("data", JObj [])])
  end.

(** 2024-01-03T09:30:00. *)
Definition now0 : Z := make_date 2024 1 3 9 30 0 0.

Definition lunch_form : FormData :=
  mkFormData "12.5" (JStr " Lunch ") (JStr "FOOD") (JStr "CASH")
    (Some (make_date 2024 1 2 12 0 0 0)).

(** The body [expenseData] builds for [lunch_form] at [now0]. *)
Definition lunch_body : jsval :=
  JObj [("amount", JNum 125 (-1));
            ("description", JStr "Lunch"); ("category", JStr "FOOD"); ("paymentMethod", JStr "CASH");
            ("date", JStr "2024-01-02T12:00:00"); ("isRecurring", JBool false);
            ("createDate", JStr "2024-01-03T09:30:00"); ("updateDate", JStr "2024-01-03T09:30:00")].

Definition huge_form : FormData :=
  mkFormData "1e400" (JStr "Car") (JStr "TRANSPORTATION") (JStr "CASH") (Some now0).

Definition signed_in : @World (recorder lunch_server) :=
  @mkWorld (recorder lunch_server) (mkClient (Some "tok") (Some (bearer "tok")) "/expenses/edit/7") ([] : list Request).

(** The edit page of expense 7 after its data arrived. *)
Definition edit_scenario : FormPage * @World (recorder lunch_server) :=
  match @load (recorder lunch_server) (init_page (Some "7") now0) signed_in with
  | (inl p, w) => (p, w)
  | (inr _, w) => (init_page (Some "7") now0, w)
  end.

(** ** Theorems *)

Lemma amount_invalid_spec a : amount_invalid a = negb (js_positive (Number a)).
Proof.
  unfold amount_invalid. destruct a as [|c a]; [reflexivity|]. cbn [str_truthy negb orb].
  apply isNaN_le_zero_positive.
Qed.

(** C8: The form is valid exactly when [Number(amount)] is positive (Infinity
    included), the description holds a character other than white space,
    and category and payment method are truthy; a valid form shows no
    error; a description that is not a string throws a TypeError. *)
Theorem validateForm_spec f :
  match description f with
  | JStr s =>
      exists errs, validateForm f =
        Some (errs, js_positive (Number (amount f)) && negb (forallb js_space (list_ascii_of_string s))
                    && js_truthy (category f) && js_truthy (paymentMethod f)) /\
      (js_positive (Number (amount f)) && negb (forallb js_space (list_ascii_of_string s))
         && js_truthy (category f) && js_truthy (paymentMethod f) = true -> errs = no_errors)
  | _ => validateForm f = None
  end.
Proof.
  unfold validateForm, trim_value. destruct (description f) as [| | | | s | |]; try done.
  rewrite js_trim_truthy, amount_invalid_spec.
  eexists. split.
  - f_equal. apply pair_equal_spec. split; [reflexivity|].
    by destruct (js_positive _), (forallb _ _), (js_truthy (category f)), (js_truthy (paymentMethod f)).
  - by destruct (js_positive _), (forallb _ _), (js_truthy (category f)), (js_truthy (paymentMethod f)).
Qed.

(** The save call of [handleSubmit]: [PUT /v1/expenses/<id>] when the
    route has a truthy id, [POST /v1/expenses] otherwise. *)
Definition save_target (p : FormPage) : Method * string :=
  match route_id p with
  | Some i => if str_truthy i then (PUT, expense_url (Number i)) else (POST, "/v1/expenses")
  | None => (POST, "/v1/expenses")
  end.

Section submit.
Context `{B : Backend}.

(** An invalid form only shows its errors: no request is sent and the
    world is unchanged. *)
Theorem handleSubmit_invalid now p errs w :
  validateForm (formData p) = Some (errs, false) ->
  handleSubmit now p w = (inl (set_errors errs p), w).
Proof. intros Hv. unfold handleSubmit. by rewrite Hv. Qed.

(** Once the form is valid and its dates format, [handleSubmit] never
    rejects: the page navigates to the list when the save succeeds, and
    otherwise stays, with the alert added unless the server answered 401. *)
Theorem handleSubmit_outcome now p errs body w :
  validateForm (formData p) = Some (errs, true) ->
  expenseData (formData p) now = Some body ->
  exists p', fst (handleSubmit now p w) = inl p' /\
    formData p' = formData p /\ errors p' = errs /\
    ((navigated p' = Some "/expenses" /\ alerts p' = alerts p) \/
     (navigated p' = navigated p /\ (alerts p' = alerts p \/ alerts p' = alerts p ++ [save_failed]))).
Proof.
  intros Hv Hd. unfold handleSubmit. rewrite Hv. cbn [negb]. cbn [formData set_errors]. rewrite Hd.
  unfold try_catch, bind. cbv beta.
  match goal with |- context [match ?m w with _ => _ end] => destruct (m w) as [[x|err] w'] end.
  - eexists. split; [reflexivity|]. simpl. auto.
  - eexists. split; [reflexivity|]. destruct (is_401 err); simpl; auto 10.
Qed.
End submit.

(** C9: What the server receives from a valid submit: one request, to the
    save target, with the body [expenseData] built. *)
Theorem handleSubmit_request answer now p errs body w :
  validateForm (formData p) = Some (errs, true) ->
  expenseData (formData p) now = Some body ->
  server (snd (@handleSubmit (recorder answer) now p w)) =
  mkRequest (save_target p).1 (save_target p).2 [] (Some body) (request_auth (client w))
  :: server w.
Proof.
  intros Hv Hd. unfold handleSubmit. rewrite Hv. cbn [negb formData set_errors]. rewrite Hd.
  erewrite snd_try_catch_ret, snd_bind_ret.
  unfold save_target, updateExpense, addExpense. cbn [route_id set_errors].
  destruct (route_id p) as [i|]; [destruct (str_truthy i)|]; cbv beta iota;
    by rewrite snd_unwrap, recorder_send.
Qed.

(** A form whose fields pass the checks of lines 68-99 is valid and shows
    no error. *)
Lemma validateForm_accepts f s :
  description f = JStr s -> str_truthy (js_trim s) = true -> js_positive (Number (amount f)) = true ->
  js_truthy (category f) = true -> js_truthy (paymentMethod f) = true ->
  validateForm f = Some (no_errors, true).
Proof.
  intros Hd Ht Hp Hc Hpm. unfold validateForm, trim_value. rewrite Hd, amount_invalid_spec, Hp, Ht, Hc, Hpm.
  reflexivity.
Qed.

Lemma expenseData_intro f now s ds ns :
  description f = JStr s -> format_datetime (date f) = Some ds -> format_datetime (Some now) = Some ns ->
  expenseData f now =
  Some (JObj [("amount", number_to_json (Number (amount f))); ("description", JStr (js_trim s));
              ("category", category f); ("paymentMethod", paymentMethod f); ("date", JStr ds);
              ("isRecurring", JBool false); ("createDate", JStr ns); ("updateDate", JStr ns)]).
Proof. intros Hd Hds Hns. unfold expenseData, trim_value. by rewrite Hd, Hds, Hns. Qed.

Lemma expenseData_some f now body :
  expenseData f now = Some body ->
  exists s ds ns, description f = JStr s /\ format_datetime (date f) = Some ds /\
    format_datetime (Some now) = Some ns /\
    body = JObj [("amount", number_to_json (Number (amount f))); ("description", JStr (js_trim s));
                 ("category", category f); ("paymentMethod", paymentMethod f); ("date", JStr ds);
                 ("isRecurring", JBool false); ("createDate", JStr ns); ("updateDate", JStr ns)].
Proof.
  unfold expenseData, trim_value. destruct (description f) as [| | | | s | |]; try done.
  destruct (format_datetime (date f)) as [ds|]; [|done].
  destruct (format_datetime (Some now)) as [ns|]; [|done].
  intros [= <-]. by exists s, ds, ns.
Qed.

(** The body always says [isRecurring: false] and stamps [createDate] and
    [updateDate] with the current time, also when an existing expense is
    updated: editing clears the recurring flag and rewrites the creation
    date. *)
Theorem expenseData_overwrites f now body :
  expenseData f now = Some body ->
  body_field "isRecurring" body = JBool false /\
  exists ns, format_datetime (Some now) = Some ns /\
    body_field "createDate" body = JStr ns /\ body_field "updateDate" body = JStr ns.
Proof.
  intros H. destruct (expenseData_some _ _ _ H) as (s & ds & ns & _ & _ & Hn & ->).
  split; [reflexivity|]. by exists ns.
Qed.

(** An amount that [Number] reads as Infinity (["1e400"]) passes the
    validation, and [JSON.stringify] sends it as [null]. *)
Theorem amount_infinity_accepted f now body :
  Number (amount f) = PosInfinity ->
  amount_invalid (amount f) = false /\
  (expenseData f now = Some body -> body_field "amount" body = JNull).
Proof.
  intros Hn. rewrite amount_invalid_spec, Hn. split; [done|].
  intros H. destruct (expenseData_some _ _ _ H) as (s & ds & ns & _ & _ & _ & ->).
  cbn. by rewrite Hn.
Qed.

(** C15: The date sent reads back, with [new Date], as the picked time to the
    second, for the years of four digits. *)
Theorem expenseData_date_roundtrip f now body t :
  expenseData f now = Some body -> date f = Some t ->
  (1 <= f_year (local_fields t) <= 9999)%Z ->
  exists ds, body_field "date" body = JStr ds /\ Date_parse ds = Some (t - t mod 1000)%Z.
Proof.
  intros H Ht Hy. destruct (expenseData_some _ _ _ H) as (s & ds & ns & _ & Hds & _ & ->).
  rewrite Ht in Hds. destruct (Date_parse_format_datetime t Hy) as (ds' & Hds' & Hp).
  exists ds. split; [reflexivity|]. congruence.
Qed.

Section fetch.
Context `{B : Backend}.

(** Loading the expense to edit never rejects: either the fields are
    filled from the server's expense, or the page goes back to the list. *)
Theorem fetchExpense_total id p w :
  exists p', fst (fetchExpense id p w) = inl p' /\
    ((navigated p' = navigated p /\ route_id p' = route_id p /\ errors p' = errors p) \/
     p' = navigate "/expenses" p).
Proof.
  unfold fetchExpense, try_catch. cbv beta.
  match goal with |- context [match ?m w with _ => _ end] => destruct (m w) as [[x|err] w'] eqn:E end.
  - unfold bind, lift_opt, ret, throw in E.
    repeat (case_match; simplify_eq); eexists; (split; [reflexivity|]); simpl; auto.
  - eexists. split; [reflexivity|]. auto.
Qed.
End fetch.

Lemma handleSubmit_invalid_witness :
  let p := init_page None now0 in
  validateForm (formData p) =
    Some (mkFormErrors "Please enter a valid amount" "Description is required" "" "", false) /\
  @handleSubmit (recorder lunch_server) now0 p signed_in =
    (inl (set_errors (mkFormErrors "Please enter a valid amount" "Description is required" "" "") p),
     signed_in).
Proof.
  cbv zeta.
  assert (validateForm (formData (init_page None now0)) =
    Some (mkFormErrors "Please enter a valid amount" "Description is required" "" "", false)) as H
    by (vm_compute; reflexivity).
  split; [exact H | apply (handleSubmit_invalid (B := recorder lunch_server)); exact H].
Defined.

Lemma handleSubmit_outcome_witness :
  let p := mkFormPage None lunch_form no_errors None [] in
  validateForm (formData p) = Some (no_errors, true) /\
  expenseData (formData p) now0 = Some lunch_body /\
  exists p', fst (@handleSubmit (recorder lunch_server) now0 p signed_in) = inl p' /\
    formData p' = formData p /\ errors p' = no_errors /\
    ((navigated p' = Some "/expenses" /\ alerts p' = alerts p) \/
     (navigated p' = navigated p /\ (alerts p' = alerts p \/ alerts p' = alerts p ++ [save_failed]))).
Proof.
  cbv zeta.
  assert (validateForm lunch_form = Some (no_errors, true)) as Hv by (vm_compute; reflexivity).
  assert (expenseData lunch_form now0 = Some lunch_body) as Hd by (vm_compute; reflexivity).
  split; [exact Hv|]. split; [exact Hd|].
  apply (handleSubmit_outcome (B := recorder lunch_server) now0
    (mkFormPage None lunch_form no_errors None []) no_errors lunch_body signed_in Hv Hd).
Defined.

Lemma handleSubmit_request_witness :
  validateForm (formData (fst edit_scenario)) = Some (no_errors, true) /\
  expenseData (formData (fst edit_scenario)) now0 = Some lunch_body /\
  server (snd (@handleSubmit (recorder lunch_server) now0 (fst edit_scenario) (snd edit_scenario))) =
  mkRequest (save_target (fst edit_scenario)).1 (save_target (fst edit_scenario)).2 []
    (Some lunch_body) (request_auth (client (snd edit_scenario))) :: server (snd edit_scenario).
Proof.
  assert (validateForm (formData (fst edit_scenario)) = Some (no_errors, true)) as Hv
    by (vm_compute; reflexivity).
  assert (expenseData (formData (fst edit_scenario)) now0 = Some lunch_body) as Hd
    by (vm_compute; reflexivity).
  split; [exact Hv|]. split; [exact Hd|].
  apply (handleSubmit_request lunch_server now0 _ no_errors _ _ Hv Hd).
Defined.

Lemma expenseData_overwrites_witness :
  body_field "isRecurring" lunch_json = JBool true /\
  expenseData (formData (fst edit_scenario)) now0 = Some lunch_body /\
  body_field "isRecurring" lunch_body = JBool false /\
  exists ns, format_datetime (Some now0) = Some ns /\
    body_field "createDate" lunch_body = JStr ns /\ body_field "updateDate" lunch_body = JStr ns.
Proof.
  assert (expenseData (formData (fst edit_scenario)) now0 = Some lunch_body) as H
    by (vm_compute; reflexivity).
  split; [reflexivity|]. split; [exact H | apply (expenseData_overwrites _ _ _ H)].
Defined.

Lemma amount_infinity_accepted_witness :
  Number (amount huge_form) = PosInfinity /\
  amount_invalid (amount huge_form) = false /\
  (expenseData huge_form now0 = Some (JObj [("amount", JNull)]) ->
   body_field "amount" (JObj [("amount", JNull)]) = JNull).
Proof.
  assert (Number (amount huge_form) = PosInfinity) as H by (vm_compute; reflexivity).
  split; [exact H | apply (amount_infinity_accepted huge_form now0 _ H)].
Defined.

Lemma expenseData_date_roundtrip_witness :
  expenseData lunch_form now0 = Some lunch_body /\
  date lunch_form = Some (make_date 2024 1 2 12 0 0 0) /\
  (1 <= f_year (local_fields (make_date 2024 1 2 12 0 0 0)) <= 9999)%Z /\
  exists ds, body_field "date" lunch_body = JStr ds /\
    Date_parse ds = Some (make_date 2024 1 2 12 0 0 0 - make_date 2024 1 2 12 0 0 0 mod 1000)%Z.
Proof.
  assert (expenseData lunch_form now0 = Some lunch_body) as H by (vm_compute; reflexivity).
  assert (1 <= f_year (local_fields (make_date 2024 1 2 12 0 0 0)) <= 9999)%Z as Hy
    by (vm_compute; split; discriminate).
  split; [exact H|]. split; [reflexivity|]. split; [exact Hy|].
  apply (expenseData_date_roundtrip _ _ _ _ H eq_refl Hy).
Defined.

(** The texts and flags of the rendered form. *)

(** The page says "Edit Expense" and "Update Expense" exactly when the save
    is a [PUT] to the expense's URL, and "Add New Expense" and "Add Expense"
    exactly when it is a [POST]. *)
Theorem render_form_mode p :
  (form_title (render_form p) = "Edit Expense" /\ submit_text (render_form p) = "Update Expense" /\
   (save_target p).1 = PUT) \/
  (form_title (render_form p) = "Add New Expense" /\ submit_text (render_form p) = "Add Expense" /\
   save_target p = (POST, "/v1/expenses")).
Proof.
  unfold render_form, save_target, edit_mode. cbn [form_title submit_text].
  destruct (route_id p) as [i|]; [destruct (str_truthy i)|]; [left|right|right]; done.
Qed.

(** After a submit the form is sent exactly when the page it renders
    shows no field in error. *)
Theorem submit_flags p errs ok :
  validateForm (formData p) = Some (errs, ok) ->
  ok = negb (flagged (render_form (set_errors errs p))).
Proof.
  unfold validateForm. destruct (trim_value (description (formData p))); [|done].
  intros [= <- <-].
  unfold flagged, render_form, field_view. cbn.
  by destruct (amount_invalid _), (str_truthy _), (js_truthy (category _)), (js_truthy (paymentMethod _)).
Qed.

Lemma submit_flags_witness :
  exists errs, validateForm (formData (init_page None now0)) = Some (errs, false) /\
    false = negb (flagged (render_form (set_errors errs (init_page None now0)))).
Proof.
  destruct (validateForm (formData (init_page None now0))) as [[errs ok]|] eqn:E;
    [|vm_compute in E; discriminate].
  assert (ok = false) as -> by (vm_compute in E; congruence).
  exists errs. split; [reflexivity | exact (submit_flags _ _ _ E)].
Defined.
