(* ===== verification/Conformance.v ===== *)
(** What the client sends and returns against the interfaces of
    [types.ts] and [types/index.ts] ([TsTypes.v]).

    The body the expense form sends ([expenseData], [ExpenseForm.v]) is
    the argument of [addExpense] ([Omit<Expense, 'id'>]) and of
    [updateExpense] ([Partial<Expense>]); the object [authService.login]
    resolves to is declared an [AuthResponse].  The TypeScript compiler
    checks neither at run time: the theorems say when they hold. *)

From S2P Require Import Prelude JsRuntime Types TsTypes DateTime JsNumber Api ExpenseForm.
From Stdlib Require Import String.

(** The sign-in answer the spec describes (spec.md, the [login] row of
    the endpoint table): [accessToken] or [token], [tokenType] or [type],
    [id], [username], [email], and optional [roles]. *)
Definition jwt_base_type : ts_type :=
  TObject [("id", false, TNumber); ("username", false, TString); ("email", false, TString);
           ("roles", true, TArray TString)].

Definition jwt_shape (fs : list (string * jsval)) : Prop :=
  has_type (JObj fs) jwt_base_type /\
  ((has_type (obj_lookup "accessToken" fs) TString /\ js_truthy (obj_lookup "accessToken" fs) = true) \/
   (obj_lookup "accessToken" fs = JUndefined /\ has_type (obj_lookup "token" fs) TString)) /\
  ((has_type (obj_lookup "tokenType" fs) TString /\ js_truthy (obj_lookup "tokenType" fs) = true) \/
   (obj_lookup "tokenType" fs = JUndefined /\ has_type (obj_lookup "type" fs) TString)).

(** ** Theorems *)

Lemma typecheck_reflect v t : reflect (has_type v t) (typecheck v t).
Proof. apply iff_reflect. symmetry. apply typecheck_spec. Qed.

Lemma has_type_obj_lookup fs k opt t ps :
  has_type (JObj fs) (TObject ps) -> In (k, opt, t) ps ->
  (opt = true /\ obj_lookup k fs = JUndefined) \/ has_type (obj_lookup k fs) t.
Proof. inversion 1 as [| | | | |? ? Hf]; subst. intros Hin. exact (proj1 (List.Forall_forall _ _) Hf _ Hin). Qed.

(** C16: The body of a submit with a category and a payment method of the
    menus has the type [Omit<Expense, 'id'>] of [addExpense] exactly when
    [JSON.stringify] writes the amount as a number: never for an amount
    that [Number] reads as Infinity. *)
Theorem expenseData_typed f now body c pm :
  expenseData f now = Some body ->
  category f = JStr (ExpenseCategory_value c) -> paymentMethod f = JStr (PaymentMethod_value pm) ->
  (has_type body (omit "id" Expense_type) <-> exists m e, number_to_json (Number (amount f)) = JNum m e).
Proof.
  intros Hb Hc Hp. destruct (expenseData_some _ _ _ Hb) as (s & ds & ns & _ & _ & _ & ->).
  rewrite <- typecheck_spec, Hc, Hp.
  destruct (number_to_json (Number (amount f))); destruct c, pm; vm_compute;
    (split; [intros H; try discriminate; eauto | intros (? & ? & H); try discriminate H; reflexivity]).
Qed.

(** C22: When the server's sign-in answer has the spec's shape, the object
    [login] resolves to (lines 79-86 of [api.ts]) is an [AuthResponse] of
    [types.ts] and also of [types/index.ts], whose [roles] is required:
    [roles || []] supplies it. *)
Theorem auth_response_typed `{B : Backend} fs w v :
  jwt_shape fs ->
  js_truthy (js_or (obj_lookup "accessToken" fs) (obj_lookup "token" fs)) = true ->
  fst (auth_response (JObj fs) (js_or (obj_lookup "accessToken" fs) (obj_lookup "token" fs)) w) = inl v ->
  has_type v AuthResponse_type /\ has_type v IndexTs.AuthResponse_type.
Proof.
  intros (Hbase & Htok & Hty) _. cbv [auth_response bind lift_opt ret js_get]. intros [= <-].
  pose proof (fun k opt t => has_type_obj_lookup fs k opt t _ Hbase) as Hf.
  assert (has_type (obj_lookup "id" fs) TNumber) as Hid.
  { destruct (Hf "id" false TNumber) as [[]|]; [by left|done|done]. }
  assert (has_type (obj_lookup "username" fs) TString) as Hu.
  { destruct (Hf "username" false TString) as [[]|]; [by right; left|done|done]. }
  assert (has_type (obj_lookup "email" fs) TString) as He.
  { destruct (Hf "email" false TString) as [[]|]; [by do 2 right; left|done|done]. }
  assert (has_type (js_or (obj_lookup "roles" fs) (JArr [])) (TArray TString)) as Hr.
  { destruct (Hf "roles" true (TArray TString)) as [[_ ->]|Hr]; [by do 3 right; left| |].
    - cbn. by do 2 constructor.
    - unfold js_or. destruct (js_truthy (obj_lookup "roles" fs)); cbn; [exact Hr|by do 2 constructor]. }
  assert (has_type (js_or (obj_lookup "accessToken" fs) (obj_lookup "token" fs)) TString) as Ht.
  { unfold js_or. destruct Htok as [[Ha Hb]|[-> Hb]]; [by rewrite Hb|done]. }
  assert (has_type (js_or (obj_lookup "tokenType" fs) (obj_lookup "type" fs)) TString) as Hty'.
  { unfold js_or. destruct Hty as [[Ha Hb]|[-> Hb]]; [by rewrite Hb|done]. }
  split; constructor; repeat (apply List.Forall_cons; [right; cbn; assumption|]); apply List.Forall_nil.
Qed.

Lemma expenseData_typed_witness :
  exists body, expenseData lunch_form now0 = Some body /\
    (has_type body (omit "id" Expense_type) <->
     exists m e, number_to_json (Number (amount lunch_form)) = JNum m e).
Proof.
  destruct (expenseData lunch_form now0) as [body|] eqn:E; [|vm_compute in E; discriminate].
  exists body. split; [reflexivity|]. exact (expenseData_typed lunch_form now0 body FOOD CASH E eq_refl eq_refl).
Defined.

(** The sign-in answer of the samples of [Api.v]. *)
Definition signin_fields : list (string * jsval) :=
  [("accessToken", JStr "tok"); ("tokenType", JStr "Bearer"); ("id", JNum 1 0);
   ("username", JStr "ana"); ("email", JStr "ana@example.com")].

Lemma auth_response_typed_witness :
  let B := constant_backend (Response 200 (JObj signin_fields)) in
  exists v, fst (@auth_response B (JObj signin_fields) (JStr "tok") (fresh_world B tt)) = inl v /\
    has_type v AuthResponse_type /\ has_type v IndexTs.AuthResponse_type.
Proof.
  intros B. destruct (fst (@auth_response B (JObj signin_fields) (JStr "tok") (fresh_world B tt)))
    as [v|e] eqn:E; [|vm_compute in E; discriminate].
  exists v. split; [reflexivity|].
  apply (auth_response_typed (B := B) signin_fields (fresh_world B tt) v); [|reflexivity|exact E].
  split; [apply typecheck_spec; reflexivity|].
  split; left; split; [constructor|reflexivity|constructor|reflexivity].
Defined.
