(* ===== verification/Dashboard.v ===== *)
(** The dashboard, [src/expense-tracker-fe/src/pages/Dashboard.tsx].

    [fetchDashboardData] (lines 25-54) runs once: it reads the current
    month of [new Date()], awaits the month's expenses and stores their
    total, awaits all expenses and keeps the first five, then awaits the
    category report of the month's range, [format(new Date(y, m, 1))] to
    [format(new Date(y, m + 1, 0))]; a failing call jumps to the [catch],
    which only logs, so the results stored before it stay.  The service
    calls are the record [ReportServices] of [Reports.v] together with
    [getAllExpenses]; each may fail ([None]).

    The rendering is modelled as the strings the page writes: the monthly
    total (line 66), the three top categories (lines 81-88) and the recent
    expenses (lines 122-146), with [toFixed(2)] and date-fns
    [format(d, 'MMM dd, yyyy')]. *)

From S2P Require Import Prelude JsRuntime Types DateTime JsNumber Reports.
From Stdlib Require Import Ascii String.
From stdpp Require Import pretty.

Record DashboardServices := mkDashboardServices {
  reports : ReportServices;
  getAllExpenses : option (list Expense.t)
}.

(** Lines 21-23. *)
Record DashboardState := mkDashboard {
  recent : list Expense.t;
  monthlyTotal : js_number;
  categories : list ExpenseCategoryReport.t
}.

Definition init_dashboard : DashboardState := mkDashboard [] (Finite 0) [].

(** Lines 44-45: the first and the last day of the current month. *)
Definition month_bounds (now : Z) : option string * option string :=
  let f := local_fields now in
  (format_date (new_Date_ymd (f_year f) (f_month f - 1) 1),
   format_date (new_Date_ymd (f_year f) (f_month f) 0)).

(** Lines 25-54. *)
Definition fetchDashboardData (now : Z) (svc : DashboardServices) (s : DashboardState)
    : DashboardState :=
  let f := local_fields now in
  match getMonthlyReport (reports svc) (f_year f) (f_month f) with
  | None => s
  | Some monthly =>
    let s := mkDashboard (recent s) (calculateTotal monthly) (categories s) in
    match getAllExpenses svc with
    | None => s
    | Some all =>
      let s := mkDashboard (recentExpenses all) (monthlyTotal s) (categories s) in
      match month_bounds now with
      | (Some startDate, Some endDate) =>
          match getCategoryReport (reports svc) startDate endDate with
          | None => s
          | Some c => mkDashboard (recent s) (monthlyTotal s) c
          end
      | _ => s
      end
    end
  end.

(** ** Rendering *)

(** [format(d, 'MMM dd, yyyy')]; a RangeError ([None]) on an Invalid
    Date. *)
Definition format_MMM_dd_yyyy (d : js_date) : option string :=
  match d with
  | None => None
  | Some t =>
      let f := local_fields t in
      Some (month_short (f_month f) ++ " " ++ pad2 (f_day f) ++ ", " ++ format_year (f_year f))%string
  end.

(** Lines 82-86: a top category row, primary and secondary text. *)
Definition category_row (c : ExpenseCategoryReport.t) : string * string :=
  (ExpenseCategoryReport.category c,
   (money (Finite (ExpenseCategoryReport.totalAmount c)) ++ " (" ++
    number_toString (Finite (inject_Z (ExpenseCategoryReport.count c))) ++ " expenses)")%string).

(** Lines 126-132: a recent expense row, its primary and secondary text
    and its amount. *)
Definition expense_row (e : Expense.t) : option (string * string * string) :=
  match format_MMM_dd_yyyy (Date_parse (Expense.date e)) with
  | None => None
  | Some d =>
      Some (Expense.description e, (d ++ " - " ++ Expense.category e)%string,
            money (Finite (Expense.amount e)))
  end.

(** The page's text: the monthly total (line 66), the top categories
    (line 81), and the recent expenses with a divider after every row but
    the last (lines 122-137); [None] when a date throws. *)
Record DashboardView := mkView {
  total_text : string;
  top_rows : list (string * string);
  recent_rows : list (string * string * string * bool);
  view_all_button : bool
}.

Fixpoint rows_with_dividers (l : list (string * string * string)) : list (string * string * string * bool) :=
  match l with
  | [] => []
  | [r] => [(r, false)]
  | r :: l' => (r, true) :: rows_with_dividers l'
  end.

Definition render (s : DashboardState) : option DashboardView :=
  match mapM expense_row (recent s) with
  | None => None
  | Some rows =>
      Some (mkView (money (monthlyTotal s)) (map category_row (topCategories (categories s)))
              (rows_with_dividers rows) (negb (Nat.eqb (length (recent s)) 0)))
  end.

(** Line 69: [format(new Date(), 'MMMM yyyy')] under the total. *)
Definition month_caption (now : Z) : string :=
  let f := local_fields now in (month_long (f_month f) ++ " " ++ format_year (f_year f))%string.

(** Lines 99-112 and 138-146: the buttons, each with the route its
    [onClick] navigates to; "View All Expenses" only when there are recent
    expenses. *)
Definition dashboard_buttons (s : DashboardState) : list (string * string) :=
  [("Add New Expense", "/expenses/new"); ("View Reports", "/reports")] ++
  (if Nat.ltb 0 (length (recent s)) then [("View All Expenses", "/expenses")] else []).

(** Sample data: 2024-02-10T08:00:00, a month of a leap year, and
    services that answer every call. *)
Definition feb_2024 : Z := make_date 2024 2 10 8 0 0 0.

Definition all_ok : DashboardServices :=
  mkDashboardServices
    {| getMonthlyReport := fun _ _ => Some [food_expense; rent_expense];
       getYearlyReport := fun _ => Some [food_expense; rent_expense];
       getCategoryReport := fun _ _ => Some [food_report] |}
    (Some [rent_expense; food_expense; rent_expense; food_expense; rent_expense; food_expense]).

(** ** Theorems *)

(** C26: The category report of the dashboard covers exactly the current
    calendar month: from its first day to its last, written [yyyy-MM-dd],
    for a clock in the years 100 to 9999.  (Before the year 100,
    [new Date(y, m, d)] reads [y] as [1900 + y], see
    [month_bounds_two_digit_year].) *)
Theorem month_bounds_spec now :
  let f := local_fields now in
  (100 <= f_year f <= 9999)%Z ->
  month_bounds now =
  (Some (format_year (f_year f) ++ "-" ++ pad2 (f_month f) ++ "-" ++ pad2 1)%string,
   Some (format_year (f_year f) ++ "-" ++ pad2 (f_month f) ++ "-" ++
         pad2 (days_in_month (f_year f) (f_month f)))%string).
Proof.
  intros f Hy. unfold month_bounds. fold f.
  destruct (local_fields_month_day now) as [Hm _]. fold f in Hm.
  pose proof (days_in_month_bounds (f_year f) (f_month f)).
  rewrite new_Date_ymd_month_first, new_Date_ymd_month_last by done.
  rewrite !format_date_days_from_civil; try (unfold ms_per_day; lia);
    try done; apply valid_ymd_intro; lia.
Qed.

(** On a clock in March of the year 50, the range is March 1950: the
    two-digit year of [new Date(y, m, d)]. *)
Example month_bounds_two_digit_year :
  month_bounds (make_date 50 3 15 12 0 0 0) = (Some "1950-03-01", Some "1950-03-31").
Proof. vm_compute. reflexivity. Qed.

(** When every call succeeds the dashboard shows the month's total, the
    first five expenses and the month's category report. *)
Theorem fetchDashboardData_complete now svc s monthly all c startDate endDate :
  getMonthlyReport (reports svc) (f_year (local_fields now)) (f_month (local_fields now)) = Some monthly ->
  getAllExpenses svc = Some all ->
  month_bounds now = (Some startDate, Some endDate) ->
  getCategoryReport (reports svc) startDate endDate = Some c ->
  fetchDashboardData now svc s = mkDashboard (recentExpenses all) (calculateTotal monthly) c.
Proof. intros Hm Ha Hb Hc. unfold fetchDashboardData. by rewrite Hm, Ha, Hb; cbn; rewrite Hc. Qed.

Lemma recentExpenses_length l : length (recentExpenses l) <= 5.
Proof. unfold recentExpenses. rewrite js_slice_nonneg by lia. simpl. rewrite length_take. lia. Qed.

(** The dashboard never holds more than five recent expenses. *)
Theorem fetchDashboardData_recent_bounded now svc s :
  length (recent s) <= 5 -> length (recent (fetchDashboardData now svc s)) <= 5.
Proof.
  intros H. unfold fetchDashboardData.
  repeat case_match; simpl; try apply recentExpenses_length; done.
Qed.

Lemma rows_with_dividers_length l : length (rows_with_dividers l) = length l.
Proof. induction l as [|r [|r' l] IH]; simpl in *; auto. Qed.

(** The rendered page has at most three category rows and five expense
    rows, one per recent expense, with a divider after each row but the
    last. *)
Theorem render_shape s v :
  length (recent s) <= 5 -> render s = Some v ->
  length (top_rows v) <= 3 /\ length (recent_rows v) = length (recent s) /\
  length (recent_rows v) <= 5 /\
  map snd (recent_rows v) = repeat true (length (recent s) - 1) ++ repeat false (min 1 (length (recent s))).
Proof.
  intros Hl. unfold render. destruct (mapM expense_row (recent s)) as [rows|] eqn:E; [|done].
  intros [= <-]. simpl.
  assert (length rows = length (recent s)) as Hr.
  { symmetry. apply (Forall2_length _ _ _ (proj1 (mapM_Some _ _ _) E)). }
  rewrite length_map, rows_with_dividers_length, Hr. unfold topCategories.
  rewrite js_slice_nonneg by lia. simpl. rewrite length_take.
  split; [lia|]. split; [done|]. split; [lia|].
  rewrite <- Hr. clear. induction rows as [|r [|r' l] IH]; simpl in *; auto.
  rewrite IH. simpl. by rewrite Nat.sub_0_r.
Qed.

Lemma month_bounds_spec_witness :
  (100 <= f_year (local_fields feb_2024) <= 9999)%Z /\
  month_bounds feb_2024 = (Some "2024-02-01", Some "2024-02-29").
Proof.
  assert (100 <= f_year (local_fields feb_2024) <= 9999)%Z as H by (vm_compute; split; discriminate).
  split; [exact H|]. rewrite (month_bounds_spec feb_2024 H). vm_compute. reflexivity.
Defined.

Lemma fetchDashboardData_complete_witness :
  fetchDashboardData feb_2024 all_ok init_dashboard =
  mkDashboard (recentExpenses [rent_expense; food_expense; rent_expense; food_expense; rent_expense; food_expense])
    (calculateTotal [food_expense; rent_expense]) [food_report].
Proof.
  apply (fetchDashboardData_complete _ _ _ _ _ _ "2024-02-01" "2024-02-29");
    [reflexivity | reflexivity | vm_compute; reflexivity | reflexivity].
Defined.

Lemma fetchDashboardData_recent_bounded_witness :
  length (recent init_dashboard) <= 5 /\
  length (recent (fetchDashboardData feb_2024 all_ok init_dashboard)) <= 5.
Proof.
  assert (length (recent init_dashboard) <= 5) as H by (simpl; lia).
  split; [exact H | apply (fetchDashboardData_recent_bounded _ _ _ H)].
Defined.

Lemma render_shape_witness :
  let s := fetchDashboardData feb_2024 all_ok init_dashboard in
  exists v, length (recent s) <= 5 /\ render s = Some v /\
  length (top_rows v) <= 3 /\ length (recent_rows v) = length (recent s) /\
  length (recent_rows v) <= 5 /\
  map snd (recent_rows v) = repeat true (length (recent s) - 1) ++ repeat false (min 1 (length (recent s))).
Proof.
  cbv zeta.
  assert (length (recent (fetchDashboardData feb_2024 all_ok init_dashboard)) <= 5) as H
    by (vm_compute; lia).
  destruct (render (fetchDashboardData feb_2024 all_ok init_dashboard)) as [v|] eqn:R;
    [| vm_compute in R; discriminate].
  exists v. split; [exact H|]. split; [reflexivity | apply (render_shape _ _ H R)].
Defined.
