(* ===== verification/ExpenseListPage.v ===== *)
(** The effects and the table of the expense list page,
    [src/expense-tracker-fe/src/pages/ExpenseList.tsx], over the client of
    [Api.v].

    [fetchExpenses] (lines 104-111) awaits [getAllExpenses] and stores the
    answer with [setExpenses]; a failed call is only logged.  The page
    then treats the answer as an [Expense[]]: [decode_expenses] is that
    cast on the JSON values the model represents (numbers as finite
    rationals, integral ids).  An answer it does not accept is modelled as
    the [TypeError] the page's filter effect throws on a value that is not
    an array ([[...expenses]]); for an array of objects of another shape
    the browser would go on with [undefined] fields, which the model does
    not follow.  [handleDelete] (lines 113-122) asks [window.confirm],
    deletes, and on success calls [fetchExpenses] again.

    The table head (lines 30-45 and 168-190) and the rows (lines 192-219)
    are the texts, flags and targets the page renders. *)

From S2P Require Import Prelude JsRuntime Types StableSort DateTime JsNumber ExpenseList Reports Api Dashboard.
From Stdlib Require Import String.

(** ** The answer of [getAllExpenses] as an [Expense[]] *)

Definition json_str (v : jsval) : option string := match v with JStr s => Some s | _ => None end.

Definition json_bool (v : jsval) : option bool := match v with JBool b => Some b | _ => None end.

Definition json_finite (v : jsval) : option Q :=
  match v with
  | JNum m e => match json_number m e with Finite q => Some q | _ => None end
  | _ => None
  end.

Definition json_int (v : jsval) : option Z :=
  match json_finite v with
  | Some q => if (Zpos (Qden (Qred q)) =? 1)%Z then Some (Qnum (Qred q)) else None
  | None => None
  end.

Definition decode_expense (v : jsval) : option Expense.t :=
  match v with
  | JObj fs =>
      id ← json_int (obj_lookup "id" fs);
      d ← json_str (obj_lookup "description" fs);
      a ← json_finite (obj_lookup "amount" fs);
      dt ← json_str (obj_lookup "date" fs);
      c ← json_str (obj_lookup "category" fs);
      pm ← json_str (obj_lookup "paymentMethod" fs);
      r ← json_bool (obj_lookup "isRecurring" fs);
      cd ← json_str (obj_lookup "createDate" fs);
      ud ← json_str (obj_lookup "updateDate" fs);
      Some (Expense.mk id d a dt c pm r cd ud)
  | _ => None
  end.

Definition decode_expenses (v : jsval) : option (list Expense.t) :=
  match v with JArr l => mapM decode_expense l | _ => None end.

(** ** The handlers *)

Section handlers.
Context `{B : Backend}.

(** Lines 104-111. *)
Definition fetchExpenses (s : ListState) : M ListState :=
  r <- try_catch (data <- Api.getAllExpenses ;; ret (Some data)) (fun _ => ret None) ;;
  match r with
  | None => ret s
  | Some data =>
      match decode_expenses data with
      | Some l => ret (list_step (Fetched l) s)
      | None => throw TypeError
      end
  end.

(** Lines 113-122: [confirmed] is the answer to [window.confirm]. *)
Definition handleDelete (confirmed : bool) (id : Z) (s : ListState) : M ListState :=
  if confirmed then
    ok <- try_catch (deleteExpense (Finite (inject_Z id)) ;; ret true) (fun _ => ret false) ;;
    if ok then fetchExpenses s else ret s
  else ret s.

(** Lines 59-61: the fetch on mount. *)
Definition mount_list : M ListState := fetchExpenses init_list_state.
End handlers.

(** ** The table *)

(** Lines 32-37: [id] is [None] for the ['actions'] column. *)
Record HeadCell := mkHeadCell {
  hc_id : option SortKey;
  hc_label : string;
  hc_numeric : bool;
  hc_sortable : bool
}.

(** Lines 39-45. *)
Definition headCells : list HeadCell :=
  [mkHeadCell (Some KDate) "Date" false true;
   mkHeadCell (Some KDescription) "Description" false true;
   mkHeadCell (Some KCategory) "Category" false true;
   mkHeadCell (Some KAmount) "Amount" true true;
   mkHeadCell None "Actions" false false].

(** A rendered head cell (lines 171-187): its label, right alignment, the
    [sortDirection] of the cell ([false] is [None]), and for a sortable
    one the [active] flag and [direction] of its [TableSortLabel]. *)
Record HeadView := mkHeadView {
  hv_label : string;
  hv_right : bool;
  hv_sortDirection : option Order;
  hv_sort_label : option (bool * Order)
}.

(** [orderBy === headCell.id]. *)
Definition sorted_by (s : ListState) (h : HeadCell) : bool :=
  match hc_id h with Some k => bool_decide (orderBy s = k) | None => false end.

Definition head_view (s : ListState) : list HeadView :=
  map (fun h =>
         let a := sorted_by s h in
         mkHeadView (hc_label h) (hc_numeric h) (if a then Some (order s) else None)
           (if hc_sortable h then Some (a, if a then order s else asc) else None))
      headCells.

(** Line 180: the click on a sort label. *)
Definition head_click (h : HeadCell) (s : ListState) : option ListState :=
  match hc_id h with
  | Some k => if hc_sortable h then Some (list_step (SortClicked k) s) else None
  | None => None
  end.

(** Line 207: [`/expenses/${expense.id}`]. *)
Definition edit_link (e : Expense.t) : string :=
  ("/expenses/" ++ number_toString (Finite (inject_Z (Expense.id e))))%string.

(** Lines 195-218: date, description, category, amount and the target of
    the edit button; [format] throws on an Invalid Date. *)
Definition row_view (e : Expense.t) : option (string * string * string * string * string) :=
  match format_MMM_dd_yyyy (Date_parse (Expense.date e)) with
  | None => None
  | Some d => Some (d, Expense.description e, Expense.category e, money (Finite (Expense.amount e)), edit_link e)
  end.

Definition table_rows (s : ListState) : option (list (string * string * string * string * string)) :=
  mapM row_view (visible s).

(** ** Theorems *)

(** An answer axios resolves. *)
Definition is_2xx (r : NetResult) : bool :=
  match r with Response st _ => (200 <=? st)%Z && (st <? 300)%Z | NetworkError => false end.

Lemma fetchExpenses_result `{B : Backend} s w s' :
  fst (fetchExpenses s w) = inl s' -> s' = s \/ exists l, s' = list_step (Fetched l) s.
Proof.
  unfold fetchExpenses, try_catch, bind, ret, throw. repeat case_match; simpl; intros; simplify_eq; eauto.
Qed.

(** Deleting keeps the list page among its reachable states: the page
    either stays as it was or takes the refetched list through the step
    of [ExpenseList.v], which recomputes the filtered list. *)
Theorem handleDelete_reachable `{B : Backend} b id s w s' :
  reachable s -> fst (handleDelete b id s w) = inl s' -> reachable s'.
Proof.
  intros Hr. unfold handleDelete. destruct b; [|by intros [= <-]].
  unfold bind at 1, try_catch at 1. destruct (_ ;; _) as [[x|e] w'] eqn:E; cbn.
  - destruct x; [|by intros [= <-]]. intros [<-|[l ->]]%fetchExpenses_result; [done|].
    by apply (reach_step s (Fetched l)).
  - intros [= <-]. done.
Qed.

(** C4: What the server receives from a delete: nothing unless the user
    confirms; then the [DELETE] of the expense's URL and, when it
    succeeded, the [GET] of the whole list, in that order. *)
Theorem handleDelete_requests answer b id s w :
  let del := mkRequest DELETE (expense_url (Finite (inject_Z id))) [] None (request_auth (client w)) in
  let get := mkRequest GET "/v1/expenses" [] None (request_auth (client w)) in
  server (snd (@handleDelete (recorder answer) b id s w)) =
  if b then (if is_2xx (answer del) then [get; del] else [del]) ++ server w else server w.
Proof.
  intros del get. destruct b; [|done].
  unfold handleDelete, fetchExpenses, deleteExpense, Api.getAllExpenses, unwrap, try_catch, bind, ret,
    throw, lift_opt, send, is_2xx. cbn -[decode_expenses].
  fold del. destruct (answer del) as [st d|]; cbn -[decode_expenses]; [|done].
  destruct ((200 <=? st)%Z && (st <? 300)%Z); cbn -[decode_expenses]; [|done].
  fold get. destruct (answer get) as [st' d'|]; cbn -[decode_expenses]; [|done].
  destruct ((200 <=? st')%Z && (st' <? 300)%Z); cbn -[decode_expenses]; [|done].
  destruct (js_get d' "data"); cbn -[decode_expenses]; [|done].
  by destruct (decode_expenses _).
Qed.

Definition active_label (v : HeadView) : bool :=
  match hv_sort_label v with Some (true, _) => true | _ => false end.

(** The table head shows the sort in effect: exactly one sort label is
    active, the one of the column [orderBy] names, with the direction
    [order]; only that cell has a [sortDirection]. *)
Theorem head_view_active s :
  exists h, In h headCells /\ hc_id h = Some (orderBy s) /\
    List.filter active_label (head_view s) =
      [mkHeadView (hc_label h) (hc_numeric h) (Some (order s)) (Some (true, order s))] /\
    List.filter (fun v => bool_decide (is_Some (hv_sortDirection v))) (head_view s) =
      [mkHeadView (hc_label h) (hc_numeric h) (Some (order s)) (Some (true, order s))].
Proof.
  pose (cell i := nth i headCells (mkHeadCell None "" false false)).
  destruct (orderBy s) eqn:Ek; [exists (cell 0)|exists (cell 1)|exists (cell 2)|exists (cell 3)];
    (split; [cbn; tauto|]); (split; [reflexivity|]);
    unfold head_view, sorted_by; rewrite Ek; destruct (order s); vm_compute; auto.
Qed.

(** A click on a sortable label runs [handleSort] on its column and then
    the filter effect; the other cell has no click. *)
Lemma head_click_spec h s :
  In h headCells ->
  head_click h s = match hc_id h with Some k => Some (list_step (SortClicked k) s) | None => None end.
Proof. intros Hin. repeat destruct Hin as [<-|Hin]; done. Qed.

Lemma handleDelete_reachable_witness :
  let B := constant_backend (Response 200 (JObj [("data", JArr [])])) in
  reachable init_list_state /\
  fst (@handleDelete B true 7 init_list_state (mkWorld (mkClient (Some "tok") (Some (bearer "tok")) "/expenses") tt))
    = inl (list_step (Fetched []) init_list_state) /\
  reachable (list_step (Fetched []) init_list_state).
Proof.
  intros B. assert (reachable init_list_state) as H by constructor.
  assert (fst (@handleDelete B true 7 init_list_state (mkWorld (mkClient (Some "tok") (Some (bearer "tok")) "/expenses") tt))
    = inl (list_step (Fetched []) init_list_state)) as E by reflexivity.
  split; [exact H|]. split; [exact E|]. exact (handleDelete_reachable _ _ _ _ _ H E).
Defined.
