(* ===== verification/DashboardPage.v ===== *)
(** The dashboard's [fetchDashboardData] (lines 25-54 of
    [src/expense-tracker-fe/src/pages/Dashboard.tsx]) as the page runs it:
    three awaited calls of the client of [Api.v], in order, inside one
    [try]/[catch] that only logs.

    [Dashboard.v] models the same function over a record of call results
    ([DashboardServices]), which assumes that every call answers
    independently of the calls before it.  [EndToEnd.v] proves that this
    holds against the reference server for a signed-in client: the two
    models then compute the same state.

    The page sets its state after each await ([setMonthlyTotal],
    [setRecentExpenses], [setCategoryReport]), so a failure keeps what was
    set before it.  [attempt] runs one step and turns its failure into
    [None].  After a [None] the handler returns the state it has, which is
    what the single [catch] of the source does.  The expense answers are
    read as an [Expense[]] as on the list page: an answer that is not one
    is the [TypeError] of [reduce] or [slice] inside the [try].  The
    category answer is stored without being read ([setCategoryReport]);
    the state of [Dashboard.v] holds [ExpenseCategoryReport]s, so an answer
    that is not an array of them is taken here as the handler's failure,
    where the page would store it and fail later when it renders the
    rows. *)

From S2P Require Import Prelude JsRuntime Types DateTime JsNumber Reports Api Dashboard ExpenseListPage.
From Stdlib Require Import String.

(** ** The answer of [getCategoryReport] as an [ExpenseCategoryReport[]] *)

Definition decode_report (v : jsval) : option ExpenseCategoryReport.t :=
  match v with
  | JObj fs =>
      c ← json_str (obj_lookup "category" fs);
      n ← json_int (obj_lookup "count" fs);
      t ← json_finite (obj_lookup "totalAmount" fs);
      Some (ExpenseCategoryReport.mk c n t)
  | _ => None
  end.

Definition decode_reports (v : jsval) : option (list ExpenseCategoryReport.t) :=
  match v with JArr l => mapM decode_report l | _ => None end.

Section page.
Context `{B : Backend}.

(** One step of the handler: its value, or [None] when it throws. *)
Definition attempt {A} (m : M A) : M (option A) :=
  try_catch (x <- m ;; ret (Some x)) (fun _ => ret None).

(** Lines 30-33: the month's expenses, as the [reduce] reads them. *)
Definition fetch_monthly (year month : Z) : M (list Expense.t) :=
  v <- Api.getMonthlyReport year month ;; lift_opt (decode_expenses v).

(** Line 40. *)
Definition fetch_all : M (list Expense.t) :=
  v <- Api.getAllExpenses ;; lift_opt (decode_expenses v).

(** Line 46. *)
Definition fetch_categories (startDate endDate : string) : M (list ExpenseCategoryReport.t) :=
  v <- Api.getCategoryReport startDate endDate ;; lift_opt (decode_reports v).

(** Lines 25-54. *)
Definition fetchDashboardData_page (now : Z) (s : DashboardState) : M DashboardState :=
  let f := local_fields now in
  o1 <- attempt (fetch_monthly (f_year f) (f_month f)) ;;
  match o1 with
  | None => ret s
  | Some monthly =>
      let s := mkDashboard (recent s) (calculateTotal monthly) (categories s) in
      o2 <- attempt fetch_all ;;
      match o2 with
      | None => ret s
      | Some all =>
          let s := mkDashboard (recentExpenses all) (monthlyTotal s) (categories s) in
          match month_bounds now with
          | (Some startDate, Some endDate) =>
              o3 <- attempt (fetch_categories startDate endDate) ;;
              match o3 with
              | None => ret s
              | Some c => ret (mkDashboard (recent s) (monthlyTotal s) c)
              end
          | _ => ret s
          end
      end
  end.
End page.

(** The record of [Dashboard.v] read off one world: each call's result
    when it runs from [w]. *)
Definition result_of `{B : Backend} {A} (m : M A) (w : World) : option A :=
  match fst (m w) with inl x => Some x | inr _ => None end.

Definition services_at `{B : Backend} (w : World) : DashboardServices :=
  mkDashboardServices
    {| Reports.getMonthlyReport y m := result_of (fetch_monthly y m) w;
       Reports.getYearlyReport y := result_of (v <- Api.getYearlyReport y ;; lift_opt (decode_expenses v)) w;
       Reports.getCategoryReport a b := result_of (fetch_categories a b) w |}
    (result_of fetch_all w).

(** ** Theorems *)

Lemma attempt_same `{B : Backend} {A} (m : M A) w :
  snd (m w) = w -> attempt m w = (inl (result_of m w), w).
Proof.
  unfold attempt, result_of, try_catch, bind, ret. destruct (m w) as [[x|e] w']; cbn; by intros ->.
Qed.

(** When every call leaves the world as it was, the page computes what
    the record model computes on the results read off that world. *)
Theorem fetchDashboardData_page_record `{B : Backend} now s w :
  (forall y m, snd (fetch_monthly y m w) = w) -> snd (fetch_all w) = w ->
  (forall a b, snd (fetch_categories a b w) = w) ->
  fetchDashboardData_page now s w = (inl (fetchDashboardData now (services_at w) s), w).
Proof.
  intros H1 H2 H3. unfold fetchDashboardData_page, fetchDashboardData, bind.
  rewrite attempt_same by apply H1. cbn [services_at reports Dashboard.getAllExpenses Reports.getMonthlyReport].
  destruct (result_of (fetch_monthly _ _) w); [|done].
  rewrite attempt_same by apply H2. destruct (result_of fetch_all w); [|done].
  destruct (month_bounds now) as [[a|] [b|]]; try done.
  rewrite attempt_same by apply H3. cbn [Reports.getCategoryReport]. by destruct (result_of _ w).
Qed.
