(* ===== verification/Server.v ===== *)
(** A reference server for the client: the REST API of spec.md §6, whose
    implementation is not part of the repository, as an instance of the
    [Backend] class of [Api.v].

    Its state holds the accounts, the tokens it issued, the expenses by id
    with their owners, the next id and the timestamp it writes.  It
    answers as the spec's endpoint table says: [POST /auth/signin] with the
    token object, [POST /auth/signup], and under a valid [Bearer] token the
    expense endpoints, each success wrapped as [{ data: ... }].  A request
    without a valid token is refused with 401, an unknown id with 404
    (spec §7's NotFoundError), a body that breaks the expense invariant of
    spec §3 (a positive amount and a non-blank description) with 400.  A
    path id that is not a decimal integer is a 400, as a typed path
    variable is.  The reports filter the owner's expenses by the date
    strings the client sends; the category report groups them by category
    and sums their amounts exactly as decimals. *)

From S2P Require Import Prelude JsRuntime Types TsTypes DateTime JsNumber Binary64 Api ExpenseListPage.
From stdpp Require Import gmap pretty.
From Stdlib Require Import String Qpower.
From Stdlib Require Qcanon.

Record Account := mkAccount {
  acc_id : Z;
  acc_username : string;
  acc_email : string;
  acc_password : string
}.

Record SrvState := mkSrv {
  accounts : list Account;
  sessions : list (string * string);       (* issued token, username *)
  store : gmap Z (string * jsval);         (* id -> owner, stored expense *)
  next_id : Z;
  clock : string                           (* the timestamp the server writes *)
}.

(** ** Requests *)

Fixpoint strip_prefix (p s : string) : option string :=
  match p, s with
  | EmptyString, _ => Some s
  | String c p', String d s' => if Ascii.eqb c d then strip_prefix p' s' else None
  | String _ _, EmptyString => None
  end.

(** A path variable of type [Long]: decimal digits. *)
Definition parse_id (s : string) : option Z := digits_ne (list_ascii_of_string s).

Inductive Route :=
  | RSignin | RSignup | RList | RCreate | RBetween | RMonthly | RYearly | RCategory
  | RGet (id : Z) | RUpdate (id : Z) | RDelete (id : Z) | RBadId | RNoRoute.

Definition route (m : Method) (url : string) : Route :=
  if String.eqb url "/auth/signin" then match m with POST => RSignin | _ => RNoRoute end
  else if String.eqb url "/auth/signup" then match m with POST => RSignup | _ => RNoRoute end
  else if String.eqb url "/v1/expenses" then match m with GET => RList | POST => RCreate | _ => RNoRoute end
  else if String.eqb url "/v1/expenses/between" then match m with GET => RBetween | _ => RNoRoute end
  else if String.eqb url "/v1/expenses/reports/monthly" then match m with GET => RMonthly | _ => RNoRoute end
  else if String.eqb url "/v1/expenses/reports/yearly" then match m with GET => RYearly | _ => RNoRoute end
  else if String.eqb url "/v1/expenses/reports/category" then match m with GET => RCategory | _ => RNoRoute end
  else match strip_prefix "/v1/expenses/" url with
       | Some s =>
           match parse_id s with
           | Some id => match m with GET => RGet id | PUT => RUpdate id | DELETE => RDelete id | POST => RNoRoute end
           | None => RBadId
           end
       | None => RNoRoute
       end.

(** The first value of a key in a list of pairs: a query parameter, the
    user of a token. *)
Fixpoint assoc_lookup (k : string) (l : list (string * string)) : option string :=
  match l with
  | [] => None
  | (k', v) :: l' => if String.eqb k k' then Some v else assoc_lookup k l'
  end.

(** The user of a [Bearer] token the server issued. *)
Definition session_user (st : SrvState) (auth : option string) : option string :=
  h ← auth; t ← strip_prefix "Bearer " h; assoc_lookup t (sessions st).

Definition message (m : string) : jsval := JObj [("message", JStr m)].
Definition data (v : jsval) : jsval := JObj [("data", v)].

(** ** Expenses *)

Definition expense_fields : list string :=
  ["description"; "amount"; "date"; "category"; "paymentMethod"; "isRecurring"].

(** The expense the server keeps: its id, the fields of the request and
    its own timestamps. *)
Definition stored_expense (id : Z) (fs : list (string * jsval)) (created updated : string) : jsval :=
  JObj ([("id", JNum id 0)] ++ map (fun k => (k, obj_lookup k fs)) expense_fields ++
        [("createDate", JStr created); ("updateDate", JStr updated)]).

(** The fields of an update: those the body has replace the stored ones. *)
Definition merge_fields (old fs : list (string * jsval)) : list (string * jsval) :=
  map (fun k => (k, match obj_lookup k fs with JUndefined => obj_lookup k old | v => v end)) expense_fields.

(** The invariant of spec §3 on a stored expense: the shape of [Expense],
    a positive finite amount and a description that is not blank. *)
Definition valid_stored (v : jsval) : bool :=
  typecheck v Expense_type &&
  match v with
  | JObj fs =>
      match json_finite (obj_lookup "amount" fs) with
      | Some q => negb (Qle_bool q 0)
      | None => false
      end &&
      match obj_lookup "description" fs with JStr d => str_truthy (js_trim d) | _ => false end
  | _ => false
  end.

Definition owned (u : string) (st : SrvState) : list (Z * jsval) :=
  omap (fun '(k, (o, v)) => if String.eqb o u then Some (k, v) else None) (map_to_list (store st)).

Definition owned_values (u : string) (st : SrvState) : list jsval := map snd (owned u st).

Definition owned_lookup (u : string) (st : SrvState) (id : Z) : option jsval :=
  match store st !! id with
  | Some (o, v) => if String.eqb o u then Some v else None
  | None => None
  end.

Definition with_store (st : SrvState) (s : gmap Z (string * jsval)) (next : Z) : SrvState :=
  mkSrv (accounts st) (sessions st) s next (clock st).

Definition str_of (v : jsval) : option string := match v with JStr s => Some s | _ => None end.

Definition obj_field (k : string) (v : jsval) : jsval :=
  match v with JObj fs => obj_lookup k fs | _ => JUndefined end.

(** ** Reports *)

Definition expense_date (v : jsval) : string := default "" (str_of (obj_field "date" v)).

Definition expense_category (v : jsval) : string := default "" (str_of (obj_field "category" v)).

(** The date range of [between] and [category]: the ISO strings compare
    as the dates they write. *)
Definition in_range (startDate endDate : string) (v : jsval) : bool :=
  negb (str_lt (expense_date v) startDate) && negb (str_lt endDate (expense_date v)).

Definition in_period (prefix : string) (v : jsval) : bool := String.prefix prefix (expense_date v).

Definition month_prefix (year month : string) : string :=
  (year ++ "-" ++ (if (String.length month =? 1)%nat then "0" ++ month else month))%string.

(** Amounts as the decimals [m * 10^e] of their JSON literals. *)
Definition amount_dec (v : jsval) : Z * Z :=
  match obj_field "amount" v with JNum m e => (m, e) | _ => (0, 0)%Z end.

Definition dec_add (a b : Z * Z) : Z * Z :=
  let e := Z.min a.2 b.2 in ((a.1 * 10 ^ (a.2 - e) + b.1 * 10 ^ (b.2 - e))%Z, e).

(** A group of the category report: category, count, total. *)
Definition Group : Type := string * Z * (Z * Z).

Fixpoint add_to_group (c : string) (a : Z * Z) (gs : list Group) : list Group :=
  match gs with
  | [] => [(c, 1%Z, a)]
  | (c', n, t) :: gs' =>
      if String.eqb c c' then (c', (n + 1)%Z, dec_add t a) :: gs' else (c', n, t) :: add_to_group c a gs'
  end.

Definition category_groups (vs : list jsval) : list Group :=
  fold_left (fun gs v => add_to_group (expense_category v) (amount_dec v) gs) vs [].

Definition category_report (vs : list jsval) : jsval :=
  JArr (map (fun '(c, n, (m, e)) =>
               JObj [("category", JStr c); ("count", JNum n 0); ("totalAmount", JNum m e)])
            (category_groups vs)).

(** ** Authentication *)

Definition str_field (k : string) (body : option jsval) : option string :=
  b ← body; str_of (obj_field k b).

Definition issue_token (st : SrvState) : string :=
  ("token-" ++ pretty (N.of_nat (List.length (sessions st))))%string.

Definition signin (st : SrvState) (body : option jsval) : SrvState * NetResult :=
  match str_field "username" body, str_field "password" body with
  | Some u, Some p =>
      match List.find (fun a => String.eqb (acc_username a) u && String.eqb (acc_password a) p) (accounts st) with
      | Some a =>
          let t := issue_token st in
          (mkSrv (accounts st) ((t, u) :: sessions st) (store st) (next_id st) (clock st),
           Response 200 (JObj [("accessToken", JStr t); ("tokenType", JStr "Bearer"); ("id", JNum (acc_id a) 0);
                               ("username", JStr u); ("email", JStr (acc_email a));
                               ("roles", JArr [JStr "ROLE_USER"])]))
      | None => (st, Response 401 (message "Bad credentials"))
      end
  | _, _ => (st, Response 400 (message "Bad request"))
  end.

Definition signup_srv (st : SrvState) (body : option jsval) : SrvState * NetResult :=
  match str_field "username" body, str_field "email" body, str_field "password" body with
  | Some u, Some e, Some p =>
      if existsb (fun a => String.eqb (acc_username a) u || String.eqb (acc_email a) e) (accounts st)
      then (st, Response 400 (message "Username or email is already taken"))
      else (mkSrv (accounts st ++ [mkAccount (Z.of_nat (List.length (accounts st)) + 1) u e p]) (sessions st)
                  (store st) (next_id st) (clock st),
            Response 200 (message "User registered successfully"))
  | _, _, _ => (st, Response 400 (message "Bad request"))
  end.

(** ** The endpoints *)

Definition not_found : NetResult := Response 404 (message "Expense not found").
Definition bad_request : NetResult := Response 400 (message "Bad request").

Definition endpoint (st : SrvState) (u : string) (rt : Route) (r : Request) : SrvState * NetResult :=
  let ps := req_params r in
  let mine := owned_values u st in
  match rt with
  | RList => (st, Response 200 (data (JArr mine)))
  | RGet id => match owned_lookup u st id with Some v => (st, Response 200 (data v)) | None => (st, not_found) end
  | RCreate =>
      match req_body r with
      | Some (JObj fs) =>
          let v := stored_expense (next_id st) fs (clock st) (clock st) in
          if valid_stored v
          then (with_store st (<[next_id st := (u, v)]> (store st)) (next_id st + 1), Response 201 (data v))
          else (st, bad_request)
      | _ => (st, bad_request)
      end
  | RUpdate id =>
      match owned_lookup u st id, req_body r with
      | None, _ => (st, not_found)
      | Some (JObj old), Some (JObj fs) =>
          let created := default (clock st) (str_of (obj_lookup "createDate" old)) in
          let v := stored_expense id (merge_fields old fs) created (clock st) in
          if valid_stored v then (with_store st (<[id := (u, v)]> (store st)) (next_id st), Response 200 (data v))
          else (st, bad_request)
      | Some _, _ => (st, bad_request)
      end
  | RDelete id =>
      match owned_lookup u st id with
      | Some _ => (with_store st (delete id (store st)) (next_id st), Response 204 (JStr ""))
      | None => (st, not_found)
      end
  | RBetween =>
      match assoc_lookup "startDate" ps, assoc_lookup "endDate" ps with
      | Some a, Some b => (st, Response 200 (data (JArr (List.filter (in_range a b) mine))))
      | _, _ => (st, bad_request)
      end
  | RMonthly =>
      match assoc_lookup "year" ps, assoc_lookup "month" ps with
      | Some y, Some m => (st, Response 200 (data (JArr (List.filter (in_period (month_prefix y m)) mine))))
      | _, _ => (st, bad_request)
      end
  | RYearly =>
      match assoc_lookup "year" ps with
      | Some y => (st, Response 200 (data (JArr (List.filter (in_period (y ++ "-")) mine))))
      | None => (st, bad_request)
      end
  | RCategory =>
      match assoc_lookup "startDate" ps, assoc_lookup "endDate" ps with
      | Some a, Some b => (st, Response 200 (data (category_report (List.filter (in_range a b) mine))))
      | _, _ => (st, bad_request)
      end
  | RBadId => (st, bad_request)
  | RSignin | RSignup | RNoRoute => (st, Response 404 (message "Not Found"))
  end.

Definition respond (st : SrvState) (r : Request) : SrvState * NetResult :=
  match route (req_method r) (req_url r) with
  | RSignin => signin st (req_body r)
  | RSignup => signup_srv st (req_body r)
  | rt =>
      match session_user st (req_auth r) with
      | Some u => endpoint st u rt r
      | None => (st, Response 401 (message "Unauthorized"))
      end
  end.

Definition reference_server : Backend := {| srv_state := SrvState; serve := respond |}.

(** ** Routing *)

Lemma strip_prefix_app p s : strip_prefix p (p ++ s) = Some s.
Proof.
  induction p as [|c p IH]; [done|]. change (String c p ++ s)%string with (String c (p ++ s)).
  cbn [strip_prefix]. by rewrite Ascii.eqb_refl.
Qed.

Lemma parse_id_pretty (n : N) : parse_id (pretty n) = Some (Z.of_N n).
Proof.
  unfold parse_id, digits_ne. pose proof (digits_pretty n) as H.
  pose proof (pretty_truthy n) as Ht. destruct (pretty n); [done|]. exact H.
Qed.

(** The item path: no literal route of the API is a prefix [/v1/expenses/]
    followed by a number. *)
Lemma route_item m url s id :
  strip_prefix "/v1/expenses/" url = Some s -> parse_id s = Some id ->
  route m url = match m with GET => RGet id | PUT => RUpdate id | DELETE => RDelete id | POST => RNoRoute end.
Proof.
  intros Hs Hid. unfold route.
  repeat match goal with
  | |- context [String.eqb url ?lit] =>
      let E := fresh "E" in
      destruct (String.eqb url lit) eqn:E;
        [apply String.eqb_eq in E; subst url; vm_compute in Hs;
         first [discriminate | injection Hs as <-; vm_compute in Hid; discriminate]|]
  end.
  by rewrite Hs, Hid.
Qed.

Lemma route_expense_url m (id : N) :
  route m ("/v1/expenses/" ++ pretty id) =
  match m with GET => RGet (Z.of_N id) | PUT => RUpdate (Z.of_N id) | DELETE => RDelete (Z.of_N id) | POST => RNoRoute end.
Proof. apply route_item with (s := pretty id); [apply strip_prefix_app | apply parse_id_pretty]. Qed.

(** [expense_url] of the client on an id below [2^52] is the item path. *)
Lemma expense_url_int id : (0 <= id < 2 ^ 52)%Z ->
  expense_url (Finite (inject_Z id)) = ("/v1/expenses/" ++ pretty (Z.to_N id))%string.
Proof. intros H. unfold expense_url. by rewrite number_toString_int_digits. Qed.

Lemma route_expense_url_int m id : (0 <= id < 2 ^ 52)%Z ->
  route m (expense_url (Finite (inject_Z id))) =
  match m with GET => RGet id | PUT => RUpdate id | DELETE => RDelete id | POST => RNoRoute end.
Proof. intros H. rewrite expense_url_int, route_expense_url by done. by rewrite Z2N.id by lia. Qed.

(** C27: for an id in [0, 2^52), the row's edit link is [/expenses/]
    followed by the id's decimal digits, the client's item URL
    [/v1/expenses/${id}] is the API path with the same digits, and the
    server routes that URL to the expense of that id for GET, PUT and
    DELETE. *)
Theorem expense_paths_int e m : (0 <= Expense.id e < 2 ^ 52)%Z ->
  edit_link e = ("/expenses/" ++ pretty (Z.to_N (Expense.id e)))%string /\
  expense_url (Finite (inject_Z (Expense.id e))) =
    ("/v1/expenses/" ++ pretty (Z.to_N (Expense.id e)))%string /\
  route m (expense_url (Finite (inject_Z (Expense.id e)))) =
    match m with
    | GET => RGet (Expense.id e) | PUT => RUpdate (Expense.id e)
    | DELETE => RDelete (Expense.id e) | POST => RNoRoute
    end.
Proof.
  intros H. split; [unfold edit_link; by rewrite number_toString_int_digits|].
  split; [by apply expense_url_int | by apply route_expense_url_int].
Qed.

Lemma session_user_bearer st t : session_user st (Some (bearer t)) = assoc_lookup t (sessions st).
Proof. reflexivity. Qed.

(** ** The store invariant *)

(** What every stored expense satisfies: spec §3's invariant and the id
    it is stored under. *)
Definition stored_ok (k : Z) (v : jsval) : Prop := valid_stored v = true /\ obj_field "id" v = JNum k 0.

Definition srv_inv (st : SrvState) : Prop :=
  (0 < next_id st)%Z /\ map_Forall (fun k ov => (0 < k < next_id st)%Z /\ stored_ok k ov.2) (store st).

Lemma stored_expense_id k fs c u : obj_field "id" (stored_expense k fs c u) = JNum k 0.
Proof. reflexivity. Qed.

Lemma with_store_inv st s next :
  (0 < next)%Z -> map_Forall (fun k ov => (0 < k < next)%Z /\ stored_ok k ov.2) s ->
  srv_inv (with_store st s next).
Proof. by split. Qed.

Lemma store_bound_mono (s : gmap Z (string * jsval)) n n' :
  (n <= n')%Z -> map_Forall (fun k ov => (0 < k < n)%Z /\ stored_ok k ov.2) s ->
  map_Forall (fun k ov => (0 < k < n')%Z /\ stored_ok k ov.2) s.
Proof. intros Hn H. apply (map_Forall_impl _ _ _ H). intros k [o v] [? ?]. split; [lia|done]. Qed.

Lemma owned_lookup_Some u st id v :
  owned_lookup u st id = Some v -> store st !! id = Some (u, v).
Proof.
  unfold owned_lookup. destruct (store st !! id) as [[o v']|]; [|done].
  destruct (String.eqb o u) eqn:E; [|done]. apply String.eqb_eq in E. by intros [= <-]; subst.
Qed.

Lemma signin_store st b : store (fst (signin st b)) = store st /\ next_id (fst (signin st b)) = next_id st.
Proof. unfold signin. by repeat case_match. Qed.

Lemma signup_store st b : store (fst (signup_srv st b)) = store st /\ next_id (fst (signup_srv st b)) = next_id st.
Proof. unfold signup_srv. by repeat case_match. Qed.

Lemma srv_inv_same st st' : store st' = store st -> next_id st' = next_id st -> srv_inv st -> srv_inv st'.
Proof. intros Hs Hn H. unfold srv_inv. by rewrite Hs, Hn. Qed.

(** Every answer of the server keeps the invariant of its store. *)
Lemma respond_inv st r : srv_inv st -> srv_inv (fst (respond st r)).
Proof.
  intros Hinv. pose proof Hinv as [Hpos Hst]. unfold respond.
  destruct (route _ _) as [| | | | | | | |id|id|id| |];
    try (by destruct (signin_store st (req_body r)); apply (srv_inv_same st));
    try (by destruct (signup_store st (req_body r)); apply (srv_inv_same st));
    (destruct (session_user _ _) as [u|]; [|done]); unfold endpoint; cbn zeta.
  all: repeat case_match; simplify_eq/=; try done.
  - (* create *)
    apply with_store_inv; [lia|]. apply map_Forall_insert_2.
    + split; [lia|]. split; [done | apply stored_expense_id].
    + apply (store_bound_mono _ (next_id st)); [lia|done].
  - (* update *)
    apply with_store_inv; [done|]. apply map_Forall_insert_2; [|done].
    destruct (Hst id _ (owned_lookup_Some _ _ _ _ H)) as [Hb _].
    split; [done|]. split; [done | apply stored_expense_id].
  - (* delete *)
    apply with_store_inv; [done|]. by apply map_Forall_delete.
Qed.

(** ** Deleting *)

Lemma respond_delete st r u id :
  req_method r = DELETE -> route DELETE (req_url r) = RDelete id -> session_user st (req_auth r) = Some u ->
  respond st r =
  match owned_lookup u st id with
  | Some _ => (with_store st (delete id (store st)) (next_id st), Response 204 (JStr ""))
  | None => (st, not_found)
  end.
Proof. intros Hm Hr Hs. unfold respond. rewrite Hm, Hr, Hs. reflexivity. Qed.

Lemma respond_list st r u :
  req_method r = GET -> req_url r = "/v1/expenses" -> session_user st (req_auth r) = Some u ->
  respond st r = (st, Response 200 (data (JArr (owned_values u st)))).
Proof. intros Hm Hu Hs. unfold respond. rewrite Hm, Hu, Hs. reflexivity. Qed.

Lemma respond_monthly st r u y m :
  req_method r = GET -> req_url r = "/v1/expenses/reports/monthly" ->
  req_params r = [("year", y); ("month", m)] -> session_user st (req_auth r) = Some u ->
  respond st r = (st, Response 200 (data (JArr (List.filter (in_period (month_prefix y m)) (owned_values u st))))).
Proof. intros Hm Hu Hp Hs. unfold respond. rewrite Hm, Hu, Hs. cbn. by rewrite Hp. Qed.

Lemma respond_create st r u fs :
  req_method r = POST -> req_url r = "/v1/expenses" -> session_user st (req_auth r) = Some u ->
  req_body r = Some (JObj fs) ->
  respond st r =
  let v := stored_expense (next_id st) fs (clock st) (clock st) in
  if valid_stored v
  then (with_store st (<[next_id st := (u, v)]> (store st)) (next_id st + 1), Response 201 (data v))
  else (st, bad_request).
Proof. intros Hm Hu Hs Hb. unfold respond. rewrite Hm, Hu, Hs. cbn -[stored_expense valid_stored]. by rewrite Hb. Qed.

Lemma respond_update st r u id old fs :
  req_method r = PUT -> route PUT (req_url r) = RUpdate id -> session_user st (req_auth r) = Some u ->
  owned_lookup u st id = Some (JObj old) -> req_body r = Some (JObj fs) ->
  respond st r =
  let v := stored_expense id (merge_fields old fs) (default (clock st) (str_of (obj_lookup "createDate" old))) (clock st) in
  if valid_stored v then (with_store st (<[id := (u, v)]> (store st)) (next_id st), Response 200 (data v))
  else (st, bad_request).
Proof.
  intros Hm Hu Hs Ho Hb. unfold respond. rewrite Hm, Hu, Hs. cbn -[stored_expense valid_stored owned_lookup].
  by rewrite Ho, Hb.
Qed.

Lemma session_user_with_store st s n a : session_user (with_store st s n) a = session_user st a.
Proof. reflexivity. Qed.

(** Spec §8's last scenario on the server: a delete removes at most the
    expense it names and keeps every other one; deleting the same id again
    is a 404 (NotFoundError) that changes nothing. *)
Theorem delete_twice st r u id :
  req_method r = DELETE -> route DELETE (req_url r) = RDelete id -> session_user st (req_auth r) = Some u ->
  let st1 := fst (respond st r) in
  (forall k, k <> id -> store st1 !! k = store st !! k) /\ owned_lookup u st1 id = None /\
  respond st1 r = (st1, not_found).
Proof.
  intros Hm Hr Hs st1. subst st1. rewrite (respond_delete st r u id Hm Hr Hs).
  destruct (owned_lookup u st id) eqn:E; cbn [fst].
  - assert (owned_lookup u (with_store st (delete id (store st)) (next_id st)) id = None) as Hn.
    { unfold owned_lookup. cbn. by rewrite lookup_delete_eq. }
    split; [intros k Hk; cbn; rewrite lookup_delete_ne; [done|congruence]|]. split; [done|].
    rewrite (respond_delete _ r u id Hm Hr) by (by rewrite session_user_with_store). by rewrite Hn.
  - split; [done|]. split; [done|]. by rewrite (respond_delete st r u id Hm Hr Hs), E.
Qed.

(** ** The category report *)

Definition dec_q (a : Z * Z) : Q := dec_value a.1 a.2.

Definition group_total (g : Group) : Q := dec_q g.2.
Definition group_count (g : Group) : Z := g.1.2.
Definition amount_q (v : jsval) : Q := dec_q (amount_dec v).

Lemma dec_add_spec a b : (dec_q (dec_add a b) == dec_q a + dec_q b)%Q.
Proof.
  destruct a as [m1 e1], b as [m2 e2]. unfold dec_q, dec_add. cbn [fst snd].
  rewrite !dec_value_pow, inject_Z_plus, !inject_Z_mult.
  rewrite !Zpower_Qpower by lia.
  assert (forall x, (inject_Z 10 ^ (x - Z.min e1 e2) * inject_Z 10 ^ Z.min e1 e2 == inject_Z 10 ^ x)%Q) as Hp.
  { intros x. rewrite <- Qpower_plus by (intros H; discriminate H).
    by replace (x - Z.min e1 e2 + Z.min e1 e2)%Z with x by lia. }
  rewrite <- (Hp e1), <- (Hp e2). ring.
Qed.

Lemma add_to_group_sums c a gs :
  (sumQ group_total (add_to_group c a gs) == sumQ group_total gs + dec_q a)%Q /\
  foldr (fun g n => group_count g + n)%Z 0%Z (add_to_group c a gs) =
  (foldr (fun g n => group_count g + n)%Z 0%Z gs + 1)%Z.
Proof.
  induction gs as [|[[c' n] t] gs [IHq IHc]]; cbn.
  - unfold sumQ, group_total, group_count. cbn. split; [ring|lia].
  - destruct (String.eqb c c'); unfold sumQ, group_total, group_count in *; cbn in *.
    + rewrite dec_add_spec. split; [ring|lia].
    + rewrite IHq, IHc. split; [ring|lia].
Qed.

(** Spec §8's aggregation law for the category report: the totals of the
    groups add up to the sum of the amounts and their counts to the number
    of expenses. *)
Theorem category_groups_sums vs :
  (sumQ group_total (category_groups vs) == sumQ amount_q vs)%Q /\
  foldr (fun g n => group_count g + n)%Z 0%Z (category_groups vs) = Z.of_nat (List.length vs).
Proof.
  unfold category_groups.
  enough (forall gs, (sumQ group_total (fold_left (fun gs v => add_to_group (expense_category v) (amount_dec v) gs) vs gs)
                      == sumQ group_total gs + sumQ amount_q vs)%Q /\
           foldr (fun g n => group_count g + n)%Z 0%Z
             (fold_left (fun gs v => add_to_group (expense_category v) (amount_dec v) gs) vs gs) =
           (foldr (fun g n => group_count g + n)%Z 0%Z gs + Z.of_nat (List.length vs))%Z) as H.
  { destruct (H []) as [H1 H2]. split; [rewrite H1; change (sumQ group_total []) with 0%Q; ring | exact H2]. }
  induction vs as [|v vs IH]; intros gs; cbn [fold_left List.length].
  - change (sumQ amount_q []) with 0%Q. split; [ring|lia].
  - change (sumQ amount_q (v :: vs)) with (amount_q v + sumQ amount_q vs)%Q.
    destruct (IH (add_to_group (expense_category v) (amount_dec v) gs)) as [H1 H2].
    destruct (add_to_group_sums (expense_category v) (amount_dec v) gs) as [H3 H4].
    rewrite H1, H3, H2, H4. unfold amount_q. split; [ring|lia].
Qed.

(** ** What the client reads back *)

Lemma json_int_int k : (0 < k < 2 ^ 53)%Z -> json_int (JNum k 0) = Some k.
Proof.
  intros Hk. unfold json_int, json_finite, json_number, dec_value. cbn [Z.leb Z.compare].
  rewrite Z.pow_0_r, Z.mul_1_r. destruct (round_binary64_int k Hk) as (v & -> & Hv).
  rewrite (Qred_complete _ _ Hv). rewrite Qcanon.Qred_identity by (cbn; apply Z.gcd_1_r). reflexivity.
Qed.

Lemma typecheck_string v : typecheck v TString = true -> exists s, v = JStr s.
Proof. destruct v; try discriminate. eauto. Qed.

Lemma typecheck_enum v vs : typecheck v (TEnum vs) = true -> exists s, v = JStr s.
Proof. destruct v; try discriminate. eauto. Qed.

Lemma typecheck_bool v : typecheck v TBoolean = true -> exists b, v = JBool b.
Proof. destruct v; try discriminate. eauto. Qed.

(** A stored expense under an id below [2^53] reads back, with
    [decode_expense] of the list page, as an [Expense] with that id. *)
Lemma decode_stored k v : (0 < k < 2 ^ 53)%Z -> stored_ok k v ->
  exists e, decode_expense v = Some e /\ Expense.id e = k.
Proof.
  intros Hk [Hv Hid]. destruct v as [| | | | | |fs]; try discriminate. cbn in Hid.
  unfold valid_stored in Hv. apply andb_true_iff in Hv as [Ht Hv].
  destruct (json_finite (obj_lookup "amount" fs)) as [q|] eqn:Ha; [|discriminate].
  cbn [typecheck Expense_type forallb] in Ht. rewrite Hid in Ht.
  unfold decode_expense. rewrite Hid, json_int_int by done. cbn [mbind option_bind].
  destruct (obj_lookup "description" fs); cbn in Ht; try discriminate.
  destruct (obj_lookup "amount" fs); cbn in Ht; try discriminate. rewrite Ha.
  destruct (obj_lookup "date" fs); cbn in Ht; try discriminate.
  destruct (obj_lookup "category" fs); cbn in Ht; try discriminate. apply andb_true_iff in Ht as [_ Ht].
  destruct (obj_lookup "paymentMethod" fs); cbn in Ht; try discriminate. apply andb_true_iff in Ht as [_ Ht].
  destruct (obj_lookup "isRecurring" fs); cbn in Ht; try discriminate.
  destruct (obj_lookup "createDate" fs); cbn in Ht; try discriminate.
  destruct (obj_lookup "updateDate" fs); cbn in Ht; try discriminate.
  cbn. by eexists.
Qed.

(** Spec §8's scenario: amounts 10 and 20 in FOOD and 5 in RENT give the
    groups FOOD (2, 30) and RENT (1, 5). *)
Definition scenario_expense (id : Z) (amount : Z) (cat : string) : jsval :=
  JObj [("id", JNum id 0); ("amount", JNum amount 0); ("category", JStr cat)].

Example category_groups_scenario :
  category_groups [scenario_expense 1 10 "FOOD"; scenario_expense 2 20 "FOOD"; scenario_expense 3 5 "RENT"] =
  [("FOOD", 2%Z, (30%Z, 0%Z)); ("RENT", 1%Z, (5%Z, 0%Z))].
Proof. vm_compute. reflexivity. Qed.

(** ** Reads *)

(** A [GET] never reaches a route that writes. *)
Lemma route_GET url :
  match route GET url with RSignin | RSignup | RCreate | RUpdate _ | RDelete _ => False | _ => True end.
Proof.
  unfold route. repeat (case_match; try done).
Qed.

(** Every [GET] leaves the server's state as it was: the reads of the
    expense endpoints and the reports are queries. *)
Lemma respond_GET st r : req_method r = GET -> fst (respond st r) = st.
Proof.
  intros Hm. pose proof (route_GET (req_url r)) as Hr. unfold respond. rewrite Hm.
  destruct (route GET (req_url r)); try done;
    destruct (session_user st (req_auth r)); try done; unfold endpoint; cbn zeta;
    repeat case_match; done.
Qed.

(** A [GET] of a signed-in user is never answered [401]: the only [401]s
    are the missing session and the failed sign-in. *)
Lemma respond_GET_session st r u :
  req_method r = GET -> session_user st (req_auth r) = Some u ->
  exists code d, respond st r = (st, Response code d) /\ code <> 401%Z.
Proof.
  intros Hm Hs. pose proof (route_GET (req_url r)) as Hr. unfold respond. rewrite Hm.
  destruct (route GET (req_url r)); try done; rewrite Hs; unfold endpoint; cbn zeta;
    repeat case_match; (eexists _, _; split; [reflexivity|lia]).
Qed.

Lemma expense_paths_int_witness :
  let e := Expense.mk 7 "Rent" 1200 "2024-01-01T00:00:00" "HOUSING" "CASH" false
    "2024-01-01T00:00:00" "2024-01-01T00:00:00" in
  (0 <= Expense.id e < 2 ^ 52)%Z /\
  edit_link e = "/expenses/7" /\
  expense_url (Finite (inject_Z (Expense.id e))) = "/v1/expenses/7" /\
  route DELETE (expense_url (Finite (inject_Z (Expense.id e)))) = RDelete 7.
Proof.
  intros e. assert (H : (0 <= Expense.id e < 2 ^ 52)%Z) by (cbn; lia).
  destruct (expense_paths_int e DELETE H) as (H1 & H2 & H3).
  split; [exact H|]. rewrite H1, H2. split; [reflexivity|]. split; [reflexivity | exact H3].
Defined.
