(* ===== verification/App.v ===== *)
(** The route table of [src/expense-tracker-fe/src/App.tsx] (lines 39-82)
    and how react-router v6 picks a route for a location.

    A route's path is split at ['/'] into segments; a segment is empty, a
    static word, or a [:param].  Each route gets the score react-router
    computes ([computeScore]): the number of segments, plus 10 per static
    segment, 3 per parameter and 1 per empty segment.  The routes that
    match the location's pathname are ranked by score, the earlier route
    first on a tie, and the first is rendered.  A static segment matches
    case-insensitively, a parameter matches any non-empty segment, and a
    trailing slash is allowed.  Every route but [/login] and [/register]
    is wrapped in [PrivateRoute] (lines 28-31, modelled in [Api.v]), which
    redirects to [/login] when no truthy token is stored. *)

From S2P Require Import Prelude JsRuntime Api.
From Stdlib Require Import Ascii String.

Inductive Segment := SEmpty | SStatic (s : string) | SParam (name : string).

(** The pages the routes render; the form gets the route's [id]. *)
Inductive Screen :=
  | LoginScreen | RegisterScreen | DashboardScreen | ExpenseListScreen
  | ExpenseFormScreen (id : option string) | ReportsScreen.

Record RouteDef := mkRoute {
  route_path : list Segment;
  route_private : bool;
  route_element : list (string * string) -> Screen
}.

(** [path.split('/')]. *)
Fixpoint split_slash_acc (s : string) (cur : string) : list string :=
  match s with
  | EmptyString => [cur]
  | String c s' =>
      if Ascii.eqb c "/"%char then cur :: split_slash_acc s' "" else split_slash_acc s' (cur ++ String c "")
  end.

Definition split_slash (s : string) : list string := split_slash_acc s "".

Definition parse_segment (s : string) : Segment :=
  match s with
  | EmptyString => SEmpty
  | String ":"%char name => SParam name
  | _ => SStatic s
  end.

Definition parse_path (p : string) : list Segment := map parse_segment (split_slash p).

(** [computeScore] of react-router. *)
Definition segment_value (s : Segment) : Z :=
  match s with SEmpty => 1 | SStatic _ => 10 | SParam _ => 3 end%Z.

Definition score (p : list Segment) : Z :=
  (Z.of_nat (List.length p) + fold_right (fun s acc => segment_value s + acc) 0 p)%Z.

(** The segments that have to match: the path without its leading empty
    segment and without a trailing one. *)
Definition drop_slashes {A} (is_empty : A -> bool) (l : list A) : list A :=
  let l := match l with x :: l' => if is_empty x then l' else l | [] => [] end in
  match rev l with x :: r => if is_empty x then rev r else l | [] => [] end.

Definition seg_empty (s : Segment) : bool := match s with SEmpty => true | _ => false end.

(** Matching a location's segments, collecting the parameters. *)
Fixpoint match_segments (p : list Segment) (u : list string) : option (list (string * string)) :=
  match p, u with
  | [], [] => Some []
  | SStatic w :: p', x :: u' =>
      if String.eqb (to_lower w) (to_lower x) then match_segments p' u' else None
  | SParam n :: p', x :: u' =>
      if str_truthy x then option_map (cons (n, x)) (match_segments p' u') else None
  | SEmpty :: p', x :: u' => if str_truthy x then None else match_segments p' u'
  | _, _ => None
  end.

Definition match_route (r : RouteDef) (pathname : string) : option (list (string * string)) :=
  match_segments (drop_slashes seg_empty (route_path r))
                 (drop_slashes (fun x => negb (str_truthy x)) (split_slash pathname)).

(** Lines 39-82. *)
Definition routes : list RouteDef :=
  [mkRoute (parse_path "/login") false (fun _ => LoginScreen);
   mkRoute (parse_path "/register") false (fun _ => RegisterScreen);
   mkRoute (parse_path "/") true (fun _ => DashboardScreen);
   mkRoute (parse_path "/expenses") true (fun _ => ExpenseListScreen);
   mkRoute (parse_path "/expenses/new") true (fun _ => ExpenseFormScreen None);
   mkRoute (parse_path "/expenses/:id") true
     (fun ps => ExpenseFormScreen (option_map snd (List.find (fun kv => String.eqb kv.1 "id") ps)));
   mkRoute (parse_path "/reports") true (fun _ => ReportsScreen)].

(** The best match: the highest score, the earliest route on a tie. *)
Fixpoint best_match (rs : list RouteDef) (pathname : string)
    : option (RouteDef * list (string * string)) :=
  match rs with
  | [] => None
  | r :: rs' =>
      let rest := best_match rs' pathname in
      match match_route r pathname with
      | None => rest
      | Some ps =>
          match rest with
          | Some (r', ps') => if (score (route_path r) <? score (route_path r'))%Z then rest else Some (r, ps)
          | None => Some (r, ps)
          end
      end
  end.

Inductive Rendered := Shows (s : Screen) | RedirectTo (to : string) | NothingMatched.

(** What [App] renders for a pathname. *)
Definition App (c : ClientState) (pathname : string) : Rendered :=
  match best_match routes pathname with
  | None => NothingMatched
  | Some (r, ps) =>
      if route_private r then
        match PrivateRoute c with
        | Render => Shows (route_element r ps)
        | RedirectToLogin => RedirectTo "/login"
        end
      else Shows (route_element r ps)
  end.

(** ** Theorems *)

Lemma best_match_In rs p r ps : best_match rs p = Some (r, ps) -> In r rs.
Proof.
  induction rs as [|r0 rs IH]; simpl; [done|].
  destruct (best_match rs p) as [[r' ps']|] eqn:E; destruct (match_route r0 p);
    try case_match; intros Hb; simplify_eq; auto.
Qed.

(** A route that is not private renders the login or the register page. *)
Lemma public_routes r ps : In r routes -> route_private r = false ->
  route_element r ps = LoginScreen \/ route_element r ps = RegisterScreen.
Proof. intros Hin Hp. repeat destruct Hin as [<-|Hin]; simpl in *; try done; auto. Qed.

Lemma App_shows c p s :
  App c p = Shows s -> s = LoginScreen \/ s = RegisterScreen \/ PrivateRoute c = Render.
Proof.
  unfold App. destruct (best_match routes p) as [[r ps]|] eqn:E; [|done].
  apply best_match_In in E. destruct (route_private r) eqn:Hp.
  - destruct (PrivateRoute c); [|done]. auto.
  - intros [= <-]. destruct (public_routes r ps E Hp) as [->| ->]; auto.
Qed.

(** C29: The session guard: the app shows a page other than login and register
    only when a truthy token is stored. *)
Theorem App_guarded c p s :
  App c p = Shows s -> s <> LoginScreen -> s <> RegisterScreen ->
  exists t, storage_token c = Some t /\ str_truthy t = true.
Proof.
  intros H H1 H2. destruct (App_shows c p s H) as [|[|Hr]]; [done|done|].
  unfold PrivateRoute in Hr. destruct (storage_token c) as [t|]; [|done].
  exists t. split; [done|]. by destruct (str_truthy t).
Qed.

(** After [authService.logout] (also the one a 401 answer triggers) every
    location shows the login or register page, redirects to [/login], or
    matches nothing. *)
Theorem App_after_logout c p :
  App (logout_client c) p = Shows LoginScreen \/ App (logout_client c) p = Shows RegisterScreen \/
  App (logout_client c) p = RedirectTo "/login" \/ App (logout_client c) p = NothingMatched.
Proof.
  destruct (App (logout_client c) p) as [s| to |] eqn:E; [| |auto 10].
  - destruct (App_shows _ _ _ E) as [->|[->|Hr]]; auto. discriminate Hr.
  - unfold App in E. repeat case_match; simplify_eq; auto.
Qed.

Definition no_slash (s : string) : bool :=
  forallb (fun c => negb (Ascii.eqb c "/"%char)) (list_ascii_of_string s).

Lemma split_slash_acc_no_slash id cur :
  no_slash id = true -> split_slash_acc id cur = [(cur ++ id)%string].
Proof.
  revert cur. induction id as [|c id IH]; intros cur Hn.
  - by rewrite str_app_nil_r.
  - unfold no_slash in Hn. cbn [list_ascii_of_string forallb] in Hn.
    apply andb_true_iff in Hn as [Hc Hn]. cbn [split_slash_acc].
    destruct (Ascii.eqb c "/"%char); [done|]. rewrite IH by done.
    by rewrite str_app_assoc.
Qed.

Lemma split_slash_expenses id :
  no_slash id = true -> split_slash ("/expenses/" ++ id) = [""; "expenses"; id].
Proof. intros Hs. unfold split_slash. simpl. by rewrite split_slash_acc_no_slash. Qed.

Lemma routes_unfold : routes =
  [mkRoute [SEmpty; SStatic "login"] false (fun _ => LoginScreen);
   mkRoute [SEmpty; SStatic "register"] false (fun _ => RegisterScreen);
   mkRoute [SEmpty; SEmpty] true (fun _ => DashboardScreen);
   mkRoute [SEmpty; SStatic "expenses"] true (fun _ => ExpenseListScreen);
   mkRoute [SEmpty; SStatic "expenses"; SStatic "new"] true (fun _ => ExpenseFormScreen None);
   mkRoute [SEmpty; SStatic "expenses"; SParam "id"] true
     (fun ps => ExpenseFormScreen (option_map snd (List.find (fun kv => String.eqb kv.1 "id") ps)));
   mkRoute [SEmpty; SStatic "reports"] true (fun _ => ReportsScreen)].
Proof. reflexivity. Qed.

Lemma drop_slashes_expenses id :
  str_truthy id = true ->
  drop_slashes (fun x => negb (str_truthy x)) [""; "expenses"; id] = ["expenses"; id].
Proof. intros H. unfold drop_slashes. simpl. by rewrite H. Qed.

Lemma App_expense_route c id :
  PrivateRoute c = Render -> str_truthy id = true -> no_slash id = true ->
  App c ("/expenses/" ++ id) =
  Shows (ExpenseFormScreen (if String.eqb (to_lower id) "new" then None else Some id)).
Proof.
  intros Hc Hid Hs. unfold App. rewrite routes_unfold. cbn [best_match]. unfold match_route.
  rewrite split_slash_expenses, drop_slashes_expenses by done. rewrite Hc.
  cbn [route_path drop_slashes seg_empty rev app match_segments]. rewrite !Hid.
  change (to_lower "new") with "new". rewrite (String.eqb_sym (to_lower id)).
  destruct (String.eqb "new" (to_lower id)); vm_compute; reflexivity.
Qed.

(** C30: The form routes: [/expenses/new] (in any case) opens an empty form,
    and [/expenses/<id>] the form of expense [id], for every non-empty id
    without a slash; the static route outranks the parameter. *)
Theorem App_expense_routes c id :
  PrivateRoute c = Render -> str_truthy id = true -> no_slash id = true ->
  App c ("/expenses/" ++ id) =
  Shows (ExpenseFormScreen (if String.eqb (to_lower id) "new" then None else Some id)).
Proof. apply App_expense_route. Qed.

(** Every fixed target the pages navigate to ([/expenses], [/expenses/new],
    [/reports], and [/] for the dashboard) shows the page it names for a
    signed-in user. *)
Theorem App_navigation_targets c :
  PrivateRoute c = Render ->
  App c "/" = Shows DashboardScreen /\ App c "/expenses" = Shows ExpenseListScreen /\
  App c "/expenses/new" = Shows (ExpenseFormScreen None) /\ App c "/reports" = Shows ReportsScreen.
Proof. intros Hc. unfold App. rewrite Hc, routes_unfold. vm_compute. repeat split. Qed.

Definition signed_in_client : ClientState := mkClient (Some "tok") (Some (bearer "tok")) "/".

Lemma App_guarded_witness :
  App signed_in_client "/reports" = Shows ReportsScreen /\
  exists t, storage_token signed_in_client = Some t /\ str_truthy t = true.
Proof.
  assert (App signed_in_client "/reports" = Shows ReportsScreen) as H by (vm_compute; reflexivity).
  split; [exact H|]. apply (App_guarded _ _ _ H); discriminate.
Defined.

Lemma App_expense_routes_witness :
  App signed_in_client ("/expenses/" ++ "42") = Shows (ExpenseFormScreen (Some "42")) /\
  App signed_in_client ("/expenses/" ++ "NEW") = Shows (ExpenseFormScreen None).
Proof.
  split.
  - rewrite (App_expense_routes signed_in_client "42"); reflexivity.
  - rewrite (App_expense_routes signed_in_client "NEW"); reflexivity.
Defined.

Lemma App_navigation_targets_witness :
  App signed_in_client "/" = Shows DashboardScreen /\ App signed_in_client "/expenses" = Shows ExpenseListScreen /\
  App signed_in_client "/expenses/new" = Shows (ExpenseFormScreen None) /\
  App signed_in_client "/reports" = Shows ReportsScreen.
Proof. apply App_navigation_targets. reflexivity. Defined.
