(* ===== verification/Scenarios.v ===== *)
(** Scenarios across the router of [App.tsx], the expense form and the
    client of [services/api.ts]: what a user who follows a link of the
    list page ([ExpenseList.tsx] line 207, [navigate(`/expenses/${id}`)])
    sees, and what the server then receives. *)

From S2P Require Import Prelude JsRuntime Types StableSort DateTime JsNumber ExpenseList Reports Api ExpenseForm Dashboard ExpenseListPage App.
From Stdlib Require Import Ascii String.

(** ** The text of a number as a route segment *)

Lemma num_text_no_slash s : num_text s = true -> no_slash s = true.
Proof.
  unfold num_text, no_slash. intros H. apply forallb_forall. intros c Hc.
  pose proof (proj1 (forallb_forall _ _) H c Hc) as Hn.
  destruct (Ascii.eqb_spec c "/"%char) as [->|]; [discriminate Hn|done].
Qed.

Lemma num_char_not_w c : num_char c = true -> lower_char c <> "w"%char.
Proof. intros H. destruct c as [[] [] [] [] [] [] [] []]; vm_compute in H |- *; congruence. Qed.

Lemma num_text_not_new s : num_text s = true -> String.eqb (to_lower s) "new" = false.
Proof.
  intros H. destruct (String.eqb_spec (to_lower s) "new") as [E|]; [exfalso|done].
  destruct s as [|a [|b [|c [|d s]]]]; cbn in E; try discriminate.
  injection E as _ _ Hw. unfold num_text in H. cbn [list_ascii_of_string forallb] in H.
  rewrite !andb_true_iff in H. destruct H as (_ & _ & Hc & _). by apply num_char_not_w in Hw.
Qed.

(** A signed-in browser on the route of a non-numeric id. *)
Definition abc_world : @World (recorder lunch_server) :=
  @mkWorld (recorder lunch_server) (mkClient (Some "tok") (Some (bearer "tok")) "/expenses/abc")
    ([] : list Request).

(** Following [/expenses/<id>] edits expense [id]: for every non-empty id
    without a slash other than [new], a signed-in user gets the form
    titled "Edit Expense", whose save is a [PUT] to the URL of
    [Number(id)]. *)
Theorem edit_link_scenario c id now :
  PrivateRoute c = Render -> str_truthy id = true -> no_slash id = true ->
  String.eqb (to_lower id) "new" = false ->
  App c ("/expenses/" ++ id) = Shows (ExpenseFormScreen (Some id)) /\
  form_title (render_form (init_page (Some id) now)) = "Edit Expense" /\
  save_target (init_page (Some id) now) = (PUT, "/v1/expenses/" ++ number_toString (Number id))%string.
Proof.
  intros Hc Ht Hs Hn. rewrite App_expense_route, Hn by done.
  unfold render_form, edit_mode, save_target, expense_url. cbn [route_id init_page form_title].
  by rewrite Ht.
Qed.

(** C31: The route accepts any id: [/expenses/abc] opens the edit form, whose
    load asks the server for [/v1/expenses/NaN]. *)
Theorem non_numeric_id_request :
  App signed_in_client ("/expenses/" ++ "abc") = Shows (ExpenseFormScreen (Some "abc")) /\
  server (snd (@load (recorder lunch_server) (init_page (Some "abc") now0) abc_world)) =
  [mkRequest GET "/v1/expenses/NaN" [] None (Some (bearer "tok"))].
Proof.
  split; [by rewrite App_expense_route | vm_compute; reflexivity].
Qed.

Lemma edit_link_scenario_witness :
  App signed_in_client ("/expenses/" ++ "7") = Shows (ExpenseFormScreen (Some "7")) /\
  form_title (render_form (init_page (Some "7") now0)) = "Edit Expense" /\
  save_target (init_page (Some "7") now0) = (PUT, "/v1/expenses/7").
Proof. apply (edit_link_scenario signed_in_client "7" now0); reflexivity. Defined.

(** Every button of the dashboard and the form's Cancel button navigate to
    a route that shows a page of the app (neither login nor register) to a
    signed-in user. *)
Theorem page_links_resolve c s p to :
  PrivateRoute c = Render ->
  In to (map snd (dashboard_buttons s)) \/ navigated (cancel p) = Some to ->
  exists scr, App c to = Shows scr /\ scr <> LoginScreen /\ scr <> RegisterScreen.
Proof.
  intros Hc Hto. destruct (App_navigation_targets c Hc) as (_ & Hl & Hn & Hr).
  assert (to = "/expenses/new" \/ to = "/reports" \/ to = "/expenses") as Hcases.
  { destruct Hto as [Hin|Hnav]; [|injection Hnav as <-; auto].
    unfold dashboard_buttons in Hin. case_match; simpl in Hin; intuition. }
  destruct Hcases as [->|[->| ->]]; eexists; (split; [eassumption|]); split; discriminate.
Qed.

Lemma page_links_resolve_witness :
  exists scr, App signed_in_client "/reports" = Shows scr /\ scr <> LoginScreen /\ scr <> RegisterScreen.
Proof.
  apply (page_links_resolve signed_in_client init_dashboard (init_page None now0) "/reports");
    [reflexivity | left; simpl; auto].
Defined.

(** Every row of the list page links to the edit form of its expense: for
    a signed-in user the target [`/expenses/${expense.id}`] shows the form
    of [String(id)], titled "Edit Expense", whose save is a [PUT] to the
    URL of [Number(String(id))]. *)
Theorem edit_row_opens_form c e now :
  PrivateRoute c = Render ->
  let id := number_toString (Finite (inject_Z (Expense.id e))) in
  App c (edit_link e) = Shows (ExpenseFormScreen (Some id)) /\
  form_title (render_form (init_page (Some id) now)) = "Edit Expense" /\
  save_target (init_page (Some id) now) = (PUT, expense_url (Number id)).
Proof.
  intros Hc id. pose proof (num_text_number_toString (Finite (inject_Z (Expense.id e)))) as Ht.
  pose proof (number_toString_truthy (Finite (inject_Z (Expense.id e)))) as Htr. fold id in Ht, Htr.
  unfold edit_link. fold id.
  rewrite App_expense_route, num_text_not_new by auto using num_text_no_slash.
  unfold render_form, edit_mode, save_target. cbn [route_id init_page form_title]. by rewrite Htr.
Qed.

Lemma edit_row_opens_form_witness :
  App signed_in_client (edit_link rent_expense) = Shows (ExpenseFormScreen (Some "1")) /\
  form_title (render_form (init_page (Some "1") now0)) = "Edit Expense" /\
  save_target (init_page (Some "1") now0) = (PUT, expense_url (Number "1")).
Proof. exact (edit_row_opens_form signed_in_client rent_expense now0 eq_refl). Defined.
