(* ===== verification/EndToEnd.v ===== *)
(** The client of [Api.v] and the list page of [ExpenseListPage.v] run
    against the reference server of [Server.v]: what a session, a delete
    and the list the page shows amount to when the server behaves as the
    spec says. *)

From S2P Require Import Prelude JsRuntime Types TsTypes DateTime JsNumber Binary64 ExpenseList Reports Dashboard DashboardPage Api ExpenseForm ExpenseListPage Server.
From stdpp Require Import gmap.
From Stdlib Require Import String.

(** The world of a client and the reference server. *)
Definition rworld (c : ClientState) (st : SrvState) : @World reference_server := @mkWorld reference_server c st.

(** The number the server stores as an expense's amount, as [JSON.parse]
    reads it. *)
Definition stored_amount (v : jsval) : js_number :=
  match json_finite (obj_field "amount" v) with Some q => Finite q | None => NaN end.

(** ** One request *)

Lemma send_reference_ok c st m url ps b st' code d :
  respond st (mkRequest m url ps b (request_auth c)) = (st', Response code d) ->
  (200 <= code < 300)%Z ->
  @send reference_server m url ps b (rworld c st) = (inl d, rworld c st').
Proof.
  intros Hr Hc. unfold send. cbn [rworld client server serve reference_server]. rewrite Hr.
  by rewrite (proj2 (Z.leb_le _ _)), (proj2 (Z.ltb_lt _ _)) by lia.
Qed.

Lemma send_reference_err c st m url ps b st' code d :
  respond st (mkRequest m url ps b (request_auth c)) = (st', Response code d) ->
  (code < 200)%Z \/ (300 <= code)%Z -> code <> 401%Z ->
  @send reference_server m url ps b (rworld c st) = (inr (AxiosError (Some code) d), rworld c st').
Proof.
  intros Hr Hc H401. unfold send. cbn [rworld client server serve reference_server]. rewrite Hr.
  replace ((200 <=? code)%Z && (code <? 300)%Z) with false by (symmetry; apply andb_false_iff; lia).
  by rewrite (proj2 (Z.eqb_neq _ _) H401).
Qed.

(** ** Reading the owner's list *)

Lemma decode_expense_amount v e :
  decode_expense v = Some e -> json_finite (obj_field "amount" v) = Some (Expense.amount e).
Proof.
  destruct v as [| | | | | |fs]; try discriminate. cbn [decode_expense obj_field].
  unfold mbind, option_bind. repeat case_match; try discriminate. intros [= <-]. cbn. congruence.
Qed.

Lemma decode_all (l : list (Z * jsval)) :
  (forall k v, In (k, v) l -> (0 < k < 2 ^ 53)%Z /\ stored_ok k v) ->
  exists es, mapM decode_expense (map snd l) = Some es /\ map Expense.id es = map fst l /\
    map (fun e => Finite (Expense.amount e)) es = map (fun kv => stored_amount kv.2) l.
Proof.
  induction l as [|[k v] l IH]; intros H; [by exists []|].
  destruct (H k v (or_introl eq_refl)) as [Hk Hok].
  destruct (decode_stored k v Hk Hok) as (e & He & Hid).
  destruct IH as (es & Hes & Hids & Hamt); [intros k' v' Hin; apply H; by right|].
  exists (e :: es). cbn. rewrite He, Hes. cbn. rewrite Hid, Hids, Hamt. split; [done|]. split; [done|].
  unfold stored_amount. by rewrite (decode_expense_amount v e He).
Qed.

Lemma owned_In u st k v : In (k, v) (owned u st) -> store st !! k = Some (u, v).
Proof.
  unfold owned. intros Hin. apply list_elem_of_In, list_elem_of_omap in Hin as [[k' [o v']] [Hin Hf]].
  destruct (String.eqb o u) eqn:E; [|done]. apply String.eqb_eq in E. injection Hf as -> ->. subst.
  by apply elem_of_map_to_list.
Qed.

(** Whatever the server stores for a user reads back as a list of
    [Expense]s with the stored ids, as long as the ids stay below [2^53]. *)
Lemma decode_owned u st :
  srv_inv st -> (next_id st <= 2 ^ 53)%Z ->
  exists es, decode_expenses (JArr (owned_values u st)) = Some es /\ map Expense.id es = map fst (owned u st).
Proof.
  intros [_ Hst] Hn. destruct (decode_all (owned u st)) as (es & Hes & Hids & _); [|by exists es].
  intros k v Hin. destruct (Hst k _ (owned_In u st k v Hin)) as [Hk Hok]. split; [lia|done].
Qed.

(** ** Deleting from the list page *)

Lemma stored_bound st id o v : srv_inv st -> store st !! id = Some (o, v) -> (0 < id < next_id st)%Z.
Proof. intros [_ Hall] H. by destruct (Hall id _ H). Qed.

Lemma handleDelete_reference st c u id v s :
  srv_inv st -> (next_id st <= 2 ^ 52)%Z ->
  session_user st (request_auth c) = Some u -> owned_lookup u st id = Some v ->
  let st1 := with_store st (delete id (store st)) (next_id st) in
  exists l,
    @handleDelete reference_server true id s (rworld c st) = (inl (list_step (Fetched l) s), rworld c st1) /\
    decode_expenses (JArr (owned_values u st1)) = Some l /\ map Expense.id l = map fst (owned u st1).
Proof.
  intros Hinv Hn Hs Ho st1.
  pose proof (stored_bound st id u v Hinv (owned_lookup_Some _ _ _ _ Ho)) as Hid.
  assert (respond st (mkRequest DELETE (expense_url (Finite (inject_Z id))) [] None (request_auth c))
          = (st1, Response 204 (JStr ""))) as Hdel.
  { rewrite (respond_delete st _ u id); [by rewrite Ho | done | apply route_expense_url_int; lia | done]. }
  assert (srv_inv st1) as Hinv1.
  { pose proof (respond_inv st (mkRequest DELETE (expense_url (Finite (inject_Z id))) [] None (request_auth c)) Hinv) as H.
    by rewrite Hdel in H. }
  destruct (decode_owned u st1 Hinv1 ltac:(cbn; lia)) as (es & Hes & Hids).
  exists es. split; [|done].
  cbv [handleDelete try_catch bind deleteExpense ret].
  rewrite (send_reference_ok _ _ _ _ _ _ _ _ _ Hdel) by lia.
  cbv [fetchExpenses Api.getAllExpenses unwrap try_catch bind ret].
  rewrite (send_reference_ok c st1 GET "/v1/expenses" [] None st1 200 _) by (try apply respond_list; done || lia).
  cbn -[decode_expenses owned_values]. by rewrite Hes.
Qed.

(** C5: A confirmed delete of one of the user's expenses, on a signed-in
    client: the server drops exactly that expense, the client's session
    is untouched, and the page takes the list the server now holds for the
    user, every stored expense read back with its id. *)
Theorem handleDelete_server st c u id v s :
  srv_inv st -> (next_id st <= 2 ^ 52)%Z ->
  session_user st (request_auth c) = Some u -> owned_lookup u st id = Some v ->
  let st1 := with_store st (delete id (store st)) (next_id st) in
  exists l,
    @handleDelete reference_server true id s (rworld c st) = (inl (list_step (Fetched l) s), rworld c st1) /\
    decode_expenses (JArr (owned_values u st1)) = Some l /\ map Expense.id l = map fst (owned u st1).
Proof. apply handleDelete_reference. Qed.

Lemma respond_delete_missing st c u id :
  (0 <= id < 2 ^ 52)%Z -> session_user st (request_auth c) = Some u -> owned_lookup u st id = None ->
  respond st (mkRequest DELETE (expense_url (Finite (inject_Z id))) [] None (request_auth c)) = (st, not_found).
Proof.
  intros Hid Hs Ho. rewrite (respond_delete st _ u id); [by rewrite Ho | done | by apply route_expense_url_int | done].
Qed.

(** Deleting an id the user does not own (any more): the call rejects
    with the server's 404, and the page stays as it was with the server
    untouched (the handler only logs the error). *)
Lemma handleDelete_missing st c u id s :
  (0 <= id < 2 ^ 52)%Z -> session_user st (request_auth c) = Some u -> owned_lookup u st id = None ->
  @deleteExpense reference_server (Finite (inject_Z id)) (rworld c st) =
    (inr (AxiosError (Some 404%Z) (message "Expense not found")), rworld c st) /\
  @handleDelete reference_server true id s (rworld c st) = (inl s, rworld c st).
Proof.
  intros Hid Hs Ho.
  pose proof (respond_delete_missing st c u id Hid Hs Ho) as Hr.
  assert (@send reference_server DELETE (expense_url (Finite (inject_Z id))) [] None (rworld c st) =
          (inr (AxiosError (Some 404%Z) (message "Expense not found")), rworld c st)) as Hsend.
  { apply send_reference_err with (st' := st); [exact Hr | lia | lia]. }
  split.
  - cbv [deleteExpense bind ret]. by rewrite Hsend.
  - cbv [handleDelete try_catch bind deleteExpense ret]. by rewrite Hsend.
Qed.

(** C6: Spec §8's scenario from the client's side: deleting an expense twice
    from the list page.  The first delete removes only that expense and
    refreshes the page; the second is rejected by the server with
    NotFoundError (404) and changes neither the page nor any expense. *)
Theorem delete_twice_client st c u id v s :
  srv_inv st -> (next_id st <= 2 ^ 52)%Z ->
  session_user st (request_auth c) = Some u -> owned_lookup u st id = Some v ->
  exists s1 st1,
    @handleDelete reference_server true id s (rworld c st) = (inl s1, rworld c st1) /\
    (forall k, k <> id -> store st1 !! k = store st !! k) /\ store st1 !! id = None /\
    @deleteExpense reference_server (Finite (inject_Z id)) (rworld c st1) =
      (inr (AxiosError (Some 404%Z) (message "Expense not found")), rworld c st1) /\
    @handleDelete reference_server true id s1 (rworld c st1) = (inl s1, rworld c st1).
Proof.
  intros Hinv Hn Hs Ho.
  pose proof (stored_bound st id u v Hinv (owned_lookup_Some _ _ _ _ Ho)) as Hid.
  destruct (handleDelete_reference st c u id v s Hinv Hn Hs Ho) as (l & Hh & _).
  set (st1 := with_store st (delete id (store st)) (next_id st)) in *.
  assert (store st1 !! id = None) as Hnone by (cbn; apply lookup_delete_eq).
  assert (owned_lookup u st1 id = None) as Ho1 by (unfold owned_lookup; by rewrite Hnone).
  destruct (handleDelete_missing st1 c u id (list_step (Fetched l) s) ltac:(lia)
              Hs Ho1) as [Hd1 Hd2].
  exists (list_step (Fetched l) s), st1. split; [done|]. split.
  - intros k Hk. cbn. by rewrite lookup_delete_ne by congruence.
  - done.
Qed.

(** ** Signing in *)

(** C21: Signing in with the credentials of an account: the server issues a
    fresh token, the client stores it and sends it as [Bearer] on every
    later request, and the server knows the user by it (spec §3: the
    credential is set on login and attached to every call). *)
Theorem login_session st c u p a :
  List.find (fun a => String.eqb (acc_username a) u && String.eqb (acc_password a) p) (accounts st) = Some a ->
  let t := issue_token st in
  let st' := mkSrv (accounts st) ((t, u) :: sessions st) (store st) (next_id st) (clock st) in
  let c' := mkClient (Some t) (Some (bearer t)) (location c) in
  (exists v, @login reference_server (LoginRequest.mk u p) (rworld c st) = (inl v, rworld c' st')) /\
  session_user st' (request_auth c') = Some u /\ PrivateRoute c' = Render.
Proof.
  intros Hf t st' c'.
  assert (str_truthy t = true) as Ht by reflexivity.
  split; [|split].
  - apply (login_ok_eq u p (rworld c st) st'
             [("accessToken", JStr t); ("tokenType", JStr "Bearer"); ("id", JNum (acc_id a) 0);
              ("username", JStr u); ("email", JStr (acc_email a)); ("roles", JArr [JStr "ROLE_USER"])] t);
      [|reflexivity|exact Ht].
    cbn [serve reference_server server rworld]. unfold respond. cbn [req_method req_url req_body].
    change (route POST "/auth/signin") with RSignin. cbn [req_body].
    unfold signin. cbn [str_field mbind option_bind str_of obj_field obj_lookup fold_left].
    cbn. by rewrite Hf.
  - subst c' st'. unfold request_auth. cbn [storage_token]. rewrite Ht, session_user_bearer. cbn [assoc_lookup sessions]. by rewrite String.eqb_refl.
  - unfold PrivateRoute. cbn. by rewrite Ht.
Qed.

(** ** Saving a new expense from the form *)

Lemma validateForm_ok f errs :
  validateForm f = Some (errs, true) ->
  exists s, description f = JStr s /\ str_truthy (js_trim s) = true /\ js_positive (Number (amount f)) = true.
Proof.
  unfold validateForm, trim_value. destruct (description f) as [| | | | s | |]; try done.
  rewrite amount_invalid_spec. intros [= _ H]. exists s. split; [done|].
  destruct (js_positive _), (str_truthy (js_trim s)); by cbn in H.
Qed.

(** The body of a valid form with a finite amount and the menus' category
    and payment method is an expense the server accepts. *)
Lemma expenseData_accepted f now errs fs cat pm q k created updated :
  validateForm f = Some (errs, true) ->
  expenseData f now = Some (JObj fs) ->
  category f = JStr (ExpenseCategory_value cat) -> paymentMethod f = JStr (PaymentMethod_value pm) ->
  Number (amount f) = Finite q ->
  valid_stored (stored_expense k fs created updated) = true.
Proof.
  intros Hv Hb Hc Hp Hq.
  destruct (number_to_json_double q (Number_double _ _ Hq)) as (m & e & Hj).
  destruct (validateForm_ok f errs Hv) as (s & Hd & Ht & Hpos).
  destruct (expenseData_some _ _ _ Hb) as (s' & ds & ns & Hd' & _ & _ & [= ->]).
  rewrite Hd in Hd'. injection Hd' as <-.
  rewrite Hq in Hpos. cbn in Hpos. destruct (Qlt_le_dec 0 q) as [Hq0|]; [|done].
  destruct (number_to_json_reads_back q m e Hq0 Hj) as (q' & Hq' & Heq).
  unfold valid_stored, stored_expense. rewrite Hq, Hj, Hc, Hp. cbn -[json_finite js_trim].
  rewrite andb_true_r. apply andb_true_iff. split.
  - by destruct cat, pm.
  - unfold json_finite. rewrite Hq'. cbn -[js_trim]. rewrite js_trim_truthy_idem, Ht, andb_true_r.
    apply negb_true_iff. apply not_true_iff_false. rewrite Qle_bool_iff. rewrite Heq. lra.
Qed.

Section submit.
Variables (st : SrvState) (c : ClientState) (u : string) (now : Z) (p : FormPage) (errs : FormErrors)
  (fs : list (string * jsval)).
Hypothesis Hsession : session_user st (request_auth c) = Some u.
Hypothesis Hnew : route_id p = None.
Hypothesis Hvalid : validateForm (formData p) = Some (errs, true).
Hypothesis Hbody : expenseData (formData p) now = Some (JObj fs).

Lemma handleSubmit_create_eq :
  @handleSubmit reference_server now p (rworld c st) =
  match @send reference_server POST "/v1/expenses" [] (Some (JObj fs)) (rworld c st) with
  | (inl d, w') => match js_get d "data" with
                   | Some _ => (inl (navigate "/expenses" (set_errors errs p)), w')
                   | None => (inl (if is_401 TypeError then set_errors errs p else alert save_failed (set_errors errs p)), w')
                   end
  | (inr err, w') => (inl (if is_401 err then set_errors errs p else alert save_failed (set_errors errs p)), w')
  end.
Proof.
  unfold handleSubmit. rewrite Hvalid. cbn [negb formData set_errors]. rewrite Hbody.
  cbn [route_id set_errors]. rewrite Hnew.
  cbv [try_catch bind addExpense unwrap ret lift_opt throw].
  destruct (send _ _ _ _ _) as [[d|err] w']; [|done]. by destruct (js_get d "data").
Qed.

(** C10: Saving a new expense whose amount is a finite positive number, on a
    signed-in client: the server stores it under its next id, owned by the
    user, and the form navigates to the list. *)
Theorem handleSubmit_server cat pm q :
  category (formData p) = JStr (ExpenseCategory_value cat) ->
  paymentMethod (formData p) = JStr (PaymentMethod_value pm) ->
  Number (amount (formData p)) = Finite q ->
  let v := stored_expense (next_id st) fs (clock st) (clock st) in
  @handleSubmit reference_server now p (rworld c st) =
    (inl (navigate "/expenses" (set_errors errs p)),
     rworld c (with_store st (<[next_id st := (u, v)]> (store st)) (next_id st + 1))).
Proof.
  intros Hc Hp Hq v.
  assert (valid_stored v = true) as Hok by (exact (expenseData_accepted _ _ _ _ _ _ _ _ _ _ Hvalid Hbody Hc Hp Hq)).
  assert (respond st (mkRequest POST "/v1/expenses" [] (Some (JObj fs)) (request_auth c)) =
          (with_store st (<[next_id st := (u, v)]> (store st)) (next_id st + 1), Response 201 (data v))) as Hr.
  { rewrite (respond_create st _ u fs); try done. cbv zeta. fold v. by rewrite Hok. }
  rewrite handleSubmit_create_eq, (send_reference_ok _ _ _ _ _ _ _ _ _ Hr) by lia. reflexivity.
Qed.

End submit.

(** C11: A new expense whose amount [Number] reads as Infinity, on a
    signed-in client, with a non-blank description, a category and a
    payment method chosen and a date that formats: the form's check
    accepts it, the body carries the amount as [null], the server refuses
    it (400), nothing is stored, and the form shows the generic failure
    alert instead of the inline amount error. *)
Theorem handleSubmit_infinity_server st c u now p s ds ns :
  session_user st (request_auth c) = Some u -> route_id p = None ->
  description (formData p) = JStr s -> str_truthy (js_trim s) = true ->
  js_truthy (category (formData p)) = true -> js_truthy (paymentMethod (formData p)) = true ->
  format_datetime (date (formData p)) = Some ds -> format_datetime (Some now) = Some ns ->
  Number (amount (formData p)) = PosInfinity ->
  @handleSubmit reference_server now p (rworld c st) =
    (inl (alert save_failed (set_errors no_errors p)), rworld c st).
Proof.
  intros Hs Hn Hd Ht Hc Hpm Hds Hns Hq.
  assert (js_positive (Number (amount (formData p))) = true) as Hpos by (by rewrite Hq).
  pose proof (validateForm_accepts _ _ Hd Ht Hpos Hc Hpm) as Hv.
  pose proof (expenseData_intro _ _ _ _ _ Hd Hds Hns) as Hb.
  rewrite (handleSubmit_create_eq st c now p no_errors _ Hn Hv Hb).
  set (fs := [("amount", _); _; _; _; _; _; _; _]).
  assert (valid_stored (stored_expense (next_id st) fs (clock st) (clock st)) = false) as Hbad.
  { unfold fs. rewrite Hq. reflexivity. }
  assert (respond st (mkRequest POST "/v1/expenses" [] (Some (JObj fs)) (request_auth c)) = (st, bad_request)) as Hr.
  { rewrite (respond_create st _ u fs); try done. cbv zeta. by rewrite Hbad. }
  rewrite (send_reference_err _ _ _ _ _ _ _ _ _ Hr) by lia. reflexivity.
Qed.

(** ** Samples *)

Definition coffee_fields : list (string * jsval) :=
  [("amount", JNum 35 (-1)); ("description", JStr "Coffee"); ("category", JStr "FOOD");
   ("paymentMethod", JStr "CASH"); ("date", JStr "2024-03-05T08:00:00"); ("isRecurring", JBool false)].

(** A server where [ana] has signed in with token [token-0] and owns
    expense 1. *)
Definition demo_server : SrvState :=
  mkSrv [mkAccount 1 "ana" "ana@example.com" "pw"] [("token-0", "ana")]
    {[1%Z := ("ana", stored_expense 1 coffee_fields "2024-03-01T10:00:00" "2024-03-01T10:00:00")]}
    2 "2024-03-01T10:00:00".

Definition demo_client : ClientState := mkClient (Some "token-0") (Some (bearer "token-0")) "/expenses".

Lemma demo_server_inv : srv_inv demo_server.
Proof.
  split; [cbn; lia|]. apply map_Forall_singleton. split; [cbn; lia|]. split; reflexivity.
Qed.

Lemma handleDelete_server_witness :
  exists l,
    @handleDelete reference_server true 1 init_list_state (rworld demo_client demo_server) =
      (inl (list_step (Fetched l) init_list_state),
       rworld demo_client (with_store demo_server (delete 1%Z (store demo_server)) (next_id demo_server))) /\
    decode_expenses (JArr (owned_values "ana" (with_store demo_server (delete 1%Z (store demo_server)) (next_id demo_server)))) = Some l /\
    map Expense.id l = map fst (owned "ana" (with_store demo_server (delete 1%Z (store demo_server)) (next_id demo_server))).
Proof.
  exact (handleDelete_server demo_server demo_client "ana" 1 _ init_list_state demo_server_inv
           ltac:(cbn; lia) eq_refl eq_refl).
Defined.

Lemma delete_twice_client_witness :
  exists s1 st1,
    @handleDelete reference_server true 1 init_list_state (rworld demo_client demo_server) = (inl s1, rworld demo_client st1) /\
    (forall k, k <> 1%Z -> store st1 !! k = store demo_server !! k) /\ store st1 !! 1%Z = None /\
    @deleteExpense reference_server (Finite (inject_Z 1)) (rworld demo_client st1) =
      (inr (AxiosError (Some 404%Z) (message "Expense not found")), rworld demo_client st1) /\
    @handleDelete reference_server true 1 s1 (rworld demo_client st1) = (inl s1, rworld demo_client st1).
Proof.
  exact (delete_twice_client demo_server demo_client "ana" 1 _ init_list_state demo_server_inv
           ltac:(cbn; lia) eq_refl eq_refl).
Defined.

Lemma login_session_witness :
  (exists v, @login reference_server (LoginRequest.mk "ana" "pw") (rworld (mkClient None None "/login") demo_server) =
     (inl v, rworld (mkClient (Some (issue_token demo_server)) (Some (bearer (issue_token demo_server))) "/login")
               (mkSrv (accounts demo_server) ((issue_token demo_server, "ana") :: sessions demo_server)
                  (store demo_server) (next_id demo_server) (clock demo_server)))) /\
  session_user (mkSrv (accounts demo_server) ((issue_token demo_server, "ana") :: sessions demo_server)
                  (store demo_server) (next_id demo_server) (clock demo_server))
    (request_auth (mkClient (Some (issue_token demo_server)) (Some (bearer (issue_token demo_server))) "/login"))
    = Some "ana" /\
  PrivateRoute (mkClient (Some (issue_token demo_server)) (Some (bearer (issue_token demo_server))) "/login") = Render.
Proof. exact (login_session demo_server (mkClient None None "/login") "ana" "pw" _ eq_refl). Defined.

(** The form of a new expense: [lunch_form] of [ExpenseForm.v]. *)
Definition new_lunch_page : FormPage := mkFormPage None lunch_form no_errors None [].

Definition lunch_fields : list (string * jsval) :=
  [("amount", JNum 125 (-1)); ("description", JStr "Lunch"); ("category", JStr "FOOD");
   ("paymentMethod", JStr "CASH"); ("date", JStr "2024-01-02T12:00:00"); ("isRecurring", JBool false);
   ("createDate", JStr "2024-01-03T09:30:00"); ("updateDate", JStr "2024-01-03T09:30:00")].

Lemma handleSubmit_server_witness :
  @handleSubmit reference_server now0 new_lunch_page (rworld demo_client demo_server) =
    (inl (navigate "/expenses" (set_errors no_errors new_lunch_page)),
     rworld demo_client (with_store demo_server
       (<[next_id demo_server := ("ana", stored_expense (next_id demo_server) lunch_fields
                                            (clock demo_server) (clock demo_server))]> (store demo_server))
       (next_id demo_server + 1))).
Proof.
  exact (handleSubmit_server demo_server demo_client "ana" now0 new_lunch_page no_errors lunch_fields
           eq_refl eq_refl ltac:(vm_compute; reflexivity) ltac:(vm_compute; reflexivity) FOOD CASH
           (match Number "12.5" with Finite q => q | _ => 0%Q end)
           eq_refl eq_refl ltac:(vm_compute; reflexivity)).
Defined.

Definition new_huge_page : FormPage := mkFormPage None huge_form no_errors None [].

Definition huge_fields : list (string * jsval) :=
  [("amount", JNull); ("description", JStr "Car"); ("category", JStr "TRANSPORTATION");
   ("paymentMethod", JStr "CASH"); ("date", JStr "2024-01-03T09:30:00"); ("isRecurring", JBool false);
   ("createDate", JStr "2024-01-03T09:30:00"); ("updateDate", JStr "2024-01-03T09:30:00")].

Lemma handleSubmit_infinity_server_witness :
  @handleSubmit reference_server now0 new_huge_page (rworld demo_client demo_server) =
    (inl (alert save_failed (set_errors no_errors new_huge_page)), rworld demo_client demo_server).
Proof.
  exact (handleSubmit_infinity_server demo_server demo_client "ana" now0 new_huge_page "Car"
           "2024-01-03T09:30:00" "2024-01-03T09:30:00"
           eq_refl eq_refl eq_refl eq_refl eq_refl eq_refl
           ltac:(vm_compute; reflexivity) ltac:(vm_compute; reflexivity) ltac:(vm_compute; reflexivity)).
Defined.

(** ** Saving an edited expense *)

Section update.
Variables (st : SrvState) (c : ClientState) (u : string) (now : Z) (p : FormPage) (errs : FormErrors)
  (fs : list (string * jsval)) (i : string) (id : Z) (old : list (string * jsval)).
Hypothesis Hsession : session_user st (request_auth c) = Some u.
Hypothesis Hroute : route_id p = Some i.
Hypothesis Htruthy : str_truthy i = true.
Hypothesis Hurl : route PUT (expense_url (Number i)) = RUpdate id.
Hypothesis Hold : owned_lookup u st id = Some (JObj old).
Hypothesis Hvalid : validateForm (formData p) = Some (errs, true).
Hypothesis Hbody : expenseData (formData p) now = Some (JObj fs).

Lemma handleSubmit_update_eq :
  @handleSubmit reference_server now p (rworld c st) =
  match @send reference_server PUT (expense_url (Number i)) [] (Some (JObj fs)) (rworld c st) with
  | (inl d, w') => match js_get d "data" with
                   | Some _ => (inl (navigate "/expenses" (set_errors errs p)), w')
                   | None => (inl (if is_401 TypeError then set_errors errs p else alert save_failed (set_errors errs p)), w')
                   end
  | (inr err, w') => (inl (if is_401 err then set_errors errs p else alert save_failed (set_errors errs p)), w')
  end.
Proof.
  unfold handleSubmit. rewrite Hvalid. cbn [negb formData set_errors]. rewrite Hbody.
  cbn [route_id set_errors]. rewrite Hroute, Htruthy.
  cbv [try_catch bind updateExpense unwrap ret lift_opt throw].
  destruct (send _ _ _ _ _) as [[d|err] w']; [|done]. by destruct (js_get d "data").
Qed.

(** The form's body names every field of an expense, so the update
    replaces all of them. *)
Lemma merge_expenseData m e cs ps k created updated :
  number_to_json (Number (amount (formData p))) = JNum m e ->
  category (formData p) = JStr cs -> paymentMethod (formData p) = JStr ps ->
  stored_expense k (merge_fields old fs) created updated = stored_expense k fs created updated.
Proof.
  intros Hj Hc Hp. destruct (expenseData_some _ _ _ Hbody) as (s & ds & ns & _ & _ & _ & Hfs). injection Hfs as Hfs.
  unfold stored_expense, merge_fields. rewrite Hfs, Hj, Hc, Hp. reflexivity.
Qed.

(** C7: Saving an edited expense whose amount is a finite number, with the
    menus' category and payment method, on a signed-in client, against a
    server that keeps spec §3's rules: the server replaces that expense by
    one holding the form's description (trimmed), amount, date, category
    and payment method, and the form navigates to the list.  Since the
    form always sends [isRecurring: false], the stored expense is no
    longer recurring, whatever it was before the edit. *)
Theorem handleSubmit_update_server cat pm q :
  category (formData p) = JStr (ExpenseCategory_value cat) ->
  paymentMethod (formData p) = JStr (PaymentMethod_value pm) ->
  Number (amount (formData p)) = Finite q ->
  let created := default (clock st) (str_of (obj_lookup "createDate" old)) in
  let v := stored_expense id fs created (clock st) in
  @handleSubmit reference_server now p (rworld c st) =
    (inl (navigate "/expenses" (set_errors errs p)),
     rworld c (with_store st (<[id := (u, v)]> (store st)) (next_id st))) /\
  exists s ds, description (formData p) = JStr s /\ format_datetime (date (formData p)) = Some ds /\
    obj_field "description" v = JStr (js_trim s) /\ obj_field "amount" v = number_to_json (Finite q) /\
    obj_field "date" v = JStr ds /\ obj_field "category" v = JStr (ExpenseCategory_value cat) /\
    obj_field "paymentMethod" v = JStr (PaymentMethod_value pm) /\ obj_field "isRecurring" v = JBool false.
Proof.
  intros Hc Hp Hq created v.
  destruct (number_to_json_double q (Number_double _ _ Hq)) as (m & e & Hj).
  assert (number_to_json (Number (amount (formData p))) = JNum m e) as Hj' by (by rewrite Hq).
  assert (valid_stored v = true) as Hok
    by (exact (expenseData_accepted _ _ _ _ _ _ _ _ _ _ Hvalid Hbody Hc Hp Hq)).
  assert (respond st (mkRequest PUT (expense_url (Number i)) [] (Some (JObj fs)) (request_auth c)) =
          (with_store st (<[id := (u, v)]> (store st)) (next_id st), Response 200 (data v))) as Hr.
  { rewrite (respond_update st _ u id old fs); try done. cbv zeta. fold created.
    rewrite (merge_expenseData m e _ _ _ _ _ Hj' Hc Hp). fold v. by rewrite Hok. }
  destruct (expenseData_some _ _ _ Hbody) as (s & ds & ns & Hd & Hds & _ & Hfs). injection Hfs as Hfs.
  split.
  - rewrite handleSubmit_update_eq, (send_reference_ok _ _ _ _ _ _ _ _ _ Hr) by lia. reflexivity.
  - exists s, ds. do 2 (split; [done|]). subst v. rewrite Hfs, Hq, Hc, Hp. repeat split.
Qed.
End update.

(** The edit form of expense 1 of [demo_server] holding [lunch_form]. *)
Definition edit_lunch_page : FormPage := mkFormPage (Some "1") lunch_form no_errors None [].

Definition coffee_stored_fields : list (string * jsval) :=
  match stored_expense 1 coffee_fields "2024-03-01T10:00:00" "2024-03-01T10:00:00" with
  | JObj l => l
  | _ => []
  end.

Lemma handleSubmit_update_server_witness :
  let created := default (clock demo_server) (str_of (obj_lookup "createDate" coffee_stored_fields)) in
  let v := stored_expense 1 lunch_fields created (clock demo_server) in
  @handleSubmit reference_server now0 edit_lunch_page (rworld demo_client demo_server) =
    (inl (navigate "/expenses" (set_errors no_errors edit_lunch_page)),
     rworld demo_client (with_store demo_server (<[1%Z := ("ana", v)]> (store demo_server)) (next_id demo_server))) /\
  exists s ds, description (formData edit_lunch_page) = JStr s /\
    format_datetime (date (formData edit_lunch_page)) = Some ds /\
    obj_field "description" v = JStr (js_trim s) /\
    obj_field "amount" v = number_to_json (Finite (match Number "12.5" with Finite q => q | _ => 0%Q end)) /\
    obj_field "date" v = JStr ds /\ obj_field "category" v = JStr (ExpenseCategory_value FOOD) /\
    obj_field "paymentMethod" v = JStr (PaymentMethod_value CASH) /\ obj_field "isRecurring" v = JBool false.
Proof.
  exact (handleSubmit_update_server demo_server demo_client "ana" now0 edit_lunch_page no_errors lunch_fields
           "1" 1 coffee_stored_fields eq_refl eq_refl eq_refl ltac:(vm_compute; reflexivity) eq_refl
           ltac:(vm_compute; reflexivity) ltac:(vm_compute; reflexivity) FOOD CASH
           (match Number "12.5" with Finite q => q | _ => 0%Q end)
           eq_refl eq_refl ltac:(vm_compute; reflexivity)).
Defined.

(** ** Reads leave the server as it was *)

(** The calls of the pages that only read. *)
Definition is_read (call : ApiCall) : bool :=
  match call with
  | CGetAll | CGetById _ | CBetween _ _ | CMonthly _ _ | CYearly _ | CCategory _ _ => true
  | _ => false
  end.

Lemma send_GET_server (w : @World reference_server) url ps b :
  server (snd (@send reference_server GET url ps b w)) = server w.
Proof.
  destruct w as [c st]. unfold send. cbn [client server serve reference_server].
  pose proof (respond_GET st (mkRequest GET url ps b (request_auth c)) eq_refl) as H.
  destruct (respond st _) as [st' res]. cbn in H. subst st'. by repeat case_match.
Qed.

(** The Reports page and the dashboard are modelled with a record of
    service results ([ReportServices] of [Reports.v]): each read answers
    independently of the reads before it.  Against the reference server
    this holds: a read call leaves the server's state unchanged, so a
    sequence of reads sees one state throughout. *)
Theorem read_calls_keep_server calls (w : @World reference_server) :
  Forall (fun call => is_read call = true) calls -> server (@run_calls reference_server calls w) = server w.
Proof.
  induction calls as [|call calls IH] in w |- *; intros Hr; [done|].
  apply List.Forall_cons_iff in Hr as [Hc Hr]. cbn [run_calls]. rewrite IH by done.
  destruct call; try discriminate Hc; cbn [run_call];
    unfold Api.getAllExpenses, getExpenseById, getExpensesBetweenDates, getMonthlyReport, getYearlyReport,
      getCategoryReport; rewrite snd_unwrap; apply send_GET_server.
Qed.

(** ** The dashboard against the reference server *)

Lemma send_GET_session c st u url ps b :
  session_user st (request_auth c) = Some u -> snd (@send reference_server GET url ps b (rworld c st)) = rworld c st.
Proof.
  intros Hs. destruct (respond_GET_session st (mkRequest GET url ps b (request_auth c)) u eq_refl Hs)
    as (code & d & Hr & H401).
  unfold send. cbn [rworld client server serve reference_server]. rewrite Hr.
  destruct (_ && _); [done|]. cbn. by rewrite (proj2 (Z.eqb_neq _ _) H401).
Qed.

Lemma decode_selected u st (P : jsval -> bool) :
  srv_inv st -> (next_id st <= 2 ^ 53)%Z ->
  exists es, decode_expenses (JArr (List.filter P (owned_values u st))) = Some es /\
    map Expense.id es = map fst (List.filter (fun kv => P kv.2) (owned u st)) /\
    map (fun e => Finite (Expense.amount e)) es = map (fun kv => stored_amount kv.2) (List.filter (fun kv => P kv.2) (owned u st)).
Proof.
  intros [_ Hst] Hn. unfold owned_values. rewrite filter_map_comm. apply decode_all.
  intros k v Hin. apply filter_In in Hin as [Hin _].
  destruct (Hst k _ (owned_In u st k v Hin)) as [Hk Hok]. split; [lia|done].
Qed.

Section dashboard.
Variables (st : SrvState) (c : ClientState) (u : string).
Hypothesis Hinv : srv_inv st.
Hypothesis Hbound : (next_id st <= 2 ^ 52)%Z.
Hypothesis Hsession : session_user st (request_auth c) = Some u.

Lemma dashboard_reads_same :
  (forall y m, snd (@fetch_monthly reference_server y m (rworld c st)) = rworld c st) /\
  snd (@fetch_all reference_server (rworld c st)) = rworld c st /\
  (forall a b, snd (@fetch_categories reference_server a b (rworld c st)) = rworld c st).
Proof.
  unfold fetch_monthly, fetch_all, fetch_categories, Api.getMonthlyReport, Api.getAllExpenses, Api.getCategoryReport.
  split; [|split]; intros; rewrite snd_bind_lift_opt, snd_unwrap; by eapply send_GET_session.
Qed.

Lemma fetch_all_server :
  exists all, @fetch_all reference_server (rworld c st) = (inl all, rworld c st) /\
    map Expense.id all = map fst (owned u st).
Proof.
  destruct (decode_owned u st Hinv ltac:(lia)) as (es & Hes & Hids). exists es. split; [|done].
  cbv [fetch_all Api.getAllExpenses unwrap bind ret].
  rewrite (send_reference_ok c st GET "/v1/expenses" [] None st 200 _) by (try apply respond_list; done || lia).
  cbn -[decode_expenses owned_values]. by rewrite Hes.
Qed.

Lemma fetch_monthly_server y m :
  exists monthly, @fetch_monthly reference_server y m (rworld c st) = (inl monthly, rworld c st) /\
    map (fun e => Finite (Expense.amount e)) monthly =
    map (fun kv => stored_amount kv.2)
      (List.filter (fun kv => in_period (month_prefix (number_to_string y 0) (number_to_string m 0)) kv.2)
         (owned u st)).
Proof.
  destruct (decode_selected u st (in_period (month_prefix (number_to_string y 0) (number_to_string m 0)))
              Hinv ltac:(lia)) as (es & Hes & _ & Hamt).
  exists es. split; [|done]. cbv [fetch_monthly Api.getMonthlyReport unwrap bind ret].
  rewrite (send_reference_ok c st GET "/v1/expenses/reports/monthly" _ None st 200 _)
    by (try (eapply respond_monthly; [reflexivity..|exact Hsession]); done || lia).
  cbn -[decode_expenses owned_values List.filter]. by rewrite Hes.
Qed.

Lemma dashboard_record now s :
  let s' := fetchDashboardData now (services_at (rworld c st)) s in
  exists monthly all,
    @fetchDashboardData_page reference_server now s (rworld c st) = (inl s', rworld c st) /\
    map Expense.id all = map fst (owned u st) /\
    map (fun e => Finite (Expense.amount e)) monthly =
      map (fun kv => stored_amount kv.2)
        (List.filter (fun kv => in_period (month_prefix (number_to_string (f_year (local_fields now)) 0)
                                             (number_to_string (f_month (local_fields now)) 0)) kv.2) (owned u st)) /\
    recent s' = recentExpenses all /\ monthlyTotal s' = calculateTotal monthly.
Proof.
  intros s'. destruct dashboard_reads_same as (H1 & H2 & H3).
  destruct (fetch_monthly_server (f_year (local_fields now)) (f_month (local_fields now))) as (monthly & Hm & Hmamt).
  destruct fetch_all_server as (all & Ha & Haid).
  exists monthly, all. rewrite (fetchDashboardData_page_record now s _ H1 H2 H3). do 3 (split; [done|]).
  assert (result_of (fetch_monthly (f_year (local_fields now)) (f_month (local_fields now))) (rworld c st)
          = Some monthly) as Rm by (unfold result_of; by rewrite Hm).
  assert (result_of fetch_all (rworld c st) = Some all) as Ra by (unfold result_of; by rewrite Ha).
  unfold s', fetchDashboardData. cbn [services_at reports Dashboard.getAllExpenses Reports.getMonthlyReport].
  rewrite Rm, Ra. cbv beta iota zeta.
  destruct (month_bounds now) as [[a|] [b|]];
    [cbn [Reports.getCategoryReport]; destruct (result_of (fetch_categories a b) (rworld c st))|..]; split; reflexivity.
Qed.

(** C12: The dashboard of a signed-in user, against the reference server,
    leaves client and server as they were and computes what the record
    model of [Dashboard.v] computes on the server's answers.  Its "recent"
    list is the first five of the user's expenses in the order the server
    lists them, and not the last five the comment of line 39 announces;
    its monthly total is the double sum, in the server's order, of the
    amounts the server stores for the user's expenses dated in the
    current month. *)
Theorem dashboard_server now s :
  let f := local_fields now in
  let sel := List.filter (fun kv => in_period (month_prefix (number_to_string (f_year f) 0)
                                                 (number_to_string (f_month f) 0)) kv.2) (owned u st) in
  exists s',
    @fetchDashboardData_page reference_server now s (rworld c st) = (inl s', rworld c st) /\
    s' = fetchDashboardData now (services_at (rworld c st)) s /\
    map Expense.id (recent s') = take 5 (map fst (owned u st)) /\
    monthlyTotal s' = fold_left js_add (map (fun kv => stored_amount kv.2) sel) (Finite 0).
Proof.
  intros f sel. subst f sel.
  destruct (dashboard_record now s) as (monthly & all & Hpage & Haid & Hmamt & Hr & Ht).
  eexists. split; [exact Hpage|]. split; [done|]. split.
  - rewrite Hr. unfold recentExpenses. rewrite js_slice_nonneg by lia.
    change (Z.to_nat 5 - Z.to_nat 0)%nat with 5%nat. change (drop (Z.to_nat 0) all) with all.
    by rewrite <- firstn_map, Haid.
  - rewrite Ht, <- Hmamt, fold_left_map_arg. reflexivity.
Qed.
End dashboard.

Definition march_2024 : Z := make_date 2024 3 10 8 0 0 0.

Lemma dashboard_server_witness :
  let f := local_fields march_2024 in
  let sel := List.filter (fun kv => in_period (month_prefix (number_to_string (f_year f) 0)
                                                 (number_to_string (f_month f) 0)) kv.2) (owned "ana" demo_server) in
  exists s',
    @fetchDashboardData_page reference_server march_2024 init_dashboard (rworld demo_client demo_server) =
      (inl s', rworld demo_client demo_server) /\
    s' = fetchDashboardData march_2024 (services_at (rworld demo_client demo_server)) init_dashboard /\
    map Expense.id (recent s') = take 5 (map fst (owned "ana" demo_server)) /\
    monthlyTotal s' = fold_left js_add (map (fun kv => stored_amount kv.2) sel) (Finite 0).
Proof.
  exact (dashboard_server demo_server demo_client "ana" demo_server_inv ltac:(cbn; lia) eq_refl
           march_2024 init_dashboard).
Defined.
